(** * A shallow embedding of the CDR mediation scripts

    The development follows the Python sources file by file:

    - [decoder_node/decoder.py]: the BER framing loop, the
      tree-normalisation pass and the conversion to text;
    - [datawarehouse_mapper_node/voice_usage_datawarehouse_mapper.py]:
      the voice derivation engine, its canonical shaping and the
      validation of a shaped record;
    - [billing_mapper_node/data_usage_billing_mapper.py]: the billing
      projection;
    - [COMMAN BLN/cbl.py]: the traversal helpers, the EL fields, the routing
      condition evaluator and the router.

    Python values are embedded as an inductive type; an exception is an
    explicit result.  Text is a sequence of characters with codes below 256;
    case mapping is the ASCII one.  [Decimal] and [float] are embedded as
    exact numbers with the rounding of the default decimal context and of
    binary64 written out. *)

From Stdlib Require Import ZArith NArith List String Ascii Bool Lia.
Import ListNotations.

Local Open Scope Z_scope.

(* ================================================================= *)
(** ** Exceptions and results *)

Inductive exn : Type :=
| AttributeError
| TypeError
| ValueError
| OverflowError
| InvalidOperation
| DecimalOverflow.

Inductive res (A : Type) : Type :=
| Ok (a : A)
| Raise (e : exn).

Arguments Ok {A} a.
Arguments Raise {A} e.

Definition bind {A B : Type} (m : res A) (k : A -> res B) : res B :=
  match m with
  | Ok a => k a
  | Raise e => Raise e
  end.

Notation "'let*' x ':=' m 'in' k" := (bind m (fun x => k))
  (at level 61, x pattern, m at level 100, k at level 200, right associativity).

(** [try: ... except Exception: ...] around an expression. *)
Definition catch {A : Type} (m : res A) (handler : A) : A :=
  match m with
  | Ok a => a
  | Raise _ => handler
  end.

(** Sequencing a fallible function over a list, left to right. *)
Fixpoint mapM {A B : Type} (f : A -> res B) (l : list A) : res (list B) :=
  match l with
  | [] => Ok []
  | x :: t => let* y := f x in let* ys := mapM f t in Ok (y :: ys)
  end.

(* ================================================================= *)
(** ** Text *)

Definition chr (n : nat) : ascii := ascii_of_nat n.
Definition ord (c : ascii) : nat := nat_of_ascii c.

Definition code_between (lo hi : nat) (c : ascii) : bool :=
  (Nat.leb lo (ord c) && Nat.leb (ord c) hi)%bool.

Definition is_digit (c : ascii) : bool := code_between 48 57 c.
Definition is_upper (c : ascii) : bool := code_between 65 90 c.
Definition is_lower (c : ascii) : bool := code_between 97 122 c.

(** The characters [str.strip()] removes and the number parsers skip. *)
Definition is_space (c : ascii) : bool :=
  (code_between 9 13 c || code_between 28 32 c
   || Nat.eqb (ord c) 133 || Nat.eqb (ord c) 160)%bool.

Definition upper_char (c : ascii) : ascii :=
  if is_lower c then chr (ord c - 32) else c.
Definition lower_char (c : ascii) : ascii :=
  if is_upper c then chr (ord c + 32) else c.

Fixpoint str_map (f : ascii -> ascii) (s : string) : string :=
  match s with
  | EmptyString => EmptyString
  | String c t => String (f c) (str_map f t)
  end.

Definition upper (s : string) : string := str_map upper_char s.
Definition lower (s : string) : string := str_map lower_char s.

Fixpoint str_filter (p : ascii -> bool) (s : string) : string :=
  match s with
  | EmptyString => EmptyString
  | String c t => if p c then String c (str_filter p t) else str_filter p t
  end.

Fixpoint str_forall (p : ascii -> bool) (s : string) : bool :=
  match s with
  | EmptyString => true
  | String c t => (p c && str_forall p t)%bool
  end.

Fixpoint str_rev_onto (s acc : string) : string :=
  match s with
  | EmptyString => acc
  | String c t => str_rev_onto t (String c acc)
  end.

(** [s[::-1]] *)
Definition str_rev (s : string) : string := str_rev_onto s EmptyString.

Fixpoint str_take (n : nat) (s : string) : string :=
  match n, s with
  | S n', String c t => String c (str_take n' t)
  | _, _ => EmptyString
  end.

Fixpoint str_drop (n : nat) (s : string) : string :=
  match n, s with
  | S n', String _ t => str_drop n' t
  | _, _ => s
  end.

(** [s[a:b]] for [0 <= a <= b]. *)
Definition slice (a b : nat) (s : string) : string :=
  str_take (b - a) (str_drop a s).

(** [s[-n:]] for [0 < n]. *)
Definition str_last (n : nat) (s : string) : string :=
  str_drop (String.length s - n) s.

Fixpoint lstrip_by (p : ascii -> bool) (s : string) : string :=
  match s with
  | EmptyString => EmptyString
  | String c t => if p c then lstrip_by p t else s
  end.

Definition rstrip_by (p : ascii -> bool) (s : string) : string :=
  str_rev (lstrip_by p (str_rev s)).

Definition strip_by (p : ascii -> bool) (s : string) : string :=
  rstrip_by p (lstrip_by p s).

(** [s.strip()] *)
Definition strip (s : string) : string := strip_by is_space s.

(** What [int(s, base)] and [float(s)] skip at both ends. *)
Definition is_space_num (c : ascii) : bool :=
  (code_between 9 13 c || Nat.eqb (ord c) 32
   || Nat.eqb (ord c) 133 || Nat.eqb (ord c) 160)%bool.

(** [s.startswith(p)] *)
Fixpoint startswith (p s : string) : bool :=
  match p, s with
  | EmptyString, _ => true
  | String a p', String b s' => (Ascii.eqb a b && startswith p' s')%bool
  | String _ _, EmptyString => false
  end.

(** [needle in s] for two texts. *)
Fixpoint contains (needle s : string) : bool :=
  (startswith needle s
   || match s with
      | String _ t => contains needle t
      | EmptyString => false
      end)%bool.

(** [s.endswith(p)] *)
Definition endswith (p s : string) : bool :=
  startswith (str_rev p) (str_rev s).

(** [s.split(sep)] for a separator of one character. *)
Fixpoint split_on (sep : ascii) (s : string) : list string :=
  match s with
  | EmptyString => [EmptyString]
  | String c t =>
      if Ascii.eqb c sep then EmptyString :: split_on sep t
      else match split_on sep t with
           | h :: r => String c h :: r
           | [] => [String c EmptyString]
           end
  end.

(** [sep.join(l)] *)
Fixpoint join (sep : string) (l : list string) : string :=
  match l with
  | [] => EmptyString
  | [s] => s
  | s :: t => (s ++ sep ++ join sep t)%string
  end.

Fixpoint repeat_char (c : ascii) (n : nat) : string :=
  match n with
  | O => EmptyString
  | S n' => String c (repeat_char c n')
  end.

(** [s.zfill(width)]: the zeros go after a leading sign. *)
Definition zfill (width : nat) (s : string) : string :=
  let pad := repeat_char "0" (width - String.length s) in
  match s with
  | String c t =>
      if (Ascii.eqb c "+" || Ascii.eqb c "-")%bool then String c (pad ++ t)
      else (pad ++ s)%string
  | EmptyString => pad
  end.

Definition str_contains_char (c : ascii) (s : string) : bool :=
  negb (str_forall (fun x => negb (Ascii.eqb x c)) s).

(** *** Decimal numerals *)

Definition digit_char (d : N) : ascii := chr (48 + N.to_nat d).

Fixpoint digits_of_pos_fuel (fuel : nat) (n : N) (acc : string) : string :=
  match fuel with
  | O => acc
  | S fuel' =>
      let acc' := String (digit_char (n mod 10)) acc in
      if (n / 10 =? 0)%N then acc' else digits_of_pos_fuel fuel' (n / 10) acc'
  end.

(** [str(n)] for a natural number: its decimal digits, ["0"] for zero. *)
Definition N_to_string (n : N) : string :=
  digits_of_pos_fuel (S (N.to_nat (N.log2 n))) n EmptyString.

(** [str(z)] for an int. *)
Definition Z_to_string (z : Z) : string :=
  if z <? 0 then String "-"%char (N_to_string (Z.abs_N z))
  else N_to_string (Z.abs_N z).

Definition digit_value (c : ascii) : N := N.of_nat (ord c - 48).

(** The value of a run of decimal digits (no check), most significant first. *)
Fixpoint digits_value_acc (s : string) (acc : N) : N :=
  match s with
  | EmptyString => acc
  | String c t => digits_value_acc t (10 * acc + digit_value c)%N
  end.

Definition digits_value (s : string) : N := digits_value_acc s 0%N.

(** Number of decimal digits, [1] for zero: [len(str(n))]. *)
Definition ndigits (n : N) : Z := Z.of_nat (String.length (N_to_string n)).

Definition hex_digit_value (c : ascii) : option N :=
  if is_digit c then Some (N.of_nat (ord c - 48))
  else if code_between 97 102 c then Some (N.of_nat (ord c - 87))
  else if code_between 65 70 c then Some (N.of_nat (ord c - 55))
  else None.

Definition is_hex_digit (c : ascii) : bool :=
  match hex_digit_value c with Some _ => true | None => false end.

Definition hex_char (d : N) : ascii :=
  if (d <? 10)%N then chr (48 + N.to_nat d) else chr (87 + N.to_nat d).

(* ================================================================= *)
(** ** [decimal.Decimal] under the default context

    [prec=28], [rounding=ROUND_HALF_EVEN], [Emin=-999999], [Emax=999999],
    traps [InvalidOperation], [DivisionByZero] and [Overflow]. *)

Inductive dec : Type :=
| DFin (neg : bool) (coef : N) (exp : Z)
| DInf (neg : bool)
| DNaN (signaling : bool) (neg : bool) (payload : N).

Definition dec_prec : Z := 28.
Definition dec_Emax : Z := 999999.
Definition dec_Emin : Z := -999999.
Definition dec_Etiny : Z := dec_Emin - dec_prec + 1.
Definition dec_Etop : Z := dec_Emax - dec_prec + 1.
(** Bounds of the exact conversion from text. *)
Definition dec_MAX_EMAX : Z := 999999999999999999.
Definition dec_MIN_ETINY : Z := -1999999999999999997.

Definition pow10 (k : Z) : N := (10 ^ Z.to_N k)%N.

Definition dec_zero : dec := DFin false 0 0.

Definition dec_is_zero (d : dec) : bool :=
  match d with
  | DFin _ c _ => (c =? 0)%N
  | _ => false
  end.

(** [bool(d)] *)
Definition dec_truthy (d : dec) : bool := negb (dec_is_zero d).

(** *** Parsing: [Decimal(s)] *)

Definition split_sign (s : string) : bool * string :=
  match s with
  | String c t =>
      if Ascii.eqb c "-" then (true, t)
      else if Ascii.eqb c "+" then (false, t)
      else (false, s)
  | EmptyString => (false, s)
  end.

Fixpoint span_digits (s : string) : string * string :=
  match s with
  | String c t =>
      if is_digit c then let (d, r) := span_digits t in (String c d, r)
      else (EmptyString, s)
  | EmptyString => (EmptyString, EmptyString)
  end.

Definition nonempty (s : string) : bool :=
  match s with EmptyString => false | _ => true end.

Definition signed (neg : bool) (n : N) : Z :=
  if neg then - Z.of_N n else Z.of_N n.

(** [[-+]?\d+] up to the end of the text. *)
Definition parse_exponent (s : string) : option Z :=
  let (neg, t) := split_sign s in
  if (nonempty t && str_forall is_digit t)%bool
  then Some (signed neg (digits_value t))
  else None.

Definition dec_in_exact_range (c : N) (e : Z) : bool :=
  if (c =? 0)%N then ((dec_MIN_ETINY <=? e) && (e <=? dec_MAX_EMAX))%bool
  else ((dec_MIN_ETINY <=? e) && (e + ndigits c - 1 <=? dec_MAX_EMAX))%bool.

Definition dec_parse_number (neg : bool) (s : string) : option dec :=
  let (ip, r1) := span_digits s in
  let '(fp, r2) :=
    match r1 with
    | String c t => if Ascii.eqb c "." then span_digits t else (EmptyString, r1)
    | EmptyString => (EmptyString, r1)
    end in
  if (nonempty ip || nonempty fp)%bool then
    let c := digits_value (ip ++ fp) in
    let fl := Z.of_nat (String.length fp) in
    let finish (e : Z) :=
      if dec_in_exact_range c e then Some (DFin neg c e) else None in
    match r2 with
    | EmptyString => finish (- fl)
    | String x t =>
        if (Ascii.eqb x "e" || Ascii.eqb x "E")%bool then
          match parse_exponent t with
          | Some e => finish (e - fl)
          | None => None
          end
        else None
    end
  else None.

Definition dec_parse_special (neg : bool) (s : string) : option dec :=
  let l := lower s in
  if (String.eqb l "inf" || String.eqb l "infinity")%bool then Some (DInf neg)
  else if startswith "nan" l then
    let p := str_drop 3 l in
    if str_forall is_digit p then Some (DNaN false neg (digits_value p)) else None
  else if startswith "snan" l then
    let p := str_drop 4 l in
    if str_forall is_digit p then Some (DNaN true neg (digits_value p)) else None
  else None.

(** [Decimal(s)]; [None] stands for [InvalidOperation]. *)
Definition dec_parse (s : string) : option dec :=
  let t := str_filter (fun c => negb (Ascii.eqb c "_")) (strip s) in
  let (neg, body) := split_sign t in
  match dec_parse_number neg body with
  | Some d => Some d
  | None => dec_parse_special neg body
  end.

(** *** Rounding to the context *)

(** [q + 1] when the remainder [r] out of [m] rounds up under
    ROUND_HALF_EVEN, else [q]. *)
Definition round_half_even (q r m : N) : N :=
  match (2 * r ?= m)%N with
  | Gt => (q + 1)%N
  | Eq => if N.even q then q else (q + 1)%N
  | Lt => q
  end.

(** The coefficient of [c * 10^e] at the larger exponent [e']. *)
Definition rescale_coef (c : N) (e e' : Z) : N :=
  let m := pow10 (e' - e) in
  round_half_even (c / m) (c mod m) m.

(** [Decimal._fix]: rounding of a finite result to the context. *)
Definition dec_fix (neg : bool) (c : N) (e : Z) : res dec :=
  if (c =? 0)%N then Ok (DFin neg 0 (Z.min (Z.max e dec_Etiny) dec_Emax))
  else
    let exp_min0 := ndigits c + e - dec_prec in
    if exp_min0 >? dec_Etop then Raise DecimalOverflow
    else
      let exp_min := Z.max exp_min0 dec_Etiny in
      if e <? exp_min then
        let c1 := rescale_coef c e exp_min in
        let '(c2, e2) :=
          if ndigits c1 >? dec_prec then ((c1 / 10)%N, exp_min + 1)
          else (c1, exp_min) in
        if e2 >? dec_Etop then Raise DecimalOverflow else Ok (DFin neg c2 e2)
      else Ok (DFin neg c e).

Definition dec_fix_nan (neg : bool) (payload : N) : dec :=
  DNaN false neg (payload mod pow10 dec_prec)%N.

(** [Decimal._check_nans]: a signalling NaN raises, a quiet one is the
    result; [None] when neither operand is a NaN. *)
Definition dec_check_nans (a b : dec) : res (option dec) :=
  match a, b with
  | DNaN true _ _, _ => Raise InvalidOperation
  | _, DNaN true _ _ => Raise InvalidOperation
  | DNaN false n p, _ => Ok (Some (dec_fix_nan n p))
  | _, DNaN false n p => Ok (Some (dec_fix_nan n p))
  | _, _ => Ok None
  end.

Definition dec_negate (d : dec) : dec :=
  match d with
  | DFin n c e => DFin (negb n) c e
  | DInf n => DInf (negb n)
  | DNaN s n p => DNaN s (negb n) p
  end.

(** [a + b] *)
Definition dec_add (a b : dec) : res dec :=
  let* nan := dec_check_nans a b in
  match nan with
  | Some r => Ok r
  | None =>
      match a, b with
      | DInf na, DInf nb =>
          if Bool.eqb na nb then Ok a else Raise InvalidOperation
      | DInf _, _ => Ok a
      | _, DInf _ => Ok b
      | DFin na ca ea, DFin nb cb eb =>
          let e := Z.min ea eb in
          let za := signed na (ca * pow10 (ea - e))%N in
          let zb := signed nb (cb * pow10 (eb - e))%N in
          let z := za + zb in
          if z =? 0 then
            dec_fix (if ((ca =? 0) && (cb =? 0))%N%bool then (na && nb)%bool else false) 0 e
          else dec_fix (z <? 0) (Z.abs_N z) e
      | _, _ => Ok a
      end
  end.

(** [a - b] *)
Definition dec_sub (a b : dec) : res dec :=
  let* nan := dec_check_nans a b in
  match nan with
  | Some r => Ok r
  | None => dec_add a (dec_negate b)
  end.

(** The sign of [a - b] for operands that are not NaN. *)
Definition dec_cmp (a b : dec) : comparison :=
  match a, b with
  | DInf na, DInf nb =>
      if Bool.eqb na nb then Eq else if na then Lt else Gt
  | DInf na, _ => if na then Lt else Gt
  | _, DInf nb => if nb then Gt else Lt
  | DFin na ca ea, DFin nb cb eb =>
      let e := Z.min ea eb in
      (signed na (ca * pow10 (ea - e))%N ?= signed nb (cb * pow10 (eb - e))%N)
  | _, _ => Eq
  end.

Definition dec_is_nan (d : dec) : bool :=
  match d with DNaN _ _ _ => true | _ => false end.

(** [a >= b]: an ordering comparison involving a NaN raises. *)
Definition dec_ge (a b : dec) : res bool :=
  if (dec_is_nan a || dec_is_nan b)%bool then Raise InvalidOperation
  else Ok (match dec_cmp a b with Lt => false | _ => true end).

(** [a > b] *)
Definition dec_gt (a b : dec) : res bool :=
  if (dec_is_nan a || dec_is_nan b)%bool then Raise InvalidOperation
  else Ok (match dec_cmp a b with Gt => true | _ => false end).

(** [a == b]: false with a quiet NaN, raises with a signalling one. *)
Definition dec_eq (a b : dec) : res bool :=
  let* nan := dec_check_nans a b in
  match nan with
  | Some _ => Ok false
  | None => Ok (match dec_cmp a b with Eq => true | _ => false end)
  end.

(** *** Text of a decimal *)

Definition sign_str (neg : bool) : string := if neg then "-" else "".

Definition payload_str (p : N) : string :=
  if (p =? 0)%N then "" else N_to_string p.

Definition zeros (k : Z) : string := repeat_char "0" (Z.to_nat k).

(** ["%+d" % z] *)
Definition Z_to_signed_string (z : Z) : string :=
  if z <? 0 then Z_to_string z else ("+" ++ Z_to_string z)%string.

(** [str(d)] *)
Definition dec_str (d : dec) : string :=
  match d with
  | DInf n => (sign_str n ++ "Infinity")%string
  | DNaN false n p => (sign_str n ++ "NaN" ++ payload_str p)%string
  | DNaN true n p => (sign_str n ++ "sNaN" ++ payload_str p)%string
  | DFin n c e =>
      let ds := N_to_string c in
      let len := Z.of_nat (String.length ds) in
      let leftdigits := e + len in
      let dotplace := if ((e <=? 0) && (-6 <? leftdigits))%bool then leftdigits else 1 in
      let '(intpart, fracpart) :=
        if dotplace <=? 0 then ("0"%string, ("." ++ zeros (- dotplace) ++ ds)%string)
        else if len <=? dotplace then ((ds ++ zeros (dotplace - len))%string, ""%string)
        else (str_take (Z.to_nat dotplace) ds,
              ("." ++ str_drop (Z.to_nat dotplace) ds)%string) in
      let exp := if leftdigits =? dotplace then ""%string
                 else ("E" ++ Z_to_signed_string (leftdigits - dotplace))%string in
      (sign_str n ++ intpart ++ fracpart ++ exp)%string
  end.

(** [d.quantize(Decimal("0.00000"))] *)
Definition dec_quantize5 (d : dec) : res dec :=
  let q := DFin false 0 (-5) in
  let* nan := dec_check_nans d q in
  match nan with
  | Some r => Ok r
  | None =>
      match d with
      | DFin n c e =>
          if (c =? 0)%N then dec_fix n 0 (-5)
          else
            let adjusted := e + ndigits c - 1 in
            if adjusted >? dec_Emax then Raise InvalidOperation
            else if adjusted + 5 + 1 >? dec_prec then Raise InvalidOperation
            else
              let c' := if -5 <=? e then (c * pow10 (e + 5))%N
                        else rescale_coef c e (-5) in
              if ndigits c' >? dec_prec then Raise InvalidOperation
              else dec_fix n c' (-5)
      | _ => Raise InvalidOperation
      end
  end.

(** [format(d, 'f')] *)
Definition dec_format_f (d : dec) : string :=
  match d with
  | DFin n c0 e0 =>
      let '(c, e) := if ((c0 =? 0)%N && (0 <? e0))%bool then (0%N, 0) else (c0, e0) in
      let ds := N_to_string c in
      let len := Z.of_nat (String.length ds) in
      let dotplace := e + len in
      let '(intpart, fracpart) :=
        if dotplace <? 0 then ("0"%string, (zeros (- dotplace) ++ ds)%string)
        else if len <? dotplace then ((ds ++ zeros (dotplace - len))%string, ""%string)
        else (let i := str_take (Z.to_nat dotplace) ds in
              if nonempty i then i else "0"%string,
              str_drop (Z.to_nat dotplace) ds) in
      (sign_str n ++ intpart
       ++ (if nonempty fracpart then "." ++ fracpart else ""))%string
  | DInf n => (sign_str n ++ dec_str (DInf false))%string
  | DNaN s n p => (sign_str n ++ dec_str (DNaN s false p))%string
  end.

(* ================================================================= *)
(** ** [float]: binary64

    A finite float is [(-1)^neg * m * 2^e] in canonical form: [m < 2^53],
    [-1074 <= e <= 971], and [2^52 <= m] unless [e = -1074].  Zero is
    [m = 0] at [e = -1074]. *)

Inductive float : Type :=
| FNan
| FInf (neg : bool)
| FFin (neg : bool) (m : N) (e : Z).

Definition f_zero (neg : bool) : float := FFin neg 0 (-1074).

Definition two_pow (k : Z) : N := (2 ^ Z.to_N k)%N.

(** Numerator and denominator of [n / d / 2^e]. *)
Definition scaled (n d : N) (e : Z) : N * N :=
  if e <? 0 then ((n * two_pow (- e))%N, d) else (n, (d * two_pow e)%N).

(** The binary64 nearest to [n / d], ties to even; overflow gives an
    infinity. *)
Definition f_of_ratio (neg : bool) (n d : N) : float :=
  if (n =? 0)%N then f_zero neg
  else
    let e1 := Z.of_N (N.log2 n) - Z.of_N (N.log2 d) - 52 in
    let '(n1, d1) := scaled n d e1 in
    let t := (n1 / d1)%N in
    let e2 := if (t <? two_pow 52)%N then e1 - 1
              else if (two_pow 53 <=? t)%N then e1 + 1
              else e1 in
    let e := Z.max e2 (-1074) in
    let '(n2, d2) := scaled n d e in
    let m := round_half_even (n2 / d2) (n2 mod d2) d2 in
    let '(m', e') := if (m =? two_pow 53)%N then (two_pow 52, e + 1) else (m, e) in
    if e' >? 971 then FInf neg else FFin neg m' e'.

(** The binary64 nearest to [c * 10^e]. *)
Definition f_of_decimal (neg : bool) (c : N) (e : Z) : float :=
  if e <? 0 then f_of_ratio neg c (pow10 (- e))
  else f_of_ratio neg (c * pow10 e)%N 1.

(** [float(d)] for a [Decimal]: a signalling NaN raises [ValueError]. *)
Definition float_of_dec (d : dec) : res float :=
  match d with
  | DFin n c e => Ok (f_of_decimal n c e)
  | DInf n => Ok (FInf n)
  | DNaN false _ _ => Ok FNan
  | DNaN true _ _ => Raise ValueError
  end.

(** [float(z)] for an int: [OverflowError] beyond the finite range. *)
Definition float_of_Z (z : Z) : res float :=
  match f_of_ratio (z <? 0) (Z.abs_N z) 1 with
  | FInf _ => Raise OverflowError
  | f => Ok f
  end.

(** *** Parsing: [float(s)] *)

(** Digits with single underscores between them: the digits, and the rest. *)
Fixpoint span_digitpart (s : string) : string * string :=
  match s with
  | String c t =>
      if is_digit c then
        match t with
        | String u (String c' _ as t') =>
            if (Ascii.eqb u "_" && is_digit c')%bool
            then let (d, r) := span_digitpart t' in (String c d, r)
            else let (d, r) := span_digitpart t in (String c d, r)
        | _ => let (d, r) := span_digitpart t in (String c d, r)
        end
      else (EmptyString, s)
  | EmptyString => (EmptyString, EmptyString)
  end.

Definition float_parse_exponent (s : string) : option Z :=
  let (neg, t) := split_sign s in
  let (ds, r) := span_digitpart t in
  if (nonempty ds && negb (nonempty r))%bool
  then Some (signed neg (digits_value ds))
  else None.

Definition float_parse_number (neg : bool) (s : string) : option float :=
  let (ip, r1) := span_digitpart s in
  let '(fp, r2) :=
    match r1 with
    | String c t => if Ascii.eqb c "." then span_digitpart t else (EmptyString, r1)
    | EmptyString => (EmptyString, r1)
    end in
  if (nonempty ip || nonempty fp)%bool then
    let c := digits_value (ip ++ fp) in
    let fl := Z.of_nat (String.length fp) in
    match r2 with
    | EmptyString => Some (f_of_decimal neg c (- fl))
    | String x t =>
        if (Ascii.eqb x "e" || Ascii.eqb x "E")%bool then
          match float_parse_exponent t with
          | Some e => Some (f_of_decimal neg c (e - fl))
          | None => None
          end
        else None
    end
  else None.

(** [float(s)] for text; [None] stands for [ValueError]. *)
Definition float_parse (s : string) : option float :=
  let (neg, body) := split_sign (strip_by is_space_num s) in
  let l := lower body in
  if (String.eqb l "inf" || String.eqb l "infinity")%bool then Some (FInf neg)
  else if String.eqb l "nan" then Some FNan
  else float_parse_number neg body.

(** *** Comparison *)

Definition f_is_zero (f : float) : bool :=
  match f with FFin _ m _ => (m =? 0)%N | _ => false end.

(** Order of two floats that are not NaN. *)
Definition f_cmp (a b : float) : comparison :=
  match a, b with
  | FInf na, FInf nb => if Bool.eqb na nb then Eq else if na then Lt else Gt
  | FInf na, _ => if na then Lt else Gt
  | _, FInf nb => if nb then Gt else Lt
  | FFin na ma ea, FFin nb mb eb =>
      let e := Z.min ea eb in
      (signed na (ma * two_pow (ea - e))%N ?= signed nb (mb * two_pow (eb - e))%N)
  | _, _ => Eq
  end.

Definition f_is_nan (f : float) : bool :=
  match f with FNan => true | _ => false end.

Definition f_eqb (a b : float) : bool :=
  if (f_is_nan a || f_is_nan b)%bool then false
  else match f_cmp a b with Eq => true | _ => false end.

Definition f_ltb (a b : float) : bool :=
  if (f_is_nan a || f_is_nan b)%bool then false
  else match f_cmp a b with Lt => true | _ => false end.

Definition f_leb (a b : float) : bool :=
  if (f_is_nan a || f_is_nan b)%bool then false
  else match f_cmp a b with Gt => false | _ => true end.

(** [bool(f)] *)
Definition f_truthy (f : float) : bool := negb (f_is_zero f).

(** The exact order of an int and a float that is not NaN. *)
Definition Z_f_cmp (z : Z) (f : float) : comparison :=
  match f with
  | FInf n => if n then Gt else Lt
  | FFin n m e =>
      if e <? 0 then (z * Z.of_N (two_pow (- e)) ?= signed n m)
      else (z ?= signed n (m * two_pow e)%N)
  | FNan => Eq
  end.

(** *** [repr(f)] *)

(** [10^k <= n / d] for a possibly negative [k]. *)
Definition ge_pow10 (n d : N) (k : Z) : bool :=
  if k <? 0 then (d <=? n * pow10 (- k))%N else (d * pow10 k <=? n)%N.

(** [floor(log10(n / d))], searched downwards from an upper estimate. *)
Fixpoint log10_floor_from (fuel : nat) (n d : N) (k : Z) : Z :=
  match fuel with
  | O => k
  | S fuel' => if ge_pow10 n d k then k else log10_floor_from fuel' n d (k - 1)
  end.

Definition log10_floor (n d : N) : Z :=
  let b := Z.of_N (N.log2 n) - Z.of_N (N.log2 d) + 1 in
  let hi := (if b <? 0 then - ((- b) * 3 / 10) else b * 31 / 100) + 1 in
  log10_floor_from (Z.to_nat (Z.abs b) + 4) n d hi.

(** The candidates with [p] significant digits next to [n / d]: the
    coefficient below, and the decimal exponent. *)
Definition decimal_below (n d : N) (p : Z) : N * Z :=
  let x := log10_floor n d - (p - 1) in
  if x <? 0 then ((n * pow10 (- x) / d)%N, x) else ((n / (d * pow10 x))%N, x).

(** [|n/d - c*10^x|] as a numerator over the common denominator
    [d * 10^max(0,-x)]... compared for two candidates. *)
Definition dist_num (n d : N) (c : N) (x : Z) : Z :=
  if x <? 0 then Z.abs (Z.of_N (n * pow10 (- x)) - Z.of_N (c * d))
  else Z.abs (Z.of_N n - Z.of_N (c * pow10 x * d)).

Definition round_trips (neg : bool) (m : N) (e : Z) (c : N) (x : Z) : bool :=
  match f_of_decimal neg c x with
  | FFin _ m' e' => ((m' =? m)%N && (e' =? e))%bool
  | _ => false
  end.

(** The shortest decimal that reads back as the float, the closest to it
    among those: coefficient and exponent. *)
Fixpoint shortest_from (fuel : nat) (p : Z) (m : N) (e : Z) : N * Z :=
  let '(n, d) := scaled m 1 (- e) in
  let '(lo, x) := decimal_below n d p in
  let hi := (lo + 1)%N in
  let ok_lo := round_trips false m e lo x in
  let ok_hi := round_trips false m e hi x in
  match fuel with
  | O => (if ok_lo then lo else hi, x)
  | S fuel' =>
      if (ok_lo && ok_hi)%bool then
        (if dist_num n d lo x <=? dist_num n d hi x then lo else hi, x)
      else if ok_lo then (lo, x)
      else if ok_hi then (hi, x)
      else shortest_from fuel' (p + 1) m e
  end.

Fixpoint strip_trailing_zeros (fuel : nat) (c : N) (x : Z) : N * Z :=
  match fuel with
  | O => (c, x)
  | S fuel' =>
      if ((c mod 10 =? 0) && negb (c =? 0))%N%bool
      then strip_trailing_zeros fuel' (c / 10)%N (x + 1)
      else (c, x)
  end.

Definition two_digits (z : Z) : string :=
  let s := Z_to_string z in
  if (String.length s <? 2)%nat then ("0" ++ s)%string else s.

(** [repr(f)], which is also [str(f)]. *)
Definition float_repr (f : float) : string :=
  match f with
  | FNan => "nan"%string
  | FInf n => (sign_str n ++ "inf")%string
  | FFin n m e =>
      if (m =? 0)%N then (sign_str n ++ "0.0")%string
      else
        let '(c0, x0) := shortest_from 17 1 m e in
        let '(c, x) := strip_trailing_zeros 20 c0 x0 in
        let ds := N_to_string c in
        let len := Z.of_nat (String.length ds) in
        let decpt := len + x in
        let frac := if 1 <? len then ("." ++ str_drop 1 ds)%string else ""%string in
        let esign := if decpt - 1 <? 0 then "-"%string else "+"%string in
        let body :=
          if ((decpt <=? -4) || (16 <? decpt))%bool then
            (str_take 1 ds ++ frac ++ "e" ++ esign ++ two_digits (Z.abs (decpt - 1)))%string
          else if decpt <=? 0 then ("0." ++ zeros (- decpt) ++ ds)%string
          else if len <=? decpt then (ds ++ zeros (decpt - len) ++ ".0")%string
          else (str_take (Z.to_nat decpt) ds ++ "." ++ str_drop (Z.to_nat decpt) ds)%string
        in (sign_str n ++ body)%string
  end.

(* ================================================================= *)
(** ** Python values

    What [json.load] and the ASN.1 decoder produce: [None], booleans, ints,
    floats, text, lists, tuples, and dicts with text keys in insertion
    order. *)

#[warnings="-register-all"]
Inductive value : Type :=
| VNone
| VBool (b : bool)
| VInt (z : Z)
| VFloat (f : float)
| VStr (s : string)
| VList (l : list value)
| VTuple (l : list value)
| VDict (d : list (string * value)).

Definition dict : Type := list (string * value).

(** [d.get(k)] as an option. *)
Fixpoint dict_get (k : string) (d : dict) : option value :=
  match d with
  | [] => None
  | (k', v) :: t => if String.eqb k k' then Some v else dict_get k t
  end.

(** [k in d] *)
Definition dict_has (k : string) (d : dict) : bool :=
  match dict_get k d with Some _ => true | None => false end.

(** [d[k] = v]: in place when the key is bound, appended otherwise. *)
Fixpoint dict_set (k : string) (v : value) (d : dict) : dict :=
  match d with
  | [] => [(k, v)]
  | (k', v') :: t =>
      if String.eqb k k' then (k, v) :: t else (k', v') :: dict_set k v t
  end.

(** [list(d.keys())] *)
Definition dict_keys (d : dict) : list string := map fst d.

(** Assignments in sequence, first to last. *)
Definition dict_update (d : dict) (kvs : list (string * value)) : dict :=
  fold_left (fun acc kv => dict_set (fst kv) (snd kv) acc) kvs d.

(** [bool(v)] *)
Definition truthy (v : value) : bool :=
  match v with
  | VNone => false
  | VBool b => b
  | VInt z => negb (z =? 0)
  | VFloat f => f_truthy f
  | VStr s => nonempty s
  | VList l => match l with [] => false | _ => true end
  | VTuple l => match l with [] => false | _ => true end
  | VDict d => match d with [] => false | _ => true end
  end.

(** [a or b] *)
Definition py_or (a b : value) : value := if truthy a then a else b.

Definition is_none (v : value) : bool :=
  match v with VNone => true | _ => false end.

(** [v == s] for a text constant [s]. *)
Definition eq_str (v : value) (s : string) : bool :=
  match v with VStr s' => String.eqb s' s | _ => false end.

(** *** [repr] and [str] *)

Definition hex2 (n : nat) : string :=
  String (hex_char (N.of_nat (n / 16))) (String (hex_char (N.of_nat (n mod 16))) EmptyString).

Definition repr_char (quote : ascii) (c : ascii) : string :=
  let n := ord c in
  if (Ascii.eqb c quote || Ascii.eqb c "\")%bool then String "\" (String c EmptyString)
  else if Nat.eqb n 9 then "\t"
  else if Nat.eqb n 10 then "\n"
  else if Nat.eqb n 13 then "\r"
  else if (Nat.ltb n 32 || Nat.eqb n 127
           || (Nat.leb 128 n && Nat.leb n 160) || Nat.eqb n 173)%bool
       then ("\x" ++ hex2 n)%string
  else String c EmptyString.

Fixpoint repr_chars (quote : ascii) (s : string) : string :=
  match s with
  | EmptyString => EmptyString
  | String c t => (repr_char quote c ++ repr_chars quote t)%string
  end.

(** [repr(s)] for text. *)
Definition str_repr (s : string) : string :=
  let double_quote : ascii := chr 34 in
  let quote : ascii :=
    if (str_contains_char "'" s && negb (str_contains_char double_quote s))%bool
    then double_quote else "'"%char in
  String quote (repr_chars quote s ++ String quote EmptyString).

Fixpoint py_repr (v : value) : string :=
  let fix repr_list (l : list value) : list string :=
    match l with
    | [] => []
    | x :: t => py_repr x :: repr_list t
    end in
  let fix repr_items (d : list (string * value)) : list string :=
    match d with
    | [] => []
    | (k, x) :: t => (str_repr k ++ ": " ++ py_repr x)%string :: repr_items t
    end in
  match v with
  | VNone => "None"
  | VBool true => "True"
  | VBool false => "False"
  | VInt z => Z_to_string z
  | VFloat f => float_repr f
  | VStr s => str_repr s
  | VList l => ("[" ++ join ", " (repr_list l) ++ "]")%string
  | VTuple l =>
      match l with
      | [x] => ("(" ++ py_repr x ++ ",)")%string
      | _ => ("(" ++ join ", " (repr_list l) ++ ")")%string
      end
  | VDict d => ("{" ++ join ", " (repr_items d) ++ "}")%string
  end.

(** [str(v)] *)
Definition py_str (v : value) : string :=
  match v with
  | VStr s => s
  | _ => py_repr v
  end.

(** *** Equality: [a == b] *)

Definition b2z (b : bool) : Z := if b then 1 else 0.

Definition Z_f_eqb (z : Z) (f : float) : bool :=
  if f_is_nan f then false
  else match Z_f_cmp z f with Eq => true | _ => false end.

Fixpoint py_eq (a b : value) {struct a} : bool :=
  let fix eq_list (l1 l2 : list value) {struct l1} : bool :=
    match l1, l2 with
    | [], [] => true
    | x :: t, y :: u => (py_eq x y && eq_list t u)%bool
    | _, _ => false
    end in
  let fix eq_items (d1 : list (string * value)) (d2 : dict) {struct d1} : bool :=
    match d1 with
    | [] => true
    | (k, x) :: t =>
        (match dict_get k d2 with
         | Some y => py_eq x y
         | None => false
         end && eq_items t d2)%bool
    end in
  match a, b with
  | VNone, VNone => true
  | VBool x, VBool y => Bool.eqb x y
  | VBool x, VInt y => b2z x =? y
  | VBool x, VFloat y => Z_f_eqb (b2z x) y
  | VInt x, VBool y => x =? b2z y
  | VInt x, VInt y => x =? y
  | VInt x, VFloat y => Z_f_eqb x y
  | VFloat x, VBool y => Z_f_eqb (b2z y) x
  | VFloat x, VInt y => Z_f_eqb y x
  | VFloat x, VFloat y => f_eqb x y
  | VStr x, VStr y => String.eqb x y
  | VList x, VList y => eq_list x y
  | VTuple x, VTuple y => eq_list x y
  | VDict x, VDict y => (Nat.eqb (List.length x) (List.length y) && eq_items x y)%bool
  | _, _ => false
  end.

(** *** Iteration and attribute access *)

Fixpoint chars_of (s : string) : list value :=
  match s with
  | EmptyString => []
  | String c t => VStr (String c EmptyString) :: chars_of t
  end.

(** [for x in v]: what the loop visits, or [TypeError]. *)
Definition py_iter (v : value) : res (list value) :=
  match v with
  | VList l => Ok l
  | VTuple l => Ok l
  | VStr s => Ok (chars_of s)
  | VDict d => Ok (map (fun kv => VStr (fst kv)) d)
  | _ => Raise TypeError
  end.

(** [v.get(k)]: only a dict has the method. *)
Definition py_get (v : value) (k : string) : res value :=
  match v with
  | VDict d => Ok (match dict_get k d with Some x => x | None => VNone end)
  | _ => Raise AttributeError
  end.

(** [v.get(k, default)] *)
Definition py_get_default (v : value) (k : string) (default : value) : res value :=
  match v with
  | VDict d => Ok (match dict_get k d with Some x => x | None => default end)
  | _ => Raise AttributeError
  end.

(** [isinstance(v, dict)] *)
Definition is_dict (v : value) : bool :=
  match v with VDict _ => true | _ => false end.

(** A step of a path: a key or an index. *)
Inductive path_elem : Type :=
| PKey (k : string)
| PIdx (i : Z).

(** [safe_get(node, path, default)], the same in every mapper. *)
Fixpoint safe_get (node : value) (path : list path_elem) (default : value) : value :=
  match path with
  | [] => node
  | p :: rest =>
      match node with
      | VNone => default
      | _ =>
          match p with
          | PIdx i =>
              match node with
              | VList l =>
                  if ((i <? 0) || (Z.of_nat (List.length l) <=? i))%bool then default
                  else match nth_error l (Z.to_nat i) with
                       | Some x => safe_get x rest default
                       | None => default
                       end
              | _ => default
              end
          | PKey k =>
              match node with
              | VDict d =>
                  match dict_get k d with
                  | Some x => safe_get x rest default
                  | None => default
                  end
              | _ => default
              end
          end
      end
  end.

(** [safe_get(node, [k])] and [safe_get(node, [k], default) or default]. *)
Definition sg (node : value) (k : string) : value := safe_get node [PKey k] VNone.

Definition sg_or (node : value) (k : string) (default : value) : value :=
  py_or (safe_get node [PKey k] default) default.

(** [to_decimal(v)], the same in every mapper. *)
Definition to_decimal (v : value) : option dec :=
  if (is_none v || eq_str v "")%bool then None
  else dec_parse (py_str v).

(** [fmt_decimal_to_float(d)] for [d] not [None], the same in every mapper:
    [float(d)], else [float(str(d))], else [None]. *)
Definition fmt_decimal_to_float (d : dec) : option float :=
  match float_of_dec d with
  | Ok f => Some f
  | Raise _ => float_parse (dec_str d)
  end.

(* ================================================================= *)
(** ** [voice_usage_datawarehouse_mapper.py] *)

Module voice.

(** The ordered list of output fields (121 names). *)
Definition CANONICAL_FIELDS : list string :=
  ["EL_CDR_ID"; "EL_SRC_CDR_ID"; "EL_CUST_LOCAL_START_DATE"; "EL_SESSION_ID";
   "EL_ACTUAL_USAGE"; "EL_RATE_USAGE"; "EL_DEBIT_AMOUNT";
   "EL_FREE_UNIT_AMOUNT_OF_DURATION"; "EL_ACCT_BALANCE_ID1";
   "EL_BALANCE_TYPE1"; "EL_CUR_BALANCE1"; "EL_CHG_BALANCE1"; "EL_RATE_ID1";
   "EL_ACCT_BALANCE_ID2"; "EL_BALANCE_TYPE2"; "EL_CUR_BALANCE2";
   "EL_CHG_BALANCE2"; "EL_RATE_ID2"; "EL_ACCT_BALANCE_ID3";
   "EL_BALANCE_TYPE3"; "EL_CUR_BALANCE3"; "EL_CHG_BALANCE3"; "EL_RATE_ID3";
   "EL_ACCT_BALANCE_ID4"; "EL_BALANCE_TYPE4"; "EL_CUR_BALANCE4";
   "EL_CHG_BALANCE4"; "EL_RATE_ID4"; "EL_ACCT_BALANCE_ID5";
   "EL_BALANCE_TYPE5"; "EL_CUR_BALANCE5"; "EL_CHG_BALANCE5"; "EL_RATE_ID5";
   "EL_BUCKET_BALANCE_ID1"; "EL_BUCKET_BALANCE_TYPE1";
   "EL_BUCKET_CUR_BALANCE1"; "EL_BUCKET_CHG_BALANCE1"; "EL_BUCKET_RATE_ID1";
   "EL_BUCKET_BALANCE_ID2"; "EL_BUCKET_BALANCE_TYPE2";
   "EL_BUCKET_CUR_BALANCE2"; "EL_BUCKET_CHG_BALANCE2"; "EL_BUCKET_RATE_ID2";
   "EL_BUCKET_BALANCE_ID3"; "EL_BUCKET_BALANCE_TYPE3";
   "EL_BUCKET_CUR_BALANCE3"; "EL_BUCKET_CHG_BALANCE3"; "EL_BUCKET_RATE_ID3";
   "EL_BUCKET_BALANCE_ID4"; "EL_BUCKET_BALANCE_TYPE4";
   "EL_BUCKET_CUR_BALANCE4"; "EL_BUCKET_CHG_BALANCE4"; "EL_BUCKET_RATE_ID4";
   "EL_BUCKET_BALANCE_ID5"; "EL_BUCKET_BALANCE_TYPE5";
   "EL_BUCKET_CUR_BALANCE5"; "EL_BUCKET_CHG_BALANCE5"; "EL_BUCKET_RATE_ID5";
   "EL_CALLING_PARTY_NUMBER"; "EL_CALLED_PARTY_NUMBER";
   "EL_CALLING_PARTY_IMSI"; "EL_CALLED_PARTY_IMSI"; "EL_SERVICE_FLOW";
   "EL_CALLING_LOCATION_INFO"; "EL_CALLED_LOCATION_INFO"; "EL_SEND_RESULT";
   "EL_IMEI"; "EL_REFUND_INDICATOR"; "EL_MAIN_OFFERING_ID";
   "EL_CHARGING_PARTY_NUMBER"; "EL_CHARGE_PARTY_IND"; "EL_PAY_TYPE";
   "EL_ON_NET_INDICATOR"; "EL_ROAM_STATE"; "EL_OPPOSE_NETWORK_TYPE";
   "EL_CALLING_VPN_TOP_GROUP_NUMBER"; "EL_CALLING_VPN_GROUP_NUMBER";
   "EL_CALLING_VPN_SHORT_NUMBERs"; "EL_CALLED_VPN_TOP_GROUP_NUMBER";
   "EL_CALLED_VPN_GROUP_NUMBER"; "EL_CALLED_VPN_SHORT_NUMBER";
   "EL_LAST_EFFECT_OFFERING"; "EL_ALTERNATE_ID"; "EL_HOME_ZONE_ID";
   "EL_USER_STATE"; "EL_PAY_DEFAULT_ACCT_ID"; "EL_TAX1"; "EL_TAX2";
   "EL_USER_GROUP_ID"; "EL_BUSINESS_TYPE"; "EL_SUBSCRIBER_KEY";
   "EL_ACCOUNT_KEY"; "EL_DISCOUNT_OF_LAST_EFF_PROD";
   "EL_ADDITIONALBALANCEINFO_CHARGINGSERVICENAME";
   "EL_ADDITIONALBALANCEINFO_USAGETYPE"; "EL_ADDITIONALBALANCEINFO_USEDAS";
   "EL_ADDITIONALBALANCEINFO_BUCKETINFO_BUCKETNAME";
   "EL_ADDITIONALBALANCEINFO_BUCKETINFO_BUCKETUNITTYPE";
   "EL_ADDITIONALBALANCEINFO_BUCKETINFO_BUCKETKINDOFUNIT";
   "EL_ADDITIONALBALANCEINFO_BUCKETINFO_BUCKETBALANCEBEFORE";
   "EL_ADDITIONALBALANCEINFO_BUCKETINFO_BUCKETBALANCEAFTER";
   "EL_ADDITIONALBALANCEINFO_BUCKETINFO_CARRYOVERBUCKET";
   "EL_ADDITIONALBALANCEINFO_BUCKETINFO_BUCKETCOMMITEDUNITS";
   "EL_ADDITIONALBALANCEINFO_BUCKETINFO_BUCKETRESERVEDUNITS";
   "EL_ADDITIONALBALANCEINFO_BUCKETINFO_RATEID";
   "EL_ADDITIONALBALANCEINFO_BUCKETINFO_PRIMARYCOSTCOMMITTED";
   "EL_ADDITIONALBALANCEINFO_BUCKETINFO_SECONDARYCOSTCOMMITTED";
   "EL_ADDITIONALBALANCEINFO_BUCKETINFO_TAXATIONID";
   "EL_ADDITIONALBALANCEINFO_BUCKETINFO_TAXRATEAPPLIED";
   "EL_ADDITIONALBALANCEINFO_BUCKETINFO_COMMITTEDTAXAMOUNT";
   "EL_ADDITIONALBALANCEINFO_BUCKETINFO_TOTALTAXAMOUNT";
   "EL_ADDITIONALBALANCEINFO_BUCKETINFO_TARIFFID";
   "EL_ADDITIONALBALANCEINFO_BUCKETINFO_TOTALUNITSCHARGED";
   "EL_ADDITIONALBALANCEINFO_BUCKETINFO_TOTALTIMECHARGED";
   "EL_ADDITIONALBALANCEINFO_BUCKETINFO_ROUNDEDTIMECHARGED";
   "EL_ADDITIONALBALANCEINFO_BUCKETINFO_DELTATIME"; "EL_UNLTD_BUNDLE_NAME";
   "EL_UNLTD_TOTAL_TIME_CHARGED"; "EL_UNLTD_ROUNDED_UNITS_CHARGED";
   "EL_UNLTD_BUNDLE_UNIT_TYPE"; "EL_ORIG_LOCATION"]%string.

(** [f"{prefix}{n}"] *)
Definition fstr (prefix : string) (n : nat) : string :=
  (prefix ++ N_to_string (N.of_nat n))%string.

(** [last_n_chars(s, n)] *)
Definition last_n_chars (s : value) (n : nat) : string :=
  if negb (truthy s) then ""%string
  else
    let t := py_str s in
    match n with
    | O => t
    | S _ => if (n <=? String.length t)%nat then str_last n t else t
    end.

(** Hex digits with single underscores between them. *)
Fixpoint hex_digits_value (s : string) (acc : N) (prev_digit : bool) : option N :=
  match s with
  | EmptyString => if prev_digit then Some acc else None
  | String c t =>
      if Ascii.eqb c "_" then
        if prev_digit then hex_digits_value t acc false else None
      else
        match hex_digit_value c with
        | Some d => hex_digits_value t (16 * acc + d)%N true
        | None => None
        end
  end.

(** [int(s, 16)]; [None] stands for [ValueError]. *)
Definition py_int16 (s : string) : option Z :=
  let (neg, b) := split_sign (strip_by is_space_num s) in
  let digits :=
    if String.eqb (lower (str_take 2 b)) "0x" then
      match str_drop 2 b with
      | String c t => if Ascii.eqb c "_" then t else String c t
      | EmptyString => EmptyString
      end
    else b in
  match hex_digits_value digits 0 false with
  | Some n => Some (signed neg n)
  | None => None
  end.

(** [[s[i:i+2] for i in range(0, len(s), 2)]] *)
Fixpoint pairs_of (fuel : nat) (s : string) : list string :=
  match fuel, s with
  | S fuel', String _ _ => str_take 2 s :: pairs_of fuel' (str_drop 2 s)
  | _, _ => []
  end.

Definition is_F (c : ascii) : bool := (Ascii.eqb c "F" || Ascii.eqb c "f")%bool.

(** [decode_location_hex_field(hexstr)] *)
Definition decode_location_hex_field (hexstr : value) : string :=
  if negb (truthy hexstr) then ""%string
  else
    let s := last_n_chars hexstr 18 in
    if (String.length s <? 18)%nat then
      let s14 := last_n_chars hexstr 14 in
      if negb (nonempty s14) then ""%string
      else (slice 0 6 s14 ++ "-" ++ slice 6 10 s14 ++ "-" ++ slice 10 14 s14)%string
    else
      let tac_hex := slice 0 4 s in
      let mccmnc_hex := slice 4 10 s in
      let eci_hex := slice 10 18 s in
      let tac_dec :=
        match py_int16 tac_hex with
        | Some n => Z_to_string n
        | None => tac_hex
        end in
      let pairs := pairs_of (String.length mccmnc_hex) mccmnc_hex in
      let swapped := join "" (map str_rev pairs) in
      let swapped_clean := str_filter (fun c => negb (is_F c)) swapped in
      let eci_int :=
        match py_int16 eci_hex with
        | Some n => n
        | None => 0
        end in
      let enb := Z_to_string (eci_int mod 256) in
      let cell := Z_to_string (eci_int / 256) in
      (swapped_clean ++ "-" ++ tac_dec ++ "-" ++ enb ++ "-" ++ cell)%string.

(** [binascii.unhexlify(s)] for text: the byte values; [None] for an error. *)
Fixpoint unhexlify (s : string) : option (list nat) :=
  match s with
  | EmptyString => Some []
  | String a (String b t) =>
      match hex_digit_value a, hex_digit_value b, unhexlify t with
      | Some x, Some y, Some r => Some (N.to_nat (16 * x + y) :: r)
      | _, _, _ => None
      end
  | String _ EmptyString => None
  end.

(** [b.decode('ascii', errors='ignore')] *)
Fixpoint decode_ascii_ignore (b : list nat) : string :=
  match b with
  | [] => EmptyString
  | n :: t =>
      if (n <? 128)%nat then String (chr n) (decode_ascii_ignore t)
      else decode_ascii_ignore t
  end.

(** The characters at even 1-based positions. *)
Fixpoint even_chars (s : string) : string :=
  match s with
  | String _ (String c t) => String c (even_chars t)
  | _ => EmptyString
  end.

(** [imei_from_user_equipment_value(hex_or_str)] *)
Definition imei_from_user_equipment_value (hex_or_str : value) : string :=
  if negb (truthy hex_or_str) then ""%string
  else
    let decoded :=
      match hex_or_str with
      | VStr s =>
          match unhexlify s with
          | Some b => let d := decode_ascii_ignore b in
                      if nonempty d then Some d else None
          | None => None
          end
      | _ => None
      end in
    let src := match decoded with Some d => d | None => py_str hex_or_str end in
    let digits := str_filter is_digit (even_chars src) in
    if (16 <=? String.length digits)%nat then str_take 16 digits
    else (digits ++ repeat_char "0" (16 - String.length digits))%string.

Definition base_numeric_fields : list string :=
  ["EL_DEBIT_AMOUNT"; "EL_ON_NET_INDICATOR"; "EL_TAX1"; "EL_TAX2";
   "EL_UNLTD_ROUNDED_UNITS_CHARGED"; "EL_UNLTD_TOTAL_TIME_CHARGED"]%string.

(** The set [numeric_fields] built in [enforce_canonical]. *)
Definition numeric_fields : list string :=
  base_numeric_fields
  ++ flat_map (fun i => [fstr "EL_CUR_BALANCE" i; fstr "EL_CHG_BALANCE" i])
       [1; 2; 3; 4; 5]%nat.

Definition is_numeric_field (key : string) : bool :=
  existsb (String.eqb key) numeric_fields.

Definition float_zero : value := VFloat (f_zero false).

(** The value [enforce_canonical] stores under [key]. *)
Definition canonical_value (mapped : dict) (key : string) : value :=
  let default := if is_numeric_field key then float_zero else VStr "" in
  match dict_get key mapped with
  | Some v =>
      if (negb (is_none v) && negb (py_eq v (VStr "")))%bool then v else default
  | None => default
  end.

(** [enforce_canonical(mapped)] *)
Definition enforce_canonical (mapped : dict) : dict :=
  dict_update [] (map (fun key => (key, canonical_value mapped key)) CANONICAL_FIELDS).
(** *** Tree access *)

(** [safe_get(v, ["recordProperty"]) == name] *)
Definition has_rp (v : value) (name : string) : bool :=
  eq_str (sg v "recordProperty") name.

(** [for x in safe_get(v, ["recordSubExtensions"], []) or []] *)
Definition sub_exts (v : value) : res (list value) :=
  py_iter (sg_or v "recordSubExtensions" (VList [])).

(** [safe_get(v, ["recordElements"], {}) or {}] *)
Definition elements (v : value) : value := sg_or v "recordElements" (VDict []).

(** The first element with the given [recordProperty], else [None]. *)
Definition first_with_rp (name : string) (l : list value) : value :=
  match find (fun x => has_rp x name) l with
  | Some x => x
  | None => VNone
  end.

Fixpoint foldM {A S : Type} (f : S -> A -> res S) (l : list A) (s : S) : res S :=
  match l with
  | [] => Ok s
  | x :: t => let* s' := f s x in foldM f t s'
  end.

Definition is_some {A : Type} (o : option A) : bool :=
  match o with Some _ => true | None => false end.

Definition opt_float (o : option float) : value :=
  match o with Some f => VFloat f | None => VNone end.

(** [x if x is not None else 0.0] for [x = fmt_decimal_to_float(d)] *)
Definition float_or_zero (d : dec) : value :=
  match fmt_decimal_to_float d with Some f => VFloat f | None => float_zero end.

(** [a or b] on optional decimals. *)
Definition dec_or (a b : option dec) : option dec :=
  match a with
  | Some d => if dec_truthy d then a else b
  | None => b
  end.

Definition dec_or_zero (a : option dec) : dec :=
  match dec_or a (Some dec_zero) with Some d => d | None => dec_zero end.

(** [sep.join(l)] for a list of values: every item must be text. *)
Fixpoint texts (l : list value) : res (list string) :=
  match l with
  | [] => Ok []
  | VStr s :: t => let* r := texts t in Ok (s :: r)
  | _ :: _ => Raise TypeError
  end.

Definition py_join (sep : string) (l : list value) : res string :=
  let* ss := texts l in Ok (join sep ss).

(** *** EL_ACTUAL_USAGE and EL_RATE_USAGE (source lines 281-304) *)

Fixpoint actual_usage_loop (msccs : list value) : res (option float) :=
  match msccs with
  | [] => Ok None
  | mscc :: t =>
      if has_rp mscc "mscc" then
        let* tv := py_get (elements mscc) "totalTimeConsumed" in
        if negb (is_none tv) then
          match to_decimal tv with
          | Some d => Ok (fmt_decimal_to_float d)
          | None => actual_usage_loop t
          end
        else actual_usage_loop t
      else actual_usage_loop t
  end.

(** *** EL_DEBIT_AMOUNT and EL_FREE_UNIT_AMOUNT_OF_DURATION (lines 306-360) *)

(** The running pair [(el_debit_amt, el_free_units)]. *)
Definition debit_state : Type := (option float * option float)%type.

(** The second loop over a [chargingServiceInfo]: the last [accountInfo]
    elements and the last [noChargeCommittedUnits]. *)
Definition account_and_nocharge (s4s : list value) : res (value * value) :=
  foldM (fun (acc : value * value) s4 =>
           let acc1 := if has_rp s4 "accountInfo" then (elements s4, snd acc) else acc in
           if has_rp s4 "noCharge" then
             let* nv := py_get (elements s4) "noChargeCommittedUnits" in
             Ok (fst acc1, nv)
           else Ok acc1)
        s4s (VDict [], VNone).

Definition debit_charging (st : debit_state) (s3 : value) : res debit_state :=
  let* s4s := sub_exts s3 in
  let has_bucket := existsb (fun s4 => has_rp s4 "bucketInfo") s4s in
  let* (account_info, nocharge_val) := account_and_nocharge s4s in
  let '(deb, free) := st in
  if (negb has_bucket && truthy account_info)%bool then
    let* v0 := py_get account_info "accountBalanceCommittedBR" in
    let* v := if is_none v0 then py_get account_info "accountBalanceCommitted" else Ok v0 in
    let deb' :=
      if (negb (is_none v) && negb (is_some deb))%bool then
        match to_decimal v with
        | Some dv => fmt_decimal_to_float dv
        | None => deb
        end
      else deb in
    let free' :=
      if (negb (is_none nocharge_val) && negb (is_some free))%bool then
        match to_decimal nocharge_val with
        | Some d => fmt_decimal_to_float d
        | None => None
        end
      else free in
    Ok (deb', free')
  else if (truthy account_info && negb (is_some deb))%bool then
    let* b := py_get account_info "accountBalanceBefore" in
    let* a := py_get account_info "accountBalanceAfter" in
    match to_decimal b, to_decimal a with
    | Some bef, Some aft =>
        let* diff := dec_sub bef aft in
        Ok (fmt_decimal_to_float diff, free)
    | _, _ => Ok st
    end
  else Ok st.

Definition debit_subscription (st : debit_state) (s2 : value) : res debit_state :=
  if has_rp s2 "subscriptionInfo" then
    let* s3s := sub_exts s2 in
    foldM (fun st s3 =>
             if has_rp s3 "chargingServiceInfo" then debit_charging st s3 else Ok st)
          s3s st
  else Ok st.

Definition debit_device (st : debit_state) (sub : value) : res debit_state :=
  if has_rp sub "deviceInfo" then
    let* s2s := sub_exts sub in foldM debit_subscription s2s st
  else Ok st.

Fixpoint debit_loop (msccs : list value) (st : debit_state) : res debit_state :=
  match msccs with
  | [] => Ok st
  | mscc :: t =>
      if negb (has_rp mscc "mscc") then debit_loop t st
      else
        let* subs := sub_exts mscc in
        let* st' := foldM debit_device subs st in
        if (is_some (fst st') && is_some (snd st'))%bool then Ok st'
        else debit_loop t st'
  end.

(** *** Subscription identifiers (lines 186-263) *)

(** The pair [(dtype, ddata)] of every [subscriptionId] whose data is not
    [None], in order. *)
Fixpoint subscription_ids (sids : list value) : res (list (value * value)) :=
  match sids with
  | [] => Ok []
  | sid :: t =>
      if has_rp sid "subscriptionId" then
        let elems := elements sid in
        let* t1 := py_get elems "subscriptionIDType" in
        let* t2 := py_get elems "subscriptionIdType" in
        let* d1 := py_get elems "subscriptionIDData" in
        let* d2 := py_get elems "subscriptionIdData" in
        let dtype := py_or t1 t2 in
        let ddata := py_or d1 d2 in
        let* r := subscription_ids t in
        if is_none ddata then Ok r else Ok ((dtype, ddata) :: r)
      else subscription_ids t
  end.

(** [s.split('-', 1)[1]] for [s] that holds a ['-']. *)
Fixpoint after_dash (s : string) : string :=
  match s with
  | EmptyString => EmptyString
  | String c t => if Ascii.eqb c "-" then t else after_dash t
  end.

Definition imsi_data (ddata : value) : string :=
  let ds := py_str ddata in
  if startswith "imsi-" (lower ds) then after_dash ds else ds.

Definition imsi_type (dtype : value) : string :=
  if is_none dtype then ""%string else py_str dtype.

(** The ids under the first [listOfSubscriptionID] extension. *)
Definition ids_of_extensions (extensions : list value) : res (list (value * value)) :=
  let sub_ext := first_with_rp "listOfSubscriptionID" extensions in
  if truthy sub_ext then
    let* sids := sub_exts sub_ext in subscription_ids sids
  else Ok [].

(** [extract_imsi_from_extensions(extensions, event_label)] *)
Definition extract_imsi_from_extensions (extensions : list value) (event_label : value)
  : res (string * string) :=
  let* ids := ids_of_extensions extensions in
  let first_type1 :=
    match find (fun p => String.eqb (imsi_type (fst p)) "1") ids with
    | Some p => imsi_data (snd p)
    | None => ""%string
    end in
  let label := py_str event_label in
  let calling :=
    if (String.eqb label "1" || String.eqb label "821")%bool then first_type1 else ""%string in
  let called := if String.eqb label "2" then first_type1 else ""%string in
  Ok (calling, called).

(** [extract_subid_type0(extensions)] *)
Definition extract_subid_type0 (extensions : list value) : res (option string) :=
  let* ids := ids_of_extensions extensions in
  Ok (match find (fun p => String.eqb (py_str (fst p)) "0") ids with
      | Some p => Some (py_str (snd p))
      | None => None
      end).

(** [extract_any_subid(extensions)] *)
Definition extract_any_subid (extensions : list value) : res (option string) :=
  let* ids := ids_of_extensions extensions in
  Ok (match ids with
      | p :: _ => Some (py_str (snd p))
      | [] => None
      end).

Definition opt_nonempty (o : option string) : bool :=
  match o with Some s => nonempty s | None => false end.

Definition opt_text (o : option string) : string :=
  match o with Some s => s | None => ""%string end.

(** The normalisation of the calling number (lines 409-412). *)
Definition normalize_calling (v : value) : res value :=
  if negb (truthy v) then Ok v
  else
    match v with
    | VStr s =>
        if (negb (startswith "251" s) && (String.length s <? 10)%nat)%bool then
          let s1 := if startswith "0" s then lstrip_by (fun c => Ascii.eqb c "0") s else s in
          Ok (VStr ("251" ++ s1))
        else Ok v
    | _ => Raise AttributeError
    end.

(** The normalisation of the called number (lines 417-420). *)
Definition normalize_called (v : value) : res value :=
  if negb (truthy v) then Ok v
  else
    match v with
    | VStr s =>
        if (negb (startswith "251" s) && (String.length s <? 10)%nat)%bool then
          if startswith "0" s
          then Ok (VStr ("251" ++ lstrip_by (fun c => Ascii.eqb c "0") s))
          else Ok v
        else Ok v
    | _ => Raise AttributeError
    end.

(** *** Subscription blocks (lines 553-587) *)

Record bucket : Type := {
  bucketName : value;
  bucketUnitType : value;
  bucketBalanceBefore : option dec;
  bucketBalanceAfter : option dec;
  bucketCommitedUnits : option dec;
  rateId : value
}.

(** An entry of [bucket_subs]. *)
Record bucket_sub : Type := {
  bs_bundleName : value;
  bs_buckets : list bucket
}.

(** An entry of [account_only]. *)
Record account_entry : Type := {
  ae_bundleName : value;
  ae_acct : value
}.

Definition bucket_of (s4 : value) : res bucket :=
  let be := elements s4 in
  let* name := py_get be "bucketName" in
  let* ut := py_get be "bucketUnitType" in
  let* bb := py_get be "bucketBalanceBefore" in
  let* ba := py_get be "bucketBalanceAfter" in
  let* c1 := py_get be "bucketCommitedUnits" in
  let* c2 := py_get be "bucketCommittedUnits" in
  let* rid := py_get be "rateId" in
  Ok {| bucketName := py_or name (VStr "");
        bucketUnitType := py_or ut (VStr "");
        bucketBalanceBefore := to_decimal bb;
        bucketBalanceAfter := to_decimal ba;
        bucketCommitedUnits := to_decimal (py_or c1 c2);
        rateId := py_or rid (VStr "") |}.

(** The running triple [(has_bucket, acct_info, buckets)] of one
    [subscriptionInfo]. *)
Definition sub_state : Type := (bool * option value * list bucket)%type.

Definition scan_s4 (st : sub_state) (s4 : value) : res sub_state :=
  let '(has_bucket, acct_info, buckets) := st in
  let* st1 :=
    if has_rp s4 "bucketInfo" then
      let* b := bucket_of s4 in Ok (true, acct_info, buckets ++ [b])
    else Ok st in
  let '(has_bucket1, acct_info1, buckets1) := st1 in
  if (has_rp s4 "accountInfo" && negb (is_some acct_info1))%bool
  then Ok (has_bucket1, Some (elements s4), buckets1)
  else Ok st1.

Definition scan_s3 (st : sub_state) (s3 : value) : res sub_state :=
  if has_rp s3 "chargingServiceInfo" then
    let* s4s := sub_exts s3 in foldM scan_s4 s4s st
  else Ok st.

(** [safe_get(s2, ["recordElements","bundleName"]) or
    safe_get(s2, ["recordElements","bundle_name"]) or ""] *)
Definition bundle_of (s2 : value) : value :=
  py_or (safe_get s2 [PKey "recordElements"; PKey "bundleName"] VNone)
    (py_or (safe_get s2 [PKey "recordElements"; PKey "bundle_name"] VNone) (VStr "")).

(** The running pair [(account_only, bucket_subs)]. *)
Definition blocks : Type := (list account_entry * list bucket_sub)%type.

Definition collect_subscription (acc : blocks) (s2 : value) : res blocks :=
  if has_rp s2 "subscriptionInfo" then
    let bundle := bundle_of s2 in
    let* s3s := sub_exts s2 in
    let* (has_bucket, acct_info, buckets) := foldM scan_s3 s3s (false, None, []) in
    let '(account_only, bucket_subs) := acc in
    if (has_bucket && match buckets with [] => false | _ => true end)%bool then
      Ok (account_only,
          bucket_subs ++ [{| bs_bundleName := bundle; bs_buckets := buckets |}])
    else
      match acct_info with
      | Some a =>
          if truthy a
          then Ok (account_only ++ [{| ae_bundleName := bundle; ae_acct := a |}],
                   bucket_subs)
          else Ok acc
      | None => Ok acc
      end
  else Ok acc.

Definition collect_device (acc : blocks) (sub : value) : res blocks :=
  if has_rp sub "deviceInfo" then
    let* s2s := sub_exts sub in foldM collect_subscription s2s acc
  else Ok acc.

Definition collect_mscc (acc : blocks) (mscc : value) : res blocks :=
  if negb (has_rp mscc "mscc") then Ok acc
  else let* subs := sub_exts mscc in foldM collect_device subs acc.

(** The lists [account_only] and [bucket_subs]. *)
Definition collect_blocks (msccs : list value) : res blocks :=
  foldM collect_mscc msccs ([], []).

(** *** The five account slots (lines 589-617) *)

(** The value stored in [EL_CHG_BALANCE{n}]. *)
Definition account_chg (acct : value) (before cur : option dec) : res value :=
  match before, cur with
  | Some b, Some c =>
      let* diff := dec_sub b c in
      let* nonneg := dec_ge diff dec_zero in
      if nonneg then Ok (float_or_zero diff)
      else
        let* c1 := py_get acct "accountBalanceCommitted" in
        let* c2 := py_get acct "accountBalanceCommittedBR" in
        let committed := dec_or_zero (dec_or (to_decimal c1) (to_decimal c2)) in
        let* s1 := py_get acct "secondaryCostCommitted" in
        let secondary := dec_or_zero (to_decimal s1) in
        let* ssum := dec_add committed secondary in
        Ok (float_or_zero ssum)
  | _, _ => Ok float_zero
  end.

Definition account_slot (n : nat) (entry : option account_entry)
  : res (list (string * value)) :=
  match entry with
  | Some acct_entry =>
      let acct := ae_acct acct_entry in
      let* id := py_get acct "accountID" in
      let* ty := py_get acct "accountType" in
      let* after := py_get acct "accountBalanceAfter" in
      let cur := to_decimal after in
      let cur_v := match cur with
                   | Some c => opt_float (fmt_decimal_to_float c)
                   | None => float_zero
                   end in
      let* bef := py_get acct "accountBalanceBefore" in
      let before := to_decimal bef in
      let* chg := account_chg acct before cur in
      let* rate := py_get acct "rateId" in
      Ok [(fstr "EL_ACCT_BALANCE_ID" n, py_or id (VStr ""));
          (fstr "EL_BALANCE_TYPE" n, py_or ty (VStr ""));
          (fstr "EL_CUR_BALANCE" n, cur_v);
          (fstr "EL_CHG_BALANCE" n, chg);
          (fstr "EL_RATE_ID" n, py_or rate (VStr ""))]
  | None =>
      Ok [(fstr "EL_ACCT_BALANCE_ID" n, VStr "");
          (fstr "EL_BALANCE_TYPE" n, VStr "");
          (fstr "EL_CUR_BALANCE" n, float_zero);
          (fstr "EL_CHG_BALANCE" n, float_zero);
          (fstr "EL_RATE_ID" n, VStr "")]
  end.

(** [range(5)] *)
Definition slot_indices : list nat := [0; 1; 2; 3; 4]%nat.

(** [for idx in range(5)] over [account_only]: the assignments in order. *)
Definition account_slots (account_only : list account_entry)
  : res (list (string * value)) :=
  let* groups := mapM (fun idx => account_slot (idx + 1) (nth_error account_only idx))
                      slot_indices in
  Ok (List.concat groups).

(** *** The five bucket slots (lines 619-659) *)

Definition truthy_values (l : list value) : list value := filter truthy l.

(** [str(fmt_decimal_to_float(d))] *)
Definition float_text (d : dec) : string :=
  match fmt_decimal_to_float d with
  | Some f => float_repr f
  | None => "None"%string
  end.

(** [str(x if x is not None else 0.0)] for [x = fmt_decimal_to_float(d)] *)
Definition float_or_zero_text (d : dec) : string :=
  match fmt_decimal_to_float d with
  | Some f => float_repr f
  | None => float_repr (f_zero false)
  end.

(** One item of [cur_vals]. *)
Definition bucket_cur (b : bucket) : string :=
  match bucketBalanceAfter b with
  | Some ba => float_text ba
  | None => "0.0"%string
  end.

(** One item of [chg_vals]. *)
Definition bucket_chg (b : bucket) : res string :=
  let committed := dec_or_zero (bucketCommitedUnits b) in
  match bucketBalanceBefore b, bucketBalanceAfter b with
  | Some before, Some after =>
      let* diff := dec_sub before after in
      let* nonneg := dec_ge diff dec_zero in
      if nonneg then Ok (float_or_zero_text diff)
      else Ok (float_or_zero_text committed)
  | _, _ => Ok (float_or_zero_text committed)
  end.

(** [a + b] where [b] is text. *)
Definition py_add_text (a : value) (b : string) : res string :=
  match a with
  | VStr s => Ok (s ++ b)%string
  | _ => Raise TypeError
  end.

Definition bucket_slot (n : nat) (entry : option bucket_sub)
  : res (list (string * value)) :=
  match entry with
  | Some e =>
      let bundle := py_or (bs_bundleName e) (VStr "") in
      let buckets := bs_buckets e in
      let names := truthy_values (map bucketName buckets) in
      let* id_val :=
        if (truthy bundle && match names with [] => false | _ => true end)%bool then
          let* prefix := py_add_text bundle "-" in
          let* joined := py_join "," names in
          Ok (VStr (prefix ++ joined))
        else if truthy bundle then Ok bundle
        else let* j := py_join "," names in Ok (VStr j) in
      let* types := py_join "," (truthy_values (map bucketUnitType buckets)) in
      let cur_vals := map bucket_cur buckets in
      let* chg_vals := mapM bucket_chg buckets in
      let* rates := py_join "," (truthy_values (map rateId buckets)) in
      Ok [(fstr "EL_BUCKET_BALANCE_ID" n, id_val);
          (fstr "EL_BUCKET_BALANCE_TYPE" n, VStr types);
          (fstr "EL_BUCKET_CUR_BALANCE" n, VStr (join "," cur_vals));
          (fstr "EL_BUCKET_CHG_BALANCE" n, VStr (join "," chg_vals));
          (fstr "EL_BUCKET_RATE_ID" n, VStr rates)]
  | None =>
      Ok [(fstr "EL_BUCKET_BALANCE_ID" n, VStr "");
          (fstr "EL_BUCKET_BALANCE_TYPE" n, VStr "");
          (fstr "EL_BUCKET_CUR_BALANCE" n, float_zero);
          (fstr "EL_BUCKET_CHG_BALANCE" n, float_zero);
          (fstr "EL_BUCKET_RATE_ID" n, VStr "")]
  end.

(** [for idx in range(5)] over [bucket_subs]: the assignments in order. *)
Definition bucket_slots (bucket_subs : list bucket_sub)
  : res (list (string * value)) :=
  let* groups := mapM (fun idx => bucket_slot (idx + 1) (nth_error bucket_subs idx))
                      slot_indices in
  Ok (List.concat groups).

(** *** EL_ALTERNATE_ID (lines 486-500) *)

Definition alt_ids_subscription (acc : list string) (s2 : value) : res (list string) :=
  if has_rp s2 "subscriptionInfo" then
    let* a := py_get (elements s2) "alternateId" in
    if truthy a then Ok (acc ++ [py_str a]) else Ok acc
  else Ok acc.

Definition alt_ids_device (acc : list string) (d : value) : res (list string) :=
  if has_rp d "deviceInfo" then
    let* s2s := sub_exts d in foldM alt_ids_subscription s2s acc
  else Ok acc.

Definition alt_ids_sub (acc : list string) (sub : value) : res (list string) :=
  let* ds := sub_exts sub in foldM alt_ids_device ds acc.

Definition alt_ids_ext (acc : list string) (ext : value) : res (list string) :=
  if has_rp ext "listOfMscc" then
    let* subs := sub_exts ext in foldM alt_ids_sub subs acc
  else Ok acc.

(** *** EL_MAIN_OFFERING_ID (lines 505-530) *)

Definition sub_has_bucket (s2 : value) : res bool :=
  let* s3s := sub_exts s2 in
  foldM (fun (hb : bool) s3 =>
           if has_rp s3 "chargingServiceInfo" then
             let* s4s := sub_exts s3 in
             Ok (hb || existsb (fun s4 => has_rp s4 "bucketInfo") s4s)%bool
           else Ok hb)
        s3s false.

Fixpoint main_off_subscriptions (s2s : list value) : res value :=
  match s2s with
  | [] => Ok (VStr "")
  | s2 :: t =>
      if has_rp s2 "subscriptionInfo" then
        let bundle := bundle_of s2 in
        let* hb := sub_has_bucket s2 in
        if (truthy bundle && negb hb)%bool then Ok bundle
        else main_off_subscriptions t
      else main_off_subscriptions t
  end.

Fixpoint main_off_devices (subs : list value) : res value :=
  match subs with
  | [] => Ok (VStr "")
  | sub :: t =>
      if has_rp sub "deviceInfo" then
        let* s2s := sub_exts sub in
        let* m := main_off_subscriptions s2s in
        if truthy m then Ok m else main_off_devices t
      else main_off_devices t
  end.

Fixpoint main_off_loop (msccs : list value) : res value :=
  match msccs with
  | [] => Ok (VStr "")
  | mscc :: t =>
      if negb (has_rp mscc "mscc") then main_off_loop t
      else
        let* subs := sub_exts mscc in
        let* m := main_off_devices subs in
        if truthy m then Ok m else main_off_loop t
  end.

(** *** additionalBalanceInfo aggregation (lines 661-758) *)

(** The elements of the first [bucketInfo] child, else [{}]. *)
Definition first_bucket_elements (l : list value) : value :=
  match find (fun b => has_rp b "bucketInfo") l with
  | Some b => elements b
  | None => VDict []
  end.

Definition additional_block (s4 : value) : res dict :=
  let ab_elems := elements s4 in
  let* n1 := py_get ab_elems "chargingServiceName" in
  let* n2 := py_get ab_elems "chargingservicename" in
  let chargingName := py_or n1 (py_or n2 (VStr "")) in
  let* s5s := sub_exts s4 in
  let adj := first_with_rp "adjustBalanceInfo" s5s in
  let adj_elems := sg_or adj "recordElements" (VDict []) in
  let* bucket_elems0 :=
    if truthy adj then
      let* bs := sub_exts adj in Ok (first_bucket_elements bs)
    else Ok (VDict []) in
  let bucket_elems :=
    if negb (truthy bucket_elems0) then first_bucket_elements s5s else bucket_elems0 in
  let* usageType := py_get adj_elems "usageType" in
  let* usedAs := py_get adj_elems "usedAs" in
  let* be := match bucket_elems with
             | VDict d => Ok d
             | _ => Raise AttributeError
             end in
  let g (k : string) : value :=
    match dict_get k be with Some x => x | None => VNone end in
  let text (k : string) : value := py_or (g k) (VStr "") in
  Ok [("chargingServiceName", chargingName);
      ("usageType", py_or usageType (VStr ""));
      ("usedAs", py_or usedAs (VStr ""));
      ("bucketName", text "bucketName");
      ("bucketUnitType", text "bucketUnitType");
      ("bucketKindOfUnit", text "bucketKindOfUnit");
      ("bucketBalanceBefore", g "bucketBalanceBefore");
      ("bucketBalanceAfter", g "bucketBalanceAfter");
      ("carryOverBucket", text "carryOverBucket");
      ("bucketCommitedUnits", py_or (g "bucketCommitedUnits") (g "bucketCommittedUnits"));
      ("bucketReservedUnits", g "bucketReservedUnits");
      ("rateId", text "rateId");
      ("primaryCostCommitted", g "primaryCostCommitted");
      ("secondaryCostCommitted", g "secondaryCostCommitted");
      ("taxationID", py_or (g "taxationID") (py_or (g "taxationId") (VStr "")));
      ("taxRateApplied", g "taxRateApplied");
      ("committedTaxAmount", g "committedTaxAmount");
      ("totalTaxAmount", g "totalTaxAmount");
      ("tariffID", py_or (g "tariffID") (py_or (g "tariffId") (VStr "")));
      ("totalUnitsCharged", g "totalUnitsCharged");
      ("totalTimeCharged", g "totalTimeCharged");
      ("roundedTimeCharged", g "roundedTimeCharged");
      ("deltaTime", g "deltaTime")]%string.

Definition additional_s4 (acc : list dict) (s4 : value) : res (list dict) :=
  if has_rp s4 "additionalBalanceInfo" then
    let* b := additional_block s4 in Ok (acc ++ [b])
  else Ok acc.

Definition additional_s3 (acc : list dict) (s3 : value) : res (list dict) :=
  if has_rp s3 "chargingServiceInfo" then
    let* s4s := sub_exts s3 in foldM additional_s4 s4s acc
  else Ok acc.

Definition additional_s2 (acc : list dict) (s2 : value) : res (list dict) :=
  if has_rp s2 "subscriptionInfo" then
    let* s3s := sub_exts s2 in foldM additional_s3 s3s acc
  else Ok acc.

Definition additional_device (acc : list dict) (sub : value) : res (list dict) :=
  if has_rp sub "deviceInfo" then
    let* s2s := sub_exts sub in foldM additional_s2 s2s acc
  else Ok acc.

Definition additional_mscc (acc : list dict) (mscc : value) : res (list dict) :=
  if negb (has_rp mscc "mscc") then Ok acc
  else let* subs := sub_exts mscc in foldM additional_device subs acc.

(** [_join_vals(key)] *)
Definition join_vals (additional_blocks : list dict) (key : string) : string :=
  join ","
    (flat_map (fun a =>
                 match dict_get key a with
                 | Some v => if (is_none v || py_eq v (VStr ""))%bool then [] else [py_str v]
                 | None => []
                 end)
              additional_blocks).

(** The output field and the block key of each aggregated column, in the
    order of the assignments. *)
Definition additional_columns : list (string * string) :=
  [("EL_ADDITIONALBALANCEINFO_CHARGINGSERVICENAME", "chargingServiceName");
   ("EL_ADDITIONALBALANCEINFO_USAGETYPE", "usageType");
   ("EL_ADDITIONALBALANCEINFO_USEDAS", "usedAs");
   ("EL_ADDITIONALBALANCEINFO_BUCKETINFO_BUCKETNAME", "bucketName");
   ("EL_ADDITIONALBALANCEINFO_BUCKETINFO_BUCKETUNITTYPE", "bucketUnitType");
   ("EL_ADDITIONALBALANCEINFO_BUCKETINFO_BUCKETKINDOFUNIT", "bucketKindOfUnit");
   ("EL_ADDITIONALBALANCEINFO_BUCKETINFO_BUCKETBALANCEBEFORE", "bucketBalanceBefore");
   ("EL_ADDITIONALBALANCEINFO_BUCKETINFO_BUCKETBALANCEAFTER", "bucketBalanceAfter");
   ("EL_ADDITIONALBALANCEINFO_BUCKETINFO_CARRYOVERBUCKET", "carryOverBucket");
   ("EL_ADDITIONALBALANCEINFO_BUCKETINFO_BUCKETCOMMITEDUNITS", "bucketCommitedUnits");
   ("EL_ADDITIONALBALANCEINFO_BUCKETINFO_BUCKETRESERVEDUNITS", "bucketReservedUnits");
   ("EL_ADDITIONALBALANCEINFO_BUCKETINFO_RATEID", "rateId");
   ("EL_ADDITIONALBALANCEINFO_BUCKETINFO_PRIMARYCOSTCOMMITTED", "primaryCostCommitted");
   ("EL_ADDITIONALBALANCEINFO_BUCKETINFO_SECONDARYCOSTCOMMITTED", "secondaryCostCommitted");
   ("EL_ADDITIONALBALANCEINFO_BUCKETINFO_TAXATIONID", "taxationID");
   ("EL_ADDITIONALBALANCEINFO_BUCKETINFO_TAXRATEAPPLIED", "taxRateApplied");
   ("EL_ADDITIONALBALANCEINFO_BUCKETINFO_COMMITTEDTAXAMOUNT", "committedTaxAmount");
   ("EL_ADDITIONALBALANCEINFO_BUCKETINFO_TOTALTAXAMOUNT", "totalTaxAmount");
   ("EL_ADDITIONALBALANCEINFO_BUCKETINFO_TARIFFID", "tariffID");
   ("EL_ADDITIONALBALANCEINFO_BUCKETINFO_TOTALUNITSCHARGED", "totalUnitsCharged");
   ("EL_ADDITIONALBALANCEINFO_BUCKETINFO_TOTALTIMECHARGED", "totalTimeCharged");
   ("EL_ADDITIONALBALANCEINFO_BUCKETINFO_ROUNDEDTIMECHARGED", "roundedTimeCharged");
   ("EL_ADDITIONALBALANCEINFO_BUCKETINFO_DELTATIME", "deltaTime")]%string.

(** *** Unlimited bundle detection (lines 760-777) *)

Fixpoint unlimited_loop (account_only : list account_entry)
  : res (list (string * value)) :=
  match account_only with
  | [] => Ok []
  | entry :: t =>
      let acct := py_or (ae_acct entry) (VDict []) in
      let bundle_name := py_or (ae_bundleName entry) (VStr "") in
      let* c1 := py_get acct "accountBalanceCommitted" in
      let* c2 := py_get acct "accountBalanceCommittedBR" in
      let committed := dec_or (to_decimal c1) (to_decimal c2) in
      let* t1 := py_get acct "totalTimeCharged" in
      let* t2 := py_get acct "roundedTimeCharged" in
      let total_time := dec_or (to_decimal t1) (to_decimal t2) in
      let* hit :=
        match committed with
        | Some c =>
            let* z := dec_eq c dec_zero in
            if z then
              match total_time with
              | Some total =>
                  let* pos := dec_gt total dec_zero in
                  Ok (if pos then Some total else None)
              | None => Ok None
              end
            else Ok None
        | None => Ok None
        end in
      match hit with
      | Some total =>
          Ok [("EL_UNLTD_BUNDLE_NAME", bundle_name);
              ("EL_UNLTD_TOTAL_TIME_CHARGED", float_or_zero total);
              ("EL_UNLTD_BUNDLE_UNIT_TYPE", VStr "TIME")]%string
      | None => unlimited_loop t
      end
  end.

(** *** [map_voice] *)

Definition dget (d : dict) (k : string) : value :=
  match dict_get k d with Some x => x | None => VNone end.

(** [a or b or c] *)
Definition or3 (a b c : value) : value := py_or a (py_or b c).

Definition as_dict (v : value) : res dict :=
  match v with VDict d => Ok d | _ => Raise AttributeError end.

(** The location fields (lines 435-453). *)
Definition location_info (user_loc rat : value) : string :=
  if truthy user_loc then
    if String.eqb (py_str rat) "6" then decode_location_hex_field user_loc
    else
      let tail := last_n_chars user_loc 13 in
      if (13 <=? String.length tail)%nat
      then (slice 0 5 tail ++ "-" ++ slice 5 9 tail ++ "-" ++ slice 9 13 tail)%string
      else tail
  else ""%string.

(** EL_ON_NET_INDICATOR (lines 469-476). *)
Definition on_net_indicator (on_net : value) : value :=
  match on_net with
  | VBool b => VInt (if b then 1 else 0)
  | VStr s => VInt (if String.eqb (lower s) "true" then 1 else 0)
  | _ => VInt 0
  end.

(** What the first lines of [map_voice] read from the record: the root
    attributes, the extensions, the [mscc] children of the first
    [listOfMscc] extension, and the [CBL_TAG] entry. *)
Record context : Type := {
  c_re : dict;
  c_exts : list value;
  c_msccs : list value;
  c_cbl : value
}.

(** Lines 267-270 and the first use of [record_elems], [extensions] and
    [list_of_mscc_ext] (lines 274, 285, 290), in the order in which they can
    raise. *)
Definition prelude (cdr_json : value) : res context :=
  let generic :=
    py_or (safe_get cdr_json [PKey "original"; PKey "payload"; PKey "genericRecord"]
             (VDict [])) cdr_json in
  let record_elems := elements generic in
  let extensions := sg_or generic "recordExtensions" (VList []) in
  let* cbl0 := py_get cdr_json "CBL_TAG" in
  let cbl := py_or cbl0 (VDict []) in
  let* re := as_dict record_elems in
  let* exts := py_iter extensions in
  let list_of_mscc_ext := first_with_rp "listOfMscc" exts in
  let* msccs := if truthy list_of_mscc_ext then sub_exts list_of_mscc_ext else Ok [] in
  Ok {| c_re := re; c_exts := exts; c_msccs := msccs; c_cbl := cbl |}.

(** The assignments of lines 274-551, in order.  A key assigned twice
    appears twice; the later assignment wins. *)
Definition head_fields (ctx : context) (imei_normalize : bool)
  : res (list (string * value)) :=
  let re := c_re ctx in
  let exts := c_exts ctx in
  let msccs := c_msccs ctx in
  let cbl := c_cbl ctx in
  let* el_actual_usage := actual_usage_loop msccs in
  let usage := match el_actual_usage with Some f => VFloat f | None => float_zero end in
  let* (el_debit_amt, el_free_units) := debit_loop msccs (None, None) in
  let* cbl_label :=
    if is_dict cbl then py_get cbl "EL_EVENT_LABEL_VAL" else Ok VNone in
  let event_label :=
    if negb (is_none cbl_label) then cbl_label
    else or3 (dget re "EL_EVENT_LABEL_VAL") (dget re "eventLabel")
             (dget re "eventLabelValue") in
  let* el_service_flow :=
    match find (fun m => has_rp m "mscc") msccs with
    | Some mscc =>
        let* t := py_get (elements mscc) "subRecordEventType" in
        Ok (py_or t VNone)
    | None => Ok VNone
    end in
  let service_flow :=
    py_or el_service_flow (py_or (dget re "subRecordEventType") (VStr "VOICE")) in
  let subrec_type := or3 el_service_flow (dget re "subRecordEventType") (VStr "") in
  let roaming_flag :=
    upper (py_str (or3 (dget re "roamingIndicator") (dget re "RoamingStatus") (VStr ""))) in
  let* (calling_imsi, called_imsi) := extract_imsi_from_extensions exts event_label in
  let* subid0 := extract_subid_type0 exts in
  let* any_subid := extract_any_subid exts in
  let cond_use_subid :=
    ((String.eqb roaming_flag "ROAMING" && eq_str subrec_type "MTC")
     || eq_str subrec_type "FWD")%bool in
  let calling_number0 :=
    if (cond_use_subid && opt_nonempty subid0)%bool then VStr (opt_text subid0)
    else if (cond_use_subid && opt_nonempty any_subid)%bool then VStr (opt_text any_subid)
    else if opt_nonempty subid0 then VStr (opt_text subid0)
    else if opt_nonempty any_subid then VStr (opt_text any_subid)
    else py_or (dget re "callingPartyAddress")
           (or3 (dget re "originatorAddress") (dget re "callingParty") (VStr "")) in
  let* calling_number := normalize_calling calling_number0 in
  let* called_number :=
    normalize_called
      (py_or (dget re "calledPartyAddress")
         (or3 (dget re "recipientAddress") (dget re "calledParty") (VStr ""))) in
  let user_loc :=
    or3 (dget re "userLocationInformation") (dget re "origUserLocationInfo") (VStr "") in
  let rat := or3 (dget re "rATType") (dget re "ratType") (dget re "rAT") in
  let location := VStr (location_info user_loc rat) in
  let raw_imei := or3 (dget re "userEquipmentValue") (dget re "imei") (VStr "") in
  let* cbl_pre_post := if is_dict cbl then py_get cbl "EL_PRE_POST" else Ok (VStr "") in
  let* alt_ids := foldM alt_ids_ext exts [] in
  let* main_off := main_off_loop msccs in
  let* el_tax1 :=
    if is_dict cbl then let* t := py_get cbl "EL_TAX1" in Ok (to_decimal t) else Ok None in
  let* el_tax2 :=
    if is_dict cbl then let* t := py_get cbl "EL_TAX2" in Ok (to_decimal t) else Ok None in
  let tax (o : option dec) : value :=
    match o with Some d => opt_float (fmt_decimal_to_float d) | None => float_zero end in
  Ok [("EL_CDR_ID", or3 (dget re "sessionId") (dget re "recordId") (VStr ""));
      ("EL_SRC_CDR_ID", py_or (dget re "sessionSequenceNumber") (VStr ""));
      ("EL_CUST_LOCAL_START_DATE",
        py_or (dget re "callAnswerTime")
          (or3 (dget re "recordOpeningTime") (dget re "generationTimestamp") (VStr "")));
      ("EL_SESSION_ID", py_or (dget re "sessionId") (VStr ""));
      ("EL_ACTUAL_USAGE", usage);
      ("EL_RATE_USAGE", usage);
      ("EL_DEBIT_AMOUNT",
        match el_debit_amt with Some f => VFloat f | None => float_zero end);
      ("EL_FREE_UNIT_AMOUNT_OF_DURATION",
        match el_free_units with Some f => VFloat f | None => VStr "" end);
      ("EL_SERVICE_FLOW", service_flow);
      ("EL_CALLING_PARTY_NUMBER", calling_number);
      ("EL_CALLED_PARTY_NUMBER", called_number);
      ("EL_CALLING_PARTY_IMSI", VStr calling_imsi);
      ("EL_CALLED_PARTY_IMSI", VStr called_imsi);
      ("EL_SERVICE_FLOW", service_flow);
      ("EL_CALLING_LOCATION_INFO", location);
      ("EL_CALLED_LOCATION_INFO", location);
      ("EL_SEND_RESULT", py_or (dget re "resultCode") (VStr ""));
      ("EL_IMEI", if imei_normalize
                  then VStr (imei_from_user_equipment_value raw_imei) else raw_imei);
      ("EL_REFUND_INDICATOR", VStr "");
      ("EL_MAIN_OFFERING_ID", VStr "");
      ("EL_CHARGING_PARTY_NUMBER", calling_number);
      ("EL_CHARGE_PARTY_IND", VStr "");
      ("EL_PAY_TYPE", or3 (dget re "EL_PRE_POST") (dget re "prePost") cbl_pre_post);
      ("EL_ON_NET_INDICATOR", on_net_indicator (dget re "isOnNet"));
      ("EL_ROAM_STATE", or3 (dget re "RoamingStatus") (dget re "roamingIndicator") (VStr ""));
      ("EL_OPPOSE_NETWORK_TYPE", or3 (dget re "rATType") (dget re "ratType") (VStr ""));
      ("EL_CALLING_VPN_TOP_GROUP_NUMBER", py_or (dget re "groupID") (VStr ""));
      ("EL_CALLING_VPN_GROUP_NUMBER", VStr "");
      ("EL_CALLING_VPN_SHORT_NUMBERs", VStr "");
      ("EL_CALLED_VPN_TOP_GROUP_NUMBER", VStr "");
      ("EL_CALLED_VPN_GROUP_NUMBER", VStr "");
      ("EL_CALLED_VPN_SHORT_NUMBER", VStr "");
      ("EL_LAST_EFFECT_OFFERING", VStr "");
      ("EL_ALTERNATE_ID", VStr (join "~" alt_ids));
      ("EL_HOME_ZONE_ID", VStr "");
      ("EL_USER_STATE", py_or (dget re "deviceState") (VStr ""));
      ("EL_PAY_DEFAULT_ACCT_ID", VStr "");
      ("EL_MAIN_OFFERING_ID", main_off);
      ("EL_TAX1", tax el_tax1);
      ("EL_TAX2", tax el_tax2);
      ("EL_USER_GROUP_ID", py_or (dget re "groupID") (VStr ""))]%string.

(** The assignments of lines 661-777, in order. *)
Definition tail_fields (ctx : context) (account_only : list account_entry)
  : res (list (string * value)) :=
  let additional_defaults :=
    map (fun k => (k, VStr ""))
        (filter (startswith "EL_ADDITIONALBALANCEINFO_") CANONICAL_FIELDS) in
  let* additional_blocks := foldM additional_mscc (c_msccs ctx) [] in
  let additional :=
    map (fun c => (fst c, VStr (join_vals additional_blocks (snd c)))) additional_columns in
  let unlimited_defaults :=
    [("EL_UNLTD_BUNDLE_NAME", VStr "");
     ("EL_UNLTD_TOTAL_TIME_CHARGED", float_zero);
     ("EL_UNLTD_ROUNDED_UNITS_CHARGED", VStr "");
     ("EL_UNLTD_BUNDLE_UNIT_TYPE", VStr "")]%string in
  let* unlimited := unlimited_loop account_only in
  Ok (additional_defaults ++ additional ++ unlimited_defaults ++ unlimited).

(** The lists [account_only] and [bucket_subs] of a record (lines 553-587). *)
Definition subscription_blocks (cdr_json : value) : res blocks :=
  let* ctx := prelude cdr_json in collect_blocks (c_msccs ctx).

(** The assignments to [out], in the order of the source. *)
Definition map_voice_out (cdr_json : value) (imei_normalize : bool)
  : res (list (string * value)) :=
  let* ctx := prelude cdr_json in
  let* head := head_fields ctx imei_normalize in
  let* (account_only, bucket_subs) := collect_blocks (c_msccs ctx) in
  let* acct_fields := account_slots account_only in
  let* bucket_fields := bucket_slots bucket_subs in
  let* tail := tail_fields ctx account_only in
  Ok (head ++ acct_fields ++ bucket_fields ++ tail).

(** [map_voice(cdr_json, imei_normalize)] *)
Definition map_voice (cdr_json : value) (imei_normalize : bool) : res dict :=
  let* assignments := map_voice_out cdr_json imei_normalize in
  Ok (enforce_canonical (dict_update [] assignments)).

(** *** [validate_canonical_record] *)

(** The set [numeric_fields] built in [validate_canonical_record]. *)
Definition validated_numeric_fields : list string :=
  base_numeric_fields
  ++ flat_map (fun i => [fstr "EL_CUR_BALANCE" i; fstr "EL_CHG_BALANCE" i;
                         fstr "EL_BUCKET_CUR_BALANCE" i; fstr "EL_BUCKET_CHG_BALANCE" i])
       [1; 2; 3; 4; 5]%nat.

(** [is_numeric_value(v)] *)
Definition is_numeric_value (v : value) : bool :=
  match v with
  | VBool _ | VInt _ | VFloat _ => true
  | VStr s =>
      let parts :=
        map strip (filter (fun p => negb (String.eqb (strip p) "")) (split_on "," s)) in
      match parts with
      | [] => false
      | _ => forallb (fun p => is_some (float_parse p)) parts
      end
  | _ => false
  end.

(** [list(rec.keys()) != CANONICAL_FIELDS], negated. *)
Fixpoint same_keys (a b : list string) : bool :=
  match a, b with
  | [], [] => true
  | x :: a', y :: b' => (String.eqb x y && same_keys a' b')%bool
  | _, _ => false
  end.

(** [validate_canonical_record(rec)]: the flag of the pair, without the
    message. *)
Definition validate_canonical_record (rec : dict) : bool :=
  if negb (same_keys (dict_keys rec) CANONICAL_FIELDS) then false
  else forallb (fun k => is_numeric_value (dget rec k)) validated_numeric_fields.

End voice.

(* ================================================================= *)
(** ** [decoder.py] *)

Module decoder.

(** *** The framing loop *)

(** The compiled ASN.1 specification, an object of the [asn1tools]
    library: [decode_with_length] when the attribute exists, [decode] and
    [encode]. *)
Record asn1_spec : Type := {
  decode_with_length : option (list Byte.byte -> res (value * Z));
  decode : list Byte.byte -> res value;
  encode : value -> res (list Byte.byte)
}.

Definition TOP_LEVEL_TYPE : string := "SPSRecord".

Definition valid_tags : list string :=
  ["a0"; "a1"; "a2"; "a3"; "a4"; "a5"; "a6"; "bf8148"; "31"]%string.

(** The body of the [try]: the decoded value and [record_len]. *)
Definition decode_one (spec : asn1_spec) (slice_data : list Byte.byte)
  : res (value * Z) :=
  match decode_with_length spec with
  | Some f => f slice_data
  | None =>
      let* decoded := decode spec slice_data in
      let* encoded_bytes := encode spec decoded in
      Ok (decoded, Z.of_nat (List.length encoded_bytes))
  end.

Inductive log_event : Type :=
| SkippedUnknownTag (first_byte : string) (offset : Z)
| DecodingFailed (offset : Z).

Record framer_state : Type := {
  records : list value;
  offset : Z;
  record_count : Z;
  log : list log_event
}.

(** [raw_data[offset:]] *)
Definition bytes_from (raw_data : list Byte.byte) (offset : Z) : list Byte.byte :=
  let len := Z.of_nat (List.length raw_data) in
  let start := if offset <? 0 then Z.max 0 (len + offset) else offset in
  skipn (Z.to_nat start) raw_data.

(** [f"{b:02x}"] *)
Definition hex_of_byte (b : Byte.byte) : string :=
  hex2 (N.to_nat (Byte.to_N b)).

Definition record_entry (record_count : Z) (record_len : Z) (decoded : value) : value :=
  VDict [(("record" ++ Z_to_string record_count)%string,
          VDict [("header"%string, VDict [("recordLength"%string, VInt record_len)]);
                 ("payload"%string, VDict [("genericRecord"%string, decoded)])])].

(** One iteration of the [while]; [None] when the loop is left. *)
Definition frame_step (spec : asn1_spec) (raw_data : list Byte.byte)
  (st : framer_state) : option framer_state :=
  let total_len := Z.of_nat (List.length raw_data) in
  if offset st <? total_len then
    match bytes_from raw_data (offset st) with
    | [] => None
    | (b :: _) as slice_data =>
        match decode_one spec slice_data with
        | Ok (decoded, record_len) =>
            Some {| records := records st
                               ++ [record_entry (record_count st) record_len decoded];
                    offset := offset st + record_len;
                    record_count := record_count st + 1;
                    log := log st |}
        | Raise _ =>
            let first_byte := hex_of_byte b in
            Some {| records := records st;
                    offset := offset st + 1;
                    record_count := record_count st;
                    log := log st
                           ++ [if existsb (String.eqb first_byte) valid_tags
                               then DecodingFailed (offset st)
                               else SkippedUnknownTag first_byte (offset st)] |}
        end
    end
  else None.

Definition initial_state : framer_state :=
  {| records := []; offset := 0; record_count := 1; log := [] |}.

(** The [while] loop run for at most [fuel] iterations: the final state and
    the number of iterations, or [None] when the fuel runs out first. *)
Fixpoint frame_loop (spec : asn1_spec) (raw_data : list Byte.byte) (fuel : nat)
  (st : framer_state) : option (framer_state * nat) :=
  match frame_step spec raw_data st with
  | None => Some (st, O)
  | Some st' =>
      match fuel with
      | O => None
      | S fuel' =>
          match frame_loop spec raw_data fuel' st' with
          | Some (final, n) => Some (final, S n)
          | None => None
          end
      end
  end.

(** [decode_all_ber_records(raw_data, spec)], with the iteration bound
    explicit. *)
Definition decode_all_ber_records (fuel : nat) (raw_data : list Byte.byte)
  (spec : asn1_spec) : option (list value) :=
  match frame_loop spec raw_data fuel initial_state with
  | Some (st, _) => Some (records st)
  | None => None
  end.

(** *** Flattening *)

Definition is_var_key (k : string) : bool :=
  (String.eqb k "varName" || String.eqb k "varValue")%bool.

(** [_is_var_pair(d)] on the entries of a dict. *)
Definition is_var_pair (d : dict) : bool :=
  (forallb (fun kv => is_var_key (fst kv)) d
   && dict_has "varName" d && dict_has "varValue" d)%bool.

Definition dict_item (d : dict) (k : string) : value :=
  match dict_get k d with Some v => v | None => VNone end.

(** [_flatten_var_pair(d)] *)
Definition flatten_var_pair (d : dict) : value :=
  VDict [(py_str (dict_item d "varName"), dict_item d "varValue")].

Definition is_single_key_dict (v : value) : bool :=
  match v with
  | VDict [_] => true
  | _ => false
  end.

(** One step of the merge loop of [_collapse_single_key_dicts]. *)
Definition merge_item (merged : dict) (x : value) : dict :=
  match x with
  | VDict [(k, v)] =>
      match dict_get k merged with
      | Some (VList old) => dict_set k (VList (old ++ [v])) merged
      | Some old => dict_set k (VList [old; v]) merged
      | None => dict_set k v merged
      end
  | _ => merged
  end.

(** [_collapse_single_key_dicts(lst)] *)
Definition collapse_single_key_dicts (lst : value) : value :=
  match lst with
  | VList ((_ :: _) as l) =>
      if forallb is_single_key_dict l then VDict (fold_left merge_item l [])
      else lst
  | _ => lst
  end.

Definition is_element_key (key : string) : bool :=
  (endswith "Elements" key || String.eqb key "recordElements")%bool.

(** The loop over the keys of [transformed]. *)
Definition collapse_element_keys (transformed : dict) : dict :=
  map (fun kv => if is_element_key (fst kv)
                 then (fst kv, collapse_single_key_dicts (snd kv))
                 else kv)
      transformed.

(** What [flatten_and_collapse] returns for a dict [d], given its entries
    with the values already flattened. *)
Definition flatten_dict (d transformed : dict) : value :=
  if is_var_pair d then flatten_var_pair d
  else VDict (collapse_element_keys transformed).

(** [flatten_and_collapse(obj)].  [_untag_known_pairs] is the second and
    third case: a two-element list or tuple of a text and a dict stands for
    the dict. *)
Fixpoint flatten_and_collapse (obj : value) : value :=
  let fix flatten_list (l : list value) : list value :=
    match l with
    | [] => []
    | v :: t => flatten_and_collapse v :: flatten_list t
    end in
  let fix flatten_items (d : list (string * value)) : list (string * value) :=
    match d with
    | [] => []
    | (k, v) :: t => (k, flatten_and_collapse v) :: flatten_items t
    end in
  match obj with
  | VDict d => flatten_dict d (flatten_items d)
  | VList [VStr _; VDict d] => flatten_dict d (flatten_items d)
  | VTuple [VStr _; VDict d] => flatten_dict d (flatten_items d)
  | VList l => collapse_single_key_dicts (VList (flatten_list l))
  | _ => obj
  end.

(** *** [convert_record] *)

Definition DEFAULT_METADATA : list string :=
  ["#input_id 1756361674x001_0011141"; "#output_id"; "#input_type OCSChargingRecord";
   "#output_type OCSChargingRecord"; "#addkey"; "#source_id LOCAL_CLTR";
   "#filename example.CDR.gz"]%string.

(** [needle in v] for a text [needle]. *)
Definition py_in_text (needle : string) (v : value) : res bool :=
  match v with
  | VDict d => Ok (dict_has needle d)
  | VStr s => Ok (contains needle s)
  | VList l | VTuple l => Ok (existsb (fun x => eq_str x needle) l)
  | _ => Raise TypeError
  end.

(** One element of the comprehension of [process_elements]: its line, if it
    passes the test. *)
Definition element_line (elem : value) : res (option string) :=
  let* has_name := py_in_text "varName" elem in
  if negb has_name then Ok None
  else
    let* has_value := py_in_text "varValue" elem in
    if negb has_value then Ok None
    else
      match elem with
      | VDict d =>
          Ok (Some ("F " ++ py_str (voice.dget d "varName") ++ " "
                    ++ py_str (voice.dget d "varValue"))%string)
      | _ => Raise TypeError
      end.

Fixpoint element_lines (elements : list value) : res (list string) :=
  match elements with
  | [] => Ok []
  | elem :: t =>
      let* line := element_line elem in
      let* r := element_lines t in
      Ok (match line with Some s => s :: r | None => r end)
  end.

(** [process_elements(elements)] *)
Definition process_elements (elements : value) : res (list string) :=
  let* l := py_iter elements in element_lines l.

(** [process_subextensions(subexts)].  The items of a list or a tuple are
    gone through; the items of any other iterable are texts, on which
    [sub.get] raises.  [nested] looks [recordSubExtensions] up in the items
    of [sub]. *)
Fixpoint process_subextensions (subexts : value) : res (list string) :=
  let fix over (l : list value) : res (list string) :=
    match l with
    | [] => Ok []
    | sub :: t =>
        match sub with
        | VDict d =>
            let prop := match dict_get "recordProperty" d with
                        | Some p => p
                        | None => VStr "UNKNOWN"
                        end in
            let* elems :=
              process_elements (match dict_get "recordElements" d with
                                | Some e => e
                                | None => VList []
                                end) in
            let* nested :=
              (fix nested (items : dict) : res (list string) :=
                 match items with
                 | [] => Ok []
                 | (k, nested_subs) :: rest =>
                     if String.eqb "recordSubExtensions" k then
                       if truthy nested_subs then process_subextensions nested_subs
                       else Ok []
                     else nested rest
                 end) d in
            let* r := over t in
            Ok ((("B " ++ py_str prop)%string :: elems) ++ nested ++ "."%string :: r)
        | _ => Raise AttributeError
        end
    end in
  match subexts with
  | VList l | VTuple l => over l
  | _ =>
      match py_iter subexts with
      | Ok [] => Ok []
      | Ok (_ :: _) => Raise AttributeError
      | Raise e => Raise e
      end
  end.

(** The loop over [record_extensions]. *)
Fixpoint extension_lines (record_extensions : list value) : res (list string) :=
  match record_extensions with
  | [] => Ok []
  | ext :: t =>
      let* prop := py_get_default ext "recordProperty" (VStr "UNKNOWN") in
      let* subexts := py_get_default ext "recordSubExtensions" (VList []) in
      let* inner := process_subextensions subexts in
      let* r := extension_lines t in
      Ok (("B " ++ py_str prop)%string :: inner ++ "."%string :: r)
  end.

(** The list [lines] of [convert_record(record, metadata)]; an empty
    [metadata] stands for [None] as well. *)
Definition convert_lines (record : dict) (metadata : list string) : res (list string) :=
  let lines :=
    "RECORD"%string :: match metadata with [] => DEFAULT_METADATA | _ => metadata end in
  match record with
  | [] => Ok lines
  | (record_key, entry) :: _ =>
      if negb (nonempty record_key) then Ok lines
      else
        let* wrapper := py_get_default entry "payload" (VDict []) in
        let* tagged := py_get wrapper "genericRecord" in
        let payload :=
          match tagged with
          | VList (_ :: second :: _) | VTuple (_ :: second :: _) => second
          | _ => tagged
          end in
        match payload with
        | VDict p =>
            let* elems :=
              process_elements (match dict_get "recordElements" p with
                                | Some e => e
                                | None => VList []
                                end) in
            let* exts :=
              py_iter (match dict_get "recordExtensions" p with
                       | Some e => e
                       | None => VList []
                       end) in
            let* body := extension_lines exts in
            Ok (lines ++ elems ++ body)
        | _ => Ok lines
        end
  end.

(** [convert_record(record, metadata)] *)
Definition convert_record (record : dict) (metadata : list string) : res string :=
  let* lines := convert_lines record metadata in
  Ok (join (String (chr 10) EmptyString) lines).

End decoder.

(* ================================================================= *)
(** ** [COMMAN BLN/cbl.py] *)

Module cbl.

(** [float(val)] inside [try: ... except Exception: None]. *)
Definition float_or_none (val : value) : option float :=
  match val with
  | VBool b => Some (f_of_ratio false (if b then 1 else 0)%N 1)
  | VInt z => match float_of_Z z with Ok f => Some f | Raise _ => None end
  | VFloat f => Some f
  | VStr s => float_parse s
  | _ => None
  end.

(** [float(condition)] for a condition that is an int, a bool or a float. *)
Definition float_of_number (condition : value) : res float :=
  match condition with
  | VBool b => Ok (f_of_ratio false (if b then 1 else 0)%N 1)
  | VInt z => float_of_Z z
  | VFloat f => Ok f
  | _ => Raise TypeError
  end.

Definition operators : list string := [">="; "<="; ">"; "<"; "!="; "=="]%string.

(** The comparison of the numeric branch. *)
Definition compare_floats (op : string) (val_num rhs_num : float) : bool :=
  if String.eqb op ">" then f_ltb rhs_num val_num
  else if String.eqb op "<" then f_ltb val_num rhs_num
  else if String.eqb op ">=" then f_leb rhs_num val_num
  else if String.eqb op "<=" then f_leb val_num rhs_num
  else if String.eqb op "==" then f_eqb val_num rhs_num
  else negb (f_eqb val_num rhs_num).

(** The body of the [for op in ...] loop once [cond.startswith(op)]. *)
Definition apply_operator (op : string) (val : value) (val_num : option float)
  (cond : string) : bool :=
  let rhs := strip (str_drop (String.length op) cond) in
  match float_parse rhs with
  | Some rhs_num =>
      match val_num with
      | None => false
      | Some v => compare_floats op v rhs_num
      end
  | None =>
      if String.eqb op "==" then String.eqb (py_str val) rhs
      else if String.eqb op "!=" then negb (String.eqb (py_str val) rhs)
      else false
  end.

(** [evaluate_condition(record_fields, key, condition)] *)
Definition evaluate_condition (record_fields : dict) (key : string) (condition : value)
  : res bool :=
  match dict_get key record_fields with
  | None => Ok false
  | Some val =>
      let val_num := float_or_none val in
      match condition with
      | VBool _ | VInt _ | VFloat _ =>
          match val_num with
          | None => Ok false
          | Some v => let* c := float_of_number condition in Ok (f_eqb v c)
          end
      | VStr condition_text =>
          let cond := strip condition_text in
          match find (fun op => startswith op cond) operators with
          | Some op => Ok (apply_operator op val val_num cond)
          | None => Ok (String.eqb (py_str val) cond)
          end
      | _ => Ok (py_eq val condition)
      end
  end.

(** The inner loop of [route_using_config]: [match] after the conditions
    were evaluated in order, up to the first that fails. *)
Fixpoint rule_matches (el_fields : dict) (conditions : dict) : res bool :=
  match conditions with
  | [] => Ok true
  | (k, cond) :: t =>
      let* ok := evaluate_condition el_fields k cond in
      if ok then rule_matches el_fields t else Ok false
  end.

Definition DEFAULT_OUTPUT_DIRS : dict :=
  [("CRM", VStr "out/crm"); ("BILLING", VStr "out/billing"); ("LMS", VStr "out/lms");
   ("RA", VStr "out/ra"); ("DWH", VStr "out/DWH")]%string.

Definition rule (name : string) (conditions : dict) : value :=
  VDict [("name"%string, VStr name); ("conditions"%string, VDict conditions)].

Definition DEFAULT_ROUTING_RULES : value :=
  VList [rule "CRM" [];
         rule "BILLING" [("EL_PRE_POST", VStr "POSTPAID"); ("EL_SUCCESS", VInt 1)]%string;
         rule "LMS" [("EL_SUCCESS", VInt 1); ("EL_DEBIT_AMOUNT", VStr ">0")]%string;
         rule "RA" [];
         rule "DWH" []].

(** A file written by the router: the rule it was written for, the
    directory as the segments joined by [/], the file name and the content. *)
Record written : Type := {
  w_rule : string;
  w_dir : list string;
  w_file : string;
  w_obj : value
}.

(** [Path(v)]: text only. *)
Definition path_of (v : value) : res string :=
  match v with
  | VStr s => Ok s
  | _ => Raise TypeError
  end.

(** [v.upper()] and [v.lower()]: text only. *)
Definition text_of (v : value) : res string :=
  match v with
  | VStr s => Ok s
  | _ => Raise AttributeError
  end.

(** The body of the loop over the rules: the file written for this rule,
    if any. *)
Definition route_rule (out_dirs : value) (el_fields : dict) (out_obj : value)
  (input_filename : string) (r : value) : res (option written) :=
  let* name_v := py_get r "name" in
  let* conditions_v := py_get_default r "conditions" (VDict []) in
  let* conditions := voice.as_dict (py_or conditions_v (VDict [])) in
  let* matched := rule_matches el_fields conditions in
  if negb matched then Ok None
  else
    let* name := text_of name_v in
    if String.eqb (upper name) "DWH" then
      let* dirs := voice.as_dict out_dirs in
      let* base :=
        path_of (match dict_get "DWH" dirs with
                 | Some v => v
                 | None => voice.dget DEFAULT_OUTPUT_DIRS "DWH"
                 end) in
      let category :=
        if py_eq (voice.dget el_fields "EL_GROUP_USAGE") (VInt 1)
        then "group_usage"%string else "single_usage"%string in
      let rec_type := py_or (voice.dget el_fields "EL_REC_TYPE") (VStr "OTHER") in
      Ok (Some {| w_rule := name;
                  w_dir := [base; category; py_str rec_type];
                  w_file := input_filename;
                  w_obj := out_obj |})
    else
      let* excluded :=
        if String.eqb (upper name) "LMS" then
          let* rec_type := text_of (py_or (voice.dget el_fields "EL_REC_TYPE") (VStr "")) in
          Ok (String.eqb (upper rec_type) "ECOMMERCE")
        else Ok false in
      if excluded then Ok None
      else
        let* dirs := voice.as_dict out_dirs in
        let* dest_dir :=
          path_of (match dict_get name dirs with
                   | Some v => v
                   | None => VStr ("./out/" ++ lower name)
                   end) in
        Ok (Some {| w_rule := name;
                    w_dir := [dest_dir];
                    w_file := input_filename;
                    w_obj := out_obj |}).

(** The loop over the rules: the files written, in order, and the exception
    that ended the loop, if any. *)
Fixpoint route_rules (out_dirs : value) (el_fields : dict) (out_obj : value)
  (input_filename : string) (rules : list value) : list written * option exn :=
  match rules with
  | [] => ([], None)
  | r :: t =>
      match route_rule out_dirs el_fields out_obj input_filename r with
      | Raise e => ([], Some e)
      | Ok w =>
          let (ws, e) := route_rules out_dirs el_fields out_obj input_filename t in
          (match w with Some x => x :: ws | None => ws end, e)
      end
  end.

(** [route_using_config(original_obj, el_fields, cfg, input_filename)] *)
Definition route_using_config (original_obj : value) (el_fields : dict) (cfg : dict)
  (input_filename : string) : list written * option exn :=
  let out_dirs := match dict_get "outputDirs" cfg with
                  | Some v => v
                  | None => VDict DEFAULT_OUTPUT_DIRS
                  end in
  let routing_rules := match dict_get "routingRules" cfg with
                       | Some v => v
                       | None => DEFAULT_ROUTING_RULES
                       end in
  let out_obj := VDict [("original"%string, original_obj);
                        ("CBL_TAG"%string, VDict el_fields)] in
  match py_iter routing_rules with
  | Raise e => ([], Some e)
  | Ok rules => route_rules out_dirs el_fields out_obj input_filename rules
  end.

End cbl.

(* ================================================================= *)
(** ** [data_usage_billing_mapper.py] *)

Module billing.

(** [fmt_decimal(d)] *)
Definition fmt_decimal (d : option dec) : string :=
  match d with
  | None => ""%string
  | Some x =>
      match dec_quantize5 x with
      | Ok q => dec_format_f q
      | Raise _ => dec_str x
      end
  end.

(** [for x in v.get('recordSubExtensions', []) or []] *)
Definition sub_exts (v : value) : res (list value) :=
  let* l := py_get_default v "recordSubExtensions" (VList []) in
  py_iter (py_or l (VList [])).

(** [v.get('recordProperty') == name] *)
Definition has_rp (v : value) (name : string) : res bool :=
  let* p := py_get v "recordProperty" in Ok (eq_str p name).

(** [v.get('recordElements', {}) or {}] *)
Definition elements (v : value) : res value :=
  let* e := py_get_default v "recordElements" (VDict []) in
  Ok (py_or e (VDict [])).

(** The first element whose [recordProperty] is [name], else [None]. *)
Fixpoint first_with_rp (name : string) (l : list value) : res value :=
  match l with
  | [] => Ok VNone
  | x :: t =>
      let* hit := has_rp x name in
      if hit then Ok x else first_with_rp name t
  end.

Definition record_extensions (rec : value) : res (list value) :=
  let* l := py_get_default rec "recordExtensions" (VList []) in
  py_iter (py_or l (VList [])).

(** [find_list_of_mscc(rec)] *)
Definition find_list_of_mscc (rec : value) : res value :=
  let* exts := record_extensions rec in first_with_rp "listOfMscc" exts.

(** The elements with the given [recordProperty], in order. *)
Fixpoint filter_rp (name : string) (l : list value) : res (list value) :=
  match l with
  | [] => Ok []
  | x :: t =>
      let* hit := has_rp x name in
      let* r := filter_rp name t in
      Ok (if hit then x :: r else r)
  end.

Definition subscriptions_of_device (acc : list value) (dev : value) : res (list value) :=
  let* is_dev := has_rp dev "deviceInfo" in
  if is_dev then
    let* sinfos := sub_exts dev in
    let* hits := filter_rp "subscriptionInfo" sinfos in
    Ok (acc ++ hits)
  else Ok acc.

Definition subscriptions_of_mscc (acc : list value) (sub : value) : res (list value) :=
  let* is_mscc := has_rp sub "mscc" in
  if is_mscc then
    let* devs := sub_exts sub in voice.foldM subscriptions_of_device devs acc
  else Ok acc.

(** [collect_subscription_blocks(mscc_block)] *)
Definition collect_subscription_blocks (mscc_block : value) : res (list value) :=
  if negb (truthy mscc_block) then Ok []
  else
    let* subs := sub_exts mscc_block in
    voice.foldM subscriptions_of_mscc subs [].

(** *** EL_ACCOUNT_ID (lines 125-140) *)

Fixpoint account_id_of_ids (l : list value) : res value :=
  match l with
  | [] => Ok (VStr "")
  | s :: t =>
      let* is_id := has_rp s "subscriptionId" in
      if negb is_id then account_id_of_ids t
      else
        let* re := elements s in
        let* t1 := py_get re "subscriptionIdType" in
        let* t2 := py_get re "subscriptionIDType" in
        let dtype := py_str (voice.or3 t1 t2 (VStr "")) in
        let* d1 := py_get re "subscriptionIdData" in
        let* d2 := py_get re "subscriptionIDData" in
        let data := voice.or3 d1 d2 (VStr "") in
        if String.eqb dtype "0" then Ok data else account_id_of_ids t
  end.

Fixpoint account_id_loop (exts : list value) : res value :=
  match exts with
  | [] => Ok (VStr "")
  | ext :: t =>
      let* is_list := has_rp ext "listOfSubscriptionID" in
      let* acc_id :=
        if is_list then let* ids := sub_exts ext in account_id_of_ids ids
        else Ok (VStr "") in
      if truthy acc_id then Ok acc_id else account_id_loop t
  end.

(** *** EL_TAX_AMOUNT and EL_GROSS_CALL_COST (lines 151-177) *)

(** The pair [(tax_amount, gross_amount)]. *)
Definition amounts : Type := (option dec * option dec)%type.

Definition amounts_of_account (csub : value) : res amounts :=
  let* acc := elements csub in
  let* tax_v := py_get acc "committedTaxAmount" in
  let tax_amount := to_decimal tax_v in
  let* br := py_get acc "accountBalanceCommittedBR" in
  let* committed := py_get acc "accountBalanceCommitted" in
  let gross0 := to_decimal (py_or br committed) in
  match gross0 with
  | Some _ => Ok (tax_amount, gross0)
  | None =>
      let* b := py_get acc "accountBalanceBefore" in
      let* a := py_get acc "accountBalanceAfter" in
      match to_decimal b, to_decimal a with
      | Some before, Some after =>
          let* diff := dec_sub before after in Ok (tax_amount, Some diff)
      | _, _ => Ok (tax_amount, None)
      end
  end.

(** The innermost loop: the amounts of the first [accountInfo], if any. *)
Fixpoint amounts_of_csubs (csubs : list value) : res (option amounts) :=
  match csubs with
  | [] => Ok None
  | csub :: t =>
      let* is_acc := has_rp csub "accountInfo" in
      if is_acc then let* r := amounts_of_account csub in Ok (Some r)
      else amounts_of_csubs t
  end.

Definition found (a : amounts) : bool :=
  (voice.is_some (snd a) || voice.is_some (fst a))%bool.

Fixpoint amounts_of_charges (charges : list value) (st : amounts) : res amounts :=
  match charges with
  | [] => Ok st
  | charge :: t =>
      let* is_csi := has_rp charge "chargingServiceInfo" in
      if negb is_csi then amounts_of_charges t st
      else
        let* csubs := sub_exts charge in
        let* r := amounts_of_csubs csubs in
        let st' := match r with Some a => a | None => st end in
        if found st' then Ok st' else amounts_of_charges t st'
  end.

Fixpoint amounts_of_subs (subs : list value) (st : amounts) : res amounts :=
  match subs with
  | [] => Ok st
  | s :: t =>
      let* charges := sub_exts s in
      let* st' := amounts_of_charges charges st in
      if found st' then Ok st' else amounts_of_subs t st'
  end.

(** The assignments of lines 176-183. *)
Definition cost_fields (a : amounts) : res (list (string * value)) :=
  let '(tax_amount, gross_amount) := a in
  let* call_cost :=
    match gross_amount with
    | Some g =>
        let* c := dec_sub g (voice.dec_or_zero tax_amount) in Ok (Some c)
    | None => Ok None
    end in
  Ok [("EL_TAX_AMOUNT", VStr (fmt_decimal tax_amount));
      ("EL_GROSS_CALL_COST", VStr (fmt_decimal gross_amount));
      ("EL_CALL_COST", VStr (fmt_decimal call_cost))]%string.

(** *** The other fields *)

(** The loops over [subs] that visit every [chargingServiceInfo] child:
    [f] is the body for one [csub], [stop] the test of the [break]s. *)
Section charging_loop.

Context {S : Type}.
Variable f : S -> value -> res S.
Variable stop : S -> bool.

Fixpoint over_csubs (csubs : list value) (st : S) : res S :=
  match csubs with
  | [] => Ok st
  | csub :: t =>
      let* st' := f st csub in
      if stop st' then Ok st' else over_csubs t st'
  end.

Fixpoint over_charges (charges : list value) (st : S) : res S :=
  match charges with
  | [] => Ok st
  | charge :: t =>
      let* is_csi := has_rp charge "chargingServiceInfo" in
      if negb is_csi then over_charges t st
      else
        let* csubs := sub_exts charge in
        let* st' := over_csubs csubs st in
        if stop st' then Ok st' else over_charges t st'
  end.

Fixpoint over_subs (subs : list value) (st : S) : res S :=
  match subs with
  | [] => Ok st
  | s :: t =>
      let* charges := sub_exts s in
      let* st' := over_charges charges st in
      if stop st' then Ok st' else over_subs t st'
  end.

End charging_loop.

(** EL_APPLIED_DISCOUNT_ID (lines 203-221). *)
Definition applied_step (applied : list string) (csub : value) : res (list string) :=
  let* is_bucket := has_rp csub "bucketInfo" in
  if is_bucket then
    let* b := elements csub in
    let* bn := py_get b "bucketName" in
    Ok (if truthy bn then applied ++ [py_str bn] else applied)
  else Ok applied.

(** EL_POSTPAIDBUCKETUSAGES (lines 273-287). *)
Definition usage_step (usages : list string) (csub : value) : res (list string) :=
  let* is_bucket := has_rp csub "bucketInfo" in
  if is_bucket then
    let* b := elements csub in
    let* bb := py_get b "bucketBalanceBefore" in
    let* ba := py_get b "bucketBalanceAfter" in
    match to_decimal bb, to_decimal ba with
    | Some before, Some after =>
        let* diff := dec_sub before after in
        Ok (usages ++ [fmt_decimal (Some diff)])
    | _, _ => Ok usages
    end
  else Ok usages.

(** EL_ROUNDED_CALL_VOLUME (lines 295-331): the first truthy
    [roundedVolumeCharged] of a child with the given [recordProperty]. *)
Definition rounded_step (prop : string) (fnd : option string) (csub : value)
  : res (option string) :=
  let* hit := has_rp csub prop in
  if hit then
    let* e := elements csub in
    let* rv := py_get e "roundedVolumeCharged" in
    Ok (if truthy rv then Some (py_str rv) else fnd)
  else Ok fnd.

(** Decimal digits with single underscores between them. *)
Fixpoint dec_digits_value (s : string) (acc : N) (prev_digit : bool) : option N :=
  match s with
  | EmptyString => if prev_digit then Some acc else None
  | String c t =>
      if Ascii.eqb c "_" then
        if prev_digit then dec_digits_value t acc false else None
      else if is_digit c then dec_digits_value t (10 * acc + digit_value c)%N true
      else None
  end.

(** [int(s)]; [None] stands for [ValueError].  The interpreter's limit on
    the number of digits is left out. *)
Definition py_int10 (s : string) : option Z :=
  let (neg, b) := split_sign (strip_by is_space_num s) in
  match dec_digits_value b 0 false with
  | Some n => Some (signed neg n)
  | None => None
  end.

(** [parse_generation_ts(s)]: the work of [datetime] is [datetime_part]. *)
Definition parse_generation_ts (datetime_part : value -> string) (s : value) : string :=
  if negb (truthy s) then ""%string else datetime_part s.

(** [','.join(l)]-style joins of values that must be text. *)
Definition join_texts := voice.py_join.

(** [map_billing(cdr_json)] *)
Definition map_billing (datetime_part : value -> string) (cdr_json : value) : res dict :=
  let generic :=
    py_or (safe_get cdr_json [PKey "original"; PKey "payload"; PKey "genericRecord"] VNone)
          cdr_json in
  let elems := py_or (safe_get generic [PKey "recordElements"] VNone) (VDict []) in
  let* cbl0 := py_get cdr_json "CBL_TAG" in
  let cbl := py_or cbl0 (VDict []) in
  let* list_of_mscc := find_list_of_mscc generic in
  let* mscc_block :=
    if truthy list_of_mscc then
      let* l := sub_exts list_of_mscc in first_with_rp "mscc" l
    else Ok VNone in
  let* subs := collect_subscription_blocks list_of_mscc in
  let* exts := record_extensions generic in
  let* acc_id := account_id_loop exts in
  let* event_label :=
    if is_dict cbl then py_get cbl "EL_EVENT_LABEL_VAL"
    else py_get_default elems "EL_EVENT_LABEL_VAL" (VStr "") in
  let* duration := py_get elems "duration" in
  let* el := voice.as_dict elems in
  let* amts := amounts_of_subs subs (None, None) in
  let* costs := cost_fields amts in
  let roaming := voice.or3 (voice.dget el "RoamingStatus") (voice.dget el "roamingIndicator")
                   (VStr "") in
  let roaming_indicator :=
    match roaming with
    | VStr s => if String.eqb (upper s) "HOME" then VInt 0
                else if String.eqb s "" then VStr "" else VInt 1
    | _ => VInt 1
    end in
  let call_vol :=
    if truthy mscc_block then
      voice.or3 (safe_get mscc_block [PKey "recordElements"; PKey "totalVolumeConsumed"] VNone)
                (safe_get mscc_block [PKey "recordElements"; PKey "timeUsage"] VNone)
                (VStr "")
    else VStr "" in
  let* applied :=
    over_subs applied_step (fun a => (5 <=? List.length a)%nat) subs [] in
  let processed := parse_generation_ts datetime_part
                     (py_or (voice.dget el "generationTimestamp") (VStr "")) in
  let plans :=
    voice.truthy_values
      (map (fun s => py_or (safe_get s [PKey "recordElements"; PKey "bundleName"] VNone)
                           (VStr "")) subs) in
  let* plan_id := join_texts "," plans in
  let res_code :=
    voice.or3 (voice.dget el "resultCode")
      (safe_get mscc_block [PKey "recordElements"; PKey "resultCode"] VNone) (VStr "") in
  let event_result :=
    match py_int10 (py_str res_code) with
    | Some rc => if ((rc =? 2001) || (rc =? 4012))%bool then VInt 1 else res_code
    | None => res_code
    end in
  let proc_fn :=
    voice.or3 (safe_get cdr_json [PKey "metadata"; PKey "filename"] VNone)
              (safe_get cdr_json [PKey "_metadata"; PKey "filename"] VNone) (VStr "") in
  let* usages := over_subs usage_step (fun _ => false) subs [] in
  let* rounded_bucket :=
    over_subs (rounded_step "bucketInfo") voice.is_some subs None in
  let* rounded :=
    match rounded_bucket with
    | Some _ => Ok rounded_bucket
    | None => over_subs (rounded_step "accountInfo") voice.is_some subs None
    end in
  Ok (dict_update []
        ([("EL_ACCOUNT_ID", acc_id);
          ("EL_DIALLED_DIGITS", VStr "");
          ("EL_EVENT_LABEL", event_label);
          ("EL_CALL_DURATION", py_or duration (VStr ""))]%string
         ++ costs
         ++ [("EL_ROAMING_INDICATOR", roaming_indicator);
             ("EL_CALL_VOLUME", call_vol);
             ("EL_BAND_LABEL_AMA_CODE", VStr "onnet");
             ("EL_APPLIED_DISCOUNT_ID", VStr (join "|" applied));
             ("EL_EVENT_LABEL_2", event_label);
             ("EL_ORIGINATING_ZONE_CODE", VStr "");
             ("EL_PROCESSED_TIMESTAMP", VStr processed);
             ("EL_PLAN_ID", VStr plan_id);
             ("EL_PEAK", VStr "");
             ("EL_OFF_PEAK", VStr "");
             ("EL_EVENT_RESULT", event_result);
             ("EL_GENERATION_TIMESTAMP", VStr processed);
             ("EL_PROCESS_FILENAME", proc_fn);
             ("EL_CUG_ENABLED", VStr "false");
             ("EL_APPLIED_FAMILY_GROUP_DISCOUNT_IDS", VStr "");
             ("EL_POSTPAIDBUCKETID", VStr plan_id);
             ("EL_POSTPAIDBUCKETUSAGES", VStr (join "," usages));
             ("EL_CDR_REFERENCE_NUMBER", py_or (voice.dget el "sessionId") (VStr ""));
             ("EL_ROUNDED_CALL_DURATION", py_or (voice.dget el "duration") (VStr ""));
             ("EL_ROUNDED_CALL_VOLUME",
               VStr (match rounded with Some s => s | None => "" end));
             ("EL_CHARGE_CODE", VStr "");
             ("EL_PLAN_NAME", VStr "")]%string)).

End billing.

(* ================================================================= *)
(** ** [COMMAN BLN/cbl.py]: the traversal helpers and the EL fields *)

Module cbl_el.

(** [find_nodes_by_property(container, prop_name)] *)
Fixpoint find_nodes_by_property (container : value) (prop_name : string) : list value :=
  let fix in_list (l : list value) : list value :=
    match l with
    | [] => []
    | item :: t => find_nodes_by_property item prop_name ++ in_list t
    end in
  let fix in_items (d : dict) : list value :=
    match d with
    | [] => []
    | (_, v) :: t =>
        match v with
        | VList _ | VDict _ => find_nodes_by_property v prop_name
        | _ => []
        end ++ in_items t
    end in
  match container with
  | VDict d =>
      (if eq_str (voice.dget d "recordProperty") prop_name then [container] else [])
      ++ in_items d
  | VList l => in_list l
  | _ => []
  end.

(** [extract_record_elements(node)] *)
Definition extract_record_elements (node : value) : value :=
  match node with
  | VDict d =>
      py_or (match dict_get "recordElements" d with Some v => v | None => VDict [] end)
            (VDict [])
  | _ => VDict []
  end.

(** [parse_generation_timestamp(ts)]: year, month and day. *)
Definition parse_generation_timestamp (ts : value) : string * string * string :=
  let default := ("0000", "00", "00")%string in
  match ts with
  | VStr s =>
      if negb (nonempty s) then default
      else
        let date_part := hd EmptyString (split_on " " (strip s)) in
        match split_on "/" date_part with
        | [d; m; y] =>
            let y := if Nat.eqb (String.length y) 2 then ("20" ++ y)%string else y in
            (zfill 4 y, zfill 2 m, zfill 2 d)
        | _ => default
        end
  | _ => default
  end.

(** [int(v)] *)
Definition py_int (v : value) : res Z :=
  match v with
  | VBool b => Ok (b2z b)
  | VInt z => Ok z
  | VFloat FNan => Raise ValueError
  | VFloat (FInf _) => Raise OverflowError
  | VFloat (FFin neg m e) =>
      Ok (signed neg (if e <? 0 then (m / two_pow (- e))%N else (m * two_pow e)%N))
  | VStr s =>
      match billing.py_int10 s with
      | Some z => Ok z
      | None => Raise ValueError
      end
  | _ => Raise TypeError
  end.

(** The [circleRanges] of [DEFAULT_CONFIG]. *)
Definition DEFAULT_CIRCLE_RANGES : dict :=
  [("0-9", VInt 1); ("10-19", VInt 2); ("20-29", VInt 3); ("30-39", VInt 4);
   ("40-49", VInt 5); ("50-59", VInt 6); ("60-69", VInt 7); ("70-79", VInt 8);
   ("80-89", VInt 9); ("90-99", VInt 10)]%string.

(** The loop over [circle_ranges.items()]. *)
Fixpoint circle_of (last_two : Z) (ranges : dict) : res Z :=
  match ranges with
  | [] => Ok 0
  | (r, val) :: t =>
      match split_on "-" r with
      | [a; b] =>
          match billing.py_int10 a, billing.py_int10 b with
          | Some s, Some e =>
              if ((s <=? last_two) && (last_two <=? e))%bool then py_int val
              else circle_of last_two t
          | _, _ => circle_of last_two t
          end
      | _ => circle_of last_two t
      end
  end.

(** [get_circle_id_from_msisdn(msisdn, circle_ranges)] *)
Definition get_circle_id_from_msisdn (msisdn : value) (circle_ranges : value) : res Z :=
  match billing.py_int10 (str_last 2 (py_str msisdn)) with
  | None => Ok 0
  | Some last_two =>
      let* ranges := voice.as_dict circle_ranges in
      circle_of last_two ranges
  end.

(** [get_charging_service_info_from_subscription_node(sub_node)]: the body
    of the inner loop over the children of a [chargingServiceInfo]. *)
Definition charging_child (result : dict) (c : value) : res dict :=
  let* rp := py_get_default c "recordProperty" (VStr "") in
  if eq_str rp "accountInfo"
  then Ok (dict_set "accountInfo" (extract_record_elements c) result)
  else if eq_str rp "bucketInfo"
  then Ok (dict_set "bucketInfo" (extract_record_elements c) result)
  else Ok result.

(** The outer loop, up to the [break] at the first [chargingServiceInfo]. *)
Fixpoint charging_loop (result : dict) (exts : list value) : res dict :=
  match exts with
  | [] => Ok result
  | ext :: t =>
      let* hit := billing.has_rp ext "chargingServiceInfo" in
      if hit then
        let result1 :=
          dict_set "chargingServiceElements" (extract_record_elements ext) result in
        let* children := billing.sub_exts ext in
        voice.foldM charging_child children result1
      else charging_loop result t
  end.

(** [get_charging_service_info_from_subscription_node(sub_node)] *)
Definition get_charging_service_info_from_subscription_node (sub_node : value)
  : res dict :=
  let result := [("chargingServiceElements", VDict []); ("accountInfo", VNone);
                 ("bucketInfo", VNone)]%string in
  if negb (is_dict sub_node) then Ok result
  else
    let* exts := billing.sub_exts sub_node in
    let* result1 := charging_loop result exts in
    Ok (dict_set "subscriptionRecordElements" (extract_record_elements sub_node) result1).

(** [d.get(k, default)] for the constant tables. *)
Fixpoint lookup {A : Type} (k : string) (table : list (string * A)) (default : A) : A :=
  match table with
  | [] => default
  | (k', v) :: t => if String.eqb k k' then v else lookup k t default
  end.

(** [float(v)] *)
Definition py_float (v : value) : res float :=
  match v with
  | VBool b => Ok (f_of_ratio false (if b then 1 else 0)%N 1)
  | VInt z => float_of_Z z
  | VFloat f => Ok f
  | VStr s => match float_parse s with Some f => Ok f | None => Raise ValueError end
  | _ => Raise TypeError
  end.

(** [a - b] on binary64: the exact difference, rounded to nearest even. *)
Definition f_sub (a b : float) : float :=
  match a, b with
  | FNan, _ => FNan
  | _, FNan => FNan
  | FInf na, FInf nb => if Bool.eqb na nb then FNan else FInf na
  | FInf na, FFin _ _ _ => FInf na
  | FFin _ _ _, FInf nb => FInf (negb nb)
  | FFin na ma ea, FFin nb mb eb =>
      let e := Z.min ea eb in
      let x := signed na (ma * two_pow (ea - e))%N
               - signed nb (mb * two_pow (eb - e))%N in
      if x =? 0 then
        f_zero (na && negb nb && (ma =? 0)%N && (mb =? 0)%N)
      else if e <? 0 then f_of_ratio (x <? 0) (Z.abs_N x) (two_pow (- e))
      else f_of_ratio (x <? 0) (Z.abs_N x * two_pow e)%N 1
  end.

(** *** [compute_el_fields] *)

(** 1. EL_PRE_POST: the account type of the first subscription without a
    bucket that has an account. *)
Fixpoint pre_post_loop (subscription_infos : list dict) : res value :=
  match subscription_infos with
  | [] => Ok VNone
  | s :: t =>
      let bucket := voice.dget s "bucketInfo" in
      let account := voice.dget s "accountInfo" in
      if truthy bucket then pre_post_loop t
      else if truthy account then
        let* a1 := py_get account "accountType" in
        let* a2 := py_get account "accounttype" in
        let* a3 := py_get account "AccountType" in
        Ok (voice.or3 a1 a2 a3)
      else pre_post_loop t
  end.

Definition pre_post_of (el_pre_post : value) : string :=
  match el_pre_post with
  | VStr s =>
      let u := upper (strip s) in
      if existsb (String.eqb u) ["PRE_PAID"; "PREPAID"; "PRE-PAID"]%string
      then "PREPAID"%string
      else if contains "POST" u then "POSTPAID"%string
      else "UNKNOWN"%string
  | _ => "UNKNOWN"%string
  end.

Definition rec_map : list (string * string) :=
  [("PS", "DATA"); ("USSD", "USSD"); ("SMS", "SMS"); ("MMS", "MMS"); ("IMS", "VOICE");
   ("ECOMMERCE", "ECOMMERCE")]%string.

Definition mapping : list (string * Z) :=
  [("PS", 46); ("MOC", 1); ("FWD", 1); ("MTC", 2); ("SMS_MO", 25); ("SMS_MT", 26);
   ("USSD", 823); ("MMS_MO", 143)]%string.

Definition ecommerce_map : list (string * Z) :=
  [("ACTIVATION", 824); ("RECURRING_CHARGING", 825); ("PAYMENT", 826);
   ("SENDSMS", 827); ("REQUESTSENDSMS", 828); ("INTERACTIVESMS", 829)]%string.

(** The number of decimal digits [s] starts with. *)
Fixpoint leading_digits (s : string) : nat :=
  match s with
  | String c t => if is_digit c then S (leading_digits t) else O
  | EmptyString => O
  end.

(** [re.search(r"\d{6,}$", s)] finds something: six digits or more stand at
    the end of the text, or just before a newline that ends it. *)
Definition ends_with_six_digits (s : string) : bool :=
  let r := str_rev s in
  ((6 <=? leading_digits r)%nat
   || match r with
      | String c t => (Nat.eqb (ord c) 10 && (6 <=? leading_digits t)%nat)%bool
      | EmptyString => false
      end)%bool.

(** [re.search(r"(\d{6,})", s)]: the first run of six digits or more, whole;
    [cur] is the run being read. *)
Fixpoint first_digit_run (s cur : string) : option string :=
  match s with
  | EmptyString => if (6 <=? String.length cur)%nat then Some cur else None
  | String c t =>
      if is_digit c then first_digit_run t (cur ++ String c EmptyString)
      else if (6 <=? String.length cur)%nat then Some cur
      else first_digit_run t EmptyString
  end.

(** [cand]: [sid_data.split("-", 1)[-1] if "-" in sid_data else sid_data],
    when it is text. *)
Definition msisdn_candidate (sid_data : value) : res (option string) :=
  match sid_data with
  | VStr s => Ok (Some (if str_contains_char "-" s then voice.after_dash s else s))
  | VList l | VTuple l =>
      if existsb (fun x => eq_str x "-") l then Raise AttributeError else Ok None
  | VDict d => if dict_has "-" d then Raise AttributeError else Ok None
  | _ => Raise TypeError
  end.

(** 8. The loop over [subscription_id_elements]. *)
Fixpoint msisdn_loop (subscription_id_elements : list value) : res (option string) :=
  match subscription_id_elements with
  | [] => Ok None
  | sid :: t =>
      let* ty := py_get_default sid "subscriptionIdType" (VStr "") in
      let sid_type := strip (py_str ty) in
      let* data := py_get_default sid "subscriptionIdData" (VStr "") in
      let sid_data := py_or data (VStr "") in
      if existsb (String.eqb sid_type) ["1"; "103"; "0"]%string then
        let* cand := msisdn_candidate sid_data in
        match cand with
        | Some c => if ends_with_six_digits c then Ok (Some c) else msisdn_loop t
        | None => msisdn_loop t
        end
      else msisdn_loop t
  end.

(** [float(str(v).strip() or 0)] *)
Definition float_of_text_or_zero (v : value) : res float :=
  let t := strip (py_str v) in
  if nonempty t
  then match float_parse t with Some f => Ok f | None => Raise ValueError end
  else Ok (f_zero false).

(** 9. The amount of an account without a bucket (lines 285-288). *)
Definition committed_amount (account : value) : res float :=
  match (let* x := py_get_default account "accountBalanceCommitted" (VInt 0) in
         py_float (py_or x (VInt 0))) with
  | Ok f => Ok f
  | Raise _ =>
      let* x := py_get_default account "accountBalanceCommitted" (VStr "0") in
      float_of_text_or_zero x
  end.

(** 9. The amount of an account beside a bucket (lines 292-302). *)
Definition balance_difference (account : value) : float :=
  match (let* b := py_get_default account "accountBalanceBefore" (VInt 0) in
         let* before := py_float (py_or b (VInt 0)) in
         let* a := py_get_default account "accountBalanceAfter" (VInt 0) in
         let* after := py_float (py_or a (VInt 0)) in
         Ok (f_sub before after)) with
  | Ok f => f
  | Raise _ =>
      catch (let* b := py_get_default account "accountBalanceBefore" (VStr "0") in
             let* before := float_of_text_or_zero b in
             let* a := py_get_default account "accountBalanceAfter" (VStr "0") in
             let* after := float_of_text_or_zero a in
             Ok (f_sub before after))
            (f_zero false)
  end.

Fixpoint debit_loop (subscription_infos : list dict) : res float :=
  match subscription_infos with
  | [] => Ok (f_zero false)
  | s :: t =>
      let account := voice.dget s "accountInfo" in
      let bucket := voice.dget s "bucketInfo" in
      if (negb (truthy bucket) && truthy account)%bool then committed_amount account
      else if truthy account then Ok (balance_difference account)
      else debit_loop t
  end.

(** 10. The loop over the [groupInfo] nodes. *)
Fixpoint group_loop (group_nodes : list value) : res bool :=
  match group_nodes with
  | [] => Ok false
  | g :: t =>
      let ge := extract_record_elements g in
      let* gs0 := py_get ge "groupState" in
      match py_or gs0 (VStr "") with
      | VStr gs =>
          if String.eqb (upper (strip gs)) "ACTIVE" then Ok true else group_loop t
      | _ => group_loop t
      end
  end.

(** [compute_el_fields(generic_record, cfg)] *)
Definition compute_el_fields (generic_record : value) (cfg : dict) : res dict :=
  let* root_elements :=
    if is_dict generic_record
    then py_get_default generic_record "recordElements" (VDict [])
    else Ok (VDict []) in
  let subscription_nodes := find_nodes_by_property generic_record "subscriptionInfo" in
  let* subscription_infos :=
    mapM get_charging_service_info_from_subscription_node subscription_nodes in
  let subscription_id_elements :=
    map extract_record_elements (find_nodes_by_property generic_record "subscriptionId") in
  let mscc_nodes := find_nodes_by_property generic_record "mscc" in
  (* 1. EL_PRE_POST *)
  let* found_pre_post := pre_post_loop subscription_infos in
  let* el_pre_post :=
    if truthy found_pre_post then Ok found_pre_post
    else
      let* a1 := py_get root_elements "AccountType" in
      let* a2 := py_get root_elements "accountType" in
      Ok (voice.or3 a1 a2 VNone) in
  let pre_post := pre_post_of el_pre_post in
  (* 2. EL_SUCCESS *)
  let* rc1 := py_get root_elements "resultCode" in
  let* rc2 := py_get root_elements "resultcode" in
  let result_code := voice.or3 rc1 rc2 (VStr "") in
  let* codes :=
    py_iter (match dict_get "successResultCodes" cfg with
             | Some v => v
             | None => VList [VStr "2001"; VStr "4012"]
             end) in
  let success :=
    if existsb (String.eqb (py_str result_code)) (map py_str codes) then 1 else 0 in
  (* 4. EL_BILLING *)
  let billing_flag :=
    if (String.eqb pre_post "POSTPAID" && (success =? 1))%bool then 1 else 0 in
  (* 5. EL_REC_TYPE *)
  let* from_mscc :=
    match mscc_nodes with
    | [] => Ok (VStr "")
    | first :: _ =>
        let mscc_elem := extract_record_elements first in
        let* t1 := py_get mscc_elem "recordEventType" in
        let* t2 := py_get mscc_elem "recordeventtype" in
        Ok (voice.or3 t1 t2 (VStr ""))
    end in
  let* record_event_type :=
    if truthy from_mscc then Ok from_mscc
    else let* t := py_get root_elements "recordEventType" in Ok (py_or t (VStr "")) in
  let* srt := py_get root_elements "subRecordEventType" in
  let sub_record_type := py_or srt (VStr "") in
  let* rtype_text := cbl.text_of (voice.or3 record_event_type sub_record_type (VStr "")) in
  let rtype := upper (strip rtype_text) in
  let rec_type := lookup rtype rec_map "UNKNOWN"%string in
  (* 6. EL_EVENT_LABEL_VAL *)
  let* event_label :=
    if String.eqb (upper (strip (py_str record_event_type))) "ECOMMERCE" then
      let* st0 := py_get root_elements "ServiceType" in
      let* service_type := cbl.text_of (py_or st0 (VStr "")) in
      Ok (lookup (upper (strip service_type)) ecommerce_map 0)
    else
      let* st := cbl.text_of (py_or sub_record_type (VStr "")) in
      Ok (lookup (upper (strip st)) mapping 0) in
  (* 7. EL_DATE_DAY *)
  let* gts := py_get root_elements "generationTimestamp" in
  let '(y, m, d) := parse_generation_timestamp (py_or gts (VStr "")) in
  let date_day :=
    if String.eqb y "0000" then "00000000"%string else (y ++ m ++ d)%string in
  (* 8. EL_MONTH_VAL_CIRCLE_ID *)
  let month := if nonempty m then m else "00"%string in
  let* from_ids := msisdn_loop subscription_id_elements in
  let* msisdn :=
    match from_ids with
    | Some c => Ok c
    | None =>
        let* u := py_get root_elements "userName" in
        match py_or u (VStr "") with
        | VStr uname =>
            Ok (match first_digit_run uname EmptyString with
                | Some run => run
                | None => EmptyString
                end)
        | _ => Raise TypeError
        end
    end in
  let* circle_id :=
    get_circle_id_from_msisdn (VStr msisdn)
      (match dict_get "circleRanges" cfg with Some v => v | None => VDict [] end) in
  (* 9. EL_DEBIT_AMOUNT *)
  let* debit_amount := debit_loop subscription_infos in
  (* 10. EL_GROUP_USAGE *)
  let* group_active := group_loop (find_nodes_by_property generic_record "groupInfo") in
  Ok (dict_update []
        [("EL_PRE_POST", VStr pre_post);
         ("EL_SUCCESS", VInt success);
         ("EL_CUST_CARE", VInt 1);
         ("EL_BILLING", VInt billing_flag);
         ("EL_REC_TYPE", VStr rec_type);
         ("EL_EVENT_LABEL_VAL", VInt event_label);
         ("EL_DATE_DAY", VStr date_day);
         ("EL_MONTH_VAL_CIRCLE_ID", VStr (month ++ "_" ++ Z_to_string circle_id));
         ("EL_DEBIT_AMOUNT", VFloat debit_amount);
         ("EL_GROUP_USAGE", VInt (if group_active then 1 else 0))]%string).

End cbl_el.

(* ================================================================= *)
(** ** Notions used to state the properties *)

(** *** Location decode, in the words of the specification *)

Fixpoint hex_fold (s : string) (acc : N) : N :=
  match s with
  | EmptyString => acc
  | String c t =>
      hex_fold t (16 * acc + match hex_digit_value c with Some d => d | None => 0 end)%N
  end.

(** The number a text of hex digits denotes. *)
Definition hex_value (s : string) : Z := Z.of_N (hex_fold s 0).

(** Each pair of characters reversed. *)
Fixpoint swap_pairs (s : string) : string :=
  match s with
  | String a (String b t) => String b (String a (swap_pairs t))
  | _ => s
  end.

Definition strip_filler (s : string) : string :=
  str_filter (fun c => negb (voice.is_F c)) s.

Definition all_hex (s : string) : bool := str_forall is_hex_digit s.

(** ["{field2}-{field1}-{enb}-{cell}"] for the 18 characters [t]. *)
Definition location_of_tail (t : string) : string :=
  let field1 := Z_to_string (hex_value (slice 0 4 t)) in
  let field2 := strip_filler (swap_pairs (slice 4 10 t)) in
  let value := hex_value (slice 10 18 t) in
  (field2 ++ "-" ++ field1 ++ "-" ++ Z_to_string (value mod 256)
   ++ "-" ++ Z_to_string (value / 256))%string.

(** The 6-4-4 split of the fallback. *)
Definition split_6_4_4 (s14 : string) : string :=
  (slice 0 6 s14 ++ "-" ++ slice 6 10 s14 ++ "-" ++ slice 10 14 s14)%string.

(** *** Example data *)

(** A successful e-commerce record with a positive debit amount: every
    condition of the default LMS rule holds. *)
Definition ecommerce_fields : dict :=
  [("EL_PRE_POST", VStr "PREPAID"); ("EL_SUCCESS", VInt 1);
   ("EL_REC_TYPE", VStr "ECOMMERCE");
   ("EL_DEBIT_AMOUNT", VFloat (f_of_decimal false 30 0));
   ("EL_GROUP_USAGE", VInt 0)]%string.

(** A decoder that reads a record of two bytes at the tag [a0] and fails
    elsewhere. *)
Definition two_byte_spec : decoder.asn1_spec :=
  {| decoder.decode_with_length :=
       Some (fun bs =>
               match bs with
               | Byte.xa0 :: _ :: _ => Ok (VDict [], 2)
               | _ => Raise ValueError
               end);
     decoder.decode := fun _ => Raise ValueError;
     decoder.encode := fun _ => Raise ValueError |}.

Definition framed_bytes : list Byte.byte :=
  [Byte.xa0; Byte.x00; Byte.xff; Byte.xa0; Byte.x01; Byte.xa0].

(** *** The contract of the ASN.1 decoder *)

(** A successful decode reports a positive length: an encoded value has at
    least its tag and its length octets. *)
Definition reports_progress (spec : decoder.asn1_spec) : Prop :=
  forall bs v n, decoder.decode_one spec bs = Ok (v, n) -> 0 < n.

(** A node of the record tree: [recordProperty], [recordElements] and
    [recordSubExtensions]. *)
Definition node (property : string) (elems : dict) (children : list value) : value :=
  VDict [("recordProperty"%string, VStr property);
         ("recordElements"%string, VDict elems);
         ("recordSubExtensions"%string, VList children)].

(** A record whose single [mscc] holds the given [subscriptionInfo]
    blocks. *)
Definition record_of (subscriptions : list value) : value :=
  VDict [("recordElements"%string, VDict []);
         ("recordExtensions"%string,
          VList [node "listOfMscc" []
                   [node "mscc" [] [node "deviceInfo" [] subscriptions]]])].

(** A [subscriptionInfo] with one [chargingServiceInfo] holding [blocks]. *)
Definition subscription (blocks : list value) : value :=
  node "subscriptionInfo" [] [node "chargingServiceInfo" [] blocks].

(** One [accountInfo] with before 100 and after 70, no committed value, no
    bucket. *)
Definition account_100_70 : value :=
  record_of
    [subscription
       [node "accountInfo"
          [("accountBalanceBefore", VStr "100"); ("accountBalanceAfter", VStr "70")]%string
          []]].

(** One [accountInfo] with before 100.12345 and after 40.00000, no
    committed value. *)
Definition account_exact : value :=
  record_of
    [subscription
       [node "accountInfo"
          [("accountBalanceBefore", VStr "100.12345");
           ("accountBalanceAfter", VStr "40.00000")]%string
          []]].

(** The float of a decimal literal. *)
Definition VF (c : N) (e : Z) : value := VFloat (f_of_decimal false c e).

Definition field (out : res dict) (key : string) : option value :=
  match out with
  | Ok d => dict_get key d
  | Raise _ => None
  end.

(** *** Assignments and lookups *)

(** The value of the last assignment to [k] in a sequence of assignments. *)
Fixpoint last_assigned (k : string) (l : list (string * value)) : option value :=
  match l with
  | [] => None
  | (k', v) :: t =>
      match last_assigned k t with
      | Some x => Some x
      | None => if String.eqb k k' then Some v else None
      end
  end.

Fixpoint nodupb (l : list string) : bool :=
  match l with
  | [] => true
  | x :: t => (negb (existsb (String.eqb x) t) && nodupb t)%bool
  end.

(** [isinstance(v, (int, float))] *)
Definition is_number (v : value) : bool :=
  match v with
  | VBool _ | VInt _ | VFloat _ => true
  | _ => false
  end.

(** [isinstance(v, str)] *)
Definition is_text (v : value) : bool :=
  match v with VStr _ => true | _ => false end.

(** The default of a field: [0.0] when [enforce_canonical] declares it
    numeric, [""] otherwise. *)
Definition type_default (key : string) : value :=
  if voice.is_numeric_field key then voice.float_zero else VStr "".

(** What canonical shaping makes of a derived value: kept when it is
    neither [None] nor [""], else the default of the field. *)
Definition shaped_value (key : string) (v : value) : value :=
  match v with
  | VNone => type_default key
  | VStr EmptyString => type_default key
  | _ => v
  end.

(** *** The keys assigned by each part of [map_voice] *)

(** The keys of [head_fields], in order. *)
Definition head_keys : list string :=
  ["EL_CDR_ID"; "EL_SRC_CDR_ID"; "EL_CUST_LOCAL_START_DATE"; "EL_SESSION_ID";
   "EL_ACTUAL_USAGE"; "EL_RATE_USAGE"; "EL_DEBIT_AMOUNT";
   "EL_FREE_UNIT_AMOUNT_OF_DURATION"; "EL_SERVICE_FLOW";
   "EL_CALLING_PARTY_NUMBER"; "EL_CALLED_PARTY_NUMBER";
   "EL_CALLING_PARTY_IMSI"; "EL_CALLED_PARTY_IMSI"; "EL_SERVICE_FLOW";
   "EL_CALLING_LOCATION_INFO"; "EL_CALLED_LOCATION_INFO"; "EL_SEND_RESULT";
   "EL_IMEI"; "EL_REFUND_INDICATOR"; "EL_MAIN_OFFERING_ID";
   "EL_CHARGING_PARTY_NUMBER"; "EL_CHARGE_PARTY_IND"; "EL_PAY_TYPE";
   "EL_ON_NET_INDICATOR"; "EL_ROAM_STATE"; "EL_OPPOSE_NETWORK_TYPE";
   "EL_CALLING_VPN_TOP_GROUP_NUMBER"; "EL_CALLING_VPN_GROUP_NUMBER";
   "EL_CALLING_VPN_SHORT_NUMBERs"; "EL_CALLED_VPN_TOP_GROUP_NUMBER";
   "EL_CALLED_VPN_GROUP_NUMBER"; "EL_CALLED_VPN_SHORT_NUMBER";
   "EL_LAST_EFFECT_OFFERING"; "EL_ALTERNATE_ID"; "EL_HOME_ZONE_ID";
   "EL_USER_STATE"; "EL_PAY_DEFAULT_ACCT_ID"; "EL_MAIN_OFFERING_ID";
   "EL_TAX1"; "EL_TAX2"; "EL_USER_GROUP_ID"]%string.

Definition account_slot_keys (n : nat) : list string :=
  [voice.fstr "EL_ACCT_BALANCE_ID" n; voice.fstr "EL_BALANCE_TYPE" n;
   voice.fstr "EL_CUR_BALANCE" n; voice.fstr "EL_CHG_BALANCE" n;
   voice.fstr "EL_RATE_ID" n].

Definition bucket_slot_keys (n : nat) : list string :=
  [voice.fstr "EL_BUCKET_BALANCE_ID" n; voice.fstr "EL_BUCKET_BALANCE_TYPE" n;
   voice.fstr "EL_BUCKET_CUR_BALANCE" n; voice.fstr "EL_BUCKET_CHG_BALANCE" n;
   voice.fstr "EL_BUCKET_RATE_ID" n].

Definition slot_numbers : list nat := [1; 2; 3; 4; 5]%nat.

Definition account_keys : list string := flat_map account_slot_keys slot_numbers.
Definition bucket_keys : list string := flat_map bucket_slot_keys slot_numbers.

(** The keys of [tail_fields] before the result of the unlimited-bundle
    loop. *)
Definition tail_keys : list string :=
  filter (startswith "EL_ADDITIONALBALANCEINFO_") voice.CANONICAL_FIELDS
  ++ map fst voice.additional_columns
  ++ ["EL_UNLTD_BUNDLE_NAME"; "EL_UNLTD_TOTAL_TIME_CHARGED";
      "EL_UNLTD_ROUNDED_UNITS_CHARGED"; "EL_UNLTD_BUNDLE_UNIT_TYPE"]%string.

Definition unlimited_keys : list string :=
  ["EL_UNLTD_BUNDLE_NAME"; "EL_UNLTD_TOTAL_TIME_CHARGED";
   "EL_UNLTD_BUNDLE_UNIT_TYPE"]%string.

(** A value that canonical shaping turns into a number in a numeric field:
    a number, [None] or [""]. *)
Definition number_like (v : value) : bool :=
  match v with
  | VBool _ | VInt _ | VFloat _ | VNone => true
  | VStr EmptyString => true
  | _ => false
  end.

(** *** The charged balance, in the words of the specification *)

(** The committed value of an account block: [accountBalanceCommitted],
    else [accountBalanceCommittedBR], a zero or missing value passing to the
    next, else zero. *)
Definition account_committed (d : dict) : dec :=
  voice.dec_or_zero
    (voice.dec_or (to_decimal (voice.dget d "accountBalanceCommitted"))
                  (to_decimal (voice.dget d "accountBalanceCommittedBR"))).

(** The secondary cost committed of an account block, else zero. *)
Definition account_secondary (d : dict) : dec :=
  voice.dec_or_zero (to_decimal (voice.dget d "secondaryCostCommitted")).

(** The committed units of a collected bucket, else zero. *)
Definition bucket_committed (b : voice.bucket) : dec :=
  voice.dec_or_zero (voice.bucketCommitedUnits b).

(** The text of the charged balance of one collected bucket that holds
    both balances. *)
Definition bucket_item_ok (b : voice.bucket) (item : string) : Prop :=
  forall before after,
    voice.bucketBalanceBefore b = Some before ->
    voice.bucketBalanceAfter b = Some after ->
    exists diff nonneg,
      dec_sub before after = Ok diff
      /\ dec_ge diff dec_zero = Ok nonneg
      /\ if nonneg
         then exists f, float_of_dec diff = Ok f /\ item = float_repr f
         else item = voice.float_or_zero_text (bucket_committed b).

(** The charged balance of an account block that holds both balances, as
    the field [chg] of the output. *)
Definition account_charge_ok (d : dict) (before after : dec) (chg : option value) : Prop :=
  exists diff nonneg,
    dec_sub before after = Ok diff
    /\ dec_ge diff dec_zero = Ok nonneg
    /\ if nonneg
       then exists f, float_of_dec diff = Ok f /\ chg = Some (VFloat f)
       else exists ssum f,
           dec_add (account_committed d) (account_secondary d) = Ok ssum
           /\ float_of_dec ssum = Ok f /\ chg = Some (VFloat f).

(** What an unused account slot is assigned. *)
Definition account_padding (n : nat) : list (string * value) :=
  [(voice.fstr "EL_ACCT_BALANCE_ID" n, VStr "");
   (voice.fstr "EL_BALANCE_TYPE" n, VStr "");
   (voice.fstr "EL_CUR_BALANCE" n, voice.float_zero);
   (voice.fstr "EL_CHG_BALANCE" n, voice.float_zero);
   (voice.fstr "EL_RATE_ID" n, VStr "")].

(** What an unused bucket slot is assigned. *)
Definition bucket_padding (n : nat) : list (string * value) :=
  [(voice.fstr "EL_BUCKET_BALANCE_ID" n, VStr "");
   (voice.fstr "EL_BUCKET_BALANCE_TYPE" n, VStr "");
   (voice.fstr "EL_BUCKET_CUR_BALANCE" n, voice.float_zero);
   (voice.fstr "EL_BUCKET_CHG_BALANCE" n, voice.float_zero);
   (voice.fstr "EL_BUCKET_RATE_ID" n, VStr "")].

(** A [bucketInfo] block with balance 10 before and 4 after. *)
Definition bucket_block (name : string) : value :=
  node "bucketInfo"
    [("bucketName", VStr name); ("bucketBalanceBefore", VStr "10");
     ("bucketBalanceAfter", VStr "4")]%string
    [].

(** Seven [subscriptionInfo] blocks, each with one bucket. *)
Definition seven_buckets : value :=
  record_of
    (map (fun name => subscription [bucket_block name])
         ["B1"; "B2"; "B3"; "B4"; "B5"; "B6"; "B7"]%string).

(** The output of [map_voice], empty when it raises. *)
Definition output_of (out : res dict) : dict :=
  match out with
  | Ok d => d
  | Raise _ => []
  end.

(** *** The account and bucket occurrences of a record, read from the tree *)

(** A block whose [recordProperty] reads [name]. *)
Definition is_block (name : string) (v : value) : bool :=
  match v with
  | VDict d =>
      match dict_get "recordProperty" d with
      | Some (VStr s) => String.eqb s name
      | _ => false
      end
  | _ => false
  end.

(** The dicts that a list holds, in order. *)
Definition dicts_of (v : value) : list value :=
  match v with
  | VList l => filter is_dict l
  | VTuple l => filter is_dict l
  | _ => []
  end.

(** One attribute of a dict, [None] when it is absent. *)
Definition attribute (e : value) (k : string) : value :=
  match e with
  | VDict d => match dict_get k d with Some x => x | None => VNone end
  | _ => VNone
  end.

(** The blocks listed under a block, in the order of the tree: the dicts of
    its [recordSubExtensions]. *)
Definition blocks_under (v : value) : list value :=
  dicts_of (attribute v "recordSubExtensions").

(** Those of them with the given [recordProperty]. *)
Definition blocks_named (name : string) (v : value) : list value :=
  filter (is_block name) (blocks_under v).

(** The attributes of a block: its [recordElements], the empty dict when it
    has none. *)
Definition attributes (v : value) : value :=
  let e := attribute v "recordElements" in
  if truthy e then e else VDict [].

(** The record proper: the [genericRecord] of a framed record when it holds
    one, else the value itself. *)
Definition generic_record (cdr : value) : value :=
  let g := attribute (attribute (attribute cdr "original") "payload") "genericRecord" in
  if truthy g then g else cdr.

(** The [mscc] blocks of a record: those under its first [listOfMscc]
    extension. *)
Definition mscc_blocks (cdr : value) : list value :=
  match find (is_block "listOfMscc")
             (dicts_of (attribute (generic_record cdr) "recordExtensions")) with
  | Some l => blocks_named "mscc" l
  | None => []
  end.

(** The [subscriptionInfo] blocks of a record in tree order: [mscc] by
    [mscc], [deviceInfo] by [deviceInfo]. *)
Definition subscriptions_in_order (cdr : value) : list value :=
  flat_map (fun m => flat_map (blocks_named "subscriptionInfo")
                              (blocks_named "deviceInfo" m))
           (mscc_blocks cdr).

(** The blocks under the [chargingServiceInfo] blocks of a subscription. *)
Definition charging_blocks (s : value) : list value :=
  flat_map blocks_under (blocks_named "chargingServiceInfo" s).

(** Its [bucketInfo] blocks, in tree order, and its first [accountInfo]
    block. *)
Definition bucket_blocks (s : value) : list value :=
  filter (is_block "bucketInfo") (charging_blocks s).

Definition account_block (s : value) : option value :=
  find (is_block "accountInfo") (charging_blocks s).

(** The attributes of the account of a subscription, [None] when it has no
    [accountInfo] block. *)
Definition account_attributes (s : value) : value :=
  match account_block s with
  | Some a => attributes a
  | None => VNone
  end.

(** The name of the bundle of a subscription: [bundleName], else
    [bundle_name], else the empty text. *)
Definition bundle_name (s : value) : value :=
  let e := attribute s "recordElements" in
  py_or (attribute e "bundleName") (py_or (attribute e "bundle_name") (VStr "")).

(** A bucket occurrence: a subscription that holds a [bucketInfo] block.  An
    account occurrence: a subscription that holds none, and whose first
    [accountInfo] block has attributes. *)
Definition is_bucket_occurrence (s : value) : bool :=
  match bucket_blocks s with
  | [] => false
  | _ :: _ => true
  end.

Definition is_account_occurrence (s : value) : bool :=
  (negb (is_bucket_occurrence s) && truthy (account_attributes s))%bool.

(** The occurrences of the two repeated entities, in tree order. *)
Definition account_occurrences (cdr : value) : list value :=
  filter is_account_occurrence (subscriptions_in_order cdr).

Definition bucket_occurrences (cdr : value) : list value :=
  filter is_bucket_occurrence (subscriptions_in_order cdr).

(** *** The fields of a populated slot, in the words of the specification *)

(** A value, or the empty text when it is absent or empty. *)
Definition text_or_empty (v : value) : value :=
  if truthy v then v else VStr "".

(** The float of a balance, 0.0 when it is absent or no number. *)
Definition balance_value (v : value) : value :=
  match to_decimal v with
  | Some d =>
      match fmt_decimal_to_float d with
      | Some f => VFloat f
      | None => VFloat (f_zero false)
      end
  | None => VFloat (f_zero false)
  end.

(** Slot [n] of the account occurrence [s]: identity, type, current balance
    and rate of its account. *)
Definition account_group (n : nat) (s : value) : list (string * value) :=
  let a := account_attributes s in
  [(voice.fstr "EL_ACCT_BALANCE_ID" n, text_or_empty (attribute a "accountID"));
   (voice.fstr "EL_BALANCE_TYPE" n, text_or_empty (attribute a "accountType"));
   (voice.fstr "EL_CUR_BALANCE" n, balance_value (attribute a "accountBalanceAfter"));
   (voice.fstr "EL_RATE_ID" n, text_or_empty (attribute a "rateId"))].

(** The texts of a list that are not empty. *)
Definition nonempty_texts (l : list value) : list string :=
  flat_map (fun v => match v with
                     | VStr (String c s) => [String c s]
                     | _ => []
                     end) l.

(** The attribute [k] of each bucket of a subscription, the empty ones left
    out. *)
Definition bucket_texts (s : value) (k : string) : list string :=
  nonempty_texts (map (fun b => attribute (attributes b) k) (bucket_blocks s)).

(** The identity of a bucket slot: the bundle, a dash and the names of the
    buckets joined by commas; the bundle alone or the names alone when the
    other is empty. *)
Definition bucket_identity (bundle : value) (names : list string) : value :=
  match names with
  | [] => bundle
  | _ :: _ =>
      match bundle with
      | VStr (String c b) => VStr (String c b ++ "-" ++ join "," names)
      | _ => VStr (join "," names)
      end
  end.

(** The text of the current balance of one bucket. *)
Definition current_item (b : value) : string :=
  match to_decimal (attribute (attributes b) "bucketBalanceAfter") with
  | Some d =>
      match fmt_decimal_to_float d with
      | Some f => float_repr f
      | None => "None"
      end
  | None => "0.0"
  end.

(** Slot [n] of the bucket occurrence [s]: identity, and the unit types,
    current balances and rates of its buckets joined by commas. *)
Definition bucket_group (n : nat) (s : value) : list (string * value) :=
  [(voice.fstr "EL_BUCKET_BALANCE_ID" n,
    bucket_identity (bundle_name s) (bucket_texts s "bucketName"));
   (voice.fstr "EL_BUCKET_BALANCE_TYPE" n,
    VStr (join "," (bucket_texts s "bucketUnitType")));
   (voice.fstr "EL_BUCKET_CUR_BALANCE" n,
    VStr (join "," (map current_item (bucket_blocks s))));
   (voice.fstr "EL_BUCKET_RATE_ID" n,
    VStr (join "," (bucket_texts s "rateId")))].

(** The committed units of a [bucketInfo] block: [bucketCommitedUnits], else
    [bucketCommittedUnits], else zero. *)
Definition block_committed (b : value) : dec :=
  let e := attributes b in
  voice.dec_or_zero
    (to_decimal (py_or (attribute e "bucketCommitedUnits")
                       (attribute e "bucketCommittedUnits"))).

(** The text of the charged balance of a [bucketInfo] block that holds both
    balances. *)
Definition block_item_ok (b : value) (item : string) : Prop :=
  forall before after,
    to_decimal (attribute (attributes b) "bucketBalanceBefore") = Some before ->
    to_decimal (attribute (attributes b) "bucketBalanceAfter") = Some after ->
    exists diff nonneg,
      dec_sub before after = Ok diff
      /\ dec_ge diff dec_zero = Ok nonneg
      /\ if nonneg
         then exists f, float_of_dec diff = Ok f /\ item = float_repr f
         else item = voice.float_or_zero_text (block_committed b).

(** *** What the mapper collects from an occurrence *)

(** The entry of [account_only] for an account occurrence. *)
Definition account_entry_of (s : value) : voice.account_entry :=
  {| voice.ae_bundleName := bundle_name s;
     voice.ae_acct := account_attributes s |}.

(** An entry of [bucket_subs] for a bucket occurrence. *)
Definition bucket_sub_of (s : value) (e : voice.bucket_sub) : Prop :=
  voice.bs_bundleName e = bundle_name s
  /\ Forall2 (fun b r => voice.bucket_of b = Ok r) (bucket_blocks s) (voice.bs_buckets e).

(** The lists [account_only] and [bucket_subs] after the subscriptions
    [subs], from the lists before them. *)
Definition collected (subs : list value) (acc r : voice.blocks) : Prop :=
  exists bsubs,
    Forall2 bucket_sub_of (filter is_bucket_occurrence subs) bsubs
    /\ r = (fst acc ++ map account_entry_of (filter is_account_occurrence subs),
            snd acc ++ bsubs).

(** The running triple [(has_bucket, acct_info, buckets)] after the blocks
    [l], from the triple before them. *)
Definition scanned (l : list value) (st st' : voice.sub_state) : Prop :=
  let '(hb, ai, bks) := st in
  let '(hb', ai', bks') := st' in
  exists bs,
    Forall2 (fun b r => voice.bucket_of b = Ok r) (filter (is_block "bucketInfo") l) bs
    /\ bks' = bks ++ bs
    /\ hb' = (hb || match filter (is_block "bucketInfo") l with
                    | [] => false
                    | _ :: _ => true
                    end)%bool
    /\ ai' = match ai with
             | Some a => Some a
             | None => option_map attributes (find (is_block "accountInfo") l)
             end.



(** A subscription of the bundle [gold] with two buckets: B1 from 10 to 4,
    and B2 from 4 to 10 with 3 committed units. *)
Definition gold_buckets : value :=
  node "subscriptionInfo" [("bundleName", VStr "gold")]%string
    [node "chargingServiceInfo" []
       [node "bucketInfo"
          [("bucketName", VStr "B1"); ("bucketBalanceBefore", VStr "10");
           ("bucketBalanceAfter", VStr "4")]%string
          [];
        node "bucketInfo"
          [("bucketName", VStr "B2"); ("bucketBalanceBefore", VStr "4");
           ("bucketBalanceAfter", VStr "10");
           ("bucketCommitedUnits", VStr "3")]%string
          []]].

(** Two account-only subscriptions (10 to 30 with 5 committed and a
    secondary cost of 2; 100 to 70) and the subscription [gold_buckets]. *)
Definition charged_example : value :=
  record_of
    [subscription
       [node "accountInfo"
          [("accountBalanceBefore", VStr "10"); ("accountBalanceAfter", VStr "30");
           ("accountBalanceCommitted", VStr "5");
           ("secondaryCostCommitted", VStr "2")]%string
          []];
     subscription
       [node "accountInfo"
          [("accountBalanceBefore", VStr "100"); ("accountBalanceAfter", VStr "70")]%string
          []];
     gold_buckets].

(** One account and one bucket whose balance falls from
    9007199254740993.0000000000001, a number of 29 digits, to 0. *)
Definition long_balance : value :=
  record_of
    [subscription
       [node "accountInfo"
          [("accountBalanceBefore", VStr "9007199254740993.0000000000001");
           ("accountBalanceAfter", VStr "0")]%string
          []];
     subscription
       [node "bucketInfo"
          [("bucketName", VStr "B");
           ("bucketBalanceBefore", VStr "9007199254740993.0000000000001");
           ("bucketBalanceAfter", VStr "0")]%string
          []]].

(** *** Normal forms of the flattening *)

Definition is_scalar (v : value) : bool :=
  match v with
  | VList _ | VTuple _ | VDict _ => false
  | _ => true
  end.

(** A two-element sequence of a text and a dict: what [_untag_known_pairs]
    replaces by the dict. *)
Definition is_tagged_pair (l : list value) : bool :=
  match l with
  | [VStr _; VDict _] => true
  | _ => false
  end.

(** A non-empty list of single-key dicts: what
    [_collapse_single_key_dicts] merges. *)
Definition collapsible (l : list value) : bool :=
  match l with
  | [] => false
  | _ :: _ => forallb decoder.is_single_key_dict l
  end.

(** A tree that holds no var-pair, no tagged pair and no list of single-key
    dicts, at any depth below lists and dicts. *)
Fixpoint normal (v : value) : bool :=
  let fix all (l : list value) : bool :=
    match l with
    | [] => true
    | x :: t => (normal x && all t)%bool
    end in
  let fix all_values (d : list (string * value)) : bool :=
    match d with
    | [] => true
    | (_, x) :: t => (normal x && all_values t)%bool
    end in
  match v with
  | VDict d => (negb (decoder.is_var_pair d) && all_values d)%bool
  | VList l => (negb (is_tagged_pair l) && all l && negb (collapsible l))%bool
  | VTuple l => negb (is_tagged_pair l)
  | _ => true
  end.

(** *** Decoded trees *)

(** The dict of a node: the node itself, or the dict of a tagged pair. *)
Definition node_dict (v : value) : option dict :=
  match v with
  | VDict d => Some d
  | VList [VStr _; VDict d] => Some d
  | VTuple [VStr _; VDict d] => Some d
  | _ => None
  end.

(** An attribute: a var-pair whose value is a scalar and whose name reads
    neither varName nor varValue. *)
Definition is_attribute (d : dict) : bool :=
  (decoder.is_var_pair d
   && is_scalar (decoder.dict_item d "varValue")
   && negb (decoder.is_var_key (py_str (decoder.dict_item d "varName"))))%bool.

Definition is_attribute_item (v : value) : bool :=
  match node_dict v with
  | Some d => is_attribute d
  | None => false
  end.

(** A node that is not a var-pair. *)
Definition is_node (v : value) : bool :=
  match node_dict v with
  | Some d => negb (decoder.is_var_pair d)
  | None => false
  end.

Definition is_single_key_node (v : value) : bool :=
  match node_dict v with
  | Some [_] => true
  | _ => false
  end.

(** The key of a single-key dict. *)
Definition key_of (v : value) : option string :=
  match v with
  | VDict [(k, _)] => Some k
  | _ => None
  end.

Definition keys_of (l : list value) : list string :=
  flat_map (fun x => match key_of x with Some k => [k] | None => [] end) l.

(** A list of single-key dicts with distinct keys, none of which reads
    varName or varValue: the list of records that the framing returns. *)
Definition is_keyed_list (l : list value) : bool :=
  (forallb (fun x => match key_of x with
                     | Some k => negb (decoder.is_var_key k)
                     | None => false
                     end) l
   && nodupb (keys_of l))%bool.

(** A list of nodes, one of which at least does not have exactly one key. *)
Definition is_child_list (l : list value) : bool :=
  (forallb is_node l && existsb (fun x => negb (is_single_key_node x)) l)%bool.

(** The trees of the decoder: scalars; nodes whose values are such trees;
    attributes; tagged pairs of a node or an attribute; tuples that are no
    tagged pairs; and lists of scalars, of attributes, of single-key dicts
    with distinct keys other than varName and varValue, or of child
    nodes. *)
Fixpoint decoded (v : value) : bool :=
  let fix all (l : list value) : bool :=
    match l with
    | [] => true
    | x :: t => (decoded x && all t)%bool
    end in
  let fix all_values (d : list (string * value)) : bool :=
    match d with
    | [] => true
    | (_, x) :: t => (decoded x && all_values t)%bool
    end in
  let node (d : list (string * value)) : bool :=
    (is_attribute d || (negb (decoder.is_var_pair d) && all_values d))%bool in
  match v with
  | VDict d => node d
  | VList [VStr _; VDict d] => node d
  | VTuple [VStr _; VDict d] => node d
  | VList l =>
      (all l && (forallb is_scalar l || forallb is_attribute_item l
                 || is_keyed_list l || is_child_list l))%bool
  | _ => true
  end.

(** The entries of a dict with their values flattened. *)
Definition flatten_values (d : dict) : dict :=
  map (fun kv => (fst kv, decoder.flatten_and_collapse (snd kv))) d.

(** A value of a merged attribute dict: a scalar, or the scalars gathered
    under a repeated name. *)
Definition merged_value_ok (v : value) : Prop :=
  is_scalar v = true
  \/ exists l, v = VList l /\ forallb is_scalar l = true /\ (2 <= List.length l)%nat.

Definition merged_ok (m : dict) : Prop :=
  Forall (fun kv => decoder.is_var_key (fst kv) = false /\ merged_value_ok (snd kv)) m.

Definition attribute_image (y : value) : Prop :=
  exists k x, y = VDict [(k, x)] /\ decoder.is_var_key k = false /\ is_scalar x = true.

(** Two single-key dicts with the same key, whose values are dicts. *)
Definition repeated_key : value :=
  VList [VDict [("x", VDict [("p", VInt 1)])];
         VDict [("x", VDict [("q", VInt 2)])]]%string.

(** The list of one framed record: a tagged pair of a node with two
    attributes (one name twice) and one extension. *)
Definition framed_record : value :=
  VList
    [VDict
       [("record1",
         VDict
           [("header", VDict [("recordLength", VInt 42)]);
            ("payload",
             VDict
               [("genericRecord",
                 VTuple
                   [VStr "sPSRecord";
                    VDict
                      [("recordType", VInt 1);
                       ("recordElements",
                        VList
                          [VDict [("varName", VStr "sessionId");
                                  ("varValue", VStr "s1")];
                           VDict [("varName", VStr "imsi");
                                  ("varValue", VStr "636")];
                           VDict [("varName", VStr "imsi");
                                  ("varValue", VStr "637")]]);
                       ("recordExtensions",
                        VList
                          [VDict
                             [("recordProperty", VStr "listOfMscc");
                              ("recordElements", VList []);
                              ("recordSubExtensions", VList [])]])]])])])]]%string.

(** *** The framed records *)

(** The key of the [i]-th record: [f"record{i}"]. *)
Definition record_name (i : nat) : string :=
  ("record" ++ Z_to_string (Z.of_nat i))%string.

(** The [recordLength] of an entry of the framer. *)
Definition record_length_of (entry : value) : Z :=
  match entry with
  | VDict [(_, inner)] =>
      match safe_get inner [PKey "header"; PKey "recordLength"]%string VNone with
      | VInt n => n
      | _ => 0
      end
  | _ => 0
  end.

(** The sum of the record lengths. *)
Definition total_length (entries : list value) : Z :=
  fold_right (fun e acc => record_length_of e + acc) 0 entries.

(** A decoder object whose calls all raise. *)
Definition failing_spec : decoder.asn1_spec :=
  {| decoder.decode_with_length := Some (fun _ => Raise ValueError);
     decoder.decode := fun _ => Raise ValueError;
     decoder.encode := fun _ => Raise ValueError |}.

(** Entry number [i] of the framer: [{f"record{i}": {...}}]. *)
Definition framed (i : nat) (entry : value) : Prop :=
  exists record_len decoded,
    entry = decoder.record_entry (Z.of_nat i) record_len decoded.

(** *** Merging *)

(** The single-key dicts of a list of entries. *)
Definition singletons (items : list (string * value)) : list value :=
  map (fun kv => VDict [kv]) items.

(** What a first value becomes when a second one arrives under its key:
    a list is extended, any other value starts a list. *)
Definition as_list (v : value) : list value :=
  match v with
  | VList l => l
  | _ => [v]
  end.

(** *** Routing with the default configuration *)

(** The float [1.0]. *)
Definition f_one : float := f_of_ratio false 1 1.

(** [float(v) == 1.0], false when [float(v)] raises. *)
Definition is_one (v : value) : bool :=
  match cbl.float_or_none v with
  | Some f => f_eqb f f_one
  | None => false
  end.

(** [float(v) > 0.0], false when [float(v)] raises. *)
Definition is_positive (v : value) : bool :=
  match cbl.float_or_none v with
  | Some f => f_ltb (f_zero false) f
  | None => false
  end.

(** The conditions of the default BILLING rule: EL_PRE_POST reads POSTPAID
    and EL_SUCCESS is 1. *)
Definition billing_due (el_fields : dict) : bool :=
  match dict_get "EL_PRE_POST" el_fields, dict_get "EL_SUCCESS" el_fields with
  | Some p, Some s => (String.eqb (py_str p) "POSTPAID" && is_one s)%bool
  | _, _ => false
  end.

(** The conditions of the default LMS rule: EL_SUCCESS is 1 and
    EL_DEBIT_AMOUNT is above 0. *)
Definition lms_conditions (el_fields : dict) : bool :=
  match dict_get "EL_SUCCESS" el_fields, dict_get "EL_DEBIT_AMOUNT" el_fields with
  | Some s, Some a => (is_one s && is_positive a)%bool
  | _, _ => false
  end.

(** [el_fields.get("EL_REC_TYPE") or ""] *)
Definition rec_type_or_empty (el_fields : dict) : value :=
  py_or (voice.dget el_fields "EL_REC_TYPE") (VStr "").

(** The record type reads ECOMMERCE, whatever the case of the letters. *)
Definition is_ecommerce (el_fields : dict) : bool :=
  match rec_type_or_empty el_fields with
  | VStr s => String.eqb (upper s) "ECOMMERCE"
  | _ => false
  end.

(** The file written for a rule in a directory. *)
Definition routed (original_obj : value) (el_fields : dict) (input_filename : string)
  (name : string) (dir : list string) : cbl.written :=
  {| cbl.w_rule := name; cbl.w_dir := dir; cbl.w_file := input_filename;
     cbl.w_obj := VDict [("original"%string, original_obj);
                         ("CBL_TAG"%string, VDict el_fields)] |}.

(** The directory of the DWH rule under the default configuration. *)
Definition dwh_dir (el_fields : dict) : list string :=
  ["out/DWH"%string;
   if py_eq (voice.dget el_fields "EL_GROUP_USAGE") (VInt 1)
   then "group_usage"%string else "single_usage"%string;
   py_str (py_or (voice.dget el_fields "EL_REC_TYPE") (VStr "OTHER"))].

(** The configuration routes as the default one does: [outputDirs] and
    [routingRules] are absent or hold the default values. *)
Definition default_routes (cfg : dict) : Prop :=
  match dict_get "outputDirs" cfg with
  | Some v => v
  | None => VDict cbl.DEFAULT_OUTPUT_DIRS
  end = VDict cbl.DEFAULT_OUTPUT_DIRS
  /\ match dict_get "routingRules" cfg with
     | Some v => v
     | None => cbl.DEFAULT_ROUTING_RULES
     end = cbl.DEFAULT_ROUTING_RULES.

(** [l1] is [l2] with some elements left out. *)
Inductive subseq {A : Type} : list A -> list A -> Prop :=
| subseq_nil : subseq [] []
| subseq_skip (x : A) (l1 l2 : list A) : subseq l1 l2 -> subseq l1 (x :: l2)
| subseq_take (x : A) (l1 l2 : list A) : subseq l1 l2 -> subseq (x :: l1) (x :: l2).

(** The rules [route_using_config] goes through. *)
Definition configured_rules (cfg : dict) : list value :=
  match py_iter (match dict_get "routingRules" cfg with
                 | Some v => v
                 | None => cbl.DEFAULT_ROUTING_RULES
                 end) with
  | Ok rules => rules
  | Raise _ => []
  end.

(** [rule.get("conditions", {}) or {}], as the items the loop goes through. *)
Definition conditions_of (r : value) : res dict :=
  let* c := py_get_default r "conditions" (VDict []) in
  voice.as_dict (py_or c (VDict [])).

(** The file [w] is the one written for the rule [r]. *)
Definition written_for (el_fields : dict) (out_obj : value) (input_filename : string)
  (r : value) (w : cbl.written) : Prop :=
  cbl.w_file w = input_filename
  /\ cbl.w_obj w = out_obj
  /\ py_get r "name" = Ok (VStr (cbl.w_rule w))
  /\ exists conditions,
      conditions_of r = Ok conditions
      /\ Forall (fun kc => cbl.evaluate_condition el_fields (fst kc) (snd kc) = Ok true)
           conditions.

(** [child] is one of the [recordSubExtensions] of [parent] and has the
    given [recordProperty], as the billing mapper reads them. *)
Definition child_with (parent : value) (prop : string) (child : value) : Prop :=
  exists l, billing.sub_exts parent = Ok l
            /\ In child l
            /\ billing.has_rp child prop = Ok true.

(** The columns of a billing record, in order. *)
Definition billing_fields : list string :=
  ["EL_ACCOUNT_ID"; "EL_DIALLED_DIGITS"; "EL_EVENT_LABEL"; "EL_CALL_DURATION";
   "EL_TAX_AMOUNT"; "EL_GROSS_CALL_COST"; "EL_CALL_COST"; "EL_ROAMING_INDICATOR";
   "EL_CALL_VOLUME"; "EL_BAND_LABEL_AMA_CODE"; "EL_APPLIED_DISCOUNT_ID";
   "EL_EVENT_LABEL_2"; "EL_ORIGINATING_ZONE_CODE"; "EL_PROCESSED_TIMESTAMP";
   "EL_PLAN_ID"; "EL_PEAK"; "EL_OFF_PEAK"; "EL_EVENT_RESULT";
   "EL_GENERATION_TIMESTAMP"; "EL_PROCESS_FILENAME"; "EL_CUG_ENABLED";
   "EL_APPLIED_FAMILY_GROUP_DISCOUNT_IDS"; "EL_POSTPAIDBUCKETID";
   "EL_POSTPAIDBUCKETUSAGES"; "EL_CDR_REFERENCE_NUMBER"; "EL_ROUNDED_CALL_DURATION";
   "EL_ROUNDED_CALL_VOLUME"; "EL_CHARGE_CODE"; "EL_PLAN_NAME"]%string.

(** A billing input: one [listOfMscc] with one [mscc], one device and one
    subscription named [plan]. *)
Definition billing_record (plan : string) : value :=
  VDict [("CBL_TAG"%string, VDict [("EL_EVENT_LABEL_VAL"%string, VInt 46)]);
         ("recordElements"%string, VDict [("duration"%string, VInt 12)]);
         ("recordExtensions"%string,
           VList [node "listOfMscc" []
                    [node "mscc" []
                       [node "deviceInfo" []
                          [node "subscriptionInfo" [("bundleName"%string, VStr plan)] []]]]])].

(** The test of the [break]s of the EL_APPLIED_DISCOUNT_ID loops:
    [len(applied) >= 5]. *)
Definition capped (a : list string) : bool := (5 <=? List.length a)%nat.

(** The bucket balance columns, which [validate_canonical_record] takes for
    numeric and [enforce_canonical] does not. *)
Definition bucket_balance_fields : list string :=
  flat_map (fun i => [voice.fstr "EL_BUCKET_CUR_BALANCE" i;
                      voice.fstr "EL_BUCKET_CHG_BALANCE" i])
    [1; 2; 3; 4; 5]%nat.

(** A record whose single bucket has no balance and a signalling NaN for
    its balance after. *)
Definition bucket_snan : value :=
  record_of
    [subscription
       [node "bucketInfo"
          [("bucketName", VStr "B"); ("bucketBalanceAfter", VStr "sNaN")]%string []]].

(** [isinstance(v, (list, dict))] *)
Definition is_container (v : value) : bool :=
  match v with VList _ | VDict _ => true | _ => false end.

(** [n] is [c] itself or lies within it, going down through the items of
    lists and through the values of dicts that are lists or dicts. *)
Inductive inside (n : value) : value -> Prop :=
| inside_here : inside n n
| inside_item (l : list value) (x : value) :
    In x l -> inside n x -> inside n (VList l)
| inside_value (d : dict) (k : string) (v : value) :
    In (k, v) d -> is_container v = true -> inside n v -> inside n (VDict d).

(** A dict whose [recordProperty] is [prop_name]. *)
Definition has_property (prop_name : string) (n : value) : Prop :=
  exists d, n = VDict d /\ eq_str (voice.dget d "recordProperty") prop_name = true.

(** The text of two decimal digits. *)
Definition two_digit_text (a b : N) : string :=
  String (digit_char a) (String (digit_char b) EmptyString).

Definition res_Z_eqb (r : res Z) (z : Z) : bool :=
  match r with Ok x => x =? z | Raise _ => false end.

(** The date [d/m/y]. *)
Definition date_text (d m y : string) : string :=
  (d ++ "/" ++ m ++ "/" ++ y)%string.

(** *** The EL fields *)

(** The values [compute_el_fields] can store. *)
Definition pre_post_values : list string := ["PREPAID"; "POSTPAID"; "UNKNOWN"]%string.

Definition rec_type_values : list string :=
  ["DATA"; "USSD"; "SMS"; "MMS"; "VOICE"; "ECOMMERCE"; "UNKNOWN"]%string.

Definition event_label_values : list Z :=
  [0; 46; 1; 2; 25; 26; 823; 143; 824; 825; 826; 827; 828; 829].

(** The record of the EL fields, in the order they are stored. *)
Definition el_record (pre_post : string) (success : Z) (rec_type : string)
  (event_label : Z) (date_day month_circle : string) (debit_amount : float)
  (group_usage : Z) : dict :=
  [("EL_PRE_POST", VStr pre_post);
   ("EL_SUCCESS", VInt success);
   ("EL_CUST_CARE", VInt 1);
   ("EL_BILLING",
     VInt (if (String.eqb pre_post "POSTPAID" && (success =? 1)%Z)%bool then 1 else 0));
   ("EL_REC_TYPE", VStr rec_type);
   ("EL_EVENT_LABEL_VAL", VInt event_label);
   ("EL_DATE_DAY", VStr date_day);
   ("EL_MONTH_VAL_CIRCLE_ID", VStr month_circle);
   ("EL_DEBIT_AMOUNT", VFloat debit_amount);
   ("EL_GROUP_USAGE", VInt group_usage)]%string.

(** A record of the tree: one postpaid account, result code 2001, a data
    session of 25/12/2025. *)
Definition postpaid_record : value :=
  VDict [("recordElements"%string,
           VDict [("resultCode", VStr "2001"); ("recordEventType", VStr "PS");
                  ("subRecordEventType", VStr "PS");
                  ("generationTimestamp", VStr "25/12/2025 10:00:00");
                  ("userName", VStr "251911000047")]%string);
         ("recordExtensions"%string,
           VList [node "listOfMscc" []
                    [node "mscc" []
                       [node "deviceInfo" []
                          [node "subscriptionInfo" []
                             [node "chargingServiceInfo" []
                                [node "accountInfo"
                                   [("accountType", VStr "Post-Paid");
                                    ("accountBalanceCommitted", VStr "2.5")]%string
                                   []]]]]]])].

(** *** The text format of [convert_record] *)

(** Lines that nest: field lines [F ...], and blocks that a line [B ...]
    opens and a line [.] closes. *)
Inductive nested_lines : list string -> Prop :=
| nested_nil : nested_lines []
| nested_field (text : string) (rest : list string) :
    nested_lines rest -> nested_lines (("F " ++ text)%string :: rest)
| nested_block (prop : string) (inner rest : list string) :
    nested_lines inner -> nested_lines rest ->
    nested_lines (("B " ++ prop)%string :: inner ++ "."%string :: rest).

(** The lines before the body: [RECORD] and the metadata. *)
Definition header_lines (metadata : list string) : list string :=
  "RECORD"%string
  :: match metadata with [] => decoder.DEFAULT_METADATA | _ => metadata end.

(** The var-pair of a decoded field. *)
Definition var_pair (name : string) (v : value) : value :=
  VDict [("varName"%string, VStr name); ("varValue"%string, v)].

(** A decoded record with one field, and one extension that holds one
    sub-extension with one field. *)
Definition text_generic : value :=
  VDict [("recordElements"%string, VList [var_pair "a" (VInt 1)]);
         ("recordExtensions"%string,
          VList [VDict [("recordProperty"%string, VStr "x");
                        ("recordSubExtensions"%string,
                         VList [VDict [("recordProperty"%string, VStr "y");
                                       ("recordElements"%string,
                                        VList [var_pair "b" (VStr "2")])]])]])].

Definition text_record : dict :=
  [("record1"%string,
    VDict [("header"%string, VDict [("recordLength"%string, VInt 9)]);
           ("payload"%string, VDict [("genericRecord"%string, text_generic)])])].

(* ================================================================= *)
(** ** Properties *)

(** *** Text lemmas *)

Lemma append_assoc (a b c : string) :
  ((a ++ b) ++ c)%string = (a ++ (b ++ c))%string.
Proof. induction a as [|x t IH]; simpl; [reflexivity|now rewrite IH]. Qed.

Lemma str_rev_onto_app (s acc : string) :
  str_rev_onto s acc = (str_rev s ++ acc)%string.
Proof.
  unfold str_rev. revert acc.
  induction s as [|c t IH]; intros acc; simpl.
  - reflexivity.
  - rewrite (IH (String c acc)), (IH (String c EmptyString)).
    rewrite append_assoc. reflexivity.
Qed.

Lemma str_rev_cons (c : ascii) (t : string) :
  str_rev (String c t) = (str_rev t ++ String c EmptyString)%string.
Proof. unfold str_rev at 1. simpl. apply str_rev_onto_app. Qed.

Lemma append_empty_r (s : string) : (s ++ "")%string = s.
Proof. induction s; simpl; congruence. Qed.

Lemma str_rev_app (a b : string) :
  str_rev (a ++ b) = (str_rev b ++ str_rev a)%string.
Proof.
  induction a as [|c t IH]; simpl.
  - now rewrite append_empty_r.
  - rewrite !str_rev_cons, IH, append_assoc. reflexivity.
Qed.

Lemma str_rev_involutive (s : string) : str_rev (str_rev s) = s.
Proof.
  induction s as [|c t IH]; [reflexivity|].
  rewrite str_rev_cons, str_rev_app, IH. reflexivity.
Qed.

Lemma str_forall_app (p : ascii -> bool) (a b : string) :
  str_forall p (a ++ b) = (str_forall p a && str_forall p b)%bool.
Proof.
  induction a as [|c t IH]; simpl; [reflexivity|].
  rewrite IH. apply andb_assoc.
Qed.

Lemma str_forall_rev (p : ascii -> bool) (s : string) :
  str_forall p (str_rev s) = str_forall p s.
Proof.
  induction s as [|c t IH]; [reflexivity|].
  rewrite str_rev_cons, str_forall_app, IH. simpl.
  rewrite andb_true_r. apply andb_comm.
Qed.

Lemma lstrip_by_none (p : ascii -> bool) (s : string) :
  str_forall (fun c => negb (p c)) s = true -> lstrip_by p s = s.
Proof.
  destruct s as [|c t]; simpl; [reflexivity|].
  intros H. apply andb_true_iff in H as [H _].
  apply negb_true_iff in H. now rewrite H.
Qed.

Lemma strip_by_none (p : ascii -> bool) (s : string) :
  str_forall (fun c => negb (p c)) s = true -> strip_by p s = s.
Proof.
  intros H. unfold strip_by, rstrip_by.
  rewrite (lstrip_by_none p s H).
  rewrite lstrip_by_none by (now rewrite str_forall_rev).
  apply str_rev_involutive.
Qed.

Lemma str_forall_impl (p q : ascii -> bool) (s : string) :
  (forall c, p c = true -> q c = true) ->
  str_forall p s = true -> str_forall q s = true.
Proof.
  intros Hpq. induction s as [|c t IH]; simpl; [reflexivity|].
  intros H. apply andb_true_iff in H as [H1 H2].
  rewrite (Hpq c H1), (IH H2). reflexivity.
Qed.

Ltac each_char c :=
  destruct c as [[] [] [] [] [] [] [] []]; try discriminate; try reflexivity.

Lemma hex_digit_not_space (c : ascii) :
  is_hex_digit c = true -> negb (is_space_num c) = true.
Proof. each_char c. Qed.

Lemma hex_digit_not_sign (c : ascii) :
  is_hex_digit c = true -> Ascii.eqb c "-" = false /\ Ascii.eqb c "+" = false.
Proof. intros H; split; revert H; each_char c. Qed.

Lemma hex_digit_not_x (c : ascii) :
  is_hex_digit c = true ->
  Ascii.eqb (lower_char c) "x" = false /\ Ascii.eqb c "_" = false.
Proof. intros H; split; revert H; each_char c. Qed.

Lemma hex_digit_some (c : ascii) :
  is_hex_digit c = true -> exists d, hex_digit_value c = Some d.
Proof.
  unfold is_hex_digit. destruct (hex_digit_value c) as [d|]; [eauto|discriminate].
Qed.

Lemma hex_digits_value_all_hex (s : string) (acc : N) (prev : bool) :
  all_hex s = true -> (nonempty s || prev)%bool = true ->
  voice.hex_digits_value s acc prev = Some (hex_fold s acc).
Proof.
  revert acc prev. induction s as [|c t IH]; intros acc prev Hall Hne; simpl in *.
  - now rewrite Hne.
  - apply andb_true_iff in Hall as [Hc Ht].
    destruct (hex_digit_not_x c Hc) as [_ Hu]. rewrite Hu.
    destruct (hex_digit_some c Hc) as [d Hd]. rewrite Hd.
    apply IH; [exact Ht|]. now rewrite orb_true_r.
Qed.

(** On a text of hex digits [int(s, 16)] is the number it denotes. *)
Lemma py_int16_all_hex (s : string) :
  all_hex s = true -> nonempty s = true ->
  voice.py_int16 s = Some (hex_value s).
Proof.
  intros Hall Hne. unfold voice.py_int16.
  rewrite strip_by_none
    by (apply (str_forall_impl is_hex_digit); [apply hex_digit_not_space|exact Hall]).
  destruct s as [|a t]; [discriminate|].
  pose proof Hall as Hall'. simpl in Hall'.
  apply andb_true_iff in Hall' as [Ha Ht].
  unfold split_sign. destruct (hex_digit_not_sign a Ha) as [Hm Hp]. rewrite Hm, Hp.
  assert (Hx : String.eqb (lower (str_take 2 (String a t))) "0x" = false).
  { destruct t as [|b u]; simpl.
    - destruct (Ascii.eqb (lower_char a) "0"); reflexivity.
    - simpl in Ht. apply andb_true_iff in Ht as [Hb _].
      destruct (hex_digit_not_x b Hb) as [Hbx _].
      destruct u; simpl; rewrite Hbx;
        destruct (Ascii.eqb (lower_char a) "0"); reflexivity. }
  rewrite Hx.
  rewrite hex_digits_value_all_hex by (try exact Hall; reflexivity).
  reflexivity.
Qed.

Lemma str_drop_length (n : nat) (s : string) :
  String.length (str_drop n s) = (String.length s - n)%nat.
Proof.
  revert s. induction n as [|n IH]; intros s; simpl.
  - now rewrite Nat.sub_0_r.
  - destruct s as [|c t]; simpl; [reflexivity|apply IH].
Qed.

Lemma str_take_length (n : nat) (s : string) :
  String.length (str_take n s) = Nat.min n (String.length s).
Proof.
  revert s. induction n as [|n IH]; intros s; simpl; [reflexivity|].
  destruct s as [|c t]; simpl; [reflexivity|now rewrite IH].
Qed.

Lemma slice_length (a b : nat) (s : string) :
  (b <= String.length s)%nat -> String.length (slice a b s) = (b - a)%nat.
Proof.
  intros H. unfold slice. rewrite str_take_length, str_drop_length. lia.
Qed.

Lemma str_last_length (n : nat) (s : string) :
  (n <= String.length s)%nat -> String.length (str_last n s) = n.
Proof. intros H. unfold str_last. rewrite str_drop_length. lia. Qed.

Lemma nonempty_length (s : string) :
  (0 < String.length s)%nat -> nonempty s = true.
Proof. destruct s; simpl; [lia|reflexivity]. Qed.

Lemma swap_pairs_of_six (m : string) :
  String.length m = 6%nat ->
  join "" (map str_rev (voice.pairs_of (String.length m) m)) = swap_pairs m.
Proof.
  intros H.
  destruct m as [|a [|b [|c [|d [|e [|f [|g m]]]]]]]; try discriminate H.
  reflexivity.
Qed.

Lemma last_n_chars_text (s : string) (n : nat) :
  nonempty s = true ->
  voice.last_n_chars (VStr s) (S n) =
  if (S n <=? String.length s)%nat then str_last (S n) s else s.
Proof. intros H. unfold voice.last_n_chars. cbn [truthy py_str]. now rewrite H. Qed.

(** C7. For a location text with at least 18 characters whose tracking-area
    and cell-identity fields are hex digits, [decode_location_hex_field]
    returns ["{field2}-{field1}-{enb}-{cell}"] computed from the last 18
    characters: field1 is characters 0-3 read as hex and written in decimal,
    field2 is characters 4-9 with each pair reversed and the F filler removed,
    enb is the value of characters 10-17 modulo 256 and cell the same value
    divided by 256.  With fewer than 18 characters the result is the 6-4-4
    split of the last 14 characters (of the whole text when it is shorter).
    The tail 0012 00F1F2 00000101 decodes to TAC 18, enb 1 and cell 1. *)
Theorem location_decode_fields :
  (forall s : string,
      (18 <= String.length s)%nat ->
      all_hex (slice 0 4 (str_last 18 s)) = true ->
      all_hex (slice 10 18 (str_last 18 s)) = true ->
      voice.decode_location_hex_field (VStr s) = location_of_tail (str_last 18 s))
  /\ (forall s : string,
         (0 < String.length s < 18)%nat ->
         voice.decode_location_hex_field (VStr s)
         = split_6_4_4 (if (14 <=? String.length s)%nat then str_last 14 s else s))
  /\ voice.decode_location_hex_field (VStr "001200F1F200000101") = "0012-18-1-1"%string.
Proof.
  split; [|split].
  - intros s Hlen Htac Heci.
    assert (Hne : nonempty s = true) by (apply nonempty_length; lia).
    unfold voice.decode_location_hex_field.
    replace (truthy (VStr s)) with true by (simpl; now rewrite Hne).
    cbn [negb]. rewrite (last_n_chars_text s 17 Hne).
    replace (18 <=? String.length s)%nat with true
      by (symmetry; apply Nat.leb_le; exact Hlen).
    set (t := str_last 18 s) in *.
    assert (Ht : String.length t = 18%nat) by (apply str_last_length; exact Hlen).
    replace (String.length t <? 18)%nat with false
      by (symmetry; apply Nat.ltb_ge; lia).
    rewrite (py_int16_all_hex (slice 0 4 t) Htac)
      by (apply nonempty_length; rewrite slice_length; lia).
    rewrite (py_int16_all_hex (slice 10 18 t) Heci)
      by (apply nonempty_length; rewrite slice_length; lia).
    rewrite swap_pairs_of_six by (rewrite slice_length; lia).
    reflexivity.
  - intros s [Hpos Hlt].
    assert (Hne : nonempty s = true) by (apply nonempty_length; exact Hpos).
    unfold voice.decode_location_hex_field.
    replace (truthy (VStr s)) with true by (simpl; now rewrite Hne).
    cbn [negb]. rewrite !(last_n_chars_text s _ Hne).
    replace (18 <=? String.length s)%nat with false
      by (symmetry; apply Nat.leb_gt; exact Hlt).
    replace (String.length s <? 18)%nat with true
      by (symmetry; apply Nat.ltb_lt; exact Hlt).
    assert (Hne14 : nonempty (if (14 <=? String.length s)%nat
                              then str_last 14 s else s) = true).
    { destruct (14 <=? String.length s)%nat eqn:E; [|exact Hne].
      apply Nat.leb_le in E. apply nonempty_length.
      rewrite str_last_length; lia. }
    rewrite Hne14. reflexivity.
  - vm_compute. reflexivity.
Qed.

(** The worked example of the specification, through the general
    statement. *)
Lemma location_decode_fields_witness :
  voice.decode_location_hex_field (VStr "001200F1F200000101")
  = location_of_tail (str_last 18 "001200F1F200000101").
Proof.
  apply (proj1 location_decode_fields "001200F1F200000101"%string);
    [simpl; lia | reflexivity | reflexivity].
Defined.

(** *** Routing *)

Lemma rule_matches_absent (el_fields conditions : dict) (key : string) (condition : value) :
  In (key, condition) conditions -> dict_get key el_fields = None ->
  cbl.rule_matches el_fields conditions <> Ok true.
Proof.
  intros Hin Habs. induction conditions as [|[k c] t IH]; [contradiction|].
  simpl. destruct Hin as [Heq|Hin].
  - inversion Heq; subst. unfold cbl.evaluate_condition. rewrite Habs.
    simpl. discriminate.
  - destruct (cbl.evaluate_condition el_fields k c) as [[|]|e]; simpl.
    + apply IH, Hin.
    + discriminate.
    + discriminate.
Qed.

(** C10. [evaluate_condition] is [False] whenever the field is absent from
    the record, whatever the condition; a rule one of whose conditions names
    an absent field does not match, and no file is written for it; a rule
    with an empty condition map matches. *)
Theorem absent_field_never_matches :
  (forall (record_fields : dict) (key : string) (condition : value),
      dict_get key record_fields = None ->
      cbl.evaluate_condition record_fields key condition = Ok false)
  /\ (forall (el_fields conditions : dict) (key : string) (condition : value),
         In (key, condition) conditions -> dict_get key el_fields = None ->
         cbl.rule_matches el_fields conditions <> Ok true)
  /\ (forall (out_dirs : value) (el_fields : dict) (out_obj : value) (fn : string)
             (r : value) (conditions : dict) (key : string) (condition : value),
         py_get_default r "conditions" (VDict []) = Ok (VDict conditions) ->
         In (key, condition) conditions -> dict_get key el_fields = None ->
         forall w, cbl.route_rule out_dirs el_fields out_obj fn r <> Ok (Some w))
  /\ (forall el_fields : dict, cbl.rule_matches el_fields [] = Ok true).
Proof.
  split; [|split; [|split]].
  - intros record_fields key condition H.
    unfold cbl.evaluate_condition. now rewrite H.
  - exact rule_matches_absent.
  - intros out_dirs el_fields out_obj fn r conditions key condition Hc Hin Habs w.
    unfold cbl.route_rule.
    destruct (py_get r "name") as [name_v|e]; simpl; [|discriminate].
    rewrite Hc. simpl.
    assert (Hor : py_or (VDict conditions) (VDict []) = VDict conditions).
    { unfold py_or. destruct conditions; [contradiction|reflexivity]. }
    rewrite Hor. simpl.
    pose proof (rule_matches_absent el_fields conditions key condition Hin Habs) as Hm.
    destruct (cbl.rule_matches el_fields conditions) as [[|]|e]; simpl.
    + now contradiction Hm.
    + discriminate.
    + discriminate.
  - reflexivity.
Qed.

(** The BILLING rule of the default configuration on a record without
    [EL_SUCCESS]. *)
Lemma absent_field_never_matches_witness :
  cbl.rule_matches [("EL_PRE_POST", VStr "POSTPAID")]%string
    [("EL_PRE_POST", VStr "POSTPAID"); ("EL_SUCCESS", VInt 1)]%string <> Ok true.
Proof.
  apply (proj1 (proj2 absent_field_never_matches)
           [("EL_PRE_POST", VStr "POSTPAID")]%string
           [("EL_PRE_POST", VStr "POSTPAID"); ("EL_SUCCESS", VInt 1)]%string
           "EL_SUCCESS"%string (VInt 1)).
  - simpl. right. left. reflexivity.
  - reflexivity.
Defined.

Lemma upper_DWH_not_LMS (name : string) :
  String.eqb (upper name) "DWH" = true -> upper name <> "LMS"%string.
Proof. intros H. apply String.eqb_eq in H. rewrite H. discriminate. Qed.

Lemma route_rule_never_lms (out_dirs : value) (el_fields : dict) (out_obj : value)
  (fn : string) (r : value) (s : string) (w : cbl.written) :
  dict_get "EL_REC_TYPE" el_fields = Some (VStr s) ->
  upper s = "ECOMMERCE"%string ->
  cbl.route_rule out_dirs el_fields out_obj fn r = Ok (Some w) ->
  upper (cbl.w_rule w) <> "LMS"%string.
Proof.
  intros Hrec Hup. unfold cbl.route_rule.
  destruct (py_get r "name") as [name_v|]; simpl; [|discriminate].
  destruct (py_get_default r "conditions" (VDict [])) as [cv|]; simpl; [|discriminate].
  destruct (voice.as_dict (py_or cv (VDict []))) as [conds|]; simpl; [|discriminate].
  destruct (cbl.rule_matches el_fields conds) as [[|]|]; simpl; try discriminate.
  destruct (cbl.text_of name_v) as [name|]; simpl; [|discriminate].
  destruct (String.eqb (upper name) "DWH") eqn:Hdwh.
  - destruct (voice.as_dict out_dirs) as [dirs|]; simpl; [|discriminate].
    destruct (cbl.path_of _) as [base|]; simpl; [|discriminate].
    intros H. inversion H; subst. simpl. apply upper_DWH_not_LMS, Hdwh.
  - destruct (String.eqb (upper name) "LMS") eqn:Hlms.
    + unfold voice.dget. rewrite Hrec.
      assert (Hor : py_or (VStr s) (VStr "") = VStr s).
      { unfold py_or. destruct s; [discriminate Hup|reflexivity]. }
      rewrite Hor. simpl. rewrite Hup. simpl. discriminate.
    + simpl.
      destruct (voice.as_dict out_dirs) as [dirs|]; simpl; [|discriminate].
      destruct (cbl.path_of _) as [d|]; simpl; [|discriminate].
      intros H. inversion H; subst. simpl.
      apply String.eqb_neq. exact Hlms.
Qed.

Lemma route_rules_never_lms (out_dirs : value) (el_fields : dict) (out_obj : value)
  (fn : string) (rules : list value) (s : string) :
  dict_get "EL_REC_TYPE" el_fields = Some (VStr s) ->
  upper s = "ECOMMERCE"%string ->
  forall w, In w (fst (cbl.route_rules out_dirs el_fields out_obj fn rules)) ->
            upper (cbl.w_rule w) <> "LMS"%string.
Proof.
  intros Hrec Hup. induction rules as [|r t IH]; intros w Hin; [contradiction|].
  simpl in Hin.
  destruct (cbl.route_rule out_dirs el_fields out_obj fn r) as [ow|e] eqn:Hr.
  - destruct (cbl.route_rules out_dirs el_fields out_obj fn t) as [ws e'].
    simpl in *. destruct ow as [x|].
    + destruct Hin as [Hx|Hin]; [subst x|now apply IH].
      eapply route_rule_never_lms; eauto.
    + now apply IH.
  - contradiction.
Qed.

(** C8. When the derived record type [EL_REC_TYPE] is ECOMMERCE, no file
    is written for a rule named LMS, whatever the rules, their conditions
    and the output directories of the configuration. *)
Theorem ecommerce_never_routed_to_lms
  (original_obj : value) (el_fields cfg : dict) (input_filename : string) (s : string) :
  dict_get "EL_REC_TYPE" el_fields = Some (VStr s) ->
  upper s = "ECOMMERCE"%string ->
  forall w,
    In w (fst (cbl.route_using_config original_obj el_fields cfg input_filename)) ->
    upper (cbl.w_rule w) <> "LMS"%string.
Proof.
  intros Hrec Hup w. unfold cbl.route_using_config.
  destruct (py_iter _) as [rules|e]; simpl; [|contradiction].
  apply (route_rules_never_lms _ _ _ _ _ s Hrec Hup).
Qed.

Lemma ecommerce_never_routed_to_lms_witness :
  cbl.rule_matches ecommerce_fields
    [("EL_SUCCESS", VInt 1); ("EL_DEBIT_AMOUNT", VStr ">0")]%string = Ok true
  /\ forall w,
      In w (fst (cbl.route_using_config VNone ecommerce_fields [] "a.json")) ->
      upper (cbl.w_rule w) <> "LMS"%string.
Proof.
  split; [vm_compute; reflexivity|].
  apply (ecommerce_never_routed_to_lms VNone ecommerce_fields [] "a.json" "ECOMMERCE");
    reflexivity.
Defined.

(** *** The framing loop *)

Lemma frame_step_advances (spec : decoder.asn1_spec) (raw : list Byte.byte)
  (st st' : decoder.framer_state) :
  reports_progress spec ->
  decoder.frame_step spec raw st = Some st' ->
  decoder.offset st < decoder.offset st'.
Proof.
  intros Hp. unfold decoder.frame_step.
  destruct (decoder.offset st <? Z.of_nat (List.length raw)); [|discriminate].
  destruct (decoder.bytes_from raw (decoder.offset st)) as [|b rest]; [discriminate|].
  destruct (decoder.decode_one spec (b :: rest)) as [[decoded record_len]|e] eqn:Hd;
    intros H; inversion H; subst; simpl.
  - specialize (Hp _ _ _ Hd). lia.
  - lia.
Qed.

Lemma frame_loop_within (spec : decoder.asn1_spec) (raw : list Byte.byte) :
  reports_progress spec ->
  forall (fuel : nat) (st : decoder.framer_state),
    Z.of_nat (List.length raw) - decoder.offset st <= Z.of_nat fuel ->
    exists final n,
      decoder.frame_loop spec raw fuel st = Some (final, n) /\ (n <= fuel)%nat.
Proof.
  intros Hp. induction fuel as [|fuel IH]; intros st Hm.
  - exists st, O. split; [|lia]. simpl. unfold decoder.frame_step.
    replace (decoder.offset st <? Z.of_nat (List.length raw)) with false
      by (symmetry; apply Z.ltb_ge; lia).
    reflexivity.
  - simpl. destruct (decoder.frame_step spec raw st) as [st'|] eqn:Hs.
    + pose proof (frame_step_advances spec raw st st' Hp Hs) as Hadv.
      destruct (IH st') as (final & n & Hl & Hn); [lia|].
      exists final, (S n). rewrite Hl. split; [reflexivity|lia].
    + exists st, O. split; [reflexivity|lia].
Qed.

(** C3. With a decoder that reports a positive length for every record it
    decodes, every iteration of the framing loop strictly increases
    [offset], and [decode_all_ber_records] returns after at most
    [len(raw_data)] iterations. *)
Theorem framing_loop_terminates (spec : decoder.asn1_spec) (raw : list Byte.byte) :
  reports_progress spec ->
  (forall st st', decoder.frame_step spec raw st = Some st' ->
                  decoder.offset st < decoder.offset st')
  /\ exists final n,
      decoder.frame_loop spec raw (List.length raw) decoder.initial_state
      = Some (final, n)
      /\ (n <= List.length raw)%nat
      /\ decoder.decode_all_ber_records (List.length raw) raw spec
         = Some (decoder.records final).
Proof.
  intros Hp. split.
  - intros st st'. apply frame_step_advances, Hp.
  - destruct (frame_loop_within spec raw Hp (List.length raw) decoder.initial_state)
      as (final & n & Hl & Hn); [simpl; lia|].
    exists final, n. repeat split; [exact Hl|exact Hn|].
    unfold decoder.decode_all_ber_records. now rewrite Hl.
Qed.

Lemma two_byte_spec_progress : reports_progress two_byte_spec.
Proof.
  intros bs v n. unfold decoder.decode_one. simpl.
  destruct bs as [|b [|c rest]]; try discriminate.
  - destruct b; discriminate.
  - destruct b; try discriminate. intros H. inversion H. lia.
Qed.

(** Two records around a stray byte, and a truncated record at the end. *)
Lemma framing_loop_terminates_witness :
  exists final n,
    decoder.frame_loop two_byte_spec framed_bytes (List.length framed_bytes)
      decoder.initial_state = Some (final, n)
    /\ (n <= List.length framed_bytes)%nat
    /\ decoder.decode_all_ber_records (List.length framed_bytes) framed_bytes
         two_byte_spec = Some (decoder.records final).
Proof.
  exact (proj2 (framing_loop_terminates two_byte_spec framed_bytes
                  two_byte_spec_progress)).
Defined.

(** *** Worked examples *)

(** C9. For an account block with before-balance "100.12345" and
    after-balance "40.00000" and no committed value, [map_billing] derives
    the gross cost "60.12345" (and the same call cost, with no tax), whatever
    the date library does. *)
Theorem exact_decimal_balance_change (datetime_part : value -> string) :
  exists out,
    billing.map_billing datetime_part account_exact = Ok out
    /\ dict_get "EL_GROSS_CALL_COST" out = Some (VStr "60.12345")
    /\ dict_get "EL_CALL_COST" out = Some (VStr "60.12345")
    /\ dict_get "EL_TAX_AMOUNT" out = Some (VStr "").
Proof.
  eexists. split; [vm_compute; reflexivity|].
  repeat split; reflexivity.
Qed.

(** C1, as the code runs.  For the record with one [accountInfo] (before
    100, after 70), no committed value and no bucket, [map_voice] leaves
    EL_DEBIT_AMOUNT at 0.0; slot 1 holds the account (current balance 70.0,
    charged balance 30.0) and slots 2-5 hold the defaults. *)
Theorem account_only_debit_amount :
  let out := voice.map_voice account_100_70 true in
  field out "EL_DEBIT_AMOUNT" = Some (VF 0 0)
  /\ field out "EL_ACCT_BALANCE_ID1" = Some (VStr "")
  /\ field out "EL_BALANCE_TYPE1" = Some (VStr "")
  /\ field out "EL_CUR_BALANCE1" = Some (VF 70 0)
  /\ field out "EL_CHG_BALANCE1" = Some (VF 30 0)
  /\ field out "EL_RATE_ID1" = Some (VStr "")
  /\ (forall n, In n [2; 3; 4; 5]%nat ->
        field out (voice.fstr "EL_ACCT_BALANCE_ID" n) = Some (VStr "")
        /\ field out (voice.fstr "EL_BALANCE_TYPE" n) = Some (VStr "")
        /\ field out (voice.fstr "EL_CUR_BALANCE" n) = Some (VF 0 0)
        /\ field out (voice.fstr "EL_CHG_BALANCE" n) = Some (VF 0 0)
        /\ field out (voice.fstr "EL_RATE_ID" n) = Some (VStr ""))
  /\ py_str (VF 30 0) = "30.0"%string /\ py_str (VF 0 0) = "0.0"%string.
Proof.
  cbv zeta.
  remember (voice.map_voice account_100_70 true) as out eqn:E.
  vm_compute in E. subst out.
  repeat match goal with |- _ /\ _ => split end; try (vm_compute; reflexivity).
  intros n Hn. simpl in Hn.
  repeat (destruct Hn as [<-|Hn];
          [repeat split; vm_compute; reflexivity|]).
  contradiction.
Qed.

(** *** Dicts *)

Lemma bind_ok {A B : Type} (m : res A) (k : A -> res B) (b : B) :
  bind m k = Ok b -> exists a, m = Ok a /\ k a = Ok b.
Proof. destruct m as [a|e]; simpl; [eauto|discriminate]. Qed.

Ltac inv_bind H :=
  let a := fresh "x" in
  let Hm := fresh "Hm" in
  apply bind_ok in H; destruct H as (a & Hm & H); cbv beta in H.

Lemma dict_get_set_same (k : string) (v : value) (d : dict) :
  dict_get k (dict_set k v d) = Some v.
Proof.
  induction d as [|[k' v'] t IH]; simpl.
  - now rewrite String.eqb_refl.
  - destruct (String.eqb k k') eqn:E; simpl.
    + now rewrite String.eqb_refl.
    + now rewrite E.
Qed.

Lemma dict_get_set_other (k k' : string) (v : value) (d : dict) :
  String.eqb k k' = false -> dict_get k (dict_set k' v d) = dict_get k d.
Proof.
  intros Hne. induction d as [|[k2 v2] t IH]; simpl.
  - now rewrite Hne.
  - destruct (String.eqb k' k2) eqn:E; simpl.
    + apply String.eqb_eq in E. subst k2. now rewrite Hne.
    + destruct (String.eqb k k2); [reflexivity|exact IH].
Qed.

Lemma dict_get_update (k : string) (l : list (string * value)) (d : dict) :
  dict_get k (dict_update d l)
  = match last_assigned k l with
    | Some v => Some v
    | None => dict_get k d
    end.
Proof.
  unfold dict_update. revert d.
  induction l as [|[k' v] t IH]; intros d; simpl; [reflexivity|].
  rewrite IH. destruct (last_assigned k t); [reflexivity|].
  destruct (String.eqb k k') eqn:E.
  - apply String.eqb_eq in E. subst k'. apply dict_get_set_same.
  - apply dict_get_set_other, E.
Qed.

Lemma last_assigned_app (k : string) (l1 l2 : list (string * value)) :
  last_assigned k (l1 ++ l2)
  = match last_assigned k l2 with
    | Some v => Some v
    | None => last_assigned k l1
    end.
Proof.
  induction l1 as [|[k' v] t IH]; simpl.
  - destruct (last_assigned k l2); reflexivity.
  - rewrite IH. destruct (last_assigned k l2); reflexivity.
Qed.

Lemma last_assigned_none (k : string) (l : list (string * value)) :
  existsb (String.eqb k) (map fst l) = false -> last_assigned k l = None.
Proof.
  induction l as [|[k' v] t IH]; simpl; [reflexivity|].
  intros H. apply orb_false_iff in H as [H1 H2].
  now rewrite (IH H2), H1.
Qed.

Lemma last_assigned_in (k : string) (l : list (string * value)) (v : value) :
  last_assigned k l = Some v -> In (k, v) l.
Proof.
  induction l as [|[k' v'] t IH]; simpl; [discriminate|].
  destruct (last_assigned k t) as [x|].
  - intros H. inversion H; subst. right. now apply IH.
  - destruct (String.eqb k k') eqn:E; [|discriminate].
    apply String.eqb_eq in E. subst k'. intros H. inversion H. now left.
Qed.

Lemma dict_set_fresh (k : string) (v : value) (d : dict) :
  existsb (String.eqb k) (map fst d) = false -> dict_set k v d = d ++ [(k, v)].
Proof.
  induction d as [|[k' v'] t IH]; simpl; [reflexivity|].
  intros H. apply orb_false_iff in H as [H1 H2].
  now rewrite H1, (IH H2).
Qed.

Lemma existsb_app_false (k : string) (a b : list string) :
  existsb (String.eqb k) (a ++ b) = false <->
  existsb (String.eqb k) a = false /\ existsb (String.eqb k) b = false.
Proof. rewrite existsb_app. apply orb_false_iff. Qed.

Lemma dict_update_fresh (l : list (string * value)) :
  forall d : dict,
    nodupb (map fst l) = true ->
    (forall k, In k (map fst l) -> existsb (String.eqb k) (map fst d) = false) ->
    dict_update d l = d ++ l.
Proof.
  unfold dict_update.
  induction l as [|[k v] t IH]; intros d Hnd Hfresh; simpl.
  - now rewrite app_nil_r.
  - simpl in Hnd. apply andb_true_iff in Hnd as [Hk Hnd].
    apply negb_true_iff in Hk.
    rewrite dict_set_fresh by (apply Hfresh; now left).
    rewrite IH.
    + now rewrite <- app_assoc.
    + exact Hnd.
    + intros k' Hin. rewrite map_app. apply existsb_app_false. split.
      * apply Hfresh. now right.
      * simpl. rewrite orb_false_r.
        destruct (String.eqb k' k) eqn:E; [|reflexivity].
        apply String.eqb_eq in E. subst k'.
        assert (existsb (String.eqb k) (map fst t) = true) as Hc.
        { apply existsb_exists. exists k. split; [exact Hin|apply String.eqb_refl]. }
        congruence.
Qed.

Lemma dict_get_map (f : string -> value) (k : string) (l : list string) :
  dict_get k (map (fun key => (key, f key)) l)
  = if existsb (String.eqb k) l then Some (f k) else None.
Proof.
  induction l as [|x t IH]; simpl; [reflexivity|].
  destruct (String.eqb k x) eqn:E; simpl.
  - apply String.eqb_eq in E. now subst x.
  - exact IH.
Qed.

(** *** Canonical shaping *)

Lemma canonical_fields_nodup : nodupb voice.CANONICAL_FIELDS = true.
Proof. vm_compute. reflexivity. Qed.

Lemma map_fst_pairs (f : string -> value) (l : list string) :
  map fst (map (fun key => (key, f key)) l) = l.
Proof. induction l as [|x t IH]; simpl; [reflexivity|now rewrite IH]. Qed.

Lemma enforce_canonical_eq (mapped : dict) :
  voice.enforce_canonical mapped
  = map (fun key => (key, voice.canonical_value mapped key)) voice.CANONICAL_FIELDS.
Proof.
  unfold voice.enforce_canonical.
  rewrite dict_update_fresh; [reflexivity| |reflexivity].
  rewrite map_fst_pairs. exact canonical_fields_nodup.
Qed.

Lemma enforce_canonical_keys (mapped : dict) :
  dict_keys (voice.enforce_canonical mapped) = voice.CANONICAL_FIELDS.
Proof.
  rewrite enforce_canonical_eq. unfold dict_keys. apply map_fst_pairs.
Qed.

Lemma enforce_canonical_get (mapped : dict) (key : string) :
  dict_get key (voice.enforce_canonical mapped)
  = if existsb (String.eqb key) voice.CANONICAL_FIELDS
    then Some (voice.canonical_value mapped key) else None.
Proof. rewrite enforce_canonical_eq. apply dict_get_map. Qed.

Lemma canonical_value_shaped (mapped : dict) (key : string) :
  voice.canonical_value mapped key
  = match dict_get key mapped with
    | Some v => shaped_value key v
    | None => type_default key
    end.
Proof.
  unfold voice.canonical_value, shaped_value, type_default.
  destruct (dict_get key mapped) as [v|]; [|reflexivity].
  destruct v as [| | | |s| | |]; try reflexivity.
  destruct s; reflexivity.
Qed.

Lemma shaped_value_not_none (key : string) (v : value) :
  shaped_value key v <> VNone /\ shaped_value key v <> VStr "" \/
  shaped_value key v = type_default key.
Proof.
  destruct v as [| | | |s| | |]; simpl; try (left; split; discriminate).
  - now right.
  - destruct s; [now right|left; split; discriminate].
Qed.

Lemma type_default_not_none (key : string) : type_default key <> VNone.
Proof. unfold type_default. destruct (voice.is_numeric_field key); discriminate. Qed.

(** *** The structure of [map_voice] *)

Ltac inv_binds H :=
  repeat (inv_bind H;
          try match type of H with
              | (let '(_, _) := ?p in _) = _ => destruct p
              end).

Lemma map_voice_inv (cdr : value) (imei : bool) (out : dict) :
  voice.map_voice cdr imei = Ok out ->
  exists ctx head accs bsubs acct_fields bucket_fields tail,
    voice.prelude cdr = Ok ctx
    /\ voice.head_fields ctx imei = Ok head
    /\ voice.collect_blocks (voice.c_msccs ctx) = Ok (accs, bsubs)
    /\ voice.account_slots accs = Ok acct_fields
    /\ voice.bucket_slots bsubs = Ok bucket_fields
    /\ voice.tail_fields ctx accs = Ok tail
    /\ out = voice.enforce_canonical
               (dict_update [] (head ++ acct_fields ++ bucket_fields ++ tail)).
Proof.
  unfold voice.map_voice. intros H.
  destruct (voice.map_voice_out cdr imei) as [assignments|] eqn:Hout;
    [|discriminate H].
  unfold bind in H. injection H as <-.
  unfold voice.map_voice_out in Hout.
  destruct (voice.prelude cdr) as [ctx|] eqn:H1; [|discriminate Hout].
  unfold bind at 1 in Hout.
  destruct (voice.head_fields ctx imei) as [head|] eqn:H2; [|discriminate Hout].
  unfold bind at 1 in Hout.
  destruct (voice.collect_blocks (voice.c_msccs ctx)) as [[accs bsubs]|] eqn:H3;
    [|discriminate Hout].
  unfold bind at 1 in Hout.
  destruct (voice.account_slots accs) as [acct_fields|] eqn:H4; [|discriminate Hout].
  unfold bind at 1 in Hout.
  destruct (voice.bucket_slots bsubs) as [bucket_fields|] eqn:H5; [|discriminate Hout].
  unfold bind at 1 in Hout.
  destruct (voice.tail_fields ctx accs) as [tail|] eqn:H6; [|discriminate Hout].
  unfold bind in Hout. injection Hout as <-.
  exists ctx, head, accs, bsubs, acct_fields, bucket_fields, tail.
  repeat (split; [first [assumption | reflexivity]|]). reflexivity.
Qed.

Lemma head_fields_keys (ctx : voice.context) (imei : bool) (head : list (string * value)) :
  voice.head_fields ctx imei = Ok head ->
  map fst head = head_keys
  /\ forall k v, In (k, v) head -> voice.is_numeric_field k = true ->
                 number_like v = true.
Proof.
  unfold voice.head_fields. cbv zeta. intros H.
  inv_binds H. injection H as <-. split; [reflexivity|].
  intros k v Hin Hnum. simpl in Hin.
  repeat (destruct Hin as [Hin|Hin];
          [injection Hin as <- <-;
           try (vm_compute in Hnum; discriminate Hnum)|]);
    try contradiction.
  all: unfold voice.on_net_indicator, voice.opt_float;
    repeat match goal with
           | |- context [match ?o with Some _ => _ | None => _ end] => destruct o
           | |- context [match ?x with VBool _ => _ | _ => _ end] => destruct x
           end;
    reflexivity.
Qed.

Lemma last_assigned_nodup (k : string) (v : value) (l : list (string * value)) :
  nodupb (map fst l) = true -> In (k, v) l -> last_assigned k l = Some v.
Proof.
  induction l as [|[k' v'] t IH]; simpl; [contradiction|].
  intros Hnd Hin. apply andb_true_iff in Hnd as [Hk Hnd].
  apply negb_true_iff in Hk.
  destruct Hin as [Heq|Hin].
  - injection Heq as -> ->.
    rewrite (last_assigned_none k t Hk). now rewrite String.eqb_refl.
  - now rewrite (IH Hnd Hin).
Qed.

Lemma mid_lookup (pre mid post : list (string * value)) (k : string) (v : value) :
  nodupb (map fst mid) = true -> In (k, v) mid ->
  existsb (String.eqb k) (map fst post) = false ->
  last_assigned k (pre ++ mid ++ post) = Some v.
Proof.
  intros Hnd Hin Hpost.
  rewrite !last_assigned_app, (last_assigned_none k post Hpost).
  now rewrite (last_assigned_nodup k v mid Hnd Hin).
Qed.

(** *** Decimal results *)

Lemma dec_add_float (a b d : dec) :
  dec_add a b = Ok d -> exists f, float_of_dec d = Ok f.
Proof.
  unfold dec_add, dec_check_nans, dec_fix.
  destruct a as [na ca ea|na|[|] na pa], b as [nb cb eb|nb|[|] nb pb];
    simpl; try discriminate;
    try (intros H; injection H as <-; simpl; eauto; fail).
  - destruct (_ =? 0).
    + intros H; injection H as <-; simpl; eauto.
    + repeat match goal with
             | |- context [if ?c then _ else _] => destruct c
             | |- context [let '(_, _) := ?p in _] => destruct p
             end; try discriminate; intros H; injection H as <-; simpl; eauto.
  - destruct (Bool.eqb na nb); [|discriminate].
    intros H; injection H as <-; simpl; eauto.
Qed.

Lemma dec_sub_float (a b d : dec) :
  dec_sub a b = Ok d -> exists f, float_of_dec d = Ok f.
Proof.
  unfold dec_sub.
  destruct (dec_check_nans a b) as [[r|]|] eqn:E; simpl; [| |discriminate].
  - intros H; injection H as <-.
    unfold dec_check_nans in E.
    destruct a as [| |[|] ? ?], b as [| |[|] ? ?]; try discriminate;
      injection E as <-; simpl; eauto.
  - apply dec_add_float.
Qed.

Lemma float_or_zero_of (d : dec) (f : float) :
  float_of_dec d = Ok f -> voice.float_or_zero d = VFloat f.
Proof.
  intros H. unfold voice.float_or_zero, fmt_decimal_to_float. now rewrite H.
Qed.

Lemma float_or_zero_is_float (d : dec) : exists f, voice.float_or_zero d = VFloat f.
Proof.
  unfold voice.float_or_zero, voice.float_zero.
  destruct (fmt_decimal_to_float d); eauto.
Qed.

Lemma float_or_zero_text_of (d : dec) (f : float) :
  float_of_dec d = Ok f -> voice.float_or_zero_text d = float_repr f.
Proof.
  intros H. unfold voice.float_or_zero_text, fmt_decimal_to_float. now rewrite H.
Qed.

(** *** The slots *)

Lemma py_get_dict (d : dict) (k : string) :
  py_get (VDict d) k = Ok (voice.dget d k).
Proof. reflexivity. Qed.

Lemma account_chg_inv (d : dict) (before cur : option dec) (chg : value) :
  voice.account_chg (VDict d) before cur = Ok chg ->
  (exists f, chg = VFloat f)
  /\ forall b a, before = Some b -> cur = Some a ->
       exists diff nonneg,
         dec_sub b a = Ok diff
         /\ dec_ge diff dec_zero = Ok nonneg
         /\ if nonneg
            then exists f, float_of_dec diff = Ok f /\ chg = VFloat f
            else exists ssum f,
                dec_add (account_committed d) (account_secondary d) = Ok ssum
                /\ float_of_dec ssum = Ok f /\ chg = VFloat f.
Proof.
  unfold voice.account_chg.
  destruct before as [b|], cur as [a|];
    try (intros H; injection H as <-; split;
         [eexists; reflexivity|intros; discriminate]).
  intros H.
  destruct (dec_sub b a) as [diff|] eqn:Hsub; [|discriminate H].
  unfold bind at 1 in H.
  destruct (dec_ge diff dec_zero) as [nonneg|] eqn:Hge; [|discriminate H].
  unfold bind at 1 in H.
  destruct (dec_sub_float _ _ _ Hsub) as [f Hf].
  destruct nonneg.
  - injection H as <-. rewrite (float_or_zero_of _ _ Hf).
    split; [eauto|].
    intros b' a' Hb Ha. injection Hb as <-. injection Ha as <-.
    exists diff, true. repeat split; eauto.
  - rewrite !py_get_dict in H. unfold bind at 1 2 3 in H. cbv zeta in H.
    change (voice.dec_or_zero
              (voice.dec_or (to_decimal (voice.dget d "accountBalanceCommitted"))
                 (to_decimal (voice.dget d "accountBalanceCommittedBR"))))
      with (account_committed d) in H.
    change (voice.dec_or_zero (to_decimal (voice.dget d "secondaryCostCommitted")))
      with (account_secondary d) in H.
    destruct (dec_add (account_committed d) (account_secondary d)) as [ssum|] eqn:Hadd;
      [|discriminate H].
    unfold bind in H. injection H as <-.
    destruct (dec_add_float _ _ _ Hadd) as [g Hg].
    rewrite (float_or_zero_of _ _ Hg).
    split; [eauto|].
    intros b' a' Hb Ha. injection Hb as <-. injection Ha as <-.
    exists diff, false. repeat split; eauto.
Qed.

(** The five assignments of one account slot. *)
Lemma account_slot_inv (n : nat) (e : option voice.account_entry)
  (l : list (string * value)) :
  voice.account_slot n e = Ok l ->
  exists id ty cur chg rate,
    l = [(voice.fstr "EL_ACCT_BALANCE_ID" n, id);
         (voice.fstr "EL_BALANCE_TYPE" n, ty);
         (voice.fstr "EL_CUR_BALANCE" n, cur);
         (voice.fstr "EL_CHG_BALANCE" n, chg);
         (voice.fstr "EL_RATE_ID" n, rate)]
    /\ number_like cur = true
    /\ (exists f, chg = VFloat f)
    /\ match e with
       | None =>
           id = VStr "" /\ ty = VStr "" /\ cur = voice.float_zero
           /\ chg = voice.float_zero /\ rate = VStr ""
       | Some entry =>
           exists d,
             voice.ae_acct entry = VDict d
             /\ id = py_or (voice.dget d "accountID") (VStr "")
             /\ ty = py_or (voice.dget d "accountType") (VStr "")
             /\ rate = py_or (voice.dget d "rateId") (VStr "")
             /\ voice.account_chg (VDict d)
                  (to_decimal (voice.dget d "accountBalanceBefore"))
                  (to_decimal (voice.dget d "accountBalanceAfter")) = Ok chg
       end.
Proof.
  destruct e as [entry|]; simpl.
  - cbv zeta.
    destruct (voice.ae_acct entry) as [| | | | | | |d] eqn:Hacct;
      try (intros H; discriminate H).
    rewrite !py_get_dict. unfold bind at 1 2 3 4. intros H.
    destruct (voice.account_chg (VDict d) _ _) as [chg|] eqn:Hchg;
      [|discriminate H].
    unfold bind in H. injection H as <-.
    do 5 eexists. split; [reflexivity|]. repeat split.
    + destruct (to_decimal (voice.dget d "accountBalanceAfter")); [|reflexivity].
      simpl. destruct (fmt_decimal_to_float d0); reflexivity.
    + apply (account_chg_inv _ _ _ _ Hchg).
    + exists d. repeat split. exact Hchg.
  - intros H. injection H as <-.
    do 5 eexists. split; [reflexivity|]. repeat split.
    exists (f_zero false). reflexivity.
Qed.

Lemma mapM_bucket_chg (buckets : list voice.bucket) (items : list string) :
  mapM voice.bucket_chg buckets = Ok items -> Forall2 bucket_item_ok buckets items.
Proof.
  revert items. induction buckets as [|b t IH]; intros items; simpl.
  - intros H. injection H as <-. constructor.
  - intros H.
    destruct (voice.bucket_chg b) as [item|] eqn:Hb; [|discriminate H].
    unfold bind at 1 in H.
    destruct (mapM voice.bucket_chg t) as [rest|]; [|discriminate H].
    simpl in H. injection H as <-.
    constructor; [|apply IH; reflexivity].
    intros before after Hbef Haft.
    unfold voice.bucket_chg in Hb. rewrite Hbef, Haft in Hb.
    fold (bucket_committed b) in Hb.
    destruct (dec_sub before after) as [diff|] eqn:Hsub; [|discriminate Hb].
    unfold bind at 1 in Hb.
    destruct (dec_ge diff dec_zero) as [nonneg|] eqn:Hge; [|discriminate Hb].
    unfold bind in Hb.
    exists diff, nonneg. split; [reflexivity|]. split; [exact Hge|].
    clear Hge. destruct nonneg; injection Hb as <-; [|reflexivity].
    destruct (dec_sub_float _ _ _ Hsub) as [f Hf].
    exists f. split; [exact Hf|apply float_or_zero_text_of, Hf].
Qed.

(** The five assignments of one bucket slot. *)
Lemma bucket_slot_inv (n : nat) (e : option voice.bucket_sub)
  (l : list (string * value)) :
  voice.bucket_slot n e = Ok l ->
  exists id ty cur chg rate,
    l = [(voice.fstr "EL_BUCKET_BALANCE_ID" n, id);
         (voice.fstr "EL_BUCKET_BALANCE_TYPE" n, ty);
         (voice.fstr "EL_BUCKET_CUR_BALANCE" n, cur);
         (voice.fstr "EL_BUCKET_CHG_BALANCE" n, chg);
         (voice.fstr "EL_BUCKET_RATE_ID" n, rate)]
    /\ match e with
       | None =>
           id = VStr "" /\ ty = VStr "" /\ cur = voice.float_zero
           /\ chg = voice.float_zero /\ rate = VStr ""
       | Some entry =>
           exists items,
             Forall2 bucket_item_ok (voice.bs_buckets entry) items
             /\ chg = VStr (join "," items)
             /\ cur = VStr (join "," (map voice.bucket_cur (voice.bs_buckets entry)))
       end.
Proof.
  destruct e as [entry|]; simpl.
  - intros H. inv_binds H. injection H as <-.
    do 5 eexists. split; [reflexivity|].
    eexists. repeat split. apply mapM_bucket_chg. eassumption.
  - intros H. injection H as <-.
    do 5 eexists. split; [reflexivity|]. repeat split.
Qed.

Lemma mapM_Forall2 {A B : Type} (f : A -> res B) (l : list A) (r : list B) :
  mapM f l = Ok r -> Forall2 (fun x y => f x = Ok y) l r.
Proof.
  revert r. induction l as [|x t IH]; intros r; simpl.
  - intros H. injection H as <-. constructor.
  - intros H. destruct (f x) as [y|] eqn:Hy; [|discriminate H].
    unfold bind at 1 in H.
    destruct (mapM f t) as [ys|]; [|discriminate H].
    unfold bind in H. injection H as <-.
    constructor; [exact Hy|now apply IH].
Qed.

Ltac inv_Forall2 :=
  repeat match goal with
         | H : Forall2 _ (_ :: _) _ |- _ => inversion H; subst; clear H
         | H : Forall2 _ [] _ |- _ => inversion H; subst; clear H
         end.

(** The account slots: five groups, one per slot number. *)
Lemma account_slots_inv (accs : list voice.account_entry)
  (fields : list (string * value)) :
  voice.account_slots accs = Ok fields ->
  map fst fields = account_keys
  /\ (forall k v, In (k, v) fields -> voice.is_numeric_field k = true ->
                  number_like v = true)
  /\ forall n, (n < 5)%nat ->
       exists l, voice.account_slot (S n) (nth_error accs n) = Ok l
                 /\ incl l fields.
Proof.
  unfold voice.account_slots, voice.slot_indices. intros H.
  apply bind_ok in H as (groups & Hm & H). injection H as <-.
  apply mapM_Forall2 in Hm. inv_Forall2. cbn [Nat.add] in *.
  repeat match goal with
         | Hs : voice.account_slot _ _ = Ok ?y |- _ =>
             is_var y;
             let Hs' := fresh "Hslot" in
             pose proof Hs as Hs';
             apply account_slot_inv in Hs;
             destruct Hs as (? & ? & ? & ? & ? & -> & ? & [? ->] & _)
         end.
  split; [reflexivity|]. split.
  - intros k v Hin Hnum. simpl in Hin.
    repeat (destruct Hin as [Hin|Hin];
            [injection Hin as <- <-;
             try (vm_compute in Hnum; discriminate Hnum);
             first [assumption|reflexivity]|]).
    contradiction.
  - intros n Hn.
    do 5 (destruct n as [|n];
          [eexists; split; [eassumption|];
           intros kv Hkv; simpl;
           repeat (destruct Hkv as [Hkv|Hkv]; [subst kv; repeat first [left; reflexivity|right]|]);
           destruct Hkv|]).
    lia.
Qed.

(** The bucket slots. *)
Lemma bucket_slots_inv (bsubs : list voice.bucket_sub)
  (fields : list (string * value)) :
  voice.bucket_slots bsubs = Ok fields ->
  map fst fields = bucket_keys
  /\ forall n, (n < 5)%nat ->
       exists l, voice.bucket_slot (S n) (nth_error bsubs n) = Ok l
                 /\ incl l fields.
Proof.
  unfold voice.bucket_slots, voice.slot_indices. intros H.
  apply bind_ok in H as (groups & Hm & H). injection H as <-.
  apply mapM_Forall2 in Hm. inv_Forall2. cbn [Nat.add] in *.
  repeat match goal with
         | Hs : voice.bucket_slot _ _ = Ok ?y |- _ =>
             is_var y;
             let Hs' := fresh "Hslot" in
             pose proof Hs as Hs';
             apply bucket_slot_inv in Hs;
             destruct Hs as (? & ? & ? & ? & ? & -> & _)
         end.
  split; [reflexivity|].
  intros n Hn.
  do 5 (destruct n as [|n];
        [eexists; split; [eassumption|];
         intros kv Hkv; simpl;
         repeat (destruct Hkv as [Hkv|Hkv]; [subst kv; repeat first [left; reflexivity|right]|]);
         destruct Hkv|]).
  lia.
Qed.

Lemma unlimited_loop_inv (accs : list voice.account_entry)
  (l : list (string * value)) :
  voice.unlimited_loop accs = Ok l ->
  l = [] \/ exists name total,
      l = [("EL_UNLTD_BUNDLE_NAME", name);
           ("EL_UNLTD_TOTAL_TIME_CHARGED", voice.float_or_zero total);
           ("EL_UNLTD_BUNDLE_UNIT_TYPE", VStr "TIME")]%string.
Proof.
  induction accs as [|entry t IH]; simpl.
  - intros H. injection H as <-. now left.
  - intros H. inv_binds H.
    destruct x3 as [total|].
    + injection H as <-. right. eauto.
    + apply IH, H.
Qed.

Lemma tail_fields_inv (ctx : voice.context) (accs : list voice.account_entry)
  (tail : list (string * value)) :
  voice.tail_fields ctx accs = Ok tail ->
  (map fst tail = tail_keys \/ map fst tail = tail_keys ++ unlimited_keys)
  /\ forall k v, In (k, v) tail -> voice.is_numeric_field k = true ->
                 number_like v = true.
Proof.
  unfold voice.tail_fields. cbv zeta. intros H.
  inv_binds H. injection H as <-.
  apply unlimited_loop_inv in Hm0.
  split.
  - destruct Hm0 as [->|(name & total & ->)]; [left|right]; reflexivity.
  - intros k v Hin Hnum.
    destruct Hm0 as [->|(name & total & ->)]; simpl in Hin;
      repeat (destruct Hin as [Hin|Hin];
              [injection Hin as <- <-;
               try (vm_compute in Hnum; discriminate Hnum);
               try reflexivity|]);
      try contradiction.
    destruct (voice.float_or_zero total) eqn:E; try reflexivity;
      destruct (float_or_zero_is_float total) as [f Hf]; congruence.
Qed.

(** *** Lookups in the output of [map_voice] *)

Lemma slot_keys_canonical :
  forallb (fun k => existsb (String.eqb k) voice.CANONICAL_FIELDS)
          (account_keys ++ bucket_keys) = true.
Proof. vm_compute. reflexivity. Qed.

Lemma slot_keys_not_in_tail :
  forallb (fun k => negb (existsb (String.eqb k) (tail_keys ++ unlimited_keys)))
          (account_keys ++ bucket_keys) = true.
Proof. vm_compute. reflexivity. Qed.

Lemma slot_keys_nodup : nodupb (account_keys ++ bucket_keys) = true.
Proof. vm_compute. reflexivity. Qed.

Lemma numeric_fields_canonical :
  forallb (fun k => existsb (String.eqb k) voice.CANONICAL_FIELDS)
          voice.numeric_fields = true.
Proof. vm_compute. reflexivity. Qed.

Lemma existsb_eqb_in (k : string) (l : list string) :
  existsb (String.eqb k) l = true <-> In k l.
Proof.
  rewrite existsb_exists. split.
  - intros (x & Hin & Heq). apply String.eqb_eq in Heq. now subst x.
  - intros Hin. exists k. split; [exact Hin|apply String.eqb_refl].
Qed.

Lemma subscription_blocks_inv (cdr : value) (ctx : voice.context) (b : voice.blocks) :
  voice.prelude cdr = Ok ctx -> voice.subscription_blocks cdr = Ok b ->
  voice.collect_blocks (voice.c_msccs ctx) = Ok b.
Proof.
  intros Hp. unfold voice.subscription_blocks. rewrite Hp. intros H. exact H.
Qed.

(** Every assignment of the ten slot groups is what the output holds for its
    key, shaped by [enforce_canonical]. *)
Lemma slot_lookup (cdr : value) (imei : bool) (out : dict)
  (accs : list voice.account_entry) (bsubs : list voice.bucket_sub) :
  voice.subscription_blocks cdr = Ok (accs, bsubs) ->
  voice.map_voice cdr imei = Ok out ->
  exists acct_fields bucket_fields,
    voice.account_slots accs = Ok acct_fields
    /\ voice.bucket_slots bsubs = Ok bucket_fields
    /\ forall k v, In (k, v) (acct_fields ++ bucket_fields) ->
                   dict_get k out = Some (shaped_value k v).
Proof.
  intros Hblocks Hmap.
  apply map_voice_inv in Hmap
    as (ctx & head & accs' & bsubs' & af & bf & tail
        & Hp & Hh & Hc & Ha & Hb & Ht & Hout).
  rewrite (subscription_blocks_inv _ _ _ Hp Hblocks) in Hc.
  injection Hc as <- <-.
  exists af, bf. split; [exact Ha|]. split; [exact Hb|].
  intros k v Hin.
  destruct (account_slots_inv _ _ Ha) as (Hka & _ & _).
  destruct (bucket_slots_inv _ _ Hb) as (Hkb & _).
  destruct (tail_fields_inv _ _ _ Ht) as (Hkt & _).
  assert (Hk : In k (account_keys ++ bucket_keys)).
  { rewrite <- Hka, <- Hkb, <- map_app. apply in_map_iff. now exists (k, v). }
  pose proof (proj1 (forallb_forall _ _) slot_keys_canonical k Hk) as Hcan.
  pose proof (proj1 (forallb_forall _ _) slot_keys_not_in_tail k Hk) as Hd.
  cbv beta in Hcan, Hd.
  apply negb_true_iff in Hd. apply existsb_app_false in Hd as [Hd1 Hd2].
  rewrite Hout, enforce_canonical_get, Hcan, canonical_value_shaped, dict_get_update.
  replace (head ++ af ++ bf ++ tail) with (head ++ (af ++ bf) ++ tail)
    by (now rewrite <- app_assoc).
  rewrite (mid_lookup head (af ++ bf) tail k v); [reflexivity| |exact Hin|].
  - rewrite map_app, Hka, Hkb. exact slot_keys_nodup.
  - destruct Hkt as [-> | ->]; [exact Hd1|].
    apply existsb_app_false. now split.
Qed.

Lemma shaped_number (k : string) (v : value) :
  voice.is_numeric_field k = true -> number_like v = true ->
  is_number (shaped_value k v) = true.
Proof.
  intros Hk Hv. unfold shaped_value, type_default. rewrite Hk.
  destruct v as [| | | |[|c s]| | |]; try discriminate; reflexivity.
Qed.

Lemma shaped_text (k s : string) :
  voice.is_numeric_field k = false -> shaped_value k (VStr s) = VStr s.
Proof.
  intros Hk. unfold shaped_value, type_default. rewrite Hk. now destruct s.
Qed.

Lemma shaped_float (k : string) (f : float) : shaped_value k (VFloat f) = VFloat f.
Proof. reflexivity. Qed.




Lemma slot_key_numeric (n : nat) :
  (n < 5)%nat ->
  voice.is_numeric_field (voice.fstr "EL_ACCT_BALANCE_ID" (S n)) = false
  /\ voice.is_numeric_field (voice.fstr "EL_BALANCE_TYPE" (S n)) = false
  /\ voice.is_numeric_field (voice.fstr "EL_RATE_ID" (S n)) = false
  /\ voice.is_numeric_field (voice.fstr "EL_BUCKET_BALANCE_ID" (S n)) = false
  /\ voice.is_numeric_field (voice.fstr "EL_BUCKET_BALANCE_TYPE" (S n)) = false
  /\ voice.is_numeric_field (voice.fstr "EL_BUCKET_CUR_BALANCE" (S n)) = false
  /\ voice.is_numeric_field (voice.fstr "EL_BUCKET_CHG_BALANCE" (S n)) = false
  /\ voice.is_numeric_field (voice.fstr "EL_BUCKET_RATE_ID" (S n)) = false.
Proof.
  intros Hn.
  do 5 (destruct n as [|n]; [vm_compute; repeat split; reflexivity|]).
  lia.
Qed.

(** What the output holds for the keys of slot [n + 1]. *)
Lemma slot_fields (cdr : value) (imei : bool) (out : dict)
  (accs : list voice.account_entry) (bsubs : list voice.bucket_sub) (n : nat) :
  voice.subscription_blocks cdr = Ok (accs, bsubs) ->
  voice.map_voice cdr imei = Ok out ->
  (n < 5)%nat ->
  (exists l, voice.account_slot (S n) (nth_error accs n) = Ok l
             /\ forall k v, In (k, v) l -> dict_get k out = Some (shaped_value k v))
  /\ (exists l, voice.bucket_slot (S n) (nth_error bsubs n) = Ok l
             /\ forall k v, In (k, v) l -> dict_get k out = Some (shaped_value k v)).
Proof.
  intros Hblocks Hmap Hn.
  destruct (slot_lookup _ _ _ _ _ Hblocks Hmap) as (af & bf & Ha & Hb & Hget).
  destruct (account_slots_inv _ _ Ha) as (_ & _ & Hai).
  destruct (bucket_slots_inv _ _ Hb) as (_ & Hbi).
  destruct (Hai n Hn) as (la & Hla & Hincl_a).
  destruct (Hbi n Hn) as (lb & Hlb & Hincl_b).
  split.
  - exists la. split; [exact Hla|].
    intros k v Hin. apply Hget, in_or_app. left. now apply Hincl_a.
  - exists lb. split; [exact Hlb|].
    intros k v Hin. apply Hget, in_or_app. right. now apply Hincl_b.
Qed.

(** *** The tree and what the mapper reads from it *)

Lemma has_rp_is_block (v : value) (name : string) :
  voice.has_rp v name = is_block name v.
Proof.
  unfold voice.has_rp, sg, is_block. destruct v; try reflexivity.
  simpl. destruct (dict_get "recordProperty" d) as [x|]; reflexivity.
Qed.

Lemma is_block_dict (name : string) (v : value) :
  is_block name v = true -> is_dict v = true.
Proof. destruct v; simpl; congruence. Qed.

Lemma sg_attribute (v : value) (k : string) (default : value) :
  truthy default = false ->
  py_or (safe_get v [PKey k] default) default
  = if truthy (attribute v k) then attribute v k else default.
Proof.
  intros Hd. unfold attribute, py_or. destruct v; simpl; rewrite ?Hd; try reflexivity.
  destruct (dict_get k d) as [x|]; simpl; [reflexivity|now rewrite Hd].
Qed.

Lemma elements_attributes (v : value) : voice.elements v = attributes v.
Proof. unfold voice.elements, sg_or, attributes. now rewrite sg_attribute. Qed.

Lemma filter_dict_chars (s : string) : filter is_dict (chars_of s) = [].
Proof. induction s as [|c t IH]; simpl; [reflexivity|exact IH]. Qed.

Lemma filter_dict_keys (d : dict) :
  filter is_dict (map (fun kv : string * value => VStr (fst kv)) d) = [].
Proof. induction d as [|kv t IH]; simpl; [reflexivity|exact IH]. Qed.

(** What a loop over [x or []] visits, up to the items that are no
    dicts. *)
Lemma py_iter_dicts (x : value) (l : list value) :
  py_iter (if truthy x then x else VList []) = Ok l -> filter is_dict l = dicts_of x.
Proof.
  destruct (truthy x) eqn:E.
  - destruct x as [| | | | |l'|l'|d]; simpl; try discriminate;
      intros H; injection H as <-;
      [apply filter_dict_chars|reflexivity|reflexivity|apply filter_dict_keys].
  - simpl. intros H. injection H as <-.
    destruct x as [| | | | |l'|l'|d]; try reflexivity;
      destruct l'; [reflexivity|discriminate E|reflexivity|discriminate E].
Qed.

Lemma sub_exts_blocks (v : value) (l : list value) :
  voice.sub_exts v = Ok l -> filter is_dict l = blocks_under v.
Proof.
  unfold voice.sub_exts, sg_or. rewrite sg_attribute by reflexivity.
  apply py_iter_dicts.
Qed.

Lemma filter_block_dicts (name : string) (l : list value) :
  filter (is_block name) (filter is_dict l) = filter (is_block name) l.
Proof.
  induction l as [|x t IH]; simpl; [reflexivity|].
  destruct (is_dict x) eqn:E; simpl; rewrite IH; [reflexivity|].
  destruct (is_block name x) eqn:B; [|reflexivity].
  apply is_block_dict in B. congruence.
Qed.

Lemma sub_exts_named (name : string) (v : value) (l : list value) :
  voice.sub_exts v = Ok l -> filter (is_block name) l = blocks_named name v.
Proof.
  intros H. unfold blocks_named. rewrite <- (sub_exts_blocks _ _ H).
  symmetry. apply filter_block_dicts.
Qed.

Lemma find_block_dicts (name : string) (l : list value) :
  find (is_block name) (filter is_dict l) = find (is_block name) l.
Proof.
  induction l as [|x t IH]; simpl; [reflexivity|].
  destruct (is_dict x) eqn:E; simpl; rewrite IH; [reflexivity|].
  destruct (is_block name x) eqn:B; [|reflexivity].
  apply is_block_dict in B. congruence.
Qed.

Lemma filter_flat_map {A B : Type} (p : B -> bool) (f : A -> list B) (l : list A) :
  filter p (flat_map f l) = flat_map (fun x => filter p (f x)) l.
Proof.
  induction l as [|x t IH]; simpl; [reflexivity|]. now rewrite filter_app, IH.
Qed.

Lemma find_app {A : Type} (p : A -> bool) (l1 l2 : list A) :
  find p (l1 ++ l2) = match find p l1 with Some x => Some x | None => find p l2 end.
Proof.
  induction l1 as [|x t IH]; simpl; [reflexivity|]. destruct (p x); [reflexivity|exact IH].
Qed.

(** The loop over the blocks of one [chargingServiceInfo]. *)
Lemma scan_s4_fold (l : list value) (hb hb' : bool) (ai ai' : option value)
  (bks bks' : list voice.bucket) :
  voice.foldM voice.scan_s4 l (hb, ai, bks) = Ok (hb', ai', bks') ->
  scanned l (hb, ai, bks) (hb', ai', bks').
Proof.
  unfold scanned. revert hb ai bks. induction l as [|x t IH]; intros hb ai bks; cbn [voice.foldM].
  - intros H. injection H as <- <- <-. exists []. simpl.
    rewrite app_nil_r, orb_false_r. repeat split; [constructor|now destruct ai].
  - intros H. apply bind_ok in H as ([[hb1 ai1] bks1] & Hs & H).
    apply IH in H as (bs & Hbs & Hk & Hh & Ha).
    unfold voice.scan_s4 in Hs. rewrite !has_rp_is_block in Hs.
    cbn [filter find].
    destruct (is_block "bucketInfo" x) eqn:Eb.
    + assert (Ea : is_block "accountInfo" x = false).
      { unfold is_block in *. destruct x; try discriminate.
        destruct (dict_get "recordProperty" d) as [[]|]; try discriminate.
        apply String.eqb_eq in Eb. now subst. }
      rewrite Ea in Hs |- *. cbn [andb] in Hs.
      destruct (voice.bucket_of x) as [b|] eqn:Hb; [|discriminate Hs].
      cbn [bind] in Hs. injection Hs as <- <- <-.
      exists (b :: bs). rewrite Hk, Hh, Ha, <- app_assoc, orb_true_r. cbn [app].
      repeat split. now constructor.
    + cbn [bind] in Hs.
      destruct (is_block "accountInfo" x) eqn:Ea; cbn [andb] in Hs.
      * destruct ai as [a|]; cbn [voice.is_some negb] in Hs; injection Hs as <- <- <-;
          exists bs; rewrite Hk, Hh, Ha; repeat split; try assumption.
        now rewrite elements_attributes.
      * injection Hs as <- <- <-. exists bs. rewrite Hk, Hh, Ha.
        repeat split; assumption.
Qed.

Lemma scanned_nil (st : voice.sub_state) : scanned [] st st.
Proof.
  destruct st as [[hb ai] bks]. exists []. simpl.
  rewrite app_nil_r, orb_false_r. repeat split; [constructor|now destruct ai].
Qed.

Lemma scanned_app (l1 l2 : list value) (st st1 st2 : voice.sub_state) :
  scanned l1 st st1 -> scanned l2 st1 st2 -> scanned (l1 ++ l2) st st2.
Proof.
  destruct st as [[hb ai] bks], st1 as [[hb1 ai1] bks1], st2 as [[hb2 ai2] bks2].
  intros (bs1 & F1 & -> & -> & ->) (bs2 & F2 & -> & -> & ->).
  exists (bs1 ++ bs2). rewrite filter_app, find_app, <- app_assoc, <- orb_assoc.
  split; [now apply Forall2_app|]. split; [reflexivity|]. split.
  - f_equal. destruct (filter (is_block "bucketInfo") l1); reflexivity.
  - destruct ai; [reflexivity|].
    destruct (find (is_block "accountInfo") l1); reflexivity.
Qed.

Lemma scanned_dicts (l : list value) (st st' : voice.sub_state) :
  scanned l st st' -> scanned (filter is_dict l) st st'.
Proof.
  destruct st as [[hb ai] bks], st' as [[hb' ai'] bks']. unfold scanned.
  now rewrite filter_block_dicts, find_block_dicts.
Qed.

(** The loop over the blocks of one subscription. *)
Lemma scan_s3_fold (l : list value) (st st' : voice.sub_state) :
  voice.foldM voice.scan_s3 l st = Ok st' ->
  scanned (flat_map blocks_under (filter (is_block "chargingServiceInfo") l)) st st'.
Proof.
  revert st. induction l as [|x t IH]; intros st; cbn [voice.foldM].
  - intros H. injection H as <-. apply scanned_nil.
  - intros H. apply bind_ok in H as (st1 & Hs & H). apply IH in H.
    unfold voice.scan_s3 in Hs. rewrite has_rp_is_block in Hs. cbn [filter].
    destruct (is_block "chargingServiceInfo" x).
    + apply bind_ok in Hs as (s4s & Hx & Hs).
      destruct st as [[hb ai] bks], st1 as [[hb1 ai1] bks1].
      apply scan_s4_fold, scanned_dicts in Hs.
      rewrite (sub_exts_blocks _ _ Hx) in Hs.
      cbn [flat_map]. exact (scanned_app _ _ _ _ _ Hs H).
    + injection Hs as <-. exact H.
Qed.

Lemma safe_get_attributes (v : value) (k1 k2 : string) :
  safe_get v [PKey k1; PKey k2] VNone = attribute (attribute v k1) k2.
Proof.
  destruct v; try reflexivity. simpl.
  destruct (dict_get k1 d) as [x|]; [|reflexivity].
  destruct x; simpl; try reflexivity; destruct (dict_get k2 _); reflexivity.
Qed.

Lemma bundle_of_name (s : value) : voice.bundle_of s = bundle_name s.
Proof. unfold voice.bundle_of, bundle_name. now rewrite !safe_get_attributes. Qed.

Lemma collected_nil (acc : voice.blocks) : collected [] acc acc.
Proof.
  destruct acc as [a b]. exists []. simpl. rewrite !app_nil_r. now split; [constructor|].
Qed.

Lemma collected_app (l1 l2 : list value) (acc r1 r2 : voice.blocks) :
  collected l1 acc r1 -> collected l2 r1 r2 -> collected (l1 ++ l2) acc r2.
Proof.
  intros (b1 & F1 & ->) (b2 & F2 & ->). exists (b1 ++ b2). cbn [fst snd].
  rewrite !filter_app, map_app, <- !app_assoc. split; [now apply Forall2_app|reflexivity].
Qed.

(** One [subscriptionInfo] block. *)
Lemma collect_subscription_block (acc r : voice.blocks) (s : value) :
  voice.collect_subscription acc s = Ok r ->
  collected (filter (is_block "subscriptionInfo") [s]) acc r.
Proof.
  unfold voice.collect_subscription. rewrite has_rp_is_block. cbn [filter].
  destruct (is_block "subscriptionInfo" s); [|intros H; injection H as <-; apply collected_nil].
  intros H. apply bind_ok in H as (s3s & Hx & H).
  apply bind_ok in H as ([[hb ai] bks] & Hf & H).
  apply scan_s3_fold in Hf. rewrite (sub_exts_named _ _ _ Hx) in Hf.
  fold (charging_blocks s) in Hf.
  destruct Hf as (bs & Hbs & Hk & Hh & Ha). cbn [app orb] in Hk, Hh. subst bks hb ai.
  change (filter (is_block "bucketInfo") (charging_blocks s)) with (bucket_blocks s) in *.
  change (find (is_block "accountInfo") (charging_blocks s)) with (account_block s) in *.
  destruct acc as [account_only bucket_subs]. rewrite bundle_of_name in H.
  unfold collected, is_account_occurrence, is_bucket_occurrence.
  cbn [filter fst snd].
  destruct (bucket_blocks s) as [|b0 bl] eqn:Eb.
  - inversion Hbs; subst. cbn [andb negb] in H |- *.
    assert (Ha : account_attributes s
                 = match account_block s with Some a => attributes a | None => VNone end)
      by reflexivity.
    destruct (account_block s) as [a|]; cbn [option_map] in H; rewrite Ha.
    + destruct (truthy (attributes a)); injection H as <-; exists [];
        cbn [map]; unfold account_entry_of; rewrite ?Ha, ?app_nil_r;
        (split; [constructor|reflexivity]).
    + injection H as <-. exists []. cbn [map truthy]. rewrite ?app_nil_r.
      split; [constructor|reflexivity].
  - inversion Hbs as [|? b1 ? bs' Hb1 Hrest]; subst. cbn [andb negb] in H |- *.
    injection H as <-.
    exists [{| voice.bs_bundleName := bundle_name s; voice.bs_buckets := b1 :: bs' |}].
    cbn [map]. rewrite app_nil_r. split; [|reflexivity].
    constructor; [|constructor]. split; [reflexivity|].
    cbn [voice.bs_buckets]. rewrite Eb. now constructor.
Qed.

(** A loop that collects from the selected items of a list. *)
Lemma collected_fold (f : voice.blocks -> value -> res voice.blocks)
  (name : string) (sub : value -> list value) :
  (forall acc x r, f acc x = Ok r ->
                   collected (flat_map sub (filter (is_block name) [x])) acc r) ->
  forall l acc r, voice.foldM f l acc = Ok r ->
                  collected (flat_map sub (filter (is_block name) l)) acc r.
Proof.
  intros Hf. induction l as [|x t IH]; intros acc r; cbn [voice.foldM].
  - intros H. injection H as <-. apply collected_nil.
  - intros H. apply bind_ok in H as (r1 & Hx & H).
    apply Hf in Hx. apply IH in H.
    change (x :: t) with ([x] ++ t). rewrite filter_app, flat_map_app.
    exact (collected_app _ _ _ _ _ Hx H).
Qed.

Lemma flat_map_single {A : Type} (l : list A) : flat_map (fun x => [x]) l = l.
Proof. induction l as [|x t IH]; simpl; [reflexivity|now rewrite IH]. Qed.

Lemma collect_device_block (acc r : voice.blocks) (dev : value) :
  voice.collect_device acc dev = Ok r ->
  collected (flat_map (blocks_named "subscriptionInfo")
                      (filter (is_block "deviceInfo") [dev])) acc r.
Proof.
  unfold voice.collect_device. rewrite has_rp_is_block. cbn [filter].
  destruct (is_block "deviceInfo" dev); [|intros H; injection H as <-; apply collected_nil].
  intros H. apply bind_ok in H as (s2s & Hx & H).
  apply (collected_fold voice.collect_subscription "subscriptionInfo" (fun x => [x])) in H.
  - rewrite flat_map_single, (sub_exts_named _ _ _ Hx) in H.
    cbn [flat_map]. now rewrite app_nil_r.
  - intros acc' x r' Hc. rewrite flat_map_single.
    now apply collect_subscription_block.
Qed.

Lemma collect_mscc_block (acc r : voice.blocks) (m : value) :
  voice.collect_mscc acc m = Ok r ->
  collected (flat_map (fun m => flat_map (blocks_named "subscriptionInfo")
                                         (blocks_named "deviceInfo" m))
                      (filter (is_block "mscc") [m])) acc r.
Proof.
  unfold voice.collect_mscc. rewrite has_rp_is_block. cbn [filter].
  destruct (is_block "mscc" m); cbn [negb];
    [|intros H; injection H as <-; apply collected_nil].
  intros H. apply bind_ok in H as (subs & Hx & H).
  apply (collected_fold voice.collect_device "deviceInfo"
           (blocks_named "subscriptionInfo")) in H.
  - rewrite (sub_exts_named _ _ _ Hx) in H. cbn [flat_map]. now rewrite app_nil_r.
  - intros acc' x r' Hc. now apply collect_device_block.
Qed.

Lemma generic_record_eq (cdr : value) :
  py_or (safe_get cdr [PKey "original"; PKey "payload"; PKey "genericRecord"] (VDict []))
        cdr
  = generic_record cdr.
Proof.
  unfold py_or, generic_record, attribute.
  destruct cdr; try reflexivity. simpl.
  destruct (dict_get "original" d) as [x|]; [|reflexivity].
  destruct x; simpl; try reflexivity.
  destruct (dict_get "payload" _) as [y|]; [|reflexivity].
  destruct y; simpl; try reflexivity.
  destruct (dict_get "genericRecord" _); reflexivity.
Qed.

Lemma find_has_rp (name : string) (l : list value) :
  find (fun x => voice.has_rp x name) l = find (is_block name) l.
Proof.
  induction l as [|x t IH]; simpl; [reflexivity|]. now rewrite has_rp_is_block, IH.
Qed.

Lemma prelude_msccs (cdr : value) (ctx : voice.context) :
  voice.prelude cdr = Ok ctx ->
  filter (is_block "mscc") (voice.c_msccs ctx) = mscc_blocks cdr.
Proof.
  unfold voice.prelude. cbv zeta. rewrite generic_record_eq. intros H.
  apply bind_ok in H as (cbl0 & _ & H).
  apply bind_ok in H as (re & _ & H).
  apply bind_ok in H as (exts & He & H).
  apply bind_ok in H as (msccs & Hm & H).
  injection H as <-. cbn [voice.c_msccs].
  unfold mscc_blocks.
  unfold sg_or in He. rewrite sg_attribute in He by reflexivity.
  apply py_iter_dicts in He. rewrite <- He, find_block_dicts.
  unfold voice.first_with_rp in Hm.
  rewrite find_has_rp in Hm.
  destruct (find (is_block "listOfMscc") exts) as [l|] eqn:Ef.
  - apply find_some in Ef as [_ Ef].
    assert (Ht : truthy l = true).
    { unfold is_block in Ef. destruct l; try discriminate.
      destruct d; [discriminate|reflexivity]. }
    rewrite Ht in Hm. now apply sub_exts_named.
  - cbn [truthy] in Hm. injection Hm as <-. reflexivity.
Qed.

(** The two lists of [map_voice] are collected from the subscriptions of the
    record, in tree order. *)
Lemma collect_blocks_tree (cdr : value) (ctx : voice.context) (b : voice.blocks) :
  voice.prelude cdr = Ok ctx ->
  voice.collect_blocks (voice.c_msccs ctx) = Ok b ->
  fst b = map account_entry_of (account_occurrences cdr)
  /\ Forall2 bucket_sub_of (bucket_occurrences cdr) (snd b).
Proof.
  intros Hp H. unfold voice.collect_blocks in H.
  apply (collected_fold voice.collect_mscc "mscc"
           (fun m => flat_map (blocks_named "subscriptionInfo")
                              (blocks_named "deviceInfo" m))) in H.
  - rewrite (prelude_msccs _ _ Hp) in H. fold (subscriptions_in_order cdr) in H.
    destruct H as (bsubs & F & ->). now split.
  - intros acc x r Hc. now apply collect_mscc_block.
Qed.

(** *** The slots, from the tree *)

Lemma py_or_empty_idem (a b : value) :
  py_or (py_or a (py_or b (VStr ""))) (VStr "") = py_or a (py_or b (VStr "")).
Proof.
  unfold py_or. destruct (truthy a) eqn:Ea; [now rewrite Ea|].
  destruct (truthy b) eqn:Eb; [now rewrite Eb|reflexivity].
Qed.

Lemma bundle_name_or (s : value) : py_or (bundle_name s) (VStr "") = bundle_name s.
Proof. apply py_or_empty_idem. Qed.

Lemma bundle_name_cases (s : value) :
  truthy (bundle_name s) = true \/ bundle_name s = VStr "".
Proof.
  unfold bundle_name, py_or.
  destruct (truthy (attribute _ "bundleName")) eqn:Ea; [now left|].
  destruct (truthy (attribute _ "bundle_name")) eqn:Eb; [now left|now right].
Qed.

Lemma texts_truthy (l : list value) (ss : list string) :
  voice.texts (filter truthy l) = Ok ss -> ss = nonempty_texts l.
Proof.
  revert ss. induction l as [|x t IH]; intros ss; cbn [filter].
  - intros H. injection H as <-. reflexivity.
  - destruct (truthy x) eqn:E.
    + cbn [voice.texts]. destruct x; try discriminate.
      intros H. apply bind_ok in H as (r & Hr & H). injection H as <-.
      rewrite (IH _ Hr). destruct s; [discriminate E|reflexivity].
    + intros H. rewrite (IH _ H).
      destruct x; try reflexivity. destruct s; [reflexivity|discriminate E].
Qed.

Lemma filter_truthy_nil (l : list value) :
  filter truthy l = [] -> nonempty_texts l = [].
Proof.
  intros H. symmetry. apply texts_truthy. now rewrite H.
Qed.

Lemma nonempty_texts_cons (x : value) (l : list value) :
  nonempty_texts (x :: l) = nonempty_texts [x] ++ nonempty_texts l.
Proof. unfold nonempty_texts. cbn [flat_map]. now rewrite app_nil_r. Qed.

Lemma nonempty_texts_or (A : Type) (f : A -> value) (l : list A) :
  nonempty_texts (map (fun x => py_or (f x) (VStr "")) l) = nonempty_texts (map f l).
Proof.
  induction l as [|x t IH]; [reflexivity|].
  cbn [map]. unfold nonempty_texts in *. cbn [flat_map]. rewrite IH. f_equal.
  unfold py_or. destruct (truthy (f x)) eqn:E; [reflexivity|].
  destruct (f x); try reflexivity. destruct s; [reflexivity|discriminate E].
Qed.

Lemma py_join_truthy (l : list value) (j : string) :
  voice.py_join "," (voice.truthy_values l) = Ok j -> j = join "," (nonempty_texts l).
Proof.
  unfold voice.py_join, voice.truthy_values. intros H.
  apply bind_ok in H as (ss & Hs & H). injection H as <-.
  now rewrite (texts_truthy _ _ Hs).
Qed.

(** What [bucket_of] reads from a [bucketInfo] block. *)
Lemma bucket_of_inv (b : value) (r : voice.bucket) :
  voice.bucket_of b = Ok r ->
  let e := attributes b in
  r = {| voice.bucketName := py_or (attribute e "bucketName") (VStr "");
         voice.bucketUnitType := py_or (attribute e "bucketUnitType") (VStr "");
         voice.bucketBalanceBefore := to_decimal (attribute e "bucketBalanceBefore");
         voice.bucketBalanceAfter := to_decimal (attribute e "bucketBalanceAfter");
         voice.bucketCommitedUnits :=
           to_decimal (py_or (attribute e "bucketCommitedUnits")
                             (attribute e "bucketCommittedUnits"));
         voice.rateId := py_or (attribute e "rateId") (VStr "") |}.
Proof.
  unfold voice.bucket_of. rewrite elements_attributes.
  destruct (attributes b); try discriminate.
  cbn [py_get bind attribute]. intros H. injection H as <-. reflexivity.
Qed.

Lemma buckets_of_map (f : voice.bucket -> value) (k : string)
  (blocks : list value) (bs : list voice.bucket) :
  (forall b r, voice.bucket_of b = Ok r ->
               f r = py_or (attribute (attributes b) k) (VStr "")) ->
  Forall2 (fun b r => voice.bucket_of b = Ok r) blocks bs ->
  nonempty_texts (map f bs)
  = nonempty_texts (map (fun b => attribute (attributes b) k) blocks).
Proof.
  intros Hf F.
  induction F as [|b r blocks bs Hb F IH]; [reflexivity|].
  cbn [map]. rewrite (nonempty_texts_cons (f r)),
    (nonempty_texts_cons (attribute (attributes b) k)), IH.
  f_equal. rewrite (Hf _ _ Hb).
  exact (nonempty_texts_or value (fun v => v) [attribute (attributes b) k]).
Qed.

Lemma buckets_cur (blocks : list value) (bs : list voice.bucket) :
  Forall2 (fun b r => voice.bucket_of b = Ok r) blocks bs ->
  map voice.bucket_cur bs = map current_item blocks.
Proof.
  induction 1 as [|b r blocks bs Hb F IH]; [reflexivity|].
  cbn [map]. rewrite IH. f_equal.
  rewrite (bucket_of_inv _ _ Hb). reflexivity.
Qed.

Lemma buckets_chg (blocks : list value) (bs : list voice.bucket) (items : list string) :
  Forall2 (fun b r => voice.bucket_of b = Ok r) blocks bs ->
  Forall2 bucket_item_ok bs items ->
  Forall2 block_item_ok blocks items.
Proof.
  intros F. revert items. induction F as [|b r blocks bs Hb F IH]; intros items Hi.
  - inversion Hi. constructor.
  - inversion Hi as [|? item ? items' Hitem Hrest]; subst.
    constructor; [|now apply IH].
    rewrite (bucket_of_inv _ _ Hb) in Hitem.
    intros before after Hbefore Hafter.
    exact (Hitem before after Hbefore Hafter).
Qed.

Lemma shaped_kept (k : string) (v : value) :
  voice.is_numeric_field k = false ->
  truthy v = true \/ v = VStr "" ->
  shaped_value k v = v.
Proof.
  intros Hk [Hv| ->]; [|now apply shaped_text].
  destruct v; try reflexivity; [discriminate Hv|].
  destruct s; [discriminate Hv|reflexivity].
Qed.

Lemma shaped_text_or_empty (k : string) (v : value) :
  voice.is_numeric_field k = false ->
  shaped_value k (py_or v (VStr "")) = text_or_empty v.
Proof.
  intros Hk. unfold text_or_empty, py_or.
  destruct (truthy v) eqn:E; apply shaped_kept; auto.
Qed.

Lemma shaped_balance (k : string) (v : value) :
  voice.is_numeric_field k = true ->
  shaped_value k
    match to_decimal v with
    | Some c => voice.opt_float (fmt_decimal_to_float c)
    | None => voice.float_zero
    end
  = balance_value v.
Proof.
  intros Hk. unfold balance_value.
  destruct (to_decimal v) as [c|]; [|reflexivity].
  destruct (fmt_decimal_to_float c); [reflexivity|].
  unfold shaped_value, type_default. simpl. now rewrite Hk.
Qed.

Lemma slot_balance_numeric (n : nat) :
  (n < 5)%nat ->
  voice.is_numeric_field (voice.fstr "EL_CUR_BALANCE" (S n)) = true
  /\ voice.is_numeric_field (voice.fstr "EL_CHG_BALANCE" (S n)) = true.
Proof.
  intros Hn.
  do 5 (destruct n as [|n]; [vm_compute; split; reflexivity|]).
  lia.
Qed.

(** The assignments of a populated account slot. *)
Lemma account_slot_tree (n : nat) (s : value) (l : list (string * value)) :
  voice.account_slot n (Some (account_entry_of s)) = Ok l ->
  exists d chg,
    account_attributes s = VDict d
    /\ voice.account_chg (VDict d)
         (to_decimal (attribute (VDict d) "accountBalanceBefore"))
         (to_decimal (attribute (VDict d) "accountBalanceAfter")) = Ok chg
    /\ l = [(voice.fstr "EL_ACCT_BALANCE_ID" n,
             py_or (attribute (VDict d) "accountID") (VStr ""));
            (voice.fstr "EL_BALANCE_TYPE" n,
             py_or (attribute (VDict d) "accountType") (VStr ""));
            (voice.fstr "EL_CUR_BALANCE" n,
             match to_decimal (attribute (VDict d) "accountBalanceAfter") with
             | Some c => voice.opt_float (fmt_decimal_to_float c)
             | None => voice.float_zero
             end);
            (voice.fstr "EL_CHG_BALANCE" n, chg);
            (voice.fstr "EL_RATE_ID" n,
             py_or (attribute (VDict d) "rateId") (VStr ""))].
Proof.
  unfold voice.account_slot, account_entry_of. cbn [voice.ae_acct].
  destruct (account_attributes s) as [| | | | | | |d]; try discriminate.
  cbn [py_get bind]. intros H.
  apply bind_ok in H as (chg & Hchg & H). injection H as <-.
  exists d, chg. split; [reflexivity|]. split; [exact Hchg|reflexivity].
Qed.

Lemma names_nil (l : list value) (ss : list string) :
  voice.texts (filter truthy l) = Ok ss ->
  match filter truthy l with [] => false | _ :: _ => true end
  = match ss with [] => false | _ :: _ => true end.
Proof.
  destruct (filter truthy l) as [|x t]; cbn [voice.texts].
  - intros H. injection H as <-. reflexivity.
  - destruct x; try discriminate. intros H.
    apply bind_ok in H as (r & _ & H). injection H as <-. reflexivity.
Qed.

(** The assignments of a populated bucket slot. *)
Lemma bucket_slot_tree (n : nat) (s : value) (e : voice.bucket_sub)
  (l : list (string * value)) :
  bucket_sub_of s e ->
  voice.bucket_slot n (Some e) = Ok l ->
  exists items,
    Forall2 block_item_ok (bucket_blocks s) items
    /\ l = [(voice.fstr "EL_BUCKET_BALANCE_ID" n,
             bucket_identity (bundle_name s) (bucket_texts s "bucketName"));
            (voice.fstr "EL_BUCKET_BALANCE_TYPE" n,
             VStr (join "," (bucket_texts s "bucketUnitType")));
            (voice.fstr "EL_BUCKET_CUR_BALANCE" n,
             VStr (join "," (map current_item (bucket_blocks s))));
            (voice.fstr "EL_BUCKET_CHG_BALANCE" n, VStr (join "," items));
            (voice.fstr "EL_BUCKET_RATE_ID" n,
             VStr (join "," (bucket_texts s "rateId")))].
Proof.
  intros [Hbundle F]. unfold voice.bucket_slot. cbv zeta.
  rewrite Hbundle, bundle_name_or. intros H.
  apply bind_ok in H as (id_val & Hid & H).
  apply bind_ok in H as (types & Hty & H).
  apply bind_ok in H as (items & Hchg & H).
  apply bind_ok in H as (rates & Hra & H).
  injection H as <-.
  apply mapM_bucket_chg in Hchg.
  exists items. split; [exact (buckets_chg _ _ _ F Hchg)|].
  rewrite (buckets_cur _ _ F).
  apply py_join_truthy in Hty, Hra.
  rewrite (buckets_of_map voice.bucketUnitType "bucketUnitType" _ _
             (fun b r Hb => f_equal voice.bucketUnitType (bucket_of_inv b r Hb)) F) in Hty.
  rewrite (buckets_of_map voice.rateId "rateId" _ _
             (fun b r Hb => f_equal voice.rateId (bucket_of_inv b r Hb)) F) in Hra.
  fold (bucket_texts s "bucketUnitType") in Hty. fold (bucket_texts s "rateId") in Hra.
  subst types rates.
  assert (Hnames : nonempty_texts (map voice.bucketName (voice.bs_buckets e))
                   = bucket_texts s "bucketName").
  { exact (buckets_of_map voice.bucketName "bucketName" _ _
             (fun b r Hb => f_equal voice.bucketName (bucket_of_inv b r Hb)) F). }
  assert (Hidv : id_val = bucket_identity (bundle_name s) (bucket_texts s "bucketName")).
  { rewrite <- Hnames. clear Hnames.
    set (names := map voice.bucketName (voice.bs_buckets e)) in *.
    unfold voice.truthy_values in Hid. unfold bucket_identity.
    destruct (truthy (bundle_name s)) eqn:Eb; cbn [andb] in Hid.
    - destruct (filter truthy names) as [|x t] eqn:En.
      + injection Hid as <-. now rewrite (filter_truthy_nil _ En).
      + apply bind_ok in Hid as (prefix & Hp & Hid).
        apply bind_ok in Hid as (joined & Hj & Hid). injection Hid as <-.
        unfold voice.py_join in Hj. apply bind_ok in Hj as (ss & Hs & Hj).
        injection Hj as <-. rewrite <- En in Hs.
        pose proof (names_nil _ _ Hs) as Hnil. rewrite En in Hnil.
        rewrite <- (texts_truthy _ _ Hs).
        destruct ss as [|s0 ss]; [discriminate Hnil|].
        unfold voice.py_add_text in Hp.
        destruct (bundle_name s) as [| | | |b| | |]; try discriminate Hp.
        injection Hp as <-. destruct b as [|c b]; [discriminate Eb|].
        now rewrite append_assoc.
    - apply bind_ok in Hid as (j & Hj & Hid). injection Hid as <-.
      unfold voice.py_join in Hj. apply bind_ok in Hj as (ss & Hs & Hj).
      injection Hj as <-. rewrite <- (texts_truthy _ _ Hs).
      destruct (bundle_name_cases s) as [Ht|Hb]; [congruence|].
      rewrite Hb. now destruct ss. }
  now rewrite Hidv.
Qed.

Lemma nth_error_Forall2 {A B : Type} (R : A -> B -> Prop) (l : list A) (l' : list B)
  (n : nat) :
  Forall2 R l l' ->
  match nth_error l n, nth_error l' n with
  | Some x, Some y => R x y
  | None, None => True
  | _, _ => False
  end.
Proof.
  intros F. revert n. induction F as [|x y l l' Hxy F IH]; intros [|n]; simpl; auto.
  apply IH.
Qed.

(** The output of [map_voice] and the blocks it was made from. *)
Lemma map_voice_blocks (cdr : value) (imei : bool) (out : dict) :
  voice.map_voice cdr imei = Ok out ->
  exists bsubs,
    voice.subscription_blocks cdr
    = Ok (map account_entry_of (account_occurrences cdr), bsubs)
    /\ Forall2 bucket_sub_of (bucket_occurrences cdr) bsubs.
Proof.
  intros Hmap.
  apply map_voice_inv in Hmap
    as (ctx & head & accs & bsubs & af & bf & tail & Hp & _ & Hc & _).
  destruct (collect_blocks_tree _ _ _ Hp Hc) as [Ha Hb]. cbn [fst snd] in Ha, Hb.
  exists bsubs. split; [|exact Hb].
  unfold voice.subscription_blocks. rewrite Hp. cbn [bind]. now rewrite Hc, Ha.
Qed.

(** What the output holds in slot [n + 1], from the occurrences of the
    tree. *)
Lemma slot_contents (cdr : value) (imei : bool) (out : dict) (n : nat) :
  voice.map_voice cdr imei = Ok out ->
  (n < 5)%nat ->
  (forall s, nth_error (account_occurrences cdr) n = Some s ->
     (forall k v, In (k, v) (account_group (S n) s) -> dict_get k out = Some v)
     /\ exists d chg,
         account_attributes s = VDict d
         /\ voice.account_chg (VDict d)
              (to_decimal (attribute (VDict d) "accountBalanceBefore"))
              (to_decimal (attribute (VDict d) "accountBalanceAfter")) = Ok chg
         /\ dict_get (voice.fstr "EL_CHG_BALANCE" (S n)) out = Some chg)
  /\ (nth_error (account_occurrences cdr) n = None ->
      forall k v, In (k, v) (account_padding (S n)) -> dict_get k out = Some v)
  /\ (forall s, nth_error (bucket_occurrences cdr) n = Some s ->
        (forall k v, In (k, v) (bucket_group (S n) s) -> dict_get k out = Some v)
        /\ exists items,
            Forall2 block_item_ok (bucket_blocks s) items
            /\ dict_get (voice.fstr "EL_BUCKET_CHG_BALANCE" (S n)) out
               = Some (VStr (join "," items)))
  /\ (nth_error (bucket_occurrences cdr) n = None ->
      forall k v, In (k, v) (bucket_padding (S n)) -> dict_get k out = Some v).
Proof.
  intros Hmap Hn.
  destruct (map_voice_blocks _ _ _ Hmap) as (bsubs & Hblocks & Fb).
  destruct (slot_fields _ _ _ _ _ n Hblocks Hmap Hn)
    as [(la & Hla & Hga) (lb & Hlb & Hgb)].
  destruct (slot_key_numeric n Hn) as (K1 & K2 & K3 & K4 & K5 & K6 & K7 & K8).
  destruct (slot_balance_numeric n Hn) as (N1 & N2).
  rewrite nth_error_map in Hla.
  pose proof (nth_error_Forall2 _ _ _ n Fb) as Hnb.
  split; [|split; [|split]].
  - intros s Hs. rewrite Hs in Hla. cbn [option_map] in Hla.
    apply account_slot_tree in Hla as (d & chg & Hd & Hchg & ->).
    split.
    + intros k v Hin. unfold account_group in Hin. rewrite Hd in Hin.
      cbn [In] in Hin.
      destruct Hin as [Hin|[Hin|[Hin|[Hin|[]]]]]; injection Hin as <- <-.
      * rewrite (Hga _ _ (or_introl eq_refl)). f_equal.
        now apply shaped_text_or_empty.
      * rewrite (Hga _ _ (or_intror (or_introl eq_refl))). f_equal.
        now apply shaped_text_or_empty.
      * rewrite (Hga _ _ (or_intror (or_intror (or_introl eq_refl)))). f_equal.
        now apply shaped_balance.
      * rewrite (Hga _ _ (or_intror (or_intror (or_intror (or_intror
                                                             (or_introl eq_refl)))))).
        f_equal. now apply shaped_text_or_empty.
    + exists d, chg. split; [exact Hd|]. split; [exact Hchg|].
      rewrite (Hga _ _ (or_intror (or_intror (or_intror (or_introl eq_refl))))).
      f_equal. destruct (proj1 (account_chg_inv _ _ _ _ Hchg)) as [f ->]. reflexivity.
  - intros Hnone k v Hin. rewrite Hnone in Hla. cbn [option_map] in Hla.
    injection Hla as <-. rewrite (Hga k v Hin). f_equal.
    simpl in Hin.
    repeat (destruct Hin as [Hin|Hin];
            [injection Hin as <- <-;
             first [apply shaped_text; assumption|reflexivity]|]).
    contradiction.
  - intros s Hs. rewrite Hs in Hnb.
    destruct (nth_error bsubs n) as [e|] eqn:He; [|contradiction].
    destruct (bucket_slot_tree _ _ _ _ Hnb Hlb) as (items & Hitems & ->).
    split.
    + intros k v Hin. unfold bucket_group in Hin. cbn [In] in Hin.
      destruct Hin as [Hin|[Hin|[Hin|[Hin|[]]]]]; injection Hin as <- <-.
      * rewrite (Hgb _ _ (or_introl eq_refl)). f_equal.
        unfold bucket_identity.
        destruct (bucket_texts s "bucketName").
        -- apply shaped_kept; [assumption|apply bundle_name_cases].
        -- destruct (bundle_name s) as [| | | |[|c b]| | |]; now apply shaped_text.
      * rewrite (Hgb _ _ (or_intror (or_introl eq_refl))). f_equal.
        now apply shaped_text.
      * rewrite (Hgb _ _ (or_intror (or_intror (or_introl eq_refl)))). f_equal.
        now apply shaped_text.
      * rewrite (Hgb _ _ (or_intror (or_intror (or_intror (or_intror
                                                             (or_introl eq_refl)))))).
        f_equal. now apply shaped_text.
    + exists items. split; [exact Hitems|].
      rewrite (Hgb _ _ (or_intror (or_intror (or_intror (or_introl eq_refl))))).
      f_equal. now apply shaped_text.
  - intros Hnone k v Hin. rewrite Hnone in Hnb.
    destruct (nth_error bsubs n) as [e|] eqn:He; [contradiction|].
    injection Hlb as <-. rewrite (Hgb k v Hin). f_equal.
    simpl in Hin.
    repeat (destruct Hin as [Hin|Hin];
            [injection Hin as <- <-;
             first [apply shaped_text; assumption|reflexivity]|]).
    contradiction.
Qed.






(** *** The slot cap *)



(** *** The charged balance *)

(** When the difference of two finite decimals has at most 28 digits,
    [dec_sub] returns it as it is. *)
Lemma dec_sub_exact (na nb : bool) (ca cb : N) (ea eb : Z) :
  let e := Z.min ea eb in
  let z := signed na (ca * pow10 (ea - e))%N - signed nb (cb * pow10 (eb - e))%N in
  z <> 0 ->
  ndigits (Z.abs_N z) <= dec_prec ->
  dec_Etiny <= e -> e <= dec_Etop ->
  dec_sub (DFin na ca ea) (DFin nb cb eb) = Ok (DFin (z <? 0) (Z.abs_N z) e).
Proof.
  intros e z Hz Hd Hlo Hhi.
  unfold dec_sub, dec_add. cbn [dec_check_nans bind dec_negate].
  fold e.
  assert (Hneg : signed (negb nb) (cb * pow10 (eb - e))%N
                 = - signed nb (cb * pow10 (eb - e))%N).
  { unfold signed. destruct nb; cbn [negb]; lia. }
  rewrite Hneg.
  change (signed na (ca * pow10 (ea - e))%N + - signed nb (cb * pow10 (eb - e))%N)
    with z.
  destruct (z =? 0) eqn:E; [apply Z.eqb_eq in E; contradiction|].
  unfold dec_fix.
  assert (Hc : (Z.abs_N z =? 0)%N = false) by (apply N.eqb_neq; lia).
  rewrite Hc.
  assert (H1 : (ndigits (Z.abs_N z) + e - dec_prec >? dec_Etop) = false)
    by (rewrite Z.gtb_ltb; apply Z.ltb_ge; lia).
  rewrite H1.
  assert (H2 : (e <? Z.max (ndigits (Z.abs_N z) + e - dec_prec) dec_Etiny) = false)
    by (apply Z.ltb_ge; lia).
  now rewrite H2.
Qed.

(** C5, amended.  Whenever [map_voice] returns, in slot [n + 1], for [n]
    from 0 to 4: when the account of account occurrence [n] holds both
    balances, EL_CHG_BALANCE is the float of [before - after] when this
    difference is at least zero, and the float of the committed value plus
    the secondary cost committed when it is negative; EL_BUCKET_CHG_BALANCE
    is the comma-joined text of one item per [bucketInfo] block of bucket
    occurrence [n], in tree order, and the item of a block that holds both
    balances is the text of the float of [before - after] when this
    difference is at least zero, and the text of the float of its committed
    units when it is negative.  The difference is the one of [Decimal] under
    the default context: the exact one when it has at most 28 digits, and
    rounded to 28 digits otherwise.  For the record of [charged_example] the
    charged balances are 7.0 (10 to 30, 5 committed and 2 secondary), 30.0
    (100 to 70) and "6.0,3.0" (10 to 4; 4 to 10 with 3 committed). *)
Theorem charged_balance_rule :
  (forall cdr imei out,
      voice.map_voice cdr imei = Ok out ->
      forall n, (n < 5)%nat ->
        (forall s d before after,
            nth_error (account_occurrences cdr) n = Some s ->
            account_attributes s = VDict d ->
            to_decimal (attribute (VDict d) "accountBalanceBefore") = Some before ->
            to_decimal (attribute (VDict d) "accountBalanceAfter") = Some after ->
            account_charge_ok d before after
              (dict_get (voice.fstr "EL_CHG_BALANCE" (S n)) out))
        /\ (forall s,
               nth_error (bucket_occurrences cdr) n = Some s ->
               exists items,
                 Forall2 block_item_ok (bucket_blocks s) items
                 /\ dict_get (voice.fstr "EL_BUCKET_CHG_BALANCE" (S n)) out
                    = Some (VStr (join "," items))))
  /\ (forall na nb ca cb ea eb,
         let e := Z.min ea eb in
         let z := signed na (ca * pow10 (ea - e))%N
                  - signed nb (cb * pow10 (eb - e))%N in
         z <> 0 -> ndigits (Z.abs_N z) <= dec_prec ->
         dec_Etiny <= e -> e <= dec_Etop ->
         dec_sub (DFin na ca ea) (DFin nb cb eb) = Ok (DFin (z <? 0) (Z.abs_N z) e))
  /\ (exists out,
         voice.map_voice charged_example true = Ok out
         /\ dict_get "EL_CHG_BALANCE1" out = Some (VF 7 0)
         /\ dict_get "EL_CHG_BALANCE2" out = Some (VF 30 0)
         /\ dict_get "EL_CHG_BALANCE3" out = Some (VF 0 0)
         /\ dict_get "EL_BUCKET_CHG_BALANCE1" out = Some (VStr "6.0,3.0")
         /\ dict_get "EL_BUCKET_CHG_BALANCE2" out = Some (VF 0 0)).
Proof.
  split; [|split; [exact dec_sub_exact|]].
  - intros cdr imei out Hmap n Hn.
    destruct (slot_contents cdr imei out n Hmap Hn) as (Ha & _ & Hb & _).
    split.
    + intros s d before after Hs Hd Hbefore Hafter.
      destruct (Ha s Hs) as (_ & d' & chg & Hd' & Hchg & Hget).
      rewrite Hd in Hd'. injection Hd' as <-.
      rewrite Hbefore, Hafter in Hchg.
      apply account_chg_inv in Hchg as [_ Hrule].
      destruct (Hrule before after eq_refl eq_refl)
        as (diff & nonneg & Hsub & Hge & Hcase).
      rewrite Hget. exists diff, nonneg. split; [exact Hsub|]. split; [exact Hge|].
      destruct nonneg.
      * destruct Hcase as (f & Hf & ->). exists f. now split.
      * destruct Hcase as (ssum & f & Hadd & Hf & ->). exists ssum, f.
        now repeat split.
    + intros s Hs. exact (proj2 (Hb s Hs)).
  - exists (output_of (voice.map_voice charged_example true)).
    repeat split; vm_compute; reflexivity.
Qed.

Lemma charged_balance_rule_witness :
  account_charge_ok
    [("accountBalanceBefore", VStr "10"); ("accountBalanceAfter", VStr "30");
     ("accountBalanceCommitted", VStr "5"); ("secondaryCostCommitted", VStr "2")]%string
    (DFin false 10 0) (DFin false 30 0)
    (dict_get "EL_CHG_BALANCE1" (output_of (voice.map_voice charged_example true)))
  /\ exists items,
      Forall2 block_item_ok (bucket_blocks gold_buckets) items
      /\ dict_get "EL_BUCKET_CHG_BALANCE1"
           (output_of (voice.map_voice charged_example true))
         = Some (VStr (join "," items)).
Proof.
  assert (Hmap : voice.map_voice charged_example true
                 = Ok (output_of (voice.map_voice charged_example true)))
    by (vm_compute; reflexivity).
  assert (Hn : (0 < 5)%nat) by lia.
  destruct (proj1 charged_balance_rule charged_example true _ Hmap 0%nat Hn)
    as [Ha Hb].
  split.
  - refine (Ha _ _ _ _ _ _ _ _); [| |vm_compute; reflexivity|vm_compute; reflexivity].
    + vm_compute. reflexivity.
    + vm_compute. reflexivity.
  - refine (Hb gold_buckets _). vm_compute. reflexivity.
Defined.

(** C5, as the code runs.  The charged balance is not the exact difference.
    For a balance that falls from 9007199254740993.0000000000001 to 0 the
    difference that [Decimal] returns has lost the last digit, and its float
    is 9007199254740992.0, the charged balance of the account slot and the
    item of the bucket slot, while the float of the exact difference is
    9007199254740994.0. *)
Lemma charged_balance_not_exact :
  let before := DFin false 90071992547409930000000000001 (-13) in
  let difference := DFin false 9007199254740993000000000000 (-12) in
  to_decimal (VStr "9007199254740993.0000000000001") = Some before
  /\ to_decimal (VStr "0") = Some dec_zero
  /\ dec_sub before dec_zero = Ok difference
  /\ dec_cmp difference before = Lt
  /\ float_of_dec before = Ok (f_of_decimal false 9007199254740994 0)
  /\ float_of_dec difference = Ok (f_of_decimal false 9007199254740992 0)
  /\ f_of_decimal false 9007199254740992 0 <> f_of_decimal false 9007199254740994 0
  /\ field (voice.map_voice long_balance true) "EL_CHG_BALANCE1"
     = Some (VF 9007199254740992 0)
  /\ field (voice.map_voice long_balance true) "EL_BUCKET_CHG_BALANCE1"
     = Some (VStr "9007199254740992.0").
Proof.
  repeat split; try (vm_compute; reflexivity).
  vm_compute. discriminate.
Qed.

(** *** The canonical shape *)

(** C2, as the code runs.  For the empty tree [map_voice] returns, and the
    output holds the float 0.0 in EL_ACTUAL_USAGE, which is not one of the
    declared numeric fields: a field outside the numeric ones need not hold
    a string. *)
Lemma canonical_shape_counterexample :
  exists out v,
    voice.map_voice (VDict []) true = Ok out
    /\ In "EL_ACTUAL_USAGE"%string voice.CANONICAL_FIELDS
    /\ voice.is_numeric_field "EL_ACTUAL_USAGE" = false
    /\ dict_get "EL_ACTUAL_USAGE" out = Some v
    /\ v = VF 0 0
    /\ is_text v = false.
Proof.
  exists (output_of (voice.map_voice (VDict []) true)), (VF 0 0).
  split; [vm_compute; reflexivity|].
  split; [apply existsb_eqb_in; vm_compute; reflexivity|].
  repeat split; vm_compute; reflexivity.
Qed.

Lemma map_voice_numeric (cdr : value) (imei : bool) (out : dict) (k : string) :
  voice.map_voice cdr imei = Ok out ->
  voice.is_numeric_field k = true ->
  exists v, dict_get k out = Some v /\ is_number v = true.
Proof.
  intros Hmap Hnum.
  apply map_voice_inv in Hmap
    as (ctx & head & accs & bsubs & af & bf & tail
        & Hp & Hh & Hc & Ha & Hb & Ht & ->).
  assert (Hcan : existsb (String.eqb k) voice.CANONICAL_FIELDS = true).
  { apply (proj1 (forallb_forall _ _) numeric_fields_canonical k).
    apply existsb_eqb_in. exact Hnum. }
  rewrite enforce_canonical_get, Hcan, canonical_value_shaped, dict_get_update.
  destruct (last_assigned k (head ++ af ++ bf ++ tail)) as [v|] eqn:E.
  - eexists. split; [reflexivity|]. apply shaped_number; [exact Hnum|].
    apply last_assigned_in in E.
    apply in_app_or in E as [E|E].
    { now apply (proj2 (head_fields_keys _ _ _ Hh) k v). }
    apply in_app_or in E as [E|E].
    { destruct (account_slots_inv _ _ Ha) as (_ & Hnl & _). now apply (Hnl k v). }
    apply in_app_or in E as [E|E].
    { exfalso. destruct (bucket_slots_inv _ _ Hb) as (Hkb & _).
      assert (Hk : In k bucket_keys).
      { rewrite <- Hkb. apply in_map_iff. now exists (k, v). }
      revert Hnum. clear -Hk. vm_compute in Hk.
      repeat (destruct Hk as [<-|Hk]; [vm_compute; discriminate|]).
      contradiction. }
    now apply (proj2 (tail_fields_inv _ _ _ Ht) k v).
  - eexists. split; [reflexivity|]. simpl. unfold type_default. now rewrite Hnum.
Qed.

(** C2, amended.  [enforce_canonical] returns a map whose keys are the
    canonical field list in its order; each field holds the mapped value as
    it is, whatever its type, and the default of the field (0.0 for the
    declared numeric fields, the empty text for the others) when the mapped
    value is absent, None or the empty text; no field holds None.  On every
    record on which [map_voice] returns, the declared numeric fields hold
    numbers.  [map_voice] returns on the empty tree, where every field holds
    a text or a number. *)
Theorem canonical_shape :
  (forall mapped : dict,
      dict_keys (voice.enforce_canonical mapped) = voice.CANONICAL_FIELDS
      /\ forall k, In k voice.CANONICAL_FIELDS ->
           exists v, dict_get k (voice.enforce_canonical mapped) = Some v
                     /\ v <> VNone
                     /\ v = match dict_get k mapped with
                            | Some x => shaped_value k x
                            | None => type_default k
                            end)
  /\ (forall cdr imei out,
         voice.map_voice cdr imei = Ok out ->
         dict_keys out = voice.CANONICAL_FIELDS
         /\ (forall k, In k voice.CANONICAL_FIELDS ->
                       exists v, dict_get k out = Some v /\ v <> VNone)
         /\ (forall k, voice.is_numeric_field k = true ->
                       exists v, dict_get k out = Some v /\ is_number v = true))
  /\ (forall imei,
         exists out, voice.map_voice (VDict []) imei = Ok out
                     /\ forallb (fun kv => (is_text (snd kv) || is_number (snd kv))%bool)
                                out = true).
Proof.
  assert (Hshape : forall mapped k, In k voice.CANONICAL_FIELDS ->
             exists v, dict_get k (voice.enforce_canonical mapped) = Some v
                       /\ v <> VNone
                       /\ v = match dict_get k mapped with
                              | Some x => shaped_value k x
                              | None => type_default k
                              end).
  { intros mapped k Hk. apply existsb_eqb_in in Hk.
    rewrite enforce_canonical_get, Hk, canonical_value_shaped.
    eexists. split; [reflexivity|]. split; [|reflexivity].
    destruct (dict_get k mapped) as [x|].
    - destruct (shaped_value_not_none k x) as [[H _]|H]; [exact H|].
      rewrite H. apply type_default_not_none.
    - apply type_default_not_none. }
  split; [|split].
  - intros mapped. split; [apply enforce_canonical_keys|apply Hshape].
  - intros cdr imei out Hmap. split; [|split].
    + apply map_voice_inv in Hmap
        as (ctx & head & accs & bsubs & af & bf & tail & _ & _ & _ & _ & _ & _ & ->).
      apply enforce_canonical_keys.
    + intros k Hk.
      apply map_voice_inv in Hmap
        as (ctx & head & accs & bsubs & af & bf & tail & _ & _ & _ & _ & _ & _ & ->).
      destruct (Hshape (dict_update [] (head ++ af ++ bf ++ tail)) k Hk)
        as (v & Hv & Hnn & _).
      now exists v.
    + intros k Hnum. exact (map_voice_numeric _ _ _ _ Hmap Hnum).
  - intros [|]; eexists; (split; [vm_compute; reflexivity|vm_compute; reflexivity]).
Qed.

Lemma canonical_shape_witness :
  dict_keys (output_of (voice.map_voice account_100_70 true)) = voice.CANONICAL_FIELDS
  /\ (forall k, In k voice.CANONICAL_FIELDS ->
        exists v, dict_get k (output_of (voice.map_voice account_100_70 true)) = Some v
                  /\ v <> VNone)
  /\ (forall k, voice.is_numeric_field k = true ->
        exists v, dict_get k (output_of (voice.map_voice account_100_70 true)) = Some v
                  /\ is_number v = true).
Proof.
  apply (proj1 (proj2 canonical_shape) account_100_70 true).
  vm_compute. reflexivity.
Defined.

(** *** Flattening *)

Lemma value_nested_ind (P : value -> Prop) :
  P VNone -> (forall b, P (VBool b)) -> (forall z, P (VInt z)) ->
  (forall f, P (VFloat f)) -> (forall s, P (VStr s)) ->
  (forall l, Forall P l -> P (VList l)) ->
  (forall l, Forall P l -> P (VTuple l)) ->
  (forall d, Forall (fun kv => P (snd kv)) d -> P (VDict d)) ->
  forall v, P v.
Proof.
  intros HN HB HI HF HS HL HT HD.
  fix IH 1. intros [|b|z|f|s|l|l|d].
  - exact HN.
  - apply HB.
  - apply HI.
  - apply HF.
  - apply HS.
  - apply HL. revert l. fix IHl 1. intros [|x t].
    + constructor.
    + constructor; [apply IH|apply IHl].
  - apply HT. revert l. fix IHl 1. intros [|x t].
    + constructor.
    + constructor; [apply IH|apply IHl].
  - apply HD. revert d. fix IHd 1. intros [|[k x] t].
    + constructor.
    + constructor; [apply IH|apply IHd].
Qed.

Lemma flatten_dict_eq (d : dict) :
  decoder.flatten_and_collapse (VDict d)
  = decoder.flatten_dict d (flatten_values d).
Proof.
  simpl. f_equal. induction d as [|[k v] t IH]; simpl; [reflexivity|].
  now rewrite IH.
Qed.

Lemma flatten_tagged_list (s : string) (d : dict) :
  decoder.flatten_and_collapse (VList [VStr s; VDict d])
  = decoder.flatten_and_collapse (VDict d).
Proof. reflexivity. Qed.

Lemma flatten_tagged_tuple (s : string) (d : dict) :
  decoder.flatten_and_collapse (VTuple [VStr s; VDict d])
  = decoder.flatten_and_collapse (VDict d).
Proof. reflexivity. Qed.

Lemma flatten_list_map (l : list value) :
  (fix flatten_list (l0 : list value) : list value :=
     match l0 with
     | [] => []
     | v :: t => decoder.flatten_and_collapse v :: flatten_list t
     end) l
  = map decoder.flatten_and_collapse l.
Proof. induction l as [|x t IH]; simpl; [reflexivity|now rewrite IH]. Qed.

Lemma flatten_list_eq (l : list value) :
  is_tagged_pair l = false ->
  decoder.flatten_and_collapse (VList l)
  = decoder.collapse_single_key_dicts (VList (map decoder.flatten_and_collapse l)).
Proof.
  intros H. rewrite <- flatten_list_map.
  destruct l as [|a [|b [|c t]]]; try reflexivity;
    destruct a; try reflexivity; destruct b; try reflexivity.
  discriminate H.
Qed.

Lemma flatten_tuple_eq (l : list value) :
  is_tagged_pair l = false -> decoder.flatten_and_collapse (VTuple l) = VTuple l.
Proof.
  intros H.
  destruct l as [|a [|b [|c t]]]; try reflexivity;
    destruct a; try reflexivity; destruct b; try reflexivity.
  discriminate H.
Qed.

Lemma flatten_scalar (v : value) :
  is_scalar v = true -> decoder.flatten_and_collapse v = v.
Proof. destruct v; try discriminate; reflexivity. Qed.

Lemma collapse_eq (l : list value) :
  decoder.collapse_single_key_dicts (VList l)
  = if collapsible l then VDict (fold_left decoder.merge_item l []) else VList l.
Proof. destruct l; reflexivity. Qed.

Lemma normal_list_eq (l : list value) :
  normal (VList l)
  = (negb (is_tagged_pair l) && forallb normal l && negb (collapsible l))%bool.
Proof. reflexivity. Qed.

Lemma normal_dict_eq (d : dict) :
  normal (VDict d)
  = (negb (decoder.is_var_pair d) && forallb (fun kv => normal (snd kv)) d)%bool.
Proof.
  simpl. f_equal. induction d as [|[k x] t IH]; simpl; [reflexivity|].
  now rewrite IH.
Qed.

Lemma decoded_node_eq (d : dict) :
  decoded (VDict d)
  = (is_attribute d
     || (negb (decoder.is_var_pair d) && forallb (fun kv => decoded (snd kv)) d))%bool.
Proof.
  simpl. do 2 f_equal. induction d as [|[k x] t IH]; simpl; [reflexivity|].
  now rewrite IH.
Qed.

Lemma decoded_list_eq (l : list value) :
  is_tagged_pair l = false ->
  decoded (VList l)
  = (forallb decoded l
     && (forallb is_scalar l || forallb is_attribute_item l
         || is_keyed_list l || is_child_list l))%bool.
Proof.
  intros H.
  assert (E : (fix all (l0 : list value) : bool :=
                 match l0 with
                 | [] => true
                 | x :: t => (decoded x && all t)%bool
                 end) l = forallb decoded l).
  { clear H. induction l as [|x t IH]; simpl; [reflexivity|]. now rewrite IH. }
  rewrite <- E.
  destruct l as [|a [|b [|c t]]]; try reflexivity;
    destruct a; try reflexivity; destruct b; try reflexivity.
  discriminate H.
Qed.

Lemma decoded_tagged_list (s : string) (d : dict) :
  decoded (VList [VStr s; VDict d]) = decoded (VDict d).
Proof. reflexivity. Qed.

Lemma decoded_tagged_tuple (s : string) (d : dict) :
  decoded (VTuple [VStr s; VDict d]) = decoded (VDict d).
Proof. reflexivity. Qed.

Lemma tagged_pair_inv (l : list value) :
  is_tagged_pair l = true -> exists s d, l = [VStr s; VDict d].
Proof.
  destruct l as [|a [|b [|c t]]]; try discriminate;
    destruct a; try discriminate; destruct b; try discriminate.
  intros _. eauto.
Qed.

(** [_collapse_single_key_dicts] leaves a normal value as it is. *)
Lemma normal_collapse (v : value) :
  normal v = true -> decoder.collapse_single_key_dicts v = v.
Proof.
  destruct v as [| | | | |l| |]; try reflexivity.
  rewrite normal_list_eq, collapse_eq. intros H.
  apply andb_true_iff in H as [_ H]. apply negb_true_iff in H. now rewrite H.
Qed.

Lemma collapse_element_keys_id (d : dict) :
  forallb (fun kv => normal (snd kv)) d = true ->
  decoder.collapse_element_keys d = d.
Proof.
  unfold decoder.collapse_element_keys.
  induction d as [|[k x] t IH]; simpl; [reflexivity|].
  intros H. apply andb_true_iff in H as [Hx Ht].
  rewrite (IH Ht). destruct (decoder.is_element_key k); [|reflexivity].
  now rewrite (normal_collapse x Hx).
Qed.

(** A normal tree is a fixed point of [flatten_and_collapse]. *)
Lemma normal_fixed (v : value) :
  normal v = true -> decoder.flatten_and_collapse v = v.
Proof.
  induction v as [|b|z|f|s|l IH|l IH|d IH] using value_nested_ind;
    try reflexivity.
  - rewrite normal_list_eq. intros H.
    apply andb_true_iff in H as [H Hc]. apply andb_true_iff in H as [Ht Hall].
    apply negb_true_iff in Ht. apply negb_true_iff in Hc.
    rewrite (flatten_list_eq l Ht).
    assert (E : map decoder.flatten_and_collapse l = l).
    { clear Ht Hc. induction l as [|x t IHt]; [reflexivity|].
      simpl in Hall. apply andb_true_iff in Hall as [Hx Hall].
      inversion IH as [|? ? Px Pt]; subst. simpl.
      now rewrite (Px Hx), (IHt Pt Hall). }
    now rewrite E, collapse_eq, Hc.
  - intros H. simpl in H. apply negb_true_iff in H.
    now apply flatten_tuple_eq.
  - rewrite normal_dict_eq. intros H.
    apply andb_true_iff in H as [Hv Hall]. apply negb_true_iff in Hv.
    rewrite flatten_dict_eq. unfold decoder.flatten_dict. rewrite Hv.
    assert (E : flatten_values d = d).
    { clear Hv. unfold flatten_values.
      induction d as [|[k x] t IHt]; [reflexivity|].
      simpl in Hall. apply andb_true_iff in Hall as [Hx Hall].
      inversion IH as [|? ? Px Pt]; subst. simpl in *.
      now rewrite (Px Hx), (IHt Pt Hall). }
    now rewrite E, (collapse_element_keys_id d Hall).
Qed.

Lemma scalar_normal (v : value) : is_scalar v = true -> normal v = true.
Proof. destruct v; try discriminate; reflexivity. Qed.

Lemma scalar_not_single (v : value) :
  is_scalar v = true -> decoder.is_single_key_dict v = false.
Proof. destruct v; try discriminate; reflexivity. Qed.

Lemma node_dict_flatten (x : value) (d : dict) :
  node_dict x = Some d ->
  decoder.flatten_and_collapse x = decoder.flatten_and_collapse (VDict d)
  /\ decoded x = decoded (VDict d).
Proof.
  destruct x as [| | | | |l|l|d']; try discriminate.
  - destruct l as [|a [|b [|c t]]]; try discriminate;
      destruct a; try discriminate; destruct b; try discriminate.
    intros H. injection H as <-. split; reflexivity.
  - destruct l as [|a [|b [|c t]]]; try discriminate;
      destruct a; try discriminate; destruct b; try discriminate.
    intros H. injection H as <-. split; reflexivity.
  - intros H. injection H as <-. split; reflexivity.
Qed.

Lemma forallb_map_eq (A B : Type) (f : B -> bool) (g : A -> B) (l : list A) :
  forallb f (map g l) = forallb (fun x => f (g x)) l.
Proof. induction l as [|x t IH]; simpl; [reflexivity|now rewrite IH]. Qed.

Lemma dict_get_flatten_values (k : string) (d : dict) :
  dict_get k (flatten_values d)
  = option_map decoder.flatten_and_collapse (dict_get k d).
Proof.
  induction d as [|[k' x] t IH]; simpl; [reflexivity|].
  destruct (String.eqb k k'); [reflexivity|exact IH].
Qed.

Lemma is_var_pair_flatten_values (d : dict) :
  decoder.is_var_pair (flatten_values d) = decoder.is_var_pair d.
Proof.
  unfold decoder.is_var_pair, dict_has.
  rewrite !dict_get_flatten_values.
  f_equal; [f_equal|].
  - unfold flatten_values. rewrite forallb_map_eq. reflexivity.
  - now destruct (dict_get "varName" d).
  - now destruct (dict_get "varValue" d).
Qed.

Lemma no_var_key_no_var_pair (d : dict) :
  forallb (fun kv => negb (decoder.is_var_key (fst kv))) d = true ->
  decoder.is_var_pair d = false.
Proof.
  destruct d as [|[k x] t]; [reflexivity|].
  simpl. intros H. apply andb_true_iff in H as [H _].
  apply negb_true_iff in H. unfold decoder.is_var_pair. simpl. now rewrite H.
Qed.

(** What [flatten_and_collapse] makes of a node that is not a var-pair. *)
Lemma flatten_node (d : dict) :
  decoder.is_var_pair d = false ->
  forallb (fun kv => normal (decoder.flatten_and_collapse (snd kv))) d = true ->
  decoder.flatten_and_collapse (VDict d) = VDict (flatten_values d)
  /\ normal (VDict (flatten_values d)) = true.
Proof.
  intros Hv Hall.
  assert (Hn : forallb (fun kv => normal (snd kv)) (flatten_values d) = true).
  { unfold flatten_values. rewrite forallb_map_eq. exact Hall. }
  split.
  - rewrite flatten_dict_eq. unfold decoder.flatten_dict. rewrite Hv.
    now rewrite (collapse_element_keys_id _ Hn).
  - rewrite normal_dict_eq, is_var_pair_flatten_values, Hv. exact Hn.
Qed.

(** What [flatten_and_collapse] makes of an attribute. *)
Lemma flatten_attribute (d : dict) :
  is_attribute d = true ->
  exists k x,
    decoder.flatten_and_collapse (VDict d) = VDict [(k, x)]
    /\ decoder.is_var_key k = false /\ is_scalar x = true.
Proof.
  unfold is_attribute. intros H.
  apply andb_true_iff in H as [H Hk]. apply andb_true_iff in H as [Hv Hx].
  apply negb_true_iff in Hk.
  rewrite flatten_dict_eq. unfold decoder.flatten_dict. rewrite Hv.
  unfold decoder.flatten_var_pair. eauto.
Qed.

Lemma single_attribute_normal (k : string) (x : value) :
  decoder.is_var_key k = false -> normal x = true ->
  normal (VDict [(k, x)]) = true.
Proof.
  intros Hk Hx. rewrite normal_dict_eq.
  rewrite no_var_key_no_var_pair by (simpl; now rewrite Hk).
  simpl. now rewrite Hx.
Qed.

Lemma decoded_node_normal (d : dict) :
  Forall (fun kv => decoded (snd kv) = true ->
                    normal (decoder.flatten_and_collapse (snd kv)) = true) d ->
  decoded (VDict d) = true ->
  normal (decoder.flatten_and_collapse (VDict d)) = true.
Proof.
  intros IH. rewrite decoded_node_eq. intros H.
  destruct (is_attribute d) eqn:Ha.
  - destruct (flatten_attribute d Ha) as (k & x & -> & Hk & Hx).
    apply single_attribute_normal; [exact Hk|now apply scalar_normal].
  - simpl in H. apply andb_true_iff in H as [Hv Hall].
    apply negb_true_iff in Hv.
    assert (Hn : forallb (fun kv => normal (decoder.flatten_and_collapse (snd kv))) d
                 = true).
    { apply forallb_forall. intros kv Hin.
      rewrite Forall_forall in IH. apply (IH kv Hin).
      rewrite forallb_forall in Hall. now apply Hall. }
    destruct (flatten_node d Hv Hn) as [-> Hnormal]. exact Hnormal.
Qed.


(** *** Merging *)

Lemma dict_get_in (k : string) (v : value) (m : dict) :
  dict_get k m = Some v -> exists k', In (k', v) m.
Proof.
  induction m as [|[k' x] t IH]; simpl; [discriminate|].
  destruct (String.eqb k k').
  - intros H. injection H as <-. eauto.
  - intros H. destruct (IH H) as [k'' Hin]. eauto.
Qed.

Lemma dict_get_absent (k : string) (m : dict) :
  existsb (String.eqb k) (map fst m) = false -> dict_get k m = None.
Proof.
  induction m as [|[k' x] t IH]; simpl; [reflexivity|].
  intros H. apply orb_false_iff in H as [H1 H2]. now rewrite H1, (IH H2).
Qed.

Lemma dict_set_Forall (P : string * value -> Prop) (k : string) (v : value) (m : dict) :
  P (k, v) -> Forall P m -> Forall P (dict_set k v m).
Proof.
  intros Hkv. induction m as [|[k' x] t IH]; simpl; intros H.
  - constructor; [exact Hkv|constructor].
  - inversion H; subst. destruct (String.eqb k k').
    + constructor; assumption.
    + constructor; [assumption|now apply IH].
Qed.

Lemma forallb_scalar_app (l : list value) (x : value) :
  forallb is_scalar l = true -> is_scalar x = true ->
  forallb is_scalar (l ++ [x]) = true.
Proof. intros Hl Hx. rewrite forallb_app, Hl. simpl. now rewrite Hx. Qed.

Lemma merge_attribute (m : dict) (y : value) :
  merged_ok m -> attribute_image y -> merged_ok (decoder.merge_item m y).
Proof.
  intros Hm (k & x & -> & Hk & Hx). unfold decoder.merge_item.
  destruct (dict_get k m) as [old|] eqn:E.
  - destruct (dict_get_in _ _ _ E) as [k' Hin].
    unfold merged_ok in Hm. rewrite Forall_forall in Hm.
    destruct (Hm _ Hin) as [_ Hold]. simpl in Hold.
    assert (Hm' : merged_ok m) by (unfold merged_ok; now rewrite Forall_forall).
    destruct Hold as [Hs|(l & -> & Hl & Hlen)].
    + destruct old; try discriminate Hs;
        (apply dict_set_Forall; [|exact Hm']; split; [exact Hk|]; right;
         eexists; split; [reflexivity|]; split; [simpl; now rewrite Hx|simpl; lia]).
    + apply dict_set_Forall; [|exact Hm']. split; [exact Hk|]. right.
      eexists. split; [reflexivity|]. split.
      * now apply forallb_scalar_app.
      * rewrite length_app. simpl. lia.
  - apply dict_set_Forall; [|exact Hm]. split; [exact Hk|]. now left.
Qed.

Lemma fold_merge_attributes (ys : list value) :
  Forall attribute_image ys ->
  forall m, merged_ok m -> merged_ok (fold_left decoder.merge_item ys m).
Proof.
  induction 1 as [|y t Hy Ht IH]; intros m Hm; simpl; [exact Hm|].
  apply IH. now apply merge_attribute.
Qed.

Lemma merged_value_normal (v : value) : merged_value_ok v -> normal v = true.
Proof.
  intros [Hs|(l & -> & Hl & Hlen)]; [now apply scalar_normal|].
  rewrite normal_list_eq.
  assert (Hn : forallb normal l = true).
  { apply forallb_forall. intros x Hin. apply scalar_normal.
    rewrite forallb_forall in Hl. now apply Hl. }
  rewrite Hn.
  destruct l as [|a [|b t]]; simpl in Hlen; try lia.
  simpl in Hl. apply andb_true_iff in Hl as [Ha Hl].
  apply andb_true_iff in Hl as [Hb Hl].
  assert (Ht : is_tagged_pair (a :: b :: t) = false).
  { destruct a; try reflexivity. destruct b; try reflexivity; discriminate Hb. }
  rewrite Ht. simpl. now rewrite (scalar_not_single a Ha).
Qed.

Lemma merged_normal (m : dict) : merged_ok m -> normal (VDict m) = true.
Proof.
  intros Hm. unfold merged_ok in Hm. rewrite Forall_forall in Hm.
  rewrite normal_dict_eq.
  rewrite no_var_key_no_var_pair.
  - simpl. apply forallb_forall. intros kv Hin.
    apply merged_value_normal. now apply (Hm kv Hin).
  - apply forallb_forall. intros kv Hin. apply negb_true_iff.
    now apply (Hm kv Hin).
Qed.

Lemma fold_merge_fresh (items : list (string * value)) :
  forall m : dict,
    nodupb (map fst items) = true ->
    (forall k, In k (map fst items) -> existsb (String.eqb k) (map fst m) = false) ->
    fold_left decoder.merge_item (map (fun kw => VDict [kw]) items) m = m ++ items.
Proof.
  induction items as [|[k w] t IH]; intros m Hnd Hfresh; simpl.
  - now rewrite app_nil_r.
  - simpl in Hnd. apply andb_true_iff in Hnd as [Hk Hnd].
    apply negb_true_iff in Hk.
    rewrite (dict_get_absent k m) by (apply Hfresh; now left).
    rewrite (dict_set_fresh k w m) by (apply Hfresh; now left).
    rewrite IH; [now rewrite <- app_assoc|exact Hnd|].
    intros k' Hin. rewrite map_app, existsb_app. simpl.
    rewrite (Hfresh k') by (now right). simpl.
    destruct (String.eqb k' k) eqn:E; [|reflexivity].
    apply String.eqb_eq in E. subst k'.
    apply existsb_eqb_in in Hin. congruence.
Qed.

(** *** Lists *)

Lemma flatten_scalars (l : list value) :
  forallb is_scalar l = true -> map decoder.flatten_and_collapse l = l.
Proof.
  induction l as [|x t IH]; simpl; [reflexivity|].
  intros H. apply andb_true_iff in H as [Hx Ht].
  now rewrite (flatten_scalar x Hx), (IH Ht).
Qed.

Lemma scalars_not_collapsible (l : list value) :
  forallb is_scalar l = true -> collapsible l = false.
Proof.
  destruct l as [|x t]; [reflexivity|]. simpl.
  intros H. apply andb_true_iff in H as [Hx _].
  now rewrite (scalar_not_single x Hx).
Qed.

Lemma scalar_list_normal (l : list value) :
  is_tagged_pair l = false -> forallb is_scalar l = true ->
  normal (decoder.flatten_and_collapse (VList l)) = true.
Proof.
  intros Ht Hs.
  rewrite (flatten_list_eq l Ht), (flatten_scalars l Hs), collapse_eq,
    (scalars_not_collapsible l Hs), normal_list_eq, Ht,
    (scalars_not_collapsible l Hs).
  simpl. rewrite andb_true_r. apply forallb_forall. intros x Hin.
  apply scalar_normal. rewrite forallb_forall in Hs. now apply Hs.
Qed.

Lemma attribute_images (l : list value) :
  forallb is_attribute_item l = true ->
  Forall attribute_image (map decoder.flatten_and_collapse l).
Proof.
  induction l as [|x t IH]; simpl; [constructor|].
  intros H. apply andb_true_iff in H as [Hx Ht].
  constructor; [|now apply IH].
  unfold is_attribute_item in Hx.
  destruct (node_dict x) as [d|] eqn:Hd; [|discriminate].
  rewrite (proj1 (node_dict_flatten x d Hd)).
  exact (flatten_attribute d Hx).
Qed.

Lemma attribute_images_collapsible (ys : list value) :
  Forall attribute_image ys -> ys <> [] -> collapsible ys = true.
Proof.
  intros H Hne. destruct ys as [|y t]; [congruence|].
  unfold collapsible. apply forallb_forall. intros x Hin.
  rewrite Forall_forall in H. destruct (H x Hin) as (k & w & -> & _). reflexivity.
Qed.

Lemma attribute_list_normal (l : list value) :
  is_tagged_pair l = false -> forallb is_attribute_item l = true ->
  normal (decoder.flatten_and_collapse (VList l)) = true.
Proof.
  intros Ht Ha. rewrite (flatten_list_eq l Ht), collapse_eq.
  pose proof (attribute_images l Ha) as Himg.
  destruct l as [|x t]; [reflexivity|].
  rewrite (attribute_images_collapsible _ Himg) by discriminate.
  apply merged_normal, fold_merge_attributes; [exact Himg|constructor].
Qed.

(** The images of the items of a keyed list. *)
Lemma keyed_images (l : list value) :
  Forall (fun x => decoded x = true ->
                   normal (decoder.flatten_and_collapse x) = true) l ->
  forallb decoded l = true ->
  forallb (fun x => match key_of x with
                    | Some k => negb (decoder.is_var_key k)
                    | None => false
                    end) l = true ->
  exists items,
    map decoder.flatten_and_collapse l = map (fun kw => VDict [kw]) items
    /\ map fst items = keys_of l
    /\ Forall (fun kw => decoder.is_var_key (fst kw) = false
                         /\ normal (snd kw) = true) items.
Proof.
  induction l as [|x t IHt]; intros IH Hd Hk.
  - exists []. repeat split. constructor.
  - simpl in Hd, Hk. apply andb_true_iff in Hd as [Hdx Hdt].
    apply andb_true_iff in Hk as [Hkx Hkt].
    inversion IH as [|? ? Px Pt]; subst.
    destruct (IHt Pt Hdt Hkt) as (items & Hmap & Hkeys & Hall).
    destruct x as [| | | | | | |d]; try discriminate Hkx.
    destruct d as [|[k v] [|? ?]]; try discriminate Hkx.
    apply negb_true_iff in Hkx. simpl in Hkx.
    specialize (Px Hdx).
    assert (Hv : decoder.is_var_pair [(k, v)] = false).
    { apply no_var_key_no_var_pair. simpl. now rewrite Hkx. }
    rewrite flatten_dict_eq in Px. unfold decoder.flatten_dict in Px.
    rewrite Hv in Px.
    exists ((k, snd (if decoder.is_element_key k
                     then (k, decoder.collapse_single_key_dicts
                                (decoder.flatten_and_collapse v))
                     else (k, decoder.flatten_and_collapse v))) :: items).
    split; [|split].
    + cbn [map]. rewrite <- Hmap, flatten_dict_eq. unfold decoder.flatten_dict.
      rewrite Hv. simpl. now destruct (decoder.is_element_key k).
    + simpl. now rewrite Hkeys.
    + constructor; [|exact Hall]. split; [exact Hkx|].
      rewrite normal_dict_eq in Px.
      apply andb_true_iff in Px as [_ Px].
      unfold decoder.collapse_element_keys, flatten_values in Px.
      cbn [map forallb fst snd] in Px.
      apply andb_true_iff in Px as [Px _].
      destruct (decoder.is_element_key k); exact Px.
Qed.

Lemma keyed_list_normal (l : list value) :
  Forall (fun x => decoded x = true ->
                   normal (decoder.flatten_and_collapse x) = true) l ->
  is_tagged_pair l = false -> forallb decoded l = true ->
  is_keyed_list l = true ->
  normal (decoder.flatten_and_collapse (VList l)) = true.
Proof.
  intros IH Ht Hd Hk. unfold is_keyed_list in Hk.
  apply andb_true_iff in Hk as [Hk Hnd].
  destruct (keyed_images l IH Hd Hk) as (items & Hmap & Hkeys & Hall).
  rewrite (flatten_list_eq l Ht), collapse_eq, Hmap.
  destruct items as [|kw items']; [reflexivity|].
  assert (Hc : collapsible (map (fun kw => VDict [kw]) (kw :: items')) = true).
  { unfold collapsible. cbn [map]. apply forallb_forall. intros x Hin.
    change (VDict [kw] :: map (fun kw0 => VDict [kw0]) items')
      with (map (fun kw0 : string * value => VDict [kw0]) (kw :: items')) in Hin.
    apply in_map_iff in Hin as (y & <- & _). reflexivity. }
  rewrite Hc, fold_merge_fresh.
  - simpl app. rewrite Forall_forall in Hall.
    rewrite normal_dict_eq, no_var_key_no_var_pair.
    + simpl negb. rewrite andb_true_l. apply forallb_forall. intros y Hin.
      now apply (Hall y Hin).
    + apply forallb_forall. intros y Hin. apply negb_true_iff.
      now apply (Hall y Hin).
  - now rewrite Hkeys.
  - reflexivity.
Qed.

(** The image of a node that is not a var-pair is a dict with as many
    entries. *)
Lemma node_image (x : value) :
  is_node x = true ->
  exists d', decoder.flatten_and_collapse x = VDict d'
             /\ decoder.is_single_key_dict (VDict d') = is_single_key_node x.
Proof.
  unfold is_node, is_single_key_node.
  destruct (node_dict x) as [d|] eqn:Hd; [|discriminate].
  intros Hv. apply negb_true_iff in Hv.
  rewrite (proj1 (node_dict_flatten x d Hd)), flatten_dict_eq.
  unfold decoder.flatten_dict. rewrite Hv.
  eexists. split; [reflexivity|].
  unfold decoder.collapse_element_keys, flatten_values.
  destruct d as [|a [|b t]]; reflexivity.
Qed.

Lemma child_list_normal (l : list value) :
  Forall (fun x => decoded x = true ->
                   normal (decoder.flatten_and_collapse x) = true) l ->
  is_tagged_pair l = false -> forallb decoded l = true ->
  is_child_list l = true ->
  normal (decoder.flatten_and_collapse (VList l)) = true.
Proof.
  intros IH Ht Hd Hc. unfold is_child_list in Hc.
  apply andb_true_iff in Hc as [Hnodes Hmany].
  assert (Hcol : collapsible (map decoder.flatten_and_collapse l) = false).
  { apply existsb_exists in Hmany as (x & Hin & Hx).
    apply negb_true_iff in Hx.
    assert (Hf : forallb decoder.is_single_key_dict
                   (map decoder.flatten_and_collapse l) = false).
    { apply not_true_iff_false. intros Hall. rewrite forallb_forall in Hall.
      rewrite forallb_forall in Hnodes.
      destruct (node_image x (Hnodes x Hin)) as (d' & Hd' & Hs).
      specialize (Hall (decoder.flatten_and_collapse x) (in_map _ _ _ Hin)).
      rewrite Hd', Hs in Hall. congruence. }
    destruct l as [|a t]; [destruct Hin|]. exact Hf. }
  rewrite (flatten_list_eq l Ht), collapse_eq, Hcol, normal_list_eq, Hcol.
  assert (Htag : is_tagged_pair (map decoder.flatten_and_collapse l) = false).
  { destruct l as [|a t]; [reflexivity|].
    simpl in Hnodes. apply andb_true_iff in Hnodes as [Ha _].
    destruct (node_image a Ha) as (d' & Hd' & _).
    cbn [map]. now rewrite Hd'. }
  rewrite Htag. simpl. rewrite andb_true_r, forallb_map_eq.
  apply forallb_forall. intros x Hin.
  rewrite Forall_forall in IH. apply (IH x Hin).
  rewrite forallb_forall in Hd. now apply Hd.
Qed.

(** The flattening of a decoded tree is normal. *)
Lemma decoded_normal (v : value) :
  decoded v = true -> normal (decoder.flatten_and_collapse v) = true.
Proof.
  induction v as [|b|z|f|s|l IH|l IH|d IH] using value_nested_ind;
    try reflexivity.
  - destruct (is_tagged_pair l) eqn:Ht.
    + destruct (tagged_pair_inv l Ht) as (s & d & ->).
      rewrite decoded_tagged_list, flatten_tagged_list.
      inversion IH as [|? ? _ IH']; subst. inversion IH' as [|? ? Pd _]; subst.
      exact Pd.
    + rewrite (decoded_list_eq l Ht). intros H.
      apply andb_true_iff in H as [Hd H].
      apply orb_true_iff in H as [H|Hc]; [|now apply child_list_normal].
      apply orb_true_iff in H as [H|Hk]; [|now apply keyed_list_normal].
      apply orb_true_iff in H as [Hs|Ha];
        [now apply scalar_list_normal|now apply attribute_list_normal].
  - destruct (is_tagged_pair l) eqn:Ht.
    + destruct (tagged_pair_inv l Ht) as (s & d & ->).
      rewrite decoded_tagged_tuple, flatten_tagged_tuple.
      inversion IH as [|? ? _ IH']; subst. inversion IH' as [|? ? Pd _]; subst.
      exact Pd.
    + intros _. rewrite (flatten_tuple_eq l Ht). simpl. now rewrite Ht.
  - now apply decoded_node_normal.
Qed.

(** C6, as the code runs.  For the list of two single-key dicts with the
    same key and dict values, the first pass gathers the two values in a
    list under the key, and the second pass merges that list into one dict:
    the output of [flatten_and_collapse] is not a fixed point. *)
Lemma flatten_not_idempotent :
  decoder.flatten_and_collapse repeated_key
  = VDict [("x", VList [VDict [("p", VInt 1)]; VDict [("q", VInt 2)]])]%string
  /\ decoder.flatten_and_collapse (decoder.flatten_and_collapse repeated_key)
     = VDict [("x", VDict [("p", VInt 1); ("q", VInt 2)])]%string
  /\ decoder.flatten_and_collapse (decoder.flatten_and_collapse repeated_key)
     <> decoder.flatten_and_collapse repeated_key.
Proof.
  split; [reflexivity|]. split; [reflexivity|].
  vm_compute. discriminate.
Qed.

(** C6, amended.  [flatten_and_collapse] is idempotent on the trees of the
    decoder, [decoded]: a scalar; a dict that is no var-pair (its keys are
    not exactly varName and varValue) and whose values are such trees; an
    attribute, that is a var-pair whose varValue is a scalar and whose
    varName, as text, is neither varName nor varValue; a tagged pair, that
    is a two-element list or tuple of a text and a dict of one of these two
    kinds; any other tuple; and any other list whose items are such trees
    and are all scalars, or all attributes (bare or tagged), or all dicts of
    exactly one key, the keys pairwise distinct and none of them varName or
    varValue, or all dicts that are no var-pairs (bare or tagged), one of
    them at least without exactly one key.  The output on such a tree is
    [normal], and a normal tree (no var-pair among its dicts, no tagged
    pair, no non-empty list of single-key dicts, below lists and dicts) is
    returned unchanged. *)
Theorem flatten_idempotent :
  (forall v, decoded v = true ->
             decoder.flatten_and_collapse (decoder.flatten_and_collapse v)
             = decoder.flatten_and_collapse v)
  /\ (forall v, decoded v = true ->
                normal (decoder.flatten_and_collapse v) = true)
  /\ (forall v, normal v = true -> decoder.flatten_and_collapse v = v).
Proof.
  split; [|split].
  - intros v Hv. apply normal_fixed, decoded_normal, Hv.
  - exact decoded_normal.
  - exact normal_fixed.
Qed.

Lemma flatten_idempotent_witness :
  decoder.flatten_and_collapse (decoder.flatten_and_collapse framed_record)
  = decoder.flatten_and_collapse framed_record.
Proof.
  apply (proj1 flatten_idempotent framed_record). vm_compute. reflexivity.
Defined.

(** ** Further properties of the code *)

(** *** [safe_get] *)

Lemma safe_get_none (q : list path_elem) (default : value) :
  q <> [] -> safe_get VNone q default = default.
Proof. destruct q as [|p rest]; [congruence|reflexivity]. Qed.

(** X1.  [safe_get] over a path in two parts is [safe_get] over the second
    part, from what [safe_get] over the first part returns with the default
    [None]: a failure on the way, like a stored [None], gives the default of
    the whole call.  The second part must not be empty. *)
Theorem safe_get_app (node : value) (p q : list path_elem) (default : value) :
  q <> [] ->
  safe_get node (p ++ q) default = safe_get (safe_get node p VNone) q default.
Proof.
  intros Hq. revert node. induction p as [|e p' IH]; intros node; [reflexivity|].
  pose proof (safe_get_none q default Hq) as Hnone.
  cbn [app safe_get].
  destruct node as [| | | | |l| |d]; try (symmetry; exact Hnone);
    destruct e as [k|i]; try (symmetry; exact Hnone).
  - destruct ((i <? 0) || (Z.of_nat (List.length l) <=? i))%bool;
      [symmetry; exact Hnone|].
    destruct (nth_error l (Z.to_nat i)) as [x|]; [apply IH|symmetry; exact Hnone].
  - destruct (dict_get k d) as [x|]; [apply IH|symmetry; exact Hnone].
Qed.

Lemma safe_get_app_witness :
  safe_get (VDict [("a"%string, VDict [("b"%string, VNone)])])
    ([PKey "a"%string] ++ [PKey "b"%string; PKey "c"%string]) (VInt 7)
  = safe_get (safe_get (VDict [("a"%string, VDict [("b"%string, VNone)])])
                [PKey "a"%string] VNone)
      [PKey "b"%string; PKey "c"%string] (VInt 7).
Proof.
  apply safe_get_app. discriminate.
Defined.

(** *** [last_n_chars] and the IMEI *)

Lemma str_take_drop (n : nat) (s : string) :
  (str_take n s ++ str_drop n s)%string = s.
Proof.
  revert s. induction n as [|n IH]; intros s; [reflexivity|].
  destruct s as [|c t]; [reflexivity|]. simpl. now rewrite IH.
Qed.

(** X2.  For a positive [n], [last_n_chars(s, n)] is the end of [str(s)], of
    [min(n, len(str(s)))] characters, when [s] is truthy, and the empty text
    otherwise. *)
Theorem last_n_chars_suffix (s : value) (n : nat) :
  (0 < n)%nat ->
  if truthy s
  then exists prefix,
      py_str s = (prefix ++ voice.last_n_chars s n)%string
      /\ String.length (voice.last_n_chars s n) = Nat.min n (String.length (py_str s))
  else voice.last_n_chars s n = ""%string.
Proof.
  intros Hn. unfold voice.last_n_chars.
  destruct (truthy s); [|reflexivity]. cbn [negb].
  destruct n as [|m]; [lia|]. set (n := S m) in *.
  destruct (n <=? String.length (py_str s))%nat eqn:E.
  - apply Nat.leb_le in E.
    exists (str_take (String.length (py_str s) - n) (py_str s)). split.
    + unfold str_last. now rewrite str_take_drop.
    + rewrite str_last_length by exact E. lia.
  - apply Nat.leb_gt in E. exists ""%string. split; [reflexivity|lia].
Qed.

Lemma last_n_chars_suffix_witness :
  exists prefix,
    py_str (VStr "0911223344") = (prefix ++ voice.last_n_chars (VStr "0911223344") 4)%string
    /\ String.length (voice.last_n_chars (VStr "0911223344") 4)
       = Nat.min 4 (String.length (py_str (VStr "0911223344"))).
Proof.
  apply (last_n_chars_suffix (VStr "0911223344") 4). lia.
Defined.

Lemma str_filter_forall (p : ascii -> bool) (s : string) :
  str_forall p (str_filter p s) = true.
Proof.
  induction s as [|c t IH]; [reflexivity|]. simpl.
  destruct (p c) eqn:E; [simpl; now rewrite E|exact IH].
Qed.

Lemma str_take_forall (p : ascii -> bool) (n : nat) (s : string) :
  str_forall p s = true -> str_forall p (str_take n s) = true.
Proof.
  revert s. induction n as [|n IH]; intros s H; [reflexivity|].
  destruct s as [|c t]; [reflexivity|]. simpl in *.
  apply andb_true_iff in H as [Hc Ht]. now rewrite Hc, (IH t Ht).
Qed.

Lemma repeat_char_forall (p : ascii -> bool) (c : ascii) (n : nat) :
  p c = true -> str_forall p (repeat_char c n) = true.
Proof. intros H. induction n as [|n IH]; [reflexivity|]. simpl. now rewrite H, IH. Qed.

Lemma repeat_char_length (c : ascii) (n : nat) :
  String.length (repeat_char c n) = n.
Proof. induction n as [|n IH]; [reflexivity|]. simpl. now rewrite IH. Qed.

Lemma append_length (a b : string) :
  String.length (a ++ b) = (String.length a + String.length b)%nat.
Proof. induction a as [|c t IH]; [reflexivity|]. simpl. now rewrite IH. Qed.

(** X3.  [imei_from_user_equipment_value] returns the empty text for a falsy
    value and sixteen decimal digits for any other. *)
Theorem imei_sixteen_digits (v : value) :
  if truthy v
  then String.length (voice.imei_from_user_equipment_value v) = 16%nat
       /\ str_forall is_digit (voice.imei_from_user_equipment_value v) = true
  else voice.imei_from_user_equipment_value v = ""%string.
Proof.
  unfold voice.imei_from_user_equipment_value.
  destruct (truthy v); [|reflexivity]. cbn [negb].
  set (src := match _ with Some d => d | None => py_str v end).
  set (digits := str_filter is_digit (voice.even_chars src)).
  assert (Hd : str_forall is_digit digits = true) by apply str_filter_forall.
  destruct (16 <=? String.length digits)%nat eqn:E.
  - apply Nat.leb_le in E. split.
    + rewrite str_take_length. lia.
    + now apply str_take_forall.
  - apply Nat.leb_gt in E. split.
    + rewrite append_length, repeat_char_length. lia.
    + rewrite str_forall_app, Hd. now apply repeat_char_forall.
Qed.

(** *** [enforce_canonical] *)

Lemma shaped_value_idem (k : string) (v : value) :
  shaped_value k (shaped_value k v) = shaped_value k v.
Proof.
  unfold shaped_value, type_default.
  destruct v as [| | | |[|c s]| | |]; try reflexivity;
    destruct (voice.is_numeric_field k); reflexivity.
Qed.

Lemma shaped_type_default (k : string) :
  shaped_value k (type_default k) = type_default k.
Proof.
  unfold shaped_value, type_default.
  destruct (voice.is_numeric_field k); reflexivity.
Qed.

(** X4.  [enforce_canonical] is idempotent: shaping a shaped record changes
    nothing. *)
Theorem enforce_canonical_idempotent (mapped : dict) :
  voice.enforce_canonical (voice.enforce_canonical mapped)
  = voice.enforce_canonical mapped.
Proof.
  rewrite (enforce_canonical_eq (voice.enforce_canonical mapped)).
  etransitivity; [|symmetry; apply enforce_canonical_eq].
  apply map_ext_in. intros k Hk. f_equal.
  rewrite (canonical_value_shaped (voice.enforce_canonical mapped)).
  rewrite enforce_canonical_get.
  rewrite (proj2 (existsb_eqb_in k voice.CANONICAL_FIELDS) Hk).
  rewrite canonical_value_shaped.
  destruct (dict_get k mapped) as [x|];
    [apply shaped_value_idem|apply shaped_type_default].
Qed.

(** *** [validate_canonical_record] *)

Lemma same_keys_refl (l : list string) : voice.same_keys l l = true.
Proof.
  induction l as [|x t IH]; [reflexivity|].
  cbn [voice.same_keys]. now rewrite String.eqb_refl.
Qed.

Lemma is_number_numeric_value (v : value) :
  is_number v = true -> voice.is_numeric_value v = true.
Proof. destruct v; simpl; congruence. Qed.

(** X5.  A record [map_voice] returns passes [validate_canonical_record]
    exactly when its ten bucket balance columns hold numbers or lists of
    numbers: the key check and the sixteen other numeric columns never fail
    on it.  A record does fail: one whose bucket has a signalling NaN for its
    balance after is mapped and then rejected. *)
Theorem mapped_record_validation :
  (forall cdr imei out,
      voice.map_voice cdr imei = Ok out ->
      voice.validate_canonical_record out
      = forallb (fun k => voice.is_numeric_value (voice.dget out k))
          bucket_balance_fields)
  /\ exists out, voice.map_voice bucket_snan true = Ok out
                 /\ voice.validate_canonical_record out = false.
Proof.
  split.
  - intros cdr imei out Hmap.
    assert (Hnum : forall k, voice.is_numeric_field k = true ->
                             voice.is_numeric_value (voice.dget out k) = true).
    { intros k Hk. destruct (map_voice_numeric _ _ _ _ Hmap Hk) as (v & Hv & Hn).
      unfold voice.dget. rewrite Hv. now apply is_number_numeric_value. }
    assert (Hkeys : dict_keys out = voice.CANONICAL_FIELDS).
    { apply map_voice_inv in Hmap
        as (ctx & head & accs & bsubs & af & bf & tail & _ & _ & _ & _ & _ & _ & ->).
      apply enforce_canonical_keys. }
    unfold voice.validate_canonical_record. rewrite Hkeys, same_keys_refl.
    cbn [negb]. unfold voice.validated_numeric_fields, bucket_balance_fields,
      voice.base_numeric_fields.
    cbn [flat_map app forallb].
    repeat match goal with
           | |- context [voice.is_numeric_value (voice.dget out ?k)] =>
               let E := fresh "E" in
               assert (E : voice.is_numeric_field k = true) by (vm_compute; reflexivity);
               rewrite (Hnum k E); clear E
           end.
    cbn [andb]. reflexivity.
  - eexists. split; [vm_compute; reflexivity|vm_compute; reflexivity].
Qed.

Lemma mapped_record_validation_witness :
  voice.validate_canonical_record (output_of (voice.map_voice seven_buckets true))
  = forallb (fun k => voice.is_numeric_value
                        (voice.dget (output_of (voice.map_voice seven_buckets true)) k))
      bucket_balance_fields.
Proof.
  apply (proj1 mapped_record_validation seven_buckets true).
  vm_compute. reflexivity.
Defined.

(** *** Decimal numerals *)

Lemma ord_chr (n : nat) : (n < 256)%nat -> ord (chr n) = n.
Proof. intros H. unfold ord, chr. now apply nat_ascii_embedding. Qed.

Lemma digit_char_value (d : N) : (d < 10)%N -> digit_value (digit_char d) = d.
Proof.
  intros H. unfold digit_value, digit_char. rewrite ord_chr by lia. lia.
Qed.

Lemma digit_char_is_digit (d : N) : (d < 10)%N -> is_digit (digit_char d) = true.
Proof.
  intros H. unfold is_digit, code_between, digit_char. rewrite ord_chr by lia.
  apply andb_true_iff. split; apply Nat.leb_le; lia.
Qed.

Lemma digits_value_acc_app (a b : string) (x : N) :
  digits_value_acc (a ++ b) x = digits_value_acc b (digits_value_acc a x).
Proof. revert x. induction a as [|c t IH]; intros x; [reflexivity|]. simpl. apply IH. Qed.

Lemma single_digit_spec (d : N) :
  (d < 10)%N ->
  str_forall is_digit (String (digit_char d) "") = true
  /\ forall x, digits_value_acc (String (digit_char d) "") x = (x * 10 + d)%N.
Proof.
  intros H. split.
  - cbn [str_forall]. now rewrite digit_char_is_digit.
  - intros x. cbn [digits_value_acc]. rewrite digit_char_value by exact H. lia.
Qed.

Lemma digits_of_pos_fuel_S (fuel : nat) (n : N) (acc : string) :
  digits_of_pos_fuel (S fuel) n acc
  = if (n / 10 =? 0)%N then String (digit_char (n mod 10)) acc
    else digits_of_pos_fuel fuel (n / 10) (String (digit_char (n mod 10)) acc).
Proof. reflexivity. Qed.

Lemma digits_of_pos_fuel_spec (fuel : nat) :
  forall (n : N) (acc : string),
    (n < 2 ^ N.of_nat (S fuel))%N ->
    exists ds,
      digits_of_pos_fuel (S fuel) n acc = (ds ++ acc)%string
      /\ ds <> ""%string
      /\ str_forall is_digit ds = true
      /\ forall x, digits_value_acc ds x
                   = (x * 10 ^ N.of_nat (String.length ds) + n)%N.
Proof.
  induction fuel as [|fuel IH]; intros n acc Hn.
  - assert (Hz : (n / 10 = 0)%N).
    { apply N.div_small. change (2 ^ N.of_nat 1)%N with 2%N in Hn. lia. }
    assert (Hd : (n mod 10 < 10)%N) by (apply N.mod_lt; lia).
    destruct (single_digit_spec _ Hd) as [Hdig Hval].
    exists (String (digit_char (n mod 10)) "").
    rewrite digits_of_pos_fuel_S, Hz. cbn [N.eqb].
    split; [reflexivity|]. split; [discriminate|]. split; [exact Hdig|].
    intros x. rewrite Hval. cbn [String.length].
    pose proof (N.div_mod n 10). change (10 ^ N.of_nat 1)%N with 10%N. lia.
  - rewrite digits_of_pos_fuel_S.
    assert (Hd : (n mod 10 < 10)%N) by (apply N.mod_lt; lia).
    destruct (single_digit_spec _ Hd) as [Hdig1 Hval1].
    destruct (n / 10 =? 0)%N eqn:E.
    + apply N.eqb_eq in E.
      exists (String (digit_char (n mod 10)) "").
      split; [reflexivity|]. split; [discriminate|]. split; [exact Hdig1|].
      intros x. rewrite Hval1. cbn [String.length].
      pose proof (N.div_mod n 10). change (10 ^ N.of_nat 1)%N with 10%N. lia.
    + destruct (IH (n / 10)%N (String (digit_char (n mod 10)) acc))
        as (ds & Heq & Hne & Hdig & Hval).
      { apply N.Div0.div_lt_upper_bound.
        replace (N.of_nat (S (S fuel))) with (N.succ (N.of_nat (S fuel))) in Hn by lia.
        rewrite N.pow_succ_r' in Hn. lia. }
      exists (ds ++ String (digit_char (n mod 10)) "")%string.
      split; [|split; [|split]].
      * rewrite Heq, append_assoc. reflexivity.
      * destruct ds; [congruence|discriminate].
      * rewrite str_forall_app, Hdig, Hdig1. reflexivity.
      * intros x. rewrite digits_value_acc_app, Hval, Hval1.
        rewrite append_length. cbn [String.length].
        replace (N.of_nat (String.length ds + 1)) with (N.succ (N.of_nat (String.length ds)))
          by lia.
        rewrite N.pow_succ_r'. pose proof (N.div_mod n 10). nia.
Qed.

Lemma N_to_string_spec (n : N) :
  N_to_string n <> ""%string
  /\ str_forall is_digit (N_to_string n) = true
  /\ digits_value (N_to_string n) = n.
Proof.
  unfold N_to_string.
  destruct (digits_of_pos_fuel_spec (N.to_nat (N.log2 n)) n "")
    as (ds & Heq & Hne & Hdig & Hval).
  - destruct n as [|p]; [reflexivity|].
    replace (N.of_nat (S (N.to_nat (N.log2 (N.pos p)))))
      with (N.succ (N.log2 (N.pos p))) by lia.
    apply N.log2_spec. lia.
  - rewrite Heq, append_empty_r. repeat split; [exact Hne|exact Hdig|].
    unfold digits_value. rewrite Hval. lia.
Qed.

Lemma N_to_string_inj (a b : N) : N_to_string a = N_to_string b -> a = b.
Proof.
  intros H.
  rewrite <- (proj2 (proj2 (N_to_string_spec a))),
          <- (proj2 (proj2 (N_to_string_spec b))).
  now rewrite H.
Qed.

Lemma append_inj_l (p a b : string) : (p ++ a)%string = (p ++ b)%string -> a = b.
Proof. induction p as [|c t IH]; simpl; [auto|]. intros H. injection H. exact IH. Qed.

Lemma record_name_inj (i j : nat) : record_name i = record_name j -> i = j.
Proof.
  unfold record_name. intros H. apply append_inj_l in H.
  unfold Z_to_string in H.
  replace (Z.of_nat i <? 0) with false in H by (symmetry; apply Z.ltb_ge; lia).
  replace (Z.of_nat j <? 0) with false in H by (symmetry; apply Z.ltb_ge; lia).
  apply N_to_string_inj in H. lia.
Qed.

Lemma nodupb_NoDup (l : list string) : NoDup l -> nodupb l = true.
Proof.
  induction 1 as [|x t Hx Ht IH]; [reflexivity|]. simpl.
  rewrite IH, andb_true_r. apply negb_true_iff, not_true_iff_false.
  intros H. apply existsb_eqb_in in H. contradiction.
Qed.

Lemma record_names_nodup (a k : nat) : nodupb (map record_name (seq a k)) = true.
Proof.
  apply nodupb_NoDup. revert a. induction k as [|k IH]; intros a; simpl.
  - constructor.
  - constructor; [|apply IH].
    intros Hin. apply in_map_iff in Hin as (j & Hj & Hin).
    apply record_name_inj in Hj. subst j. apply in_seq in Hin. lia.
Qed.

(** *** The framing loop: numbering and accounting *)

Lemma frame_step_cases (spec : decoder.asn1_spec) (raw : list Byte.byte)
  (st st' : decoder.framer_state) :
  decoder.frame_step spec raw st = Some st' ->
  (exists decoded record_len,
      decoder.records st'
      = decoder.records st
        ++ [decoder.record_entry (decoder.record_count st) record_len decoded]
      /\ decoder.offset st' = decoder.offset st + record_len
      /\ decoder.record_count st' = decoder.record_count st + 1
      /\ decoder.log st' = decoder.log st)
  \/ (exists ev,
         decoder.records st' = decoder.records st
         /\ decoder.offset st' = decoder.offset st + 1
         /\ decoder.record_count st' = decoder.record_count st
         /\ decoder.log st' = decoder.log st ++ [ev]).
Proof.
  unfold decoder.frame_step.
  destruct (decoder.offset st <? Z.of_nat (List.length raw)); [|discriminate].
  destruct (decoder.bytes_from raw (decoder.offset st)) as [|b rest]; [discriminate|].
  destruct (decoder.decode_one spec (b :: rest)) as [[decoded record_len]|e];
    intros H; injection H as <-; [left|right]; simpl; eauto 10.
Qed.

Lemma bytes_from_nonempty (raw : list Byte.byte) (o : Z) :
  raw <> [] -> o < Z.of_nat (List.length raw) -> decoder.bytes_from raw o <> [].
Proof.
  intros Hraw H Hnil.
  assert (Hpos : (0 < List.length raw)%nat) by (destruct raw; [congruence|simpl; lia]).
  assert (Hlen : List.length (decoder.bytes_from raw o) = 0%nat) by now rewrite Hnil.
  unfold decoder.bytes_from in Hlen. cbv zeta in Hlen.
  rewrite length_skipn in Hlen.
  destruct (o <? 0) eqn:E; [apply Z.ltb_lt in E|apply Z.ltb_ge in E]; lia.
Qed.

Lemma frame_step_none (spec : decoder.asn1_spec) (raw : list Byte.byte)
  (st : decoder.framer_state) :
  raw <> [] ->
  decoder.frame_step spec raw st = None ->
  Z.of_nat (List.length raw) <= decoder.offset st.
Proof.
  intros Hraw. unfold decoder.frame_step.
  destruct (decoder.offset st <? Z.of_nat (List.length raw)) eqn:E;
    [|intros _; now apply Z.ltb_ge in E].
  apply Z.ltb_lt in E. pose proof (bytes_from_nonempty raw _ Hraw E) as Hne.
  destruct (decoder.bytes_from raw (decoder.offset st)) as [|b rest]; [congruence|].
  destruct (decoder.decode_one spec (b :: rest)) as [[? ?]|?]; discriminate.
Qed.

(** An invariant of the loop is kept up to its end. *)
Lemma frame_loop_invariant (P : decoder.framer_state -> nat -> Prop)
  (spec : decoder.asn1_spec) (raw : list Byte.byte) :
  (forall st st' n, decoder.frame_step spec raw st = Some st' -> P st n -> P st' (S n)) ->
  forall fuel st k final n,
    P st k ->
    decoder.frame_loop spec raw fuel st = Some (final, n) ->
    P final (k + n)%nat /\ decoder.frame_step spec raw final = None.
Proof.
  intros Hstep. induction fuel as [|fuel IH]; intros st k final n HP; simpl.
  - destruct (decoder.frame_step spec raw st) eqn:E; [discriminate|].
    intros H. injection H as <- <-. rewrite Nat.add_0_r. now split.
  - destruct (decoder.frame_step spec raw st) as [st'|] eqn:E.
    + destruct (decoder.frame_loop spec raw fuel st') as [[f m]|] eqn:El; [|discriminate].
      intros H. injection H as <- <-.
      destruct (IH st' (S k) f m (Hstep _ _ _ E HP) El) as [HPf Hnone].
      split; [|exact Hnone]. now replace (k + S m)%nat with (S k + m)%nat by lia.
    + intros H. injection H as <- <-. rewrite Nat.add_0_r. now split.
Qed.

Lemma record_entry_key (i : nat) (record_len : Z) (decoded : value) :
  key_of (decoder.record_entry (Z.of_nat i) record_len decoded) = Some (record_name i).
Proof. reflexivity. Qed.

Lemma record_name_not_var (i : nat) : decoder.is_var_key (record_name i) = false.
Proof. reflexivity. Qed.

Lemma framed_keys (a : nat) (entries : list value) :
  Forall2 framed (seq a (List.length entries)) entries ->
  keys_of entries = map record_name (seq a (List.length entries))
  /\ forallb (fun x => match key_of x with
                       | Some k => negb (decoder.is_var_key k)
                       | None => false
                       end) entries = true.
Proof.
  revert a. induction entries as [|x t IH]; intros a H; [now split|].
  cbn [List.length seq] in H. inversion H as [|? ? ? ? Hx Ht]; subst.
  destruct (IH (S a) Ht) as [Hk Hf].
  destruct Hx as (len & dec & ->).
  cbn [List.length seq map]. split.
  - unfold keys_of in *. cbn [flat_map]. rewrite record_entry_key, Hk. reflexivity.
  - cbn [forallb]. rewrite record_entry_key, record_name_not_var, Hf. reflexivity.
Qed.

Lemma Forall2_framed_app (entries : list value) (x : value) :
  Forall2 framed (seq 1 (List.length entries)) entries ->
  framed (S (List.length entries)) x ->
  Forall2 framed (seq 1 (List.length (entries ++ [x]))) (entries ++ [x]).
Proof.
  intros H Hx. rewrite length_app. cbn [List.length].
  rewrite seq_app. cbn [seq]. apply Forall2_app; [exact H|].
  constructor; [exact Hx|constructor].
Qed.

Lemma decode_all_framed (spec : decoder.asn1_spec) (raw : list Byte.byte)
  (fuel : nat) (entries : list value) :
  decoder.decode_all_ber_records fuel raw spec = Some entries ->
  Forall2 framed (seq 1 (List.length entries)) entries.
Proof.
  unfold decoder.decode_all_ber_records.
  destruct (decoder.frame_loop spec raw fuel decoder.initial_state)
    as [[final n]|] eqn:El; [|discriminate].
  intros H. injection H as <-.
  pose (P := fun (st : decoder.framer_state) (_ : nat) =>
               Forall2 framed (seq 1 (List.length (decoder.records st)))
                       (decoder.records st)
               /\ decoder.record_count st
                  = Z.of_nat (S (List.length (decoder.records st)))).
  assert (HP : P final (0 + n)%nat).
  { apply (frame_loop_invariant P spec raw) with (fuel := fuel)
                                                 (st := decoder.initial_state);
      [|split; [constructor|reflexivity]|exact El].
    intros st st' m Hs [Hf Hc]. unfold P.
    apply frame_step_cases in Hs
        as [(dec & len & Hr & _ & Hc' & _)|(ev & Hr & _ & Hc' & _)].
    - split.
      + rewrite Hr. apply Forall2_framed_app; [exact Hf|].
        exists len, dec. now rewrite Hc.
      + rewrite Hc', Hr, length_app, Hc. cbn [List.length]. lia.
    - rewrite Hr, Hc'. now split. }
  exact (proj1 HP).
Qed.

(** X6.  The entries that [decode_all_ber_records] returns are numbered in
    order: entry [i] is [{"record<i>": ...}], for [i] from 1.  Their keys
    are pairwise distinct, so the list is a list of single-key dicts with
    distinct keys. *)
Theorem framed_records_numbered (spec : decoder.asn1_spec) (raw : list Byte.byte)
  (fuel : nat) (entries : list value) :
  decoder.decode_all_ber_records fuel raw spec = Some entries ->
  Forall2 framed (seq 1 (List.length entries)) entries
  /\ keys_of entries = map record_name (seq 1 (List.length entries))
  /\ is_keyed_list entries = true.
Proof.
  intros Hdec. pose proof (decode_all_framed spec raw fuel entries Hdec) as Hf.
  split; [exact Hf|].
  destruct (framed_keys 1 _ Hf) as [Hk Hnv].
  split; [exact Hk|]. unfold is_keyed_list. rewrite Hnv, Hk.
  apply record_names_nodup.
Qed.

Lemma framed_records_numbered_witness :
  exists entries,
    decoder.decode_all_ber_records (List.length framed_bytes) framed_bytes two_byte_spec
    = Some entries
    /\ keys_of entries = map record_name (seq 1 (List.length entries)).
Proof.
  eexists. split; [vm_compute; reflexivity|].
  refine (proj1 (proj2 (framed_records_numbered two_byte_spec framed_bytes
                          (List.length framed_bytes) _ _))).
  vm_compute. reflexivity.
Defined.

Lemma total_length_app (a b : list value) :
  total_length (a ++ b) = total_length a + total_length b.
Proof.
  unfold total_length. induction a as [|x t IH]; simpl; [reflexivity|].
  rewrite IH. lia.
Qed.

(** X7.  When the loop of [decode_all_ber_records] ends, [offset] is the sum
    of the lengths of the records plus the number of bytes skipped (one
    logged event each), it has reached the end of the data, and the loop ran
    once for each record and each skipped byte. *)
Theorem framing_accounts_for_every_byte (spec : decoder.asn1_spec)
  (raw : list Byte.byte) (fuel : nat) (final : decoder.framer_state) (n : nat) :
  decoder.frame_loop spec raw fuel decoder.initial_state = Some (final, n) ->
  decoder.offset final
  = total_length (decoder.records final) + Z.of_nat (List.length (decoder.log final))
  /\ Z.of_nat (List.length raw) <= decoder.offset final
  /\ n = (List.length (decoder.records final) + List.length (decoder.log final))%nat.
Proof.
  intros El.
  destruct raw as [|b0 raw0] eqn:Hraw.
  { destruct fuel; cbn in El; injection El as <- <-; repeat split; cbn; lia. }
  rewrite <- Hraw in *.
  assert (Hne : raw <> []) by (rewrite Hraw; discriminate).
  clear Hraw.
  pose (P := fun (st : decoder.framer_state) (m : nat) =>
               decoder.offset st
               = total_length (decoder.records st)
                 + Z.of_nat (List.length (decoder.log st))
               /\ m = (List.length (decoder.records st)
                       + List.length (decoder.log st))%nat).
  destruct (frame_loop_invariant P spec raw) with (fuel := fuel)
      (st := decoder.initial_state) (k := 0%nat) (final := final) (n := n)
    as [[Ho Hn] Hnone]; [|split; reflexivity|exact El|].
  - intros st st' m Hs [Ho Hm]. unfold P.
    apply frame_step_cases in Hs
        as [(dec & len & Hr & Ho' & _ & Hl)|(ev & Hr & Ho' & _ & Hl)].
    + split.
      * rewrite Ho', Hr, Hl, total_length_app, Ho. cbn. lia.
      * rewrite Hr, Hl, length_app. cbn [List.length]. lia.
    + split.
      * rewrite Ho', Hr, Hl, length_app, Ho. cbn [List.length]. lia.
      * rewrite Hr, Hl, length_app. cbn [List.length]. lia.
  - split; [exact Ho|]. split; [now apply (frame_step_none spec)|exact Hn].
Qed.

Lemma framing_accounts_for_every_byte_witness :
  exists final n,
    decoder.frame_loop two_byte_spec framed_bytes (List.length framed_bytes)
      decoder.initial_state = Some (final, n)
    /\ decoder.offset final
       = total_length (decoder.records final)
         + Z.of_nat (List.length (decoder.log final)).
Proof.
  destruct (decoder.frame_loop two_byte_spec framed_bytes (List.length framed_bytes)
              decoder.initial_state) as [[final n]|] eqn:El;
    [|vm_compute in El; discriminate El].
  exists final, n. split; [reflexivity|].
  exact (proj1 (framing_accounts_for_every_byte two_byte_spec framed_bytes _ final n El)).
Defined.

(** X8.  With a decoder whose every call raises, [decode_all_ber_records]
    returns no record: the loop skips the data byte by byte, logs one event
    for each byte and ends after [len(raw_data)] iterations. *)
Theorem failing_decoder_skips_every_byte (spec : decoder.asn1_spec)
  (raw : list Byte.byte) :
  (forall bs, exists e, decoder.decode_one spec bs = Raise e) ->
  decoder.decode_all_ber_records (List.length raw) raw spec = Some []
  /\ exists final,
      decoder.frame_loop spec raw (List.length raw) decoder.initial_state
      = Some (final, List.length raw)
      /\ decoder.offset final = Z.of_nat (List.length raw)
      /\ List.length (decoder.log final) = List.length raw.
Proof.
  intros Hfail.
  assert (Hloop : forall fuel st,
             0 <= decoder.offset st ->
             decoder.offset st = Z.of_nat (List.length raw) - Z.of_nat fuel ->
             exists final,
               decoder.frame_loop spec raw fuel st = Some (final, fuel)
               /\ decoder.records final = decoder.records st
               /\ decoder.offset final = Z.of_nat (List.length raw)
               /\ List.length (decoder.log final)
                  = (List.length (decoder.log st) + fuel)%nat).
  { induction fuel as [|fuel IH]; intros st H0 Ho.
    - exists st. cbn [decoder.frame_loop]. unfold decoder.frame_step.
      replace (decoder.offset st <? Z.of_nat (List.length raw)) with false
        by (symmetry; apply Z.ltb_ge; lia).
      repeat split; lia.
    - cbn [decoder.frame_loop]. unfold decoder.frame_step.
      replace (decoder.offset st <? Z.of_nat (List.length raw)) with true
        by (symmetry; apply Z.ltb_lt; lia).
      assert (Hne : decoder.bytes_from raw (decoder.offset st) <> []).
      { apply bytes_from_nonempty; [|lia]. intros ->. simpl in Ho. lia. }
      destruct (decoder.bytes_from raw (decoder.offset st)) as [|b rest]; [congruence|].
      destruct (Hfail (b :: rest)) as [e ->].
      match goal with
      | |- context [decoder.frame_loop spec raw fuel ?s] =>
          destruct (IH s) as (final & Hl & Hr & Hof & Hlog); [simpl; lia|simpl; lia|]
      end.
      exists final. rewrite Hl. repeat split; [exact Hr|exact Hof|].
      rewrite Hlog. cbn [decoder.log]. rewrite length_app. cbn [List.length]. lia. }
  destruct (Hloop (List.length raw) decoder.initial_state) as (final & Hl & Hr & Hof & Hlog);
    [simpl; lia|simpl; lia|].
  split.
  - unfold decoder.decode_all_ber_records. now rewrite Hl, Hr.
  - exists final. repeat split; [exact Hl|exact Hof|exact Hlog].
Qed.

Lemma failing_decoder_skips_every_byte_witness :
  decoder.decode_all_ber_records (List.length framed_bytes) framed_bytes failing_spec
  = Some [].
Proof.
  apply (failing_decoder_skips_every_byte failing_spec framed_bytes).
  intros bs. exists ValueError. reflexivity.
Defined.

(** *** [_collapse_single_key_dicts] *)

Lemma singletons_collapsible (items : list (string * value)) :
  items <> [] -> collapsible (singletons items) = true.
Proof.
  destruct items as [|kv t]; [congruence|]. intros _.
  unfold collapsible, singletons. cbn [map]. apply forallb_forall.
  intros x Hin.
  change (VDict [kv] :: map (fun kv0 => VDict [kv0]) t)
    with (map (fun kv0 : string * value => VDict [kv0]) (kv :: t)) in Hin.
  apply in_map_iff in Hin as (y & <- & _). reflexivity.
Qed.

(** X9.  A non-empty list of single-key dicts whose keys are pairwise
    distinct collapses into the dict of their entries, in the order of the
    list. *)
Theorem collapse_distinct_keys (items : list (string * value)) :
  items <> [] -> nodupb (map fst items) = true ->
  decoder.collapse_single_key_dicts (VList (singletons items)) = VDict items.
Proof.
  intros Hne Hnd.
  rewrite collapse_eq, (singletons_collapsible items Hne).
  unfold singletons. now rewrite fold_merge_fresh.
Qed.

Lemma collapse_distinct_keys_witness :
  decoder.collapse_single_key_dicts
    (VList (singletons [("a"%string, VInt 1); ("b"%string, VList [])]))
  = VDict [("a"%string, VInt 1); ("b"%string, VList [])].
Proof.
  apply collapse_distinct_keys; [discriminate|reflexivity].
Defined.

Lemma fold_merge_same_key (k : string) (vs acc : list value) :
  fold_left decoder.merge_item (map (fun v => VDict [(k, v)]) vs) [(k, VList acc)]
  = [(k, VList (acc ++ vs))].
Proof.
  revert acc. induction vs as [|v t IH]; intros acc.
  - now rewrite app_nil_r.
  - cbn [map fold_left]. unfold decoder.merge_item at 2.
    cbn [dict_get]. rewrite String.eqb_refl. cbn [dict_set].
    rewrite String.eqb_refl, IH, <- app_assoc. reflexivity.
Qed.

(** X10.  A list of two or more single-key dicts that all have the same key
    collapses into one entry that holds the values in order, in a list.  A
    first value that is itself a list is not wrapped: the later values are
    appended to it. *)
Theorem collapse_repeated_key (k : string) (v1 v2 : value) (rest : list value) :
  decoder.collapse_single_key_dicts
    (VList (map (fun v => VDict [(k, v)]) (v1 :: v2 :: rest)))
  = VDict [(k, VList (as_list v1 ++ v2 :: rest))].
Proof.
  rewrite collapse_eq.
  assert (Hc : collapsible (map (fun v => VDict [(k, v)]) (v1 :: v2 :: rest)) = true).
  { unfold collapsible. cbn [map]. apply forallb_forall. intros x Hin.
    change (VDict [(k, v1)] :: VDict [(k, v2)] :: map (fun v => VDict [(k, v)]) rest)
      with (map (fun v => VDict [(k, v)]) (v1 :: v2 :: rest)) in Hin.
    apply in_map_iff in Hin as (y & <- & _). reflexivity. }
  rewrite Hc. f_equal. cbn [map fold_left].
  unfold decoder.merge_item at 3. cbn [dict_get dict_set].
  unfold decoder.merge_item at 2. cbn [dict_get]. rewrite String.eqb_refl.
  destruct v1 as [| | | | |l| |]; cbn [dict_set as_list]; rewrite String.eqb_refl;
    rewrite fold_merge_same_key; rewrite <- ?app_assoc; reflexivity.
Qed.

(** *** [flatten_and_collapse] *)

(** What [flatten_and_collapse] returns is never a list that
    [_collapse_single_key_dicts] would merge. *)
Lemma collapse_flatten (v : value) :
  decoder.collapse_single_key_dicts (decoder.flatten_and_collapse v)
  = decoder.flatten_and_collapse v.
Proof.
  destruct v as [| | | | |l|l|d]; try reflexivity.
  - destruct (is_tagged_pair l) eqn:Ht.
    + destruct (tagged_pair_inv l Ht) as (s & d & ->).
      rewrite flatten_tagged_list, flatten_dict_eq. unfold decoder.flatten_dict.
      now destruct (decoder.is_var_pair d).
    + rewrite (flatten_list_eq l Ht), collapse_eq.
      destruct (collapsible (map decoder.flatten_and_collapse l)) eqn:Hc; [reflexivity|].
      now rewrite collapse_eq, Hc.
  - destruct (is_tagged_pair l) eqn:Ht.
    + destruct (tagged_pair_inv l Ht) as (s & d & ->).
      rewrite flatten_tagged_tuple, flatten_dict_eq. unfold decoder.flatten_dict.
      now destruct (decoder.is_var_pair d).
    + now rewrite (flatten_tuple_eq l Ht).
  - rewrite flatten_dict_eq. unfold decoder.flatten_dict.
    now destruct (decoder.is_var_pair d).
Qed.

Lemma collapse_element_keys_flatten (d : dict) :
  decoder.collapse_element_keys (flatten_values d) = flatten_values d.
Proof.
  unfold decoder.collapse_element_keys, flatten_values.
  rewrite map_map. apply map_ext. intros [k x]. cbn [fst snd].
  destruct (decoder.is_element_key k); [|reflexivity].
  now rewrite collapse_flatten.
Qed.

(** X11.  The special case of [flatten_and_collapse] for the keys that end
    in [Elements] changes nothing: the values are collapsed already when it
    runs.  A dict that is not a var-pair keeps its keys, in order, each with
    its value flattened. *)
Theorem elements_special_case_is_void (d : dict) :
  decoder.collapse_element_keys (flatten_values d) = flatten_values d
  /\ (decoder.is_var_pair d = false ->
      decoder.flatten_and_collapse (VDict d) = VDict (flatten_values d)
      /\ dict_keys (flatten_values d) = dict_keys d).
Proof.
  split; [apply collapse_element_keys_flatten|].
  intros Hv. split.
  - rewrite flatten_dict_eq. unfold decoder.flatten_dict.
    now rewrite Hv, collapse_element_keys_flatten.
  - unfold dict_keys, flatten_values. rewrite map_map. reflexivity.
Qed.

Lemma elements_special_case_is_void_witness :
  decoder.flatten_and_collapse
    (VDict [("recordElements"%string,
             VList [VDict [("varName"%string, VStr "a"); ("varValue"%string, VInt 1)]])])
  = VDict (flatten_values
             [("recordElements"%string,
               VList [VDict [("varName"%string, VStr "a"); ("varValue"%string, VInt 1)]])]).
Proof.
  apply (proj2 (elements_special_case_is_void _)). reflexivity.
Defined.

(** A fixed point of [flatten_and_collapse] is normal. *)
Lemma fixed_normal (v : value) :
  decoder.flatten_and_collapse v = v -> normal v = true.
Proof.
  induction v as [|b|z|f|s|l IH|l IH|d IH] using value_nested_ind;
    try reflexivity.
  - destruct (is_tagged_pair l) eqn:Ht.
    + destruct (tagged_pair_inv l Ht) as (s & d & ->).
      rewrite flatten_tagged_list, flatten_dict_eq. unfold decoder.flatten_dict.
      destruct (decoder.is_var_pair d); discriminate.
    + rewrite (flatten_list_eq l Ht), collapse_eq.
      destruct (collapsible (map decoder.flatten_and_collapse l)) eqn:Hc; [discriminate|].
      intros H. injection H as H. rewrite H in Hc.
      rewrite normal_list_eq, Ht, Hc. cbn [negb]. rewrite andb_true_r, andb_true_l.
      clear Ht Hc. induction l as [|x t IHt]; [reflexivity|].
      cbn [map] in H. injection H as Hx Ht.
      inversion IH as [|? ? Px Pt]; subst. cbn [forallb].
      now rewrite (Px Hx), (IHt Pt Ht).
  - destruct (is_tagged_pair l) eqn:Ht.
    + destruct (tagged_pair_inv l Ht) as (s & d & ->).
      rewrite flatten_tagged_tuple, flatten_dict_eq. unfold decoder.flatten_dict.
      destruct (decoder.is_var_pair d); discriminate.
    + intros _. simpl. now rewrite Ht.
  - rewrite flatten_dict_eq. unfold decoder.flatten_dict.
    destruct (decoder.is_var_pair d) eqn:Hv.
    + unfold decoder.flatten_var_pair. intros H. injection H as H.
      rewrite <- H in Hv. unfold decoder.is_var_pair, dict_has in Hv.
      cbn [dict_get forallb fst] in Hv.
      destruct (String.eqb "varName" (py_str (decoder.dict_item d "varName"))) eqn:E1;
        [|rewrite !andb_false_r in Hv; discriminate Hv].
      destruct (String.eqb "varValue" (py_str (decoder.dict_item d "varName"))) eqn:E2;
        [|rewrite !andb_false_r in Hv; discriminate Hv].
      apply String.eqb_eq in E1. apply String.eqb_eq in E2. congruence.
    + rewrite collapse_element_keys_flatten. intros H. injection H as H.
      rewrite normal_dict_eq, Hv. cbn [negb]. rewrite andb_true_l.
      clear Hv. unfold flatten_values in H.
      induction d as [|[k x] t IHt]; [reflexivity|].
      cbn [map fst snd] in H. injection H as Hx Ht.
      inversion IH as [|? ? Px Pt]; subst. cbn [forallb snd] in *.
      now rewrite (Px Hx), (IHt Pt Ht).
Qed.

(** X12.  The fixed points of [flatten_and_collapse] are exactly the normal
    trees (no var-pair, no tagged pair, no non-empty list of single-key
    dicts, at any depth below lists and dicts); so a second pass changes the
    output of a first one exactly when that output is not normal. *)
Theorem flatten_fixed_points (v : value) :
  (decoder.flatten_and_collapse v = v <-> normal v = true)
  /\ (decoder.flatten_and_collapse (decoder.flatten_and_collapse v)
      = decoder.flatten_and_collapse v
      <-> normal (decoder.flatten_and_collapse v) = true).
Proof.
  split; split; first [apply fixed_normal|apply normal_fixed].
Qed.

(** *** The framed records, flattened *)

Lemma flatten_single_key (k : string) (v : value) :
  decoder.is_var_key k = false ->
  decoder.flatten_and_collapse (VDict [(k, v)])
  = VDict [(k, decoder.flatten_and_collapse v)].
Proof.
  intros Hk.
  assert (Hv : decoder.is_var_pair [(k, v)] = false).
  { apply no_var_key_no_var_pair. simpl. now rewrite Hk. }
  rewrite flatten_dict_eq. unfold decoder.flatten_dict.
  now rewrite Hv, collapse_element_keys_flatten.
Qed.

(** X13.  [flatten_and_collapse] turns the list of entries that
    [decode_all_ber_records] returns, when it is not empty, into one dict
    with the keys [record1], [record2], ... in order, each with its entry
    flattened. *)
Theorem flatten_framed_records (spec : decoder.asn1_spec) (raw : list Byte.byte)
  (fuel : nat) (entries : list value) :
  decoder.decode_all_ber_records fuel raw spec = Some entries ->
  entries <> [] ->
  exists d,
    decoder.flatten_and_collapse (VList entries) = VDict d
    /\ dict_keys d = map record_name (seq 1 (List.length entries))
    /\ map decoder.flatten_and_collapse entries = singletons d.
Proof.
  intros Hdec Hne.
  pose proof (decode_all_framed spec raw fuel entries Hdec) as Hf.
  assert (Himg : forall a es,
             Forall2 framed (seq a (List.length es)) es ->
             exists d, map decoder.flatten_and_collapse es = singletons d
                       /\ map fst d = map record_name (seq a (List.length es))).
  { intros a es. revert a. induction es as [|x t IH]; intros a H.
    - exists []. now split.
    - cbn [List.length seq] in H. inversion H as [|? ? ? ? Hx Ht]; subst.
      destruct (IH (S a) Ht) as (d & Hd & Hkd).
      destruct Hx as (len & dec & ->).
      eexists ((record_name a, _) :: d). split.
      + cbn [map singletons]. fold (singletons d). rewrite <- Hd.
        unfold decoder.record_entry. fold (record_name a).
        now rewrite (flatten_single_key _ _ (record_name_not_var a)).
      + cbn [map fst List.length seq]. now rewrite Hkd. }
  destruct (Himg 1%nat entries Hf) as (d & Hd & Hkd).
  exists d. split; [|split; [exact Hkd|exact Hd]].
  assert (Ht : is_tagged_pair entries = false).
  { destruct entries as [|x t]; [reflexivity|].
    inversion Hf as [|? ? ? ? Hx _]; subst. destruct Hx as (len & dec & ->).
    reflexivity. }
  rewrite (flatten_list_eq entries Ht), Hd, collapse_eq.
  rewrite singletons_collapsible
    by (destruct d; [destruct entries; [congruence|discriminate Hd]|discriminate]).
  unfold singletons. rewrite fold_merge_fresh; [reflexivity| |reflexivity].
  rewrite Hkd. apply record_names_nodup.
Qed.

Lemma flatten_framed_records_witness :
  exists d,
    decoder.flatten_and_collapse
      (VList (match decoder.decode_all_ber_records (List.length framed_bytes)
                      framed_bytes two_byte_spec with
              | Some entries => entries
              | None => []
              end)) = VDict d
    /\ dict_keys d = [record_name 1; record_name 2].
Proof.
  destruct (flatten_framed_records two_byte_spec framed_bytes (List.length framed_bytes)
              (match decoder.decode_all_ber_records (List.length framed_bytes)
                       framed_bytes two_byte_spec with
               | Some entries => entries
               | None => []
               end)) as (d & Hd & Hk & _).
  - vm_compute. reflexivity.
  - vm_compute. discriminate.
  - exists d. split; [exact Hd|]. rewrite Hk. vm_compute. reflexivity.
Defined.

(** *** Lists of var-pairs *)

Lemma flatten_var_pair_item (name : string) (v : value) :
  decoder.flatten_and_collapse (var_pair name v) = VDict [(name, v)].
Proof. reflexivity. Qed.

(** X14.  [flatten_and_collapse] turns a non-empty list of var-pairs whose
    names are pairwise distinct texts into the dict from the names to the
    values, in the order of the list; the values are kept as they are. *)
Theorem var_pairs_become_dict (items : list (string * value)) :
  items <> [] -> nodupb (map fst items) = true ->
  decoder.flatten_and_collapse
    (VList (map (fun nv => var_pair (fst nv) (snd nv)) items))
  = VDict items.
Proof.
  intros Hne Hnd.
  rewrite flatten_list_eq by (destruct items as [|a [|b [|c t]]]; reflexivity).
  rewrite map_map.
  rewrite (map_ext _ (fun kv : string * value => VDict [kv]))
    by (intros [name v]; apply flatten_var_pair_item).
  rewrite collapse_eq. fold (singletons items).
  rewrite (singletons_collapsible items Hne).
  unfold singletons. now rewrite fold_merge_fresh.
Qed.

Lemma var_pairs_become_dict_witness :
  decoder.flatten_and_collapse
    (VList (map (fun nv => var_pair (fst nv) (snd nv))
              [("sessionId"%string, VStr "s1"); ("duration"%string, VInt 12)]))
  = VDict [("sessionId"%string, VStr "s1"); ("duration"%string, VInt 12)].
Proof.
  apply var_pairs_become_dict; [discriminate|reflexivity].
Defined.

(** *** [convert_record] *)

Lemma process_subextensions_items (l : list value) :
  decoder.process_subextensions (VList l)
  = match l with
    | [] => Ok []
    | VDict d :: t =>
        let prop := match dict_get "recordProperty" d with
                    | Some p => p
                    | None => VStr "UNKNOWN"
                    end in
        let* elems :=
          decoder.process_elements (match dict_get "recordElements" d with
                                    | Some e => e
                                    | None => VList []
                                    end) in
        let* nested :=
          match dict_get "recordSubExtensions" d with
          | Some nested_subs =>
              if truthy nested_subs then decoder.process_subextensions nested_subs
              else Ok []
          | None => Ok []
          end in
        let* r := decoder.process_subextensions (VList t) in
        Ok ((("B " ++ py_str prop)%string :: elems) ++ nested ++ "."%string :: r)
    | _ :: _ => Raise AttributeError
    end.
Proof.
  destruct l as [|sub t]; [reflexivity|].
  destruct sub as [| | | | | | |d]; try reflexivity.
  cbn [decoder.process_subextensions]. cbv zeta.
  destruct (decoder.process_elements _) as [elems|e]; [|reflexivity].
  cbn [bind].
  match goal with
  | |- bind ?a _ = bind ?b _ => assert (Hn : a = b)
  end.
  { induction d as [|[k v] rest IH]; [reflexivity|].
    cbn [dict_get]. destruct (String.eqb "recordSubExtensions" k); [reflexivity|exact IH]. }
  rewrite Hn. reflexivity.
Qed.

Lemma nested_lines_app (a b : list string) :
  nested_lines a -> nested_lines b -> nested_lines (a ++ b).
Proof.
  intros Ha Hb. induction Ha as [|text rest _ IH|prop inner rest Hi _ _ IH]; cbn [app].
  - exact Hb.
  - now constructor.
  - rewrite <- app_assoc. cbn [app]. now constructor.
Qed.

Lemma element_lines_nested (elements : list value) (lines : list string) :
  decoder.element_lines elements = Ok lines -> nested_lines lines.
Proof.
  revert lines. induction elements as [|elem t IH]; intros lines H;
    cbn [decoder.element_lines] in H.
  - injection H as <-. constructor.
  - inv_binds H. injection H as <-.
    destruct x as [line|]; [|now apply IH].
    unfold decoder.element_line in Hm. inv_bind Hm.
    destruct (negb x); [discriminate Hm|]. inv_bind Hm.
    destruct (negb x1); [discriminate Hm|].
    destruct elem; try discriminate Hm. injection Hm as <-.
    constructor. now apply IH.
Qed.

Lemma process_elements_nested (elements : value) (lines : list string) :
  decoder.process_elements elements = Ok lines -> nested_lines lines.
Proof.
  unfold decoder.process_elements. intros H. inv_bind H.
  now apply (element_lines_nested x).
Qed.

(** The lines of the sub-extensions nest, and so do those of the
    sub-extensions stored in a dict. *)
Lemma process_subextensions_nested (subexts : value) :
  (forall lines, decoder.process_subextensions subexts = Ok lines -> nested_lines lines)
  /\ match subexts with
     | VDict d =>
         Forall (fun kv => forall lines,
                     decoder.process_subextensions (snd kv) = Ok lines ->
                     nested_lines lines) d
     | _ => True
     end.
Proof.
  induction subexts as [| | | | |l IH|l IH|d IH] using value_nested_ind.
  - split; [|exact I]. intros lines H. discriminate H.
  - split; [|exact I]. intros lines H. discriminate H.
  - split; [|exact I]. intros lines H. discriminate H.
  - split; [|exact I]. intros lines H. discriminate H.
  - split; [|exact I]. intros lines H. cbn in H.
    destruct (chars_of s); [injection H as <-; constructor|discriminate H].
  - split; [|exact I].
    induction l as [|sub t IHt]; intros lines H.
    + injection H as <-. constructor.
    + rewrite process_subextensions_items in H.
      apply Forall_cons_iff in IH as [[_ Hsub] Ht].
      destruct sub as [| | | | | | |d]; try discriminate H.
      cbv zeta in H. inv_binds H. injection H as <-.
      cbn [app]. rewrite app_assoc.
      apply (nested_block _ (x ++ x0) x1); [|now apply IHt].
      apply nested_lines_app; [now apply (process_elements_nested _ _ Hm)|].
      destruct (dict_get "recordSubExtensions" d) as [nested_subs|] eqn:Hd;
        [|injection Hm0 as <-; constructor].
      destruct (truthy nested_subs); [|injection Hm0 as <-; constructor].
      apply dict_get_in in Hd as [k' Hd].
      exact (proj1 (Forall_forall _ _) Hsub (k', nested_subs) Hd _ Hm0).
  - split; [|exact I].
    assert (Heq : decoder.process_subextensions (VTuple l)
                  = decoder.process_subextensions (VList l)) by reflexivity.
    intros lines H. rewrite Heq in H. revert lines H.
    induction l as [|sub t IHt]; intros lines H.
    + injection H as <-. constructor.
    + rewrite process_subextensions_items in H.
      apply Forall_cons_iff in IH as [[_ Hsub] Ht].
      destruct sub as [| | | | | | |d]; try discriminate H.
      cbv zeta in H. inv_binds H. injection H as <-.
      cbn [app]. rewrite app_assoc.
      apply (nested_block _ (x ++ x0) x1);
        [|apply IHt; [exact Ht|reflexivity|exact Hm1]].
      apply nested_lines_app; [now apply (process_elements_nested _ _ Hm)|].
      destruct (dict_get "recordSubExtensions" d) as [nested_subs|] eqn:Hd;
        [|injection Hm0 as <-; constructor].
      destruct (truthy nested_subs); [|injection Hm0 as <-; constructor].
      apply dict_get_in in Hd as [k' Hd].
      exact (proj1 (Forall_forall _ _) Hsub (k', nested_subs) Hd _ Hm0).
  - split.
    + intros lines H. cbn in H.
      destruct (map _ d); [injection H as <-; constructor|discriminate H].
    + apply Forall_forall. intros kv Hkv.
      exact (proj1 (proj1 (Forall_forall _ _) IH kv Hkv)).
Qed.

Lemma extension_lines_nested (exts : list value) (lines : list string) :
  decoder.extension_lines exts = Ok lines -> nested_lines lines.
Proof.
  revert lines. induction exts as [|ext t IH]; intros lines H;
    cbn [decoder.extension_lines] in H.
  - injection H as <-. constructor.
  - inv_binds H. injection H as <-.
    constructor; [|now apply IH].
    exact (proj1 (process_subextensions_nested x0) _ Hm1).
Qed.

(** X15.  The lines [convert_record] writes are [RECORD], the metadata (the
    default ones when none are given) and a body that nests: every line of
    the body is a field line [F ...], a line [B ...] that opens a block or a
    line [.] that closes the last open block, and every block is closed. *)
Theorem converted_lines_nest (record : dict) (metadata : list string)
  (lines : list string) :
  decoder.convert_lines record metadata = Ok lines ->
  exists body, lines = header_lines metadata ++ body /\ nested_lines body.
Proof.
  unfold decoder.convert_lines. fold (header_lines metadata). intros H.
  assert (Hnone : exists body,
             header_lines metadata = header_lines metadata ++ body
             /\ nested_lines body).
  { exists []. split; [now rewrite app_nil_r|constructor]. }
  destruct record as [|[record_key entry] rest].
  { injection H as <-. exact Hnone. }
  destruct (negb (nonempty record_key)).
  { injection H as <-. exact Hnone. }
  inv_binds H.
  match type of H with
  | match ?p with _ => _ end = _ => destruct p as [| | | | | | |p'] eqn:Hp
  end; try (injection H as <-; exact Hnone).
  inv_binds H. injection H as <-.
  exists (x1 ++ x3). split; [reflexivity|].
  apply nested_lines_app;
    [now apply (process_elements_nested _ _ Hm1)|now apply (extension_lines_nested x2)].
Qed.

Lemma converted_lines_nest_witness :
  exists body,
    ["RECORD"; "#m"; "F a 1"; "B x"; "B y"; "F b 2"; "."; "."]%string
    = header_lines ["#m"%string] ++ body
    /\ nested_lines body.
Proof.
  apply (converted_lines_nest text_record ["#m"%string]). vm_compute. reflexivity.
Defined.

(** *** [evaluate_condition] *)

Lemma float_of_Z_one : float_of_Z 1 = Ok f_one.
Proof. reflexivity. Qed.

Lemma float_of_Z_zero : float_of_Z 0 = Ok (f_of_ratio false 0 1).
Proof. reflexivity. Qed.

(** X16.  A boolean condition is compared as a number: [True] is the
    condition [1] and [False] the condition [0] (the branch for booleans is
    never reached).  So a field whose value is a text that [float] rejects
    satisfies neither. *)
Theorem boolean_condition_is_numeric (record_fields : dict) (key : string) (b : bool) :
  cbl.evaluate_condition record_fields key (VBool b)
  = cbl.evaluate_condition record_fields key (VInt (b2z b))
  /\ forall s, dict_get key record_fields = Some (VStr s) ->
               float_parse s = None ->
               cbl.evaluate_condition record_fields key (VBool b) = Ok false.
Proof.
  unfold cbl.evaluate_condition. split.
  - destruct (dict_get key record_fields) as [val|]; [|reflexivity].
    destruct (cbl.float_or_none val) as [v|]; [|reflexivity].
    destruct b; reflexivity.
  - intros s Hs Hp. rewrite Hs. cbn [cbl.float_or_none]. now rewrite Hp.
Qed.

Lemma boolean_condition_is_numeric_witness :
  cbl.evaluate_condition [("EL_FLAG"%string, VStr "yes")] "EL_FLAG" (VBool true)
  = Ok false.
Proof.
  apply (proj2 (boolean_condition_is_numeric [("EL_FLAG"%string, VStr "yes")]
                  "EL_FLAG" true) "yes"%string); reflexivity.
Defined.

Lemma digit_facts (c : ascii) :
  is_digit c = true ->
  is_space c = false /\ is_space_num c = false
  /\ Ascii.eqb "="%char c = false /\ Ascii.eqb c "-" = false
  /\ Ascii.eqb c "+" = false /\ Ascii.eqb c "_" = false
  /\ lower_char c = c /\ Ascii.eqb c "i" = false /\ Ascii.eqb c "n" = false
  /\ Ascii.eqb c "." = false /\ Ascii.eqb c "e" = false /\ Ascii.eqb c "E" = false.
Proof.
  intros H. repeat split; revert H; each_char c.
Qed.

Lemma lower_digits (s : string) : str_forall is_digit s = true -> lower s = s.
Proof.
  unfold lower. induction s as [|c t IH]; [reflexivity|].
  cbn [str_forall str_map]. intros H.
  apply andb_true_iff in H as [Hc Ht].
  rewrite (IH Ht). f_equal. apply (digit_facts c Hc).
Qed.

Lemma span_digitpart_digits (s : string) :
  str_forall is_digit s = true -> span_digitpart s = (s, ""%string).
Proof.
  induction s as [|c t IH]; [reflexivity|]. intros H.
  simpl in H. apply andb_true_iff in H as [Hc Ht].
  specialize (IH Ht). cbn [span_digitpart]. rewrite Hc.
  destruct t as [|u [|c' t']].
  - reflexivity.
  - now rewrite IH.
  - simpl in Ht. apply andb_true_iff in Ht as [Hu _].
    replace (Ascii.eqb u "_") with false by (symmetry; apply (digit_facts u Hu)).
    cbn [andb]. now rewrite IH.
Qed.

(** [float(s)] for a text of decimal digits. *)
Lemma float_parse_digits (s : string) :
  s <> ""%string -> str_forall is_digit s = true ->
  float_parse s = Some (f_of_decimal false (digits_value s) 0).
Proof.
  intros Hne Hd. unfold float_parse.
  rewrite strip_by_none
    by (apply (str_forall_impl is_digit); [|exact Hd];
        intros c Hc; apply negb_true_iff, (digit_facts c Hc)).
  destruct s as [|c t]; [congruence|].
  pose proof Hd as Hd'. simpl in Hd'. apply andb_true_iff in Hd' as [Hc Ht].
  destruct (digit_facts c Hc)
    as (_ & _ & _ & Hm & Hp & _ & Hl & Hi & Hn & _).
  unfold split_sign. rewrite Hm, Hp.
  rewrite (lower_digits _ Hd).
  replace (String.eqb (String c t) "inf") with false
    by (simpl; now rewrite Hi).
  replace (String.eqb (String c t) "infinity") with false
    by (simpl; now rewrite Hi).
  replace (String.eqb (String c t) "nan") with false
    by (simpl; now rewrite Hn).
  cbn [orb]. unfold float_parse_number.
  rewrite (span_digitpart_digits _ Hd). cbn [nonempty orb].
  now rewrite append_empty_r.
Qed.

Lemma float_parse_N (n : N) :
  float_parse (N_to_string n) = Some (f_of_decimal false n 0).
Proof.
  destruct (N_to_string_spec n) as (Hne & Hd & Hv).
  now rewrite (float_parse_digits _ Hne Hd), Hv.
Qed.

Lemma find_operator (op ds : string) :
  In op cbl.operators -> ds <> ""%string -> str_forall is_digit ds = true ->
  find (fun o => startswith o (op ++ ds)) cbl.operators = Some op
  /\ str_drop (String.length op) (op ++ ds) = ds.
Proof.
  intros Hop Hne Hd. destruct ds as [|c t]; [congruence|].
  simpl in Hd. apply andb_true_iff in Hd as [Hc _].
  assert (He : Ascii.eqb "="%char c = false) by apply (digit_facts c Hc).
  unfold cbl.operators in *. simpl in Hop.
  repeat (destruct Hop as [<-|Hop];
          [cbn -[Ascii.eqb]; rewrite ?He; split; reflexivity|]).
  destruct Hop.
Qed.

(** X17.  For each of the six operators and every natural number [n], the
    condition made of the operator and the digits of [n] holds exactly when
    [float] accepts the value of the field and that number stands in the
    relation to [n]; with a value that [float] rejects it is false for every
    operator, [!=] included. *)
Theorem operator_condition (record_fields : dict) (key op : string) (val : value) (n : N) :
  dict_get key record_fields = Some val ->
  In op cbl.operators ->
  cbl.evaluate_condition record_fields key (VStr (op ++ N_to_string n))
  = Ok (match cbl.float_or_none val with
        | Some v => cbl.compare_floats op v (f_of_decimal false n 0)
        | None => false
        end).
Proof.
  intros Hget Hop. unfold cbl.evaluate_condition. rewrite Hget.
  destruct (N_to_string_spec n) as (Hne & Hd & Hv).
  assert (Hstrip : strip (op ++ N_to_string n) = (op ++ N_to_string n)%string).
  { apply strip_by_none. rewrite str_forall_app. apply andb_true_iff. split.
    - unfold cbl.operators in Hop. simpl in Hop.
      repeat (destruct Hop as [<-|Hop]; [reflexivity|]). contradiction.
    - apply (str_forall_impl is_digit); [|exact Hd].
      intros c Hc. apply negb_true_iff, (digit_facts c Hc). }
  rewrite Hstrip.
  destruct (find_operator op (N_to_string n) Hop Hne Hd) as [-> Hdrop].
  unfold cbl.apply_operator. rewrite Hdrop. unfold strip.
  rewrite strip_by_none
    by (apply (str_forall_impl is_digit); [|exact Hd];
        intros c Hc; apply negb_true_iff, (digit_facts c Hc)).
  rewrite float_parse_N. reflexivity.
Qed.

Lemma operator_condition_witness :
  cbl.evaluate_condition [("EL_DEBIT_AMOUNT"%string, VStr "abc")] "EL_DEBIT_AMOUNT"
    (VStr ("!=" ++ N_to_string 5))
  = Ok false.
Proof.
  apply (operator_condition [("EL_DEBIT_AMOUNT"%string, VStr "abc")]
           "EL_DEBIT_AMOUNT" "!=" (VStr "abc") 5);
    [reflexivity|simpl; tauto].
Defined.

(** *** [route_using_config] *)

Lemma evaluate_one (el_fields : dict) (key : string) :
  cbl.evaluate_condition el_fields key (VInt 1)
  = Ok (match dict_get key el_fields with Some s => is_one s | None => false end).
Proof.
  unfold cbl.evaluate_condition, is_one.
  destruct (dict_get key el_fields) as [val|]; [|reflexivity].
  destruct (cbl.float_or_none val); reflexivity.
Qed.

Lemma evaluate_postpaid (el_fields : dict) (key : string) :
  cbl.evaluate_condition el_fields key (VStr "POSTPAID")
  = Ok (match dict_get key el_fields with
        | Some p => String.eqb (py_str p) "POSTPAID"
        | None => false
        end).
Proof.
  unfold cbl.evaluate_condition.
  destruct (dict_get key el_fields) as [val|]; reflexivity.
Qed.

Lemma evaluate_positive (el_fields : dict) (key : string) :
  cbl.evaluate_condition el_fields key (VStr ">0")
  = Ok (match dict_get key el_fields with Some a => is_positive a | None => false end).
Proof.
  unfold cbl.evaluate_condition, is_positive.
  destruct (dict_get key el_fields) as [val|]; [|reflexivity].
  cbn -[cbl.float_or_none f_ltb]. unfold cbl.apply_operator.
  cbn -[cbl.float_or_none f_ltb cbl.compare_floats].
  destruct (cbl.float_or_none val); reflexivity.
Qed.

Lemma billing_rule_matches (el_fields : dict) :
  cbl.rule_matches el_fields
    [("EL_PRE_POST", VStr "POSTPAID"); ("EL_SUCCESS", VInt 1)]%string
  = Ok (billing_due el_fields).
Proof.
  unfold billing_due. cbn [cbl.rule_matches].
  rewrite evaluate_postpaid, evaluate_one. cbn [bind].
  destruct (dict_get "EL_PRE_POST" el_fields) as [p|]; [|reflexivity].
  destruct (String.eqb (py_str p) "POSTPAID"); cbn [bind andb];
    destruct (dict_get "EL_SUCCESS" el_fields) as [s|]; try reflexivity.
  now destruct (is_one s).
Qed.

Lemma lms_rule_matches (el_fields : dict) :
  cbl.rule_matches el_fields
    [("EL_SUCCESS", VInt 1); ("EL_DEBIT_AMOUNT", VStr ">0")]%string
  = Ok (lms_conditions el_fields).
Proof.
  unfold lms_conditions. cbn [cbl.rule_matches].
  rewrite evaluate_one, evaluate_positive. cbn [bind].
  destruct (dict_get "EL_SUCCESS" el_fields) as [s|]; [|reflexivity].
  destruct (is_one s); cbn [bind andb];
    destruct (dict_get "EL_DEBIT_AMOUNT" el_fields) as [a|]; try reflexivity.
  now destruct (is_positive a).
Qed.

(** Routing under the default rules and directories. *)
Lemma default_routing_eq (original_obj : value) (el_fields : dict) (cfg : dict)
  (input_filename : string) :
  default_routes cfg ->
  (exists s, rec_type_or_empty el_fields = VStr s) ->
  cbl.route_using_config original_obj el_fields cfg input_filename
  = ([routed original_obj el_fields input_filename "CRM" ["out/crm"%string]]
     ++ (if billing_due el_fields
         then [routed original_obj el_fields input_filename "BILLING"
                 ["out/billing"%string]]
         else [])
     ++ (if (lms_conditions el_fields && negb (is_ecommerce el_fields))%bool
         then [routed original_obj el_fields input_filename "LMS" ["out/lms"%string]]
         else [])
     ++ [routed original_obj el_fields input_filename "RA" ["out/ra"%string];
         routed original_obj el_fields input_filename "DWH" (dwh_dir el_fields)],
     None).
Proof.
  intros [Hdirs Hrules] [s Hs].
  unfold cbl.route_using_config. rewrite Hdirs, Hrules.
  cbn [py_iter cbl.DEFAULT_ROUTING_RULES].
  cbn [cbl.route_rules].
  assert (Hcrm : forall name dir,
             dict_get name cbl.DEFAULT_OUTPUT_DIRS = Some (VStr dir) ->
             String.eqb (upper name) "DWH" = false ->
             String.eqb (upper name) "LMS" = false ->
             cbl.route_rule (VDict cbl.DEFAULT_OUTPUT_DIRS) el_fields
               (VDict [("original"%string, original_obj);
                       ("CBL_TAG"%string, VDict el_fields)])
               input_filename (cbl.rule name [])
             = Ok (Some (routed original_obj el_fields input_filename name [dir]))).
  { intros name dir Hd H1 H2. unfold cbl.route_rule, cbl.rule.
    cbn [py_get py_get_default dict_get String.eqb Ascii.eqb Bool.eqb bind py_or truthy
         voice.as_dict cbl.rule_matches negb cbl.text_of].
    rewrite H1, H2. cbn [bind voice.as_dict]. rewrite Hd. reflexivity. }
  rewrite (Hcrm "CRM"%string "out/crm"%string) by reflexivity.
  rewrite (Hcrm "RA"%string "out/ra"%string) by reflexivity.
  assert (Hbil : cbl.route_rule (VDict cbl.DEFAULT_OUTPUT_DIRS) el_fields
                   (VDict [("original"%string, original_obj);
                           ("CBL_TAG"%string, VDict el_fields)])
                   input_filename
                   (cbl.rule "BILLING"
                      [("EL_PRE_POST", VStr "POSTPAID"); ("EL_SUCCESS", VInt 1)]%string)
                 = Ok (if billing_due el_fields
                       then Some (routed original_obj el_fields input_filename "BILLING"
                                    ["out/billing"%string])
                       else None)).
  { unfold cbl.route_rule, cbl.rule.
    cbn [py_get py_get_default dict_get String.eqb Ascii.eqb Bool.eqb bind py_or truthy
         voice.as_dict].
    rewrite billing_rule_matches. cbn [bind].
    destruct (billing_due el_fields); reflexivity. }
  assert (Hlms : cbl.route_rule (VDict cbl.DEFAULT_OUTPUT_DIRS) el_fields
                   (VDict [("original"%string, original_obj);
                           ("CBL_TAG"%string, VDict el_fields)])
                   input_filename
                   (cbl.rule "LMS"
                      [("EL_SUCCESS", VInt 1); ("EL_DEBIT_AMOUNT", VStr ">0")]%string)
                 = Ok (if (lms_conditions el_fields && negb (is_ecommerce el_fields))%bool
                       then Some (routed original_obj el_fields input_filename "LMS"
                                    ["out/lms"%string])
                       else None)).
  { unfold cbl.route_rule, cbl.rule.
    cbn [py_get py_get_default dict_get String.eqb Ascii.eqb Bool.eqb bind py_or truthy
         voice.as_dict].
    rewrite lms_rule_matches. cbn [bind].
    destruct (lms_conditions el_fields); [|reflexivity].
    cbn [negb andb cbl.text_of bind].
    change (String.eqb (upper "LMS") "DWH") with false.
    change (String.eqb (upper "LMS") "LMS") with true. cbn iota.
    unfold is_ecommerce. fold (rec_type_or_empty el_fields). rewrite Hs.
    cbn [cbl.text_of bind].
    destruct (String.eqb (upper s) "ECOMMERCE"); reflexivity. }
  assert (Hdwh : cbl.route_rule (VDict cbl.DEFAULT_OUTPUT_DIRS) el_fields
                   (VDict [("original"%string, original_obj);
                           ("CBL_TAG"%string, VDict el_fields)])
                   input_filename (cbl.rule "DWH" [])
                 = Ok (Some (routed original_obj el_fields input_filename "DWH"
                               (dwh_dir el_fields)))).
  { reflexivity. }
  rewrite Hbil, Hlms, Hdwh.
  destruct (billing_due el_fields);
    destruct (lms_conditions el_fields && negb (is_ecommerce el_fields))%bool;
    reflexivity.
Qed.

(** X18.  With the default rules and directories (a configuration that does
    not set them, or sets them to the default values) and a record type that
    is text or falsy, [route_using_config] writes the file for CRM, RA and DWH
    whatever the fields are, for BILLING exactly when EL_PRE_POST reads
    POSTPAID and EL_SUCCESS is 1, and for LMS exactly when EL_SUCCESS is 1,
    EL_DEBIT_AMOUNT is above 0 and the record type is not ECOMMERCE; in this
    order, the DWH file under [group_usage] or [single_usage] and the record
    type, and without an exception. *)
Theorem default_routing (original_obj : value) (el_fields : dict) (cfg : dict)
  (input_filename : string) :
  default_routes cfg ->
  (exists s, rec_type_or_empty el_fields = VStr s) ->
  cbl.route_using_config original_obj el_fields cfg input_filename
  = ([routed original_obj el_fields input_filename "CRM" ["out/crm"%string]]
     ++ (if billing_due el_fields
         then [routed original_obj el_fields input_filename "BILLING"
                 ["out/billing"%string]]
         else [])
     ++ (if (lms_conditions el_fields && negb (is_ecommerce el_fields))%bool
         then [routed original_obj el_fields input_filename "LMS" ["out/lms"%string]]
         else [])
     ++ [routed original_obj el_fields input_filename "RA" ["out/ra"%string];
         routed original_obj el_fields input_filename "DWH" (dwh_dir el_fields)],
     None).
Proof. apply default_routing_eq. Qed.

Lemma default_routing_witness :
  map cbl.w_rule
    (fst (cbl.route_using_config VNone
            [("EL_PRE_POST", VStr "POSTPAID"); ("EL_SUCCESS", VInt 1);
             ("EL_DEBIT_AMOUNT", VFloat (f_zero false)); ("EL_REC_TYPE", VStr "DATA")]%string
            [("pollInterval"%string, VInt 5)] "a.json"))
  = ["CRM"; "BILLING"; "RA"; "DWH"]%string.
Proof.
  rewrite default_routing; [reflexivity|split; reflexivity|].
  exists "DATA"%string. reflexivity.
Defined.

(** X19.  When the body of the loop raises for a rule, [route_using_config]
    stops there: the files of the rules before it stay written, and no later
    rule is looked at. *)
Theorem routing_stops_at_first_error (out_dirs : value) (el_fields : dict)
  (out_obj : value) (input_filename : string) (before after : list value)
  (r : value) (ws : list cbl.written) (e : exn) :
  cbl.route_rules out_dirs el_fields out_obj input_filename before = (ws, None) ->
  cbl.route_rule out_dirs el_fields out_obj input_filename r = Raise e ->
  cbl.route_rules out_dirs el_fields out_obj input_filename (before ++ r :: after)
  = (ws, Some e).
Proof.
  intros Hb Hr. revert ws Hb.
  induction before as [|a t IH]; intros ws Hb.
  - cbn [app cbl.route_rules] in *. rewrite Hr. now injection Hb as <-.
  - cbn [app cbl.route_rules] in *.
    destruct (cbl.route_rule out_dirs el_fields out_obj input_filename a) as [w|e'];
      [|discriminate Hb].
    destruct (cbl.route_rules out_dirs el_fields out_obj input_filename t)
      as [ws' e'] eqn:Et.
    injection Hb as <- ->. now rewrite (IH ws' eq_refl).
Qed.

Lemma routing_stops_at_first_error_witness :
  cbl.route_rules (VDict cbl.DEFAULT_OUTPUT_DIRS) [] VNone "a.json"
    ([cbl.rule "CRM" []] ++ VInt 5 :: [cbl.rule "RA" []])
  = ([{| cbl.w_rule := "CRM"; cbl.w_dir := ["out/crm"%string];
         cbl.w_file := "a.json"; cbl.w_obj := VNone |}],
     Some AttributeError).
Proof.
  apply routing_stops_at_first_error; reflexivity.
Defined.

Lemma rule_matches_all (el_fields : dict) (conditions : dict) :
  cbl.rule_matches el_fields conditions = Ok true ->
  Forall (fun kc => cbl.evaluate_condition el_fields (fst kc) (snd kc) = Ok true)
    conditions.
Proof.
  induction conditions as [|[k cond] t IH]; cbn [cbl.rule_matches]; intros H.
  - constructor.
  - destruct (cbl.evaluate_condition el_fields k cond) as [[|]|] eqn:E;
      try discriminate H.
    constructor; [exact E|apply IH, H].
Qed.

Lemma route_rule_written (out_dirs : value) (el_fields : dict) (out_obj : value)
  (input_filename : string) (r : value) (w : cbl.written) :
  cbl.route_rule out_dirs el_fields out_obj input_filename r = Ok (Some w) ->
  written_for el_fields out_obj input_filename r w.
Proof.
  unfold cbl.route_rule, written_for, conditions_of. intros H.
  destruct (py_get r "name") as [name_v|] eqn:Hn; [|discriminate H].
  unfold bind at 1 in H.
  destruct (py_get_default r "conditions" (VDict [])) as [cv|] eqn:Hc; [|discriminate H].
  unfold bind at 1 in H.
  destruct (voice.as_dict (py_or cv (VDict []))) as [conds|] eqn:Hd; [|discriminate H].
  unfold bind at 1 in H.
  destruct (cbl.rule_matches el_fields conds) as [[|]|] eqn:Hm; try discriminate H.
  unfold bind at 1 in H. cbn [negb] in H.
  destruct name_v as [| | | |name| | |]; try discriminate H.
  cbn [cbl.text_of] in H. unfold bind at 1 in H.
  assert (Hw : cbl.w_file w = input_filename /\ cbl.w_obj w = out_obj
               /\ cbl.w_rule w = name).
  { destruct (String.eqb (upper name) "DWH").
    - inv_binds H. injection H as <-. repeat split.
    - inv_binds H. destruct x; [discriminate H|].
      inv_binds H. injection H as <-. repeat split. }
  destruct Hw as (Hf & Ho & Hrule).
  split; [exact Hf|]. split; [exact Ho|]. split; [now rewrite Hrule|].
  exists conds. split; [|apply rule_matches_all, Hm].
  cbn [bind]. exact Hd.
Qed.

Lemma subseq_nil_l {A : Type} (l : list A) : subseq [] l.
Proof. induction l; constructor; assumption. Qed.

Lemma route_rules_written (out_dirs : value) (el_fields : dict) (out_obj : value)
  (input_filename : string) (rules : list value) :
  exists chosen,
    subseq chosen rules
    /\ Forall2 (written_for el_fields out_obj input_filename) chosen
         (fst (cbl.route_rules out_dirs el_fields out_obj input_filename rules)).
Proof.
  induction rules as [|r t (chosen & Hs & Hf)]; cbn [cbl.route_rules].
  - exists []. split; constructor.
  - destruct (cbl.route_rule out_dirs el_fields out_obj input_filename r)
      as [[w|]|e] eqn:Hr.
    + destruct (cbl.route_rules out_dirs el_fields out_obj input_filename t) as [ws e].
      exists (r :: chosen). split; [now constructor|].
      constructor; [now apply (route_rule_written out_dirs)|exact Hf].
    + destruct (cbl.route_rules out_dirs el_fields out_obj input_filename t) as [ws e].
      exists chosen. split; [now constructor|exact Hf].
    + exists []. split; [apply subseq_nil_l|constructor].
Qed.

(** X20.  Whatever the configuration, the files [route_using_config] writes
    answer, in order, to rules of the configuration taken at most once each:
    each file has the name of the input file, holds the original object with
    the EL fields under CBL_TAG, is written for the name of its rule, and all
    the conditions of that rule evaluate to true. *)
Theorem routed_files_follow_rules (original_obj : value) (el_fields : dict)
  (cfg : dict) (input_filename : string) :
  exists chosen,
    subseq chosen (configured_rules cfg)
    /\ Forall2
         (written_for el_fields
            (VDict [("original"%string, original_obj);
                    ("CBL_TAG"%string, VDict el_fields)])
            input_filename)
         chosen
         (fst (cbl.route_using_config original_obj el_fields cfg input_filename)).
Proof.
  unfold cbl.route_using_config, configured_rules.
  destruct (py_iter _) as [rules|e].
  - apply route_rules_written.
  - exists []. split; constructor.
Qed.

(** *** [COMMAN BLN/cbl.py]: the traversal helpers *)

Lemma find_nodes_list (l : list value) (prop_name : string) :
  cbl_el.find_nodes_by_property (VList l) prop_name
  = flat_map (fun x => cbl_el.find_nodes_by_property x prop_name) l.
Proof.
  cbn [cbl_el.find_nodes_by_property].
  induction l as [|x t IH]; [reflexivity|].
  cbn [flat_map]. now rewrite <- IH.
Qed.

Lemma find_nodes_dict (d : dict) (prop_name : string) :
  cbl_el.find_nodes_by_property (VDict d) prop_name
  = (if eq_str (voice.dget d "recordProperty") prop_name then [VDict d] else [])
    ++ flat_map (fun kv => if is_container (snd kv)
                           then cbl_el.find_nodes_by_property (snd kv) prop_name
                           else []) d.
Proof.
  cbn [cbl_el.find_nodes_by_property]. f_equal.
  induction d as [|[k v] t IH]; [reflexivity|].
  cbn [flat_map snd]. rewrite <- IH. f_equal.
  destruct v; reflexivity.
Qed.

Lemma find_nodes_scalar (v : value) (prop_name : string) :
  is_container v = false -> cbl_el.find_nodes_by_property v prop_name = [].
Proof. destruct v; simpl; congruence. Qed.

Lemma found_inside (prop_name : string) (c n : value) :
  In n (cbl_el.find_nodes_by_property c prop_name) ->
  inside n c /\ has_property prop_name n.
Proof.
  revert n. induction c as [| | | | |l IH|l IH|d IH] using value_nested_ind;
    intros n Hin; try contradiction.
  - rewrite find_nodes_list in Hin. apply in_flat_map in Hin as (x & Hx & Hin).
    destruct (proj1 (Forall_forall _ _) IH x Hx n Hin) as [Hi Hp].
    split; [now apply (inside_item n l x)|exact Hp].
  - rewrite find_nodes_dict in Hin. apply in_app_or in Hin as [Hin|Hin].
    + destruct (eq_str (voice.dget d "recordProperty") prop_name) eqn:E;
        [|contradiction].
      destruct Hin as [<-|[]]. split; [constructor|now exists d].
    + apply in_flat_map in Hin as ([k v] & Hkv & Hin). cbn [snd] in Hin.
      destruct (is_container v) eqn:Ec; [|contradiction].
      destruct (proj1 (Forall_forall _ _) IH (k, v) Hkv n Hin) as [Hi Hp].
      split; [now apply (inside_value n d k v)|exact Hp].
Qed.

Lemma inside_found (prop_name : string) (c n : value) :
  inside n c -> has_property prop_name n ->
  In n (cbl_el.find_nodes_by_property c prop_name).
Proof.
  intros Hi (dn & -> & Hp). induction Hi as [|l x Hx Hi IH|d k v Hkv Hc Hi IH].
  - rewrite find_nodes_dict, Hp. now left.
  - rewrite find_nodes_list. apply in_flat_map. now exists x.
  - rewrite find_nodes_dict. apply in_or_app. right.
    apply in_flat_map. exists (k, v). cbn [snd]. now rewrite Hc.
Qed.

(** X21.  [find_nodes_by_property] finds exactly the dicts with the given
    [recordProperty] that are the container itself or lie within it, under
    the items of lists and the list and dict values of dicts: none is left
    out, and nothing else is returned. *)
Theorem find_nodes_exact (container : value) (prop_name : string) (n : value) :
  In n (cbl_el.find_nodes_by_property container prop_name)
  <-> inside n container /\ has_property prop_name n.
Proof.
  split; [apply found_inside|intros [Hi Hp]; now apply inside_found].
Qed.

Ltac solve_leb :=
  repeat match goal with
         | |- context [(?a <=? ?b)] =>
             first [rewrite (proj2 (Z.leb_le a b)) by lia
                   |rewrite (proj2 (Z.leb_gt a b)) by lia]
         end;
  cbn [andb]; f_equal; lia.

Lemma circle_of_default (n : Z) :
  cbl_el.circle_of n cbl_el.DEFAULT_CIRCLE_RANGES
  = Ok (if ((0 <=? n) && (n <=? 99))%bool then n / 10 + 1 else 0).
Proof.
  assert (E : cbl_el.circle_of n cbl_el.DEFAULT_CIRCLE_RANGES
              = if ((0 <=? n) && (n <=? 9))%bool then Ok 1
                else if ((10 <=? n) && (n <=? 19))%bool then Ok 2
                else if ((20 <=? n) && (n <=? 29))%bool then Ok 3
                else if ((30 <=? n) && (n <=? 39))%bool then Ok 4
                else if ((40 <=? n) && (n <=? 49))%bool then Ok 5
                else if ((50 <=? n) && (n <=? 59))%bool then Ok 6
                else if ((60 <=? n) && (n <=? 69))%bool then Ok 7
                else if ((70 <=? n) && (n <=? 79))%bool then Ok 8
                else if ((80 <=? n) && (n <=? 89))%bool then Ok 9
                else if ((90 <=? n) && (n <=? 99))%bool then Ok 10
                else Ok 0) by reflexivity.
  rewrite E. clear E.
  pose proof (Z.div_mod n 10 ltac:(lia)) as Hd.
  pose proof (Z.mod_pos_bound n 10 ltac:(lia)) as Hm.
  assert (Hc : n < 0 \/ 0 <= n <= 9 \/ 10 <= n <= 19 \/ 20 <= n <= 29
               \/ 30 <= n <= 39 \/ 40 <= n <= 49 \/ 50 <= n <= 59 \/ 60 <= n <= 69
               \/ 70 <= n <= 79 \/ 80 <= n <= 89 \/ 90 <= n <= 99 \/ 99 < n) by lia.
  repeat (destruct Hc as [Hc|Hc]; [solve_leb|]). solve_leb.
Qed.

Lemma str_drop_app (t s : string) : str_drop (String.length t) (t ++ s) = s.
Proof. induction t as [|c t IH]; [now destruct s|exact IH]. Qed.

Lemma str_last_two (t : string) (a b : ascii) :
  str_last 2 (t ++ String a (String b "")) = String a (String b "").
Proof.
  unfold str_last. rewrite append_length. cbn [String.length].
  replace (String.length t + 2 - 2)%nat with (String.length t) by lia.
  apply str_drop_app.
Qed.

Lemma two_digit_circles :
  forallb (fun a =>
     forallb (fun b =>
        res_Z_eqb (cbl_el.get_circle_id_from_msisdn (VStr (two_digit_text a b))
                     (VDict cbl_el.DEFAULT_CIRCLE_RANGES))
                  (Z.of_N a + 1))
       [0; 1; 2; 3; 4; 5; 6; 7; 8; 9]%N)
    [0; 1; 2; 3; 4; 5; 6; 7; 8; 9]%N = true.
Proof. vm_compute. reflexivity. Qed.

(** X22.  With the circle ranges of the default configuration,
    [get_circle_id_from_msisdn] always returns a circle from 0 to 10, and
    for a number that ends in two decimal digits the circle is the first of
    the two plus one. *)
Theorem default_circle_id :
  (forall msisdn,
      exists c, cbl_el.get_circle_id_from_msisdn msisdn
                  (VDict cbl_el.DEFAULT_CIRCLE_RANGES) = Ok c
                /\ 0 <= c <= 10)
  /\ (forall (t : string) (a b : N),
         (a < 10)%N -> (b < 10)%N ->
         cbl_el.get_circle_id_from_msisdn (VStr (t ++ two_digit_text a b))
           (VDict cbl_el.DEFAULT_CIRCLE_RANGES)
         = Ok (Z.of_N a + 1)).
Proof.
  split.
  - intros msisdn. unfold cbl_el.get_circle_id_from_msisdn.
    destruct (billing.py_int10 _) as [n|]; [|exists 0; split; [reflexivity|lia]].
    cbn [voice.as_dict bind]. rewrite circle_of_default.
    eexists. split; [reflexivity|].
    pose proof (Z.div_mod n 10 ltac:(lia)) as Hd.
    pose proof (Z.mod_pos_bound n 10 ltac:(lia)) as Hm.
    destruct (Z.leb_spec 0 n); destruct (Z.leb_spec n 99); cbn [andb]; lia.
  - intros t a b Ha Hb.
    assert (Hpre : cbl_el.get_circle_id_from_msisdn (VStr (t ++ two_digit_text a b))
                     (VDict cbl_el.DEFAULT_CIRCLE_RANGES)
                   = cbl_el.get_circle_id_from_msisdn (VStr (two_digit_text a b))
                       (VDict cbl_el.DEFAULT_CIRCLE_RANGES)).
    { unfold cbl_el.get_circle_id_from_msisdn, two_digit_text. cbn [py_str].
      rewrite str_last_two. reflexivity. }
    rewrite Hpre. clear Hpre.
    assert (Hina : In a [0; 1; 2; 3; 4; 5; 6; 7; 8; 9]%N) by (cbn [In]; lia).
    assert (Hinb : In b [0; 1; 2; 3; 4; 5; 6; 7; 8; 9]%N) by (cbn [In]; lia).
    pose proof (proj1 (forallb_forall _ _) two_digit_circles a Hina) as H1.
    cbv beta in H1.
    pose proof (proj1 (forallb_forall _ _) H1 b Hinb) as H2. cbv beta in H2.
    unfold res_Z_eqb in H2.
    destruct (cbl_el.get_circle_id_from_msisdn _ _) as [c|]; [|discriminate H2].
    apply Z.eqb_eq in H2. now subst c.
Qed.

Lemma default_circle_id_witness :
  cbl_el.get_circle_id_from_msisdn (VStr ("2519110000" ++ two_digit_text 4 7))
    (VDict cbl_el.DEFAULT_CIRCLE_RANGES)
  = Ok 5.
Proof.
  apply (proj2 default_circle_id "2519110000"%string 4%N 7%N); reflexivity.
Defined.

Lemma split_on_none (sep : ascii) (a : string) :
  str_forall (fun c => negb (Ascii.eqb c sep)) a = true -> split_on sep a = [a].
Proof.
  induction a as [|c t IH]; [reflexivity|]. cbn [str_forall split_on]. intros H.
  apply andb_true_iff in H as [Hc Ht]. apply negb_true_iff in Hc.
  now rewrite Hc, (IH Ht).
Qed.

Lemma split_on_app (sep : ascii) (a u : string) :
  str_forall (fun c => negb (Ascii.eqb c sep)) a = true ->
  split_on sep (a ++ String sep u) = a :: split_on sep u.
Proof.
  induction a as [|c t IH]; cbn [str_forall split_on append]; intros H.
  - now rewrite Ascii.eqb_refl.
  - apply andb_true_iff in H as [Hc Ht]. apply negb_true_iff in Hc.
    now rewrite Hc, (IH Ht).
Qed.

Lemma lstrip_by_app (p : ascii -> bool) (x y : string) :
  lstrip_by p (x ++ y)
  = if str_forall p x then lstrip_by p y else (lstrip_by p x ++ y)%string.
Proof.
  induction x as [|c t IH]; [reflexivity|]. cbn [append lstrip_by str_forall].
  destruct (p c); [exact IH|reflexivity].
Qed.

Lemma rstrip_by_app (p : ascii -> bool) (a b : string) :
  rstrip_by p (a ++ b)
  = if str_forall p b then rstrip_by p a else (a ++ rstrip_by p b)%string.
Proof.
  unfold rstrip_by. rewrite str_rev_app, lstrip_by_app, str_forall_rev.
  destruct (str_forall p b); [reflexivity|].
  now rewrite str_rev_app, str_rev_involutive.
Qed.

Lemma rstrip_by_none (p : ascii -> bool) (s : string) :
  str_forall (fun c => negb (p c)) s = true -> rstrip_by p s = s.
Proof.
  intros H. unfold rstrip_by.
  rewrite lstrip_by_none by (now rewrite str_forall_rev).
  apply str_rev_involutive.
Qed.

Lemma digit_not_separator (c : ascii) :
  is_digit c = true ->
  negb (is_space c) = true /\ negb (Ascii.eqb c "/") = true
  /\ negb (Ascii.eqb c " ") = true /\ Ascii.eqb c "+" = false /\ Ascii.eqb c "-" = false.
Proof. each_char c; repeat split. Qed.

Lemma date_text_chars (q : ascii -> bool) (d m y : string) :
  (forall c, is_digit c = true -> q c = true) -> q "/"%char = true ->
  str_forall is_digit d = true -> str_forall is_digit m = true ->
  str_forall is_digit y = true ->
  str_forall q (date_text d m y) = true.
Proof.
  intros Hq Hs Hd Hm Hy. unfold date_text.
  rewrite !str_forall_app. cbn [str_forall]. rewrite Hs.
  rewrite (str_forall_impl _ _ _ Hq Hd), (str_forall_impl _ _ _ Hq Hm),
    (str_forall_impl _ _ _ Hq Hy).
  reflexivity.
Qed.

Lemma strip_date (dt rest : string) :
  dt <> ""%string ->
  str_forall (fun c => negb (is_space c)) dt = true ->
  (rest = ""%string \/ exists r, rest = String " " r) ->
  exists u, strip (dt ++ rest) = (dt ++ u)%string
            /\ (u = ""%string \/ exists u', u = String " " u').
Proof.
  intros Hne Hdt Hrest. unfold strip, strip_by.
  assert (Hl : lstrip_by is_space (dt ++ rest) = (dt ++ rest)%string).
  { destruct dt as [|c t]; [contradiction|].
    cbn [str_forall] in Hdt. apply andb_true_iff in Hdt as [Hc _].
    apply negb_true_iff in Hc. cbn [append lstrip_by]. now rewrite Hc. }
  rewrite Hl, rstrip_by_app.
  destruct (str_forall is_space rest) eqn:Hall.
  - exists ""%string. rewrite append_empty_r, (rstrip_by_none _ _ Hdt). now split; [|left].
  - destruct Hrest as [->|[r ->]]; [discriminate Hall|].
    change (String " " r) with (" " ++ r)%string. rewrite rstrip_by_app.
    cbn [append str_forall] in Hall. change (is_space " ") with true in Hall.
    cbn [andb] in Hall. rewrite Hall.
    exists (" " ++ rstrip_by is_space r)%string. split; [reflexivity|].
    right. now exists (rstrip_by is_space r).
Qed.

Lemma zfill_digits (width : nat) (s : string) :
  str_forall is_digit s = true ->
  zfill width s = (repeat_char "0" (width - String.length s) ++ s)%string.
Proof.
  unfold zfill. destruct s as [|c t]; [now rewrite append_empty_r|].
  cbn [str_forall]. intros H. apply andb_true_iff in H as [Hc _].
  destruct (digit_not_separator c Hc) as (_ & _ & _ & Hp & Hm).
  now rewrite Hp, Hm.
Qed.

(** X23.  For a timestamp that starts with a date [d/m/y] in decimal digits,
    alone or followed by a space and anything, [parse_generation_timestamp]
    returns the year, the month and the day of that date: a year of two
    digits gets the century 20; the year is then filled with zeros on the
    left to four digits, the month and the day to two. *)
Theorem timestamp_parts (d m y rest : string) :
  str_forall is_digit d = true ->
  str_forall is_digit m = true ->
  str_forall is_digit y = true ->
  (rest = ""%string \/ exists r, rest = String " " r) ->
  let year := if Nat.eqb (String.length y) 2 then ("20" ++ y)%string else y in
  cbl_el.parse_generation_timestamp (VStr (date_text d m y ++ rest))
  = ((repeat_char "0" (4 - String.length year) ++ year)%string,
     (repeat_char "0" (2 - String.length m) ++ m)%string,
     (repeat_char "0" (2 - String.length d) ++ d)%string).
Proof.
  intros Hd Hm Hy Hrest year. unfold cbl_el.parse_generation_timestamp.
  assert (Hne : date_text d m y <> ""%string).
  { unfold date_text. destruct d; discriminate. }
  assert (Hnonempty : nonempty (date_text d m y ++ rest) = true).
  { destruct (date_text d m y); [contradiction|reflexivity]. }
  rewrite Hnonempty. cbn [negb].
  destruct (strip_date (date_text d m y) rest Hne) as (u & -> & Hu).
  { apply date_text_chars; try assumption; [|reflexivity].
    intros c Hc. apply (digit_not_separator c Hc). }
  { exact Hrest. }
  assert (Hsp : str_forall (fun c => negb (Ascii.eqb c " ")) (date_text d m y) = true).
  { apply date_text_chars; try assumption; [|reflexivity].
    intros c Hc. apply (digit_not_separator c Hc). }
  assert (Hhd : hd EmptyString (split_on " " (date_text d m y ++ u)) = date_text d m y).
  { destruct Hu as [->|[u' ->]].
    - now rewrite append_empty_r, split_on_none.
    - now rewrite split_on_app. }
  rewrite Hhd. unfold date_text.
  assert (Hsl : forall s, str_forall is_digit s = true ->
                          str_forall (fun c => negb (Ascii.eqb c "/")) s = true).
  { intros s. apply str_forall_impl. intros c Hc. apply (digit_not_separator c Hc). }
  change (d ++ "/" ++ m ++ "/" ++ y)%string
    with (d ++ String "/" (m ++ String "/" y))%string.
  rewrite (split_on_app "/" d _ (Hsl d Hd)), (split_on_app "/" m _ (Hsl m Hm)),
    (split_on_none "/" y (Hsl y Hy)).
  fold year.
  assert (Hyear : str_forall is_digit year = true).
  { unfold year. destruct (Nat.eqb (String.length y) 2); [|exact Hy].
    cbn [append str_forall]. now rewrite Hy. }
  now rewrite !zfill_digits.
Qed.

Lemma timestamp_parts_witness :
  cbl_el.parse_generation_timestamp (VStr (date_text "5" "08" "25" ++ " 15:26:53"))
  = ("2025", "08", "05")%string.
Proof.
  apply (timestamp_parts "5" "08" "25" " 15:26:53"); try reflexivity.
  right. now exists "15:26:53"%string.
Defined.

(** *** [compute_el_fields] *)

Lemma pre_post_of_values (v : value) : In (cbl_el.pre_post_of v) pre_post_values.
Proof.
  unfold cbl_el.pre_post_of, pre_post_values. destruct v; try (right; right; now left).
  destruct (existsb _ _); [now left|].
  destruct (contains _ _); [right; now left|right; right; now left].
Qed.

Ltac in_values :=
  repeat match goal with
         | |- In (if ?c then _ else _) _ => destruct c
         end;
  cbn; repeat first [left; reflexivity|right].

Lemma rec_type_in (k : string) :
  In (cbl_el.lookup k cbl_el.rec_map "UNKNOWN"%string) rec_type_values.
Proof. cbn [cbl_el.lookup cbl_el.rec_map]. in_values. Qed.

Lemma zfill_length (width : nat) (s : string) :
  (width <= String.length (zfill width s))%nat.
Proof.
  unfold zfill. destruct s as [|c t].
  - rewrite repeat_char_length. cbn [String.length]. lia.
  - destruct (Ascii.eqb c "+" || Ascii.eqb c "-")%bool; cbn [String.length];
      rewrite append_length, repeat_char_length; cbn [String.length]; lia.
Qed.

Lemma parse_generation_timestamp_lengths (ts : value) (y m d : string) :
  cbl_el.parse_generation_timestamp ts = (y, m, d) ->
  (4 <= String.length y /\ 2 <= String.length m /\ 2 <= String.length d)%nat.
Proof.
  unfold cbl_el.parse_generation_timestamp.
  assert (Hdef : forall y m d : string,
             ("0000", "00", "00")%string = (y, m, d) ->
             (4 <= String.length y /\ 2 <= String.length m /\ 2 <= String.length d)%nat).
  { intros y0 m0 d0 H. injection H as <- <- <-. cbn. lia. }
  destruct ts; try apply Hdef.
  destruct (negb (nonempty s)); [apply Hdef|].
  destruct (split_on "/" _) as [|d0 [|m0 [|y0 [|? ?]]]]; try apply Hdef.
  intros H. injection H as <- <- <-.
  repeat split; apply zfill_length.
Qed.

Lemma group_flag (b : bool) : In (if b then 1 else 0) [0; 1].
Proof. destruct b; [right; now left|now left]. Qed.

(** What [compute_el_fields] returns. *)
Lemma compute_el_fields_inv (generic_record : value) (cfg el : dict) :
  cbl_el.compute_el_fields generic_record cfg = Ok el ->
  exists pre_post success rec_type event_label date_day month_circle debit_amount
         group_usage,
    el = el_record pre_post success rec_type event_label date_day month_circle
           debit_amount group_usage
    /\ In pre_post pre_post_values
    /\ In success [0; 1]
    /\ In rec_type rec_type_values
    /\ In event_label event_label_values
    /\ (8 <= String.length date_day)%nat
    /\ In group_usage [0; 1].
Proof.
  unfold cbl_el.compute_el_fields. intros H.
  do 13 inv_bind H.
  destruct (cbl_el.parse_generation_timestamp _) as [[y m] d] eqn:Hp.
  cbv zeta in H. inv_binds H. injection H as <-.
  apply parse_generation_timestamp_lengths in Hp as (Hly & Hlm & Hld).
  eexists _, _, _, _, _, _, _, _. split; [reflexivity|].
  split; [apply pre_post_of_values|].
  split; [destruct (existsb _ _); [right; now left|now left]|].
  split; [apply (rec_type_in (upper (strip x9)))|].
  split.
  { match goal with
    | Hl : (if String.eqb ?a "ECOMMERCE" then _ else _) = Ok ?l |- In ?l _ =>
        destruct (String.eqb a "ECOMMERCE"); inv_binds Hl; injection Hl as <-
    end.
    - unfold event_label_values. in_values.
    - unfold event_label_values. in_values. }
  split; [|apply group_flag].
  destruct (String.eqb y "0000"); [cbn; lia|].
  rewrite !append_length. lia.
Qed.

(** X24.  The record [compute_el_fields] returns has the same ten fields in
    the same order: EL_PRE_POST is PREPAID, POSTPAID or UNKNOWN; EL_SUCCESS is
    0 or 1; EL_CUST_CARE is 1; EL_BILLING is 1 exactly when EL_PRE_POST is
    POSTPAID and EL_SUCCESS is 1, and 0 otherwise; EL_REC_TYPE is one of seven
    names; EL_EVENT_LABEL_VAL is 0 or one of the thirteen known labels;
    EL_DATE_DAY has eight characters or more; EL_DEBIT_AMOUNT is a float;
    EL_GROUP_USAGE is 0 or 1. *)
Theorem el_fields_shape (generic_record : value) (cfg el : dict) :
  cbl_el.compute_el_fields generic_record cfg = Ok el ->
  exists pre_post success rec_type event_label date_day month_circle debit_amount
         group_usage,
    el = el_record pre_post success rec_type event_label date_day month_circle
           debit_amount group_usage
    /\ In pre_post pre_post_values
    /\ In success [0; 1]
    /\ In rec_type rec_type_values
    /\ In event_label event_label_values
    /\ (8 <= String.length date_day)%nat
    /\ In group_usage [0; 1].
Proof. apply compute_el_fields_inv. Qed.

Lemma el_fields_shape_witness :
  exists pre_post success rec_type event_label date_day month_circle debit_amount
         group_usage,
    output_of (cbl_el.compute_el_fields postpaid_record [])
    = el_record pre_post success rec_type event_label date_day month_circle
        debit_amount group_usage
    /\ In pre_post pre_post_values
    /\ In success [0; 1]
    /\ In rec_type rec_type_values
    /\ In event_label event_label_values
    /\ (8 <= String.length date_day)%nat
    /\ In group_usage [0; 1].
Proof.
  apply (el_fields_shape postpaid_record []). vm_compute. reflexivity.
Defined.

Lemma is_one_flag (success : Z) :
  In success [0; 1] -> is_one (VInt success) = (success =? 1).
Proof. intros [<-|[<-|[]]]; vm_compute; reflexivity. Qed.

(** X25.  A record enriched by [compute_el_fields] and routed by
    [route_using_config] under the default rules and directories is never
    refused: the files for CRM, RA and DWH are always written, the one for
    BILLING exactly when EL_BILLING is 1, the one for LMS exactly when
    EL_SUCCESS is 1, EL_DEBIT_AMOUNT is above 0 and the record type is not
    ECOMMERCE; the DWH file goes under [group_usage] or [single_usage] and
    one of the seven record types, never under OTHER. *)
Theorem enriched_record_routing (generic_record original_obj : value) (cfg el : dict)
  (input_filename : string) :
  cbl_el.compute_el_fields generic_record cfg = Ok el ->
  default_routes cfg ->
  cbl.route_using_config original_obj el cfg input_filename
  = ([routed original_obj el input_filename "CRM" ["out/crm"%string]]
     ++ (if py_eq (voice.dget el "EL_BILLING") (VInt 1)
         then [routed original_obj el input_filename "BILLING" ["out/billing"%string]]
         else [])
     ++ (if (lms_conditions el && negb (is_ecommerce el))%bool
         then [routed original_obj el input_filename "LMS" ["out/lms"%string]]
         else [])
     ++ [routed original_obj el input_filename "RA" ["out/ra"%string];
         routed original_obj el input_filename "DWH" (dwh_dir el)],
     None)
  /\ exists usage rec_type,
      dwh_dir el = ["out/DWH"%string; usage; rec_type]
      /\ In usage ["group_usage"; "single_usage"]%string
      /\ In rec_type rec_type_values.
Proof.
  intros Hel Hcfg.
  destruct (compute_el_fields_inv _ _ _ Hel)
    as (pre_post & success & rec_type & event_label & date_day & month_circle
        & debit_amount & group_usage & -> & Hpp & Hs & Hrt & _ & _ & Hg).
  assert (Hrec : rec_type_or_empty
                   (el_record pre_post success rec_type event_label date_day
                      month_circle debit_amount group_usage) = VStr rec_type).
  { unfold rec_type_values in Hrt. cbn [In] in Hrt.
    repeat (destruct Hrt as [<-|Hrt]; [reflexivity|]). destruct Hrt. }
  split.
  - rewrite default_routing_eq; [|exact Hcfg|now exists rec_type].
    assert (Hb : billing_due (el_record pre_post success rec_type event_label date_day
                                month_circle debit_amount group_usage)
                 = py_eq (voice.dget (el_record pre_post success rec_type event_label
                                        date_day month_circle debit_amount group_usage)
                            "EL_BILLING") (VInt 1)).
    { unfold billing_due. cbn [el_record dict_get voice.dget String.eqb Ascii.eqb Bool.eqb py_str].
      rewrite (is_one_flag _ Hs).
      destruct (String.eqb pre_post "POSTPAID"); destruct (success =? 1); reflexivity. }
    now rewrite Hb.
  - exists (if group_usage =? 1 then "group_usage"%string else "single_usage"%string),
      rec_type.
    split; [|split; [destruct (group_usage =? 1); [now left|right; now left]|exact Hrt]].
    unfold dwh_dir. cbn [el_record dict_get voice.dget String.eqb Ascii.eqb Bool.eqb].
    replace (py_eq (VInt group_usage) (VInt 1)) with (group_usage =? 1)
      by (destruct Hg as [<-|[<-|[]]]; reflexivity).
    replace (py_str (py_or (VStr rec_type) (VStr "OTHER"))) with rec_type; [reflexivity|].
    unfold rec_type_values in Hrt. cbn [In] in Hrt.
    repeat (destruct Hrt as [<-|Hrt]; [reflexivity|]). destruct Hrt.
Qed.

Lemma enriched_record_routing_witness :
  map cbl.w_rule
    (fst (cbl.route_using_config postpaid_record
            (output_of (cbl_el.compute_el_fields postpaid_record [])) [] "a.json"))
  = ["CRM"; "BILLING"; "LMS"; "RA"; "DWH"]%string.
Proof.
  rewrite (proj1 (enriched_record_routing postpaid_record postpaid_record []
                    (output_of (cbl_el.compute_el_fields postpaid_record []))
                    "a.json" eq_refl (conj eq_refl eq_refl))).
  reflexivity.
Defined.

(** *** The router's wrapper and [map_voice] *)

Lemma prelude_map_voice (a b : value) (imei : bool) :
  voice.prelude a = voice.prelude b -> voice.map_voice a imei = voice.map_voice b imei.
Proof.
  intros H. unfold voice.map_voice, voice.map_voice_out. now rewrite H.
Qed.

(** X26.  [map_voice] reads a file written by the router through its
    wrapper: for a routed object [{"original": data, "CBL_TAG": el}] whose
    [payload.genericRecord] is a non-empty dict without a key [original],
    the mapped record is the one of that generic record with [CBL_TAG] set
    to [el]; nothing else of [data] is read. *)
Theorem routed_wrapper_mapping (data : value) (el gd : dict) (imei : bool) :
  safe_get data [PKey "payload"; PKey "genericRecord"]%string (VDict []) = VDict gd ->
  gd <> [] ->
  dict_get "original" gd = None ->
  voice.map_voice (VDict [("original"%string, data); ("CBL_TAG"%string, VDict el)]) imei
  = voice.map_voice (VDict (dict_set "CBL_TAG" (VDict el) gd)) imei.
Proof.
  intros Hg Hne Horig. apply prelude_map_voice. unfold voice.prelude.
  assert (Hw : safe_get (VDict [("original"%string, data); ("CBL_TAG"%string, VDict el)])
                 [PKey "original"; PKey "payload"; PKey "genericRecord"]%string (VDict [])
               = VDict gd).
  { cbn [safe_get dict_get String.eqb Ascii.eqb Bool.eqb].
    destruct data; try discriminate Hg; exact Hg. }
  assert (Hb : safe_get (VDict (dict_set "CBL_TAG" (VDict el) gd))
                 [PKey "original"; PKey "payload"; PKey "genericRecord"]%string (VDict [])
               = VDict []).
  { cbn [safe_get]. rewrite dict_get_set_other by reflexivity. now rewrite Horig. }
  rewrite Hw, Hb.
  assert (Ht : truthy (VDict gd) = true) by (destruct gd; [contradiction|reflexivity]).
  assert (Hpo : forall w, py_or (VDict gd) w = VDict gd)
    by (intros w; unfold py_or; now rewrite Ht).
  rewrite !Hpo.
  change (py_or (VDict []) (VDict (dict_set "CBL_TAG" (VDict el) gd)))
    with (VDict (dict_set "CBL_TAG" (VDict el) gd)).
  assert (Hsg : forall k default,
             String.eqb k "CBL_TAG" = false ->
             sg_or (VDict (dict_set "CBL_TAG" (VDict el) gd)) k default
             = sg_or (VDict gd) k default).
  { intros k default Hk. unfold sg_or. cbn [safe_get].
    now rewrite dict_get_set_other. }
  unfold voice.elements.
  rewrite (Hsg "recordElements"%string (VDict []) eq_refl).
  rewrite (Hsg "recordExtensions"%string (VList []) eq_refl).
  cbn [py_get dict_get String.eqb Ascii.eqb Bool.eqb].
  now rewrite dict_get_set_same.
Qed.

Lemma routed_wrapper_mapping_witness :
  voice.map_voice
    (VDict [("original"%string,
              VDict [("payload"%string, VDict [("genericRecord"%string, account_100_70)])]);
            ("CBL_TAG"%string, VDict [("EL_TAX1"%string, VStr "1.5")])]) true
  = voice.map_voice
      (VDict (dict_set "CBL_TAG" (VDict [("EL_TAX1"%string, VStr "1.5")])
                (output_of (voice.as_dict account_100_70)))) true.
Proof.
  apply routed_wrapper_mapping; [reflexivity|discriminate|reflexivity].
Defined.

(** *** [data_usage_billing_mapper.py] *)

Lemma filter_rp_in (name : string) (l r : list value) :
  billing.filter_rp name l = Ok r ->
  forall s, In s r <-> In s l /\ billing.has_rp s name = Ok true.
Proof.
  revert r. induction l as [|x t IH]; intros r H; cbn [billing.filter_rp] in H.
  - injection H as <-. intros s. split; [intros []|intros [[] _]].
  - destruct (billing.has_rp x name) as [hit|] eqn:Hx; [|discriminate H].
    unfold bind at 1 in H.
    destruct (billing.filter_rp name t) as [r'|]; [|discriminate H].
    unfold bind in H. injection H as <-.
    intros s. specialize (IH r' eq_refl s).
    destruct hit; cbn [In]; rewrite IH; split.
    + intros [<-|[Hin Hs]]; [now split; [left|]|now split; [right|]].
    + intros [[<-|Hin] Hs]; [now left|now right].
    + intros [Hin Hs]. now split; [right|].
    + intros [[<-|Hin] Hs]; [congruence|now split].
Qed.

Lemma subscriptions_of_device_in (acc r : list value) (dev : value) :
  billing.subscriptions_of_device acc dev = Ok r ->
  forall s, In s r <->
            In s acc \/ (billing.has_rp dev "deviceInfo" = Ok true
                         /\ child_with dev "subscriptionInfo" s).
Proof.
  unfold billing.subscriptions_of_device. intros H s.
  destruct (billing.has_rp dev "deviceInfo") as [[|]|] eqn:Hd; try discriminate H;
    unfold bind at 1 in H.
  - destruct (billing.sub_exts dev) as [sinfos|] eqn:Hs; [|discriminate H].
    unfold bind at 1 in H.
    destruct (billing.filter_rp "subscriptionInfo" sinfos) as [hits|] eqn:Hf;
      [|discriminate H].
    unfold bind in H. injection H as <-.
    rewrite in_app_iff, (filter_rp_in _ _ _ Hf s). unfold child_with. split.
    + intros [Hin|[Hin Hrp]]; [now left|right]. split; [reflexivity|].
      now exists sinfos.
    + intros [Hin|[_ (l & Hl & Hin & Hrp)]]; [now left|right].
      rewrite Hs in Hl. injection Hl as <-. now split.
  - injection H as <-. split; [now left|].
    intros [Hin|[Habs _]]; [exact Hin|discriminate Habs].
Qed.

Lemma fold_devices_in (devs : list value) (acc r : list value) :
  voice.foldM billing.subscriptions_of_device devs acc = Ok r ->
  forall s, In s r <->
            In s acc \/ exists dev, In dev devs
                                    /\ billing.has_rp dev "deviceInfo" = Ok true
                                    /\ child_with dev "subscriptionInfo" s.
Proof.
  revert acc r. induction devs as [|dev t IH]; intros acc r H s; cbn [voice.foldM] in H.
  - injection H as <-. split; [now left|]. intros [Hin|(dev & [] & _)]. exact Hin.
  - destruct (billing.subscriptions_of_device acc dev) as [acc'|] eqn:Hd;
      [|discriminate H].
    unfold bind in H. rewrite (IH _ _ H s), (subscriptions_of_device_in _ _ _ Hd s).
    split.
    + intros [[Hin|[Hrp Hc]]|(d & Hin & Hrp & Hc)].
      * now left.
      * right. exists dev. now split; [left|].
      * right. exists d. now split; [right|].
    + intros [Hin|(d & [<-|Hin] & Hrp & Hc)].
      * now left; left.
      * now left; right.
      * right. now exists d.
Qed.

Lemma subscriptions_of_mscc_in (acc r : list value) (sub : value) :
  billing.subscriptions_of_mscc acc sub = Ok r ->
  forall s, In s r <->
            In s acc \/ (billing.has_rp sub "mscc" = Ok true
                         /\ exists dev, child_with sub "deviceInfo" dev
                                        /\ child_with dev "subscriptionInfo" s).
Proof.
  unfold billing.subscriptions_of_mscc. intros H s.
  destruct (billing.has_rp sub "mscc") as [[|]|] eqn:Hm; try discriminate H;
    unfold bind at 1 in H.
  - destruct (billing.sub_exts sub) as [devs|] eqn:Hs; [|discriminate H].
    unfold bind in H. rewrite (fold_devices_in _ _ _ H s). unfold child_with at 1.
    split.
    + intros [Hin|(dev & Hin & Hrp & Hc)]; [now left|right].
      split; [reflexivity|]. exists dev. split; [now exists devs|exact Hc].
    + intros [Hin|[_ (dev & (l & Hl & Hin & Hrp) & Hc)]]; [now left|right].
      rewrite Hs in Hl. injection Hl as <-. now exists dev.
  - injection H as <-. split; [now left|].
    intros [Hin|[Habs _]]; [exact Hin|discriminate Habs].
Qed.

Lemma fold_msccs_in (subs : list value) (acc r : list value) :
  voice.foldM billing.subscriptions_of_mscc subs acc = Ok r ->
  forall s, In s r <->
            In s acc \/ exists m dev, In m subs
                                      /\ billing.has_rp m "mscc" = Ok true
                                      /\ child_with m "deviceInfo" dev
                                      /\ child_with dev "subscriptionInfo" s.
Proof.
  revert acc r. induction subs as [|m t IH]; intros acc r H s; cbn [voice.foldM] in H.
  - injection H as <-. split; [now left|]. intros [Hin|(m & dev & [] & _)]. exact Hin.
  - destruct (billing.subscriptions_of_mscc acc m) as [acc'|] eqn:Hd;
      [|discriminate H].
    unfold bind in H. rewrite (IH _ _ H s), (subscriptions_of_mscc_in _ _ _ Hd s).
    split.
    + intros [[Hin|[Hrp (dev & Hc1 & Hc2)]]|(m' & dev & Hin & Hrp & Hc1 & Hc2)].
      * now left.
      * right. exists m, dev. now split; [left|].
      * right. exists m', dev. now split; [right|].
    + intros [Hin|(m' & dev & [<-|Hin] & Hrp & Hc1 & Hc2)].
      * now left; left.
      * left; right. split; [exact Hrp|]. now exists dev.
      * right. now exists m', dev.
Qed.

(** X27.  [collect_subscription_blocks] returns nothing for a block that is
    None or empty; otherwise, when it returns, the blocks it returns are
    exactly the [subscriptionInfo] children of the [deviceInfo] children of
    the [mscc] children of the block: none is left out and nothing else gets
    in. *)
Theorem subscription_blocks_exact (mscc_block : value) (subs : list value) :
  billing.collect_subscription_blocks mscc_block = Ok subs ->
  (truthy mscc_block = false -> subs = [])
  /\ (truthy mscc_block = true ->
      forall s, In s subs <->
                exists m dev, child_with mscc_block "mscc" m
                              /\ child_with m "deviceInfo" dev
                              /\ child_with dev "subscriptionInfo" s).
Proof.
  unfold billing.collect_subscription_blocks. intros H. split; intros Ht.
  - rewrite Ht in H. now injection H as <-.
  - rewrite Ht in H. cbn [negb] in H. intros s.
    destruct (billing.sub_exts mscc_block) as [l|] eqn:Hl; [|discriminate H].
    unfold bind in H. rewrite (fold_msccs_in _ _ _ H s). unfold child_with at 1.
    split.
    + intros [[]|(m & dev & Hin & Hrp & Hc1 & Hc2)].
      exists m, dev. split; [now exists l|now split].
    + intros (m & dev & (l' & Hl' & Hin & Hrp) & Hc1 & Hc2). right.
      rewrite Hl in Hl'. injection Hl' as <-. now exists m, dev.
Qed.

Lemma subscription_blocks_exact_witness :
  let gold := node "subscriptionInfo" [("bundleName"%string, VStr "gold")] [] in
  let block := node "listOfMscc" [] [node "mscc" [] [node "deviceInfo" [] [gold]]] in
  (truthy block = false -> [gold] = [])
  /\ (truthy block = true ->
      forall s, In s [gold] <->
                exists m dev, child_with block "mscc" m
                              /\ child_with m "deviceInfo" dev
                              /\ child_with dev "subscriptionInfo" s).
Proof.
  apply subscription_blocks_exact. reflexivity.
Defined.

Lemma cost_fields_keys (a : billing.amounts) (costs : list (string * value)) :
  billing.cost_fields a = Ok costs ->
  exists tax gross cost,
    costs = [("EL_TAX_AMOUNT", tax); ("EL_GROSS_CALL_COST", gross);
             ("EL_CALL_COST", cost)]%string.
Proof.
  unfold billing.cost_fields. destruct a as [tax_amount gross_amount]. intros H.
  inv_bind H. injection H as <-. eauto.
Qed.

Lemma keys_fresh (l : list (string * value)) (d : dict) :
  forallb (fun k => negb (existsb (String.eqb k) (map fst d))) (map fst l) = true ->
  forall k, In k (map fst l) -> existsb (String.eqb k) (map fst d) = false.
Proof.
  intros H k Hk. apply (proj1 (forallb_forall _ _) H) in Hk.
  now apply negb_true_iff in Hk.
Qed.

(** X28.  Every record [map_billing] returns has the same 29 columns in the
    same order, and four of them repeat another: EL_EVENT_LABEL_2 the event
    label, EL_GENERATION_TIMESTAMP the processed timestamp,
    EL_POSTPAIDBUCKETID the plan id and EL_ROUNDED_CALL_DURATION the call
    duration. *)
Theorem billing_record_columns (datetime_part : value -> string) (cdr_json : value)
  (out : dict) :
  billing.map_billing datetime_part cdr_json = Ok out ->
  dict_keys out = billing_fields
  /\ dict_get "EL_EVENT_LABEL_2" out = dict_get "EL_EVENT_LABEL" out
  /\ dict_get "EL_GENERATION_TIMESTAMP" out = dict_get "EL_PROCESSED_TIMESTAMP" out
  /\ dict_get "EL_POSTPAIDBUCKETID" out = dict_get "EL_PLAN_ID" out
  /\ dict_get "EL_ROUNDED_CALL_DURATION" out = dict_get "EL_CALL_DURATION" out.
Proof.
  unfold billing.map_billing. cbv zeta. intros H.
  inv_binds H. injection H as <-.
  match goal with
  | Hc : billing.cost_fields _ = Ok _ |- _ =>
      destruct (cost_fields_keys _ _ Hc) as (tax & gross & cost & ->)
  end.
  cbn [app].
  match goal with
  | |- context [dict_update ?d ?l] =>
      assert (E : dict_update d l = d ++ l)
  end.
  { apply dict_update_fresh; [reflexivity|apply keys_fresh; reflexivity]. }
  rewrite E.
  cbn [app]. split; [reflexivity|].
  split; [reflexivity|]. split; [reflexivity|]. split; [reflexivity|].
  cbn [dict_get String.eqb Ascii.eqb Bool.eqb].
  set (elems := py_or (safe_get _ [PKey "recordElements"] VNone) (VDict [])) in *.
  match goal with
  | Hd : voice.as_dict elems = Ok ?d, Hg : py_get elems "duration" = Ok ?x |- _ =>
      destruct elems; try discriminate Hd;
      cbn in Hd; injection Hd as <-; cbn in Hg; injection Hg as <-
  end.
  reflexivity.
Qed.

Lemma billing_record_columns_witness :
  dict_keys (output_of (billing.map_billing (fun _ => ""%string) (billing_record "gold")))
  = billing_fields.
Proof.
  apply (billing_record_columns (fun _ => ""%string) (billing_record "gold")).
  vm_compute. reflexivity.
Defined.

(** The loops without their [break]s only add to what they were given. *)
Lemma applied_step_extends (a a' : list string) (csub : value) :
  billing.applied_step a csub = Ok a' ->
  exists d, a' = a ++ d /\ (List.length d <= 1)%nat
            /\ forall b, billing.applied_step b csub = Ok (b ++ d).
Proof.
  unfold billing.applied_step. intros H.
  destruct (billing.has_rp csub "bucketInfo") as [[|]|]; try discriminate H;
    cbn [bind] in *.
  - destruct (billing.elements csub) as [b|]; [|discriminate H]. cbn [bind] in *.
    destruct (py_get b "bucketName") as [bn|]; [|discriminate H]. cbn [bind] in *.
    injection H as <-. destruct (truthy bn).
    + exists [py_str bn]. repeat split. simpl. lia.
    + exists []. rewrite app_nil_r. repeat split; [simpl; lia|].
      intros b0. now rewrite app_nil_r.
  - injection H as <-. exists []. rewrite app_nil_r. repeat split; [simpl; lia|].
    intros b0. now rewrite app_nil_r.
Qed.

Lemma firstn_5_short (a : list string) : capped a = false -> firstn 5 a = a.
Proof.
  unfold capped. intros H. apply Nat.leb_gt in H. apply firstn_all2. lia.
Qed.

Lemma firstn_5_prefix (a rest : list string) :
  List.length a = 5%nat -> firstn 5 (a ++ rest) = a.
Proof.
  intros H. rewrite firstn_app, H, Nat.sub_diag, firstn_O, app_nil_r.
  apply firstn_all2. lia.
Qed.

Lemma over_csubs_uncapped (csubs : list value) (a all : list string) :
  billing.over_csubs billing.applied_step (fun _ => false) csubs a = Ok all ->
  exists rest, all = a ++ rest.
Proof.
  revert a. induction csubs as [|c t IH]; intros a H; cbn [billing.over_csubs] in H.
  - injection H as <-. exists []. now rewrite app_nil_r.
  - destruct (billing.applied_step a c) as [a'|] eqn:Hs; [|discriminate H].
    cbn [bind] in H. destruct (applied_step_extends _ _ _ Hs) as (d & -> & _).
    destruct (IH _ H) as (rest & ->). exists (d ++ rest). now rewrite app_assoc.
Qed.

Lemma over_csubs_capped (csubs : list value) (a all : list string) :
  billing.over_csubs billing.applied_step (fun _ => false) csubs a = Ok all ->
  capped a = false ->
  billing.over_csubs billing.applied_step capped csubs a = Ok (firstn 5 all).
Proof.
  revert a. induction csubs as [|c t IH]; intros a H Ha;
    cbn [billing.over_csubs] in *.
  - injection H as <-. now rewrite firstn_5_short.
  - destruct (billing.applied_step a c) as [a'|] eqn:Hs; [|discriminate H].
    cbn [bind] in *. destruct (capped a') eqn:Hc.
    + destruct (over_csubs_uncapped _ _ _ H) as (rest & ->).
      rewrite firstn_5_prefix; [reflexivity|].
      destruct (applied_step_extends _ _ _ Hs) as (d & -> & Hd & _).
      unfold capped in *. apply Nat.leb_le in Hc. apply Nat.leb_gt in Ha.
      rewrite length_app in *. lia.
    + now apply IH.
Qed.

Lemma over_charges_uncapped (charges : list value) (a all : list string) :
  billing.over_charges billing.applied_step (fun _ => false) charges a = Ok all ->
  exists rest, all = a ++ rest.
Proof.
  revert a. induction charges as [|c t IH]; intros a H; cbn [billing.over_charges] in H.
  - injection H as <-. exists []. now rewrite app_nil_r.
  - destruct (billing.has_rp c "chargingServiceInfo") as [[|]|]; try discriminate H;
      cbn [bind negb] in H.
    + destruct (billing.sub_exts c) as [csubs|]; [|discriminate H]. cbn [bind] in H.
      destruct (billing.over_csubs _ _ csubs a) as [a'|] eqn:Hs; [|discriminate H].
      cbn [bind] in H. destruct (over_csubs_uncapped _ _ _ Hs) as (d & ->).
      destruct (IH _ H) as (rest & ->). exists (d ++ rest). now rewrite app_assoc.
    + now apply IH.
Qed.

Lemma over_charges_capped (charges : list value) (a all : list string) :
  billing.over_charges billing.applied_step (fun _ => false) charges a = Ok all ->
  capped a = false ->
  billing.over_charges billing.applied_step capped charges a = Ok (firstn 5 all).
Proof.
  revert a. induction charges as [|c t IH]; intros a H Ha;
    cbn [billing.over_charges] in *.
  - injection H as <-. now rewrite firstn_5_short.
  - destruct (billing.has_rp c "chargingServiceInfo") as [[|]|]; try discriminate H;
      cbn [bind negb] in *.
    + destruct (billing.sub_exts c) as [csubs|]; [|discriminate H]. cbn [bind] in *.
      destruct (billing.over_csubs _ (fun _ => false) csubs a) as [a'|] eqn:Hs;
        [|discriminate H].
      cbn [bind] in H. rewrite (over_csubs_capped _ _ _ Hs Ha). cbn [bind].
      destruct (over_charges_uncapped _ _ _ H) as (rest & ->).
      destruct (capped a') eqn:Hc.
      * assert (Hf : capped (firstn 5 a') = true).
        { unfold capped in *. apply Nat.leb_le in Hc. apply Nat.leb_le.
          rewrite length_firstn. lia. }
        rewrite Hf. f_equal. rewrite firstn_app.
        unfold capped in Hc. apply Nat.leb_le in Hc.
        replace (5 - List.length a')%nat with 0%nat by lia.
        now rewrite firstn_O, app_nil_r.
      * rewrite (firstn_5_short _ Hc), Hc. now apply IH.
    + now apply IH.
Qed.

Lemma over_subs_uncapped (subs : list value) (a all : list string) :
  billing.over_subs billing.applied_step (fun _ => false) subs a = Ok all ->
  exists rest, all = a ++ rest.
Proof.
  revert a. induction subs as [|s t IH]; intros a H; cbn [billing.over_subs] in H.
  - injection H as <-. exists []. now rewrite app_nil_r.
  - destruct (billing.sub_exts s) as [charges|]; [|discriminate H]. cbn [bind] in H.
    destruct (billing.over_charges _ _ charges a) as [a'|] eqn:Hs; [|discriminate H].
    cbn [bind] in H. destruct (over_charges_uncapped _ _ _ Hs) as (d & ->).
    destruct (IH _ H) as (rest & ->). exists (d ++ rest). now rewrite app_assoc.
Qed.

Lemma over_subs_capped (subs : list value) (a all : list string) :
  billing.over_subs billing.applied_step (fun _ => false) subs a = Ok all ->
  capped a = false ->
  billing.over_subs billing.applied_step capped subs a = Ok (firstn 5 all).
Proof.
  revert a. induction subs as [|s t IH]; intros a H Ha; cbn [billing.over_subs] in *.
  - injection H as <-. now rewrite firstn_5_short.
  - destruct (billing.sub_exts s) as [charges|]; [|discriminate H]. cbn [bind] in *.
    destruct (billing.over_charges _ (fun _ => false) charges a) as [a'|] eqn:Hs;
      [|discriminate H].
    cbn [bind] in H. rewrite (over_charges_capped _ _ _ Hs Ha). cbn [bind].
    destruct (over_subs_uncapped _ _ _ H) as (rest & ->).
    destruct (capped a') eqn:Hc.
    + assert (Hf : capped (firstn 5 a') = true).
      { unfold capped in *. apply Nat.leb_le in Hc. apply Nat.leb_le.
        rewrite length_firstn. lia. }
      rewrite Hf. f_equal. rewrite firstn_app.
      unfold capped in Hc. apply Nat.leb_le in Hc.
      replace (5 - List.length a')%nat with 0%nat by lia.
      now rewrite firstn_O, app_nil_r.
    + rewrite (firstn_5_short _ Hc), Hc. now apply IH.
Qed.

(** X29.  The [break]s of the EL_APPLIED_DISCOUNT_ID loops keep the first five
    bucket names: when the same loops without the [break]s collect [names],
    the loops of [map_billing] collect the first five of them, in the same
    order. *)
Theorem applied_discounts_first_five (subs : list value) (names : list string) :
  billing.over_subs billing.applied_step (fun _ => false) subs [] = Ok names ->
  billing.over_subs billing.applied_step (fun a => (5 <=? List.length a)%nat) subs []
  = Ok (firstn 5 names).
Proof.
  intros H. now apply (over_subs_capped subs [] names H).
Qed.

Lemma applied_discounts_first_five_witness :
  billing.over_subs billing.applied_step (fun a => (5 <=? List.length a)%nat)
    [subscription (map bucket_block ["a"; "b"; "c"; "d"; "e"; "f"; "g"]%string)] []
  = Ok (firstn 5 ["a"; "b"; "c"; "d"; "e"; "f"; "g"]%string).
Proof.
  apply applied_discounts_first_five. reflexivity.
Defined.

(** *** [fmt_decimal] *)

Lemma str_drop_forall (p : ascii -> bool) (n : nat) (s : string) :
  str_forall p s = true -> str_forall p (str_drop n s) = true.
Proof.
  revert s. induction n as [|n IH]; intros s H; [now destruct s|].
  destruct s as [|c t]; [reflexivity|]. cbn [str_drop]. cbn [str_forall] in H.
  apply andb_true_iff in H as [_ Ht]. now apply IH.
Qed.

Lemma str_take_nonempty (n : nat) (s : string) :
  (0 < n)%nat -> s <> ""%string -> nonempty (str_take n s) = true.
Proof. destruct n; [lia|]. destruct s; [congruence|reflexivity]. Qed.

(** The text of a decimal with exponent -5. *)
Lemma format_five (n : bool) (c : N) :
  exists intpart frac,
    dec_format_f (DFin n c (-5)) = (sign_str n ++ intpart ++ "." ++ frac)%string
    /\ intpart <> ""%string
    /\ str_forall is_digit intpart = true
    /\ String.length frac = 5%nat
    /\ str_forall is_digit frac = true.
Proof.
  destruct (N_to_string_spec c) as (Hne & Hdig & _).
  unfold dec_format_f.
  replace ((c =? 0)%N && (0 <? -5))%bool with false by (now rewrite andb_false_r).
  cbv zeta.
  set (ds := N_to_string c) in *.
  assert (Hlen : (1 <= String.length ds)%nat).
  { destruct ds; [congruence|cbn; lia]. }
  destruct (Z.ltb_spec (-5 + Z.of_nat (String.length ds)) 0) as [Hlt|Hge].
  - exists "0"%string, (zeros (- (-5 + Z.of_nat (String.length ds))) ++ ds)%string.
    assert (Hf : String.length (zeros (- (-5 + Z.of_nat (String.length ds))) ++ ds) = 5%nat).
    { unfold zeros. rewrite append_length, repeat_char_length. lia. }
    assert (Hn : nonempty (zeros (- (-5 + Z.of_nat (String.length ds))) ++ ds) = true).
    { destruct (zeros _ ++ ds)%string; [discriminate Hf|reflexivity]. }
    rewrite Hn. split; [reflexivity|]. split; [discriminate|]. split; [reflexivity|].
    split; [exact Hf|].
    rewrite str_forall_app, Hdig. unfold zeros.
    now rewrite repeat_char_forall.
  - replace (Z.of_nat (String.length ds) <? -5 + Z.of_nat (String.length ds))
      with false by (symmetry; apply Z.ltb_ge; lia).
    set (k := Z.to_nat (-5 + Z.of_nat (String.length ds))).
    assert (Hk : k = (String.length ds - 5)%nat) by (unfold k; lia).
    assert (Hf : String.length (str_drop k ds) = 5%nat).
    { rewrite str_drop_length. lia. }
    assert (Hn : nonempty (str_drop k ds) = true).
    { destruct (str_drop k ds); [discriminate Hf|reflexivity]. }
    rewrite Hn.
    exists (if nonempty (str_take k ds) then str_take k ds else "0"%string),
      (str_drop k ds).
    split; [reflexivity|]. split.
    { destruct (str_take k ds); cbn; discriminate. }
    split.
    { destruct (nonempty (str_take k ds)); [now apply str_take_forall|reflexivity]. }
    split; [exact Hf|now apply str_drop_forall].
Qed.

Lemma dec_fix_five (n : bool) (c : N) :
  (ndigits c >? dec_prec) = false -> dec_fix n c (-5) = Ok (DFin n c (-5)).
Proof.
  intros H. unfold dec_fix. destruct (c =? 0)%N eqn:Hc.
  - apply N.eqb_eq in Hc. now subst c.
  - rewrite Z.gtb_ltb in H. apply Z.ltb_ge in H. unfold dec_prec in *.
    replace (ndigits c + -5 - 28 >? dec_Etop) with false
      by (symmetry; rewrite Z.gtb_ltb; apply Z.ltb_ge;
          unfold dec_Etop, dec_Emax, dec_prec; lia).
    replace (-5 <? Z.max (ndigits c + -5 - 28) dec_Etiny) with false
      by (symmetry; apply Z.ltb_ge; unfold dec_Etiny, dec_Emin, dec_prec; lia).
    reflexivity.
Qed.

Lemma dec_quantize5_exponent (n : bool) (c : N) (e : Z) (q : dec) :
  dec_quantize5 (DFin n c e) = Ok q -> exists c', q = DFin n c' (-5).
Proof.
  unfold dec_quantize5. cbn [dec_check_nans bind].
  destruct (c =? 0)%N.
  - intros H. exists 0%N. rewrite dec_fix_five in H by reflexivity. now injection H as <-.
  - destruct (e + ndigits c - 1 >? dec_Emax); [discriminate|].
    destruct (e + ndigits c - 1 + 5 + 1 >? dec_prec); [discriminate|].
    set (c' := if -5 <=? e then (c * pow10 (e + 5))%N else rescale_coef c e (-5)).
    destruct (ndigits c' >? dec_prec) eqn:Hd; [discriminate|].
    intros H. exists c'. rewrite (dec_fix_five n c' Hd) in H. now injection H as <-.
Qed.

(** X30.  When [quantize] succeeds on a finite amount, [fmt_decimal] writes
    it with its sign, one digit or more, a point and exactly five digits. *)
Theorem fmt_decimal_five_places (n : bool) (c : N) (e : Z) (q : dec) :
  dec_quantize5 (DFin n c e) = Ok q ->
  exists intpart frac,
    billing.fmt_decimal (Some (DFin n c e))
    = (sign_str n ++ intpart ++ "." ++ frac)%string
    /\ intpart <> ""%string
    /\ str_forall is_digit intpart = true
    /\ String.length frac = 5%nat
    /\ str_forall is_digit frac = true.
Proof.
  intros H. unfold billing.fmt_decimal. rewrite H.
  destruct (dec_quantize5_exponent _ _ _ _ H) as (c' & ->).
  apply format_five.
Qed.

Lemma fmt_decimal_five_places_witness :
  exists intpart frac,
    billing.fmt_decimal (Some (DFin false 601234567 (-7)))
    = (sign_str false ++ intpart ++ "." ++ frac)%string
    /\ intpart <> ""%string
    /\ str_forall is_digit intpart = true
    /\ String.length frac = 5%nat
    /\ str_forall is_digit frac = true.
Proof.
  apply (fmt_decimal_five_places false 601234567 (-7) (DFin false 6012346 (-5))).
  vm_compute. reflexivity.
Defined.
